(** * A rule-based chatbot: intent scoring, classification, actions, templates

    Shallow embedding of the two chatbot variants of the repository,

      - [Demo1]  src/Chatbot/Demo1/bot.py      (built-in intent catalog),
      - [Demo2]  src/Chatbot/Demo2/chatbot.py  (catalog read from a JSON file),

    and statements about their intent scorer, classifier, action dispatcher,
    template filler, sentiment estimator and per-turn context update; then
    the chat loops, the statistics report and the configuration check.

    Conventions.
      - A Python [str] is a Rocq [string]; every [ascii] stands for the code
        point of the same number, so the model covers text in the Latin-1
        range (code points 0..255).  [str.lower], [str.isspace], [str.split],
        [str.strip], [str.replace] and the classes [\d], [\s], [\w] of [re] are
        exact on that range; [str.title] is exact wherever its result stays
        in the range ([Str.title_in_range]).
      - A Python [float] score is a rational ([Q]).  The scorer only adds 2.0,
        0.5, 1.0 and halves, so every score is a multiple of 1/4 and binary
        floating point computes it without rounding (for fewer than 2^50
        patterns and keywords); the sentiment score p/(p+n+1) is kept as the
        exact quotient that Python rounds to the nearest double.
      - An exception is a value: code that can raise returns an [outcome].
      - [re.search] is a parameter.  It is an engine ([Re.engine]) where
        re.error is the only exception it raises, and a searcher
        ([Re.searcher]) where it may raise any; [Demo2Exn] gives the methods
        of Demo2 that call it for a searcher, and they are those of [Demo2]
        when the searcher raises re.error only. *)

From Stdlib Require Import Ascii String QArith Qround Qabs Lqa.
From stdpp Require Import gmap strings list sorting.

Local Open Scope string_scope.
Local Open Scope list_scope.

(** ** Python strings *)

Module Str.

Definition code (c : ascii) : N := N_of_ascii c.

Definition in_range (lo hi : N) (c : ascii) : bool :=
  ((lo <=? code c) && (code c <=? hi))%N.

(** [str.isspace] on one character, which is also the class [\s] of [re] for
    [str] patterns: TAB..CR, FS..US, space, NEL (U+0085), NBSP (U+00A0). *)
Definition isspace (c : ascii) : bool :=
  in_range 9 13 c || in_range 28 32 c || (code c =? 133)%N || (code c =? 160)%N.

(** The class [\d] of [re]: the decimal digits (below 256, only [0-9]). *)
Definition isdigit (c : ascii) : bool := in_range 48 57 c.

Definition isupper (c : ascii) : bool :=
  in_range 65 90 c || (in_range 192 222 c && negb (code c =? 215)%N).

Definition islower (c : ascii) : bool :=
  in_range 97 122 c || (in_range 223 255 c && negb (code c =? 247)%N)
  || (code c =? 170)%N || (code c =? 181)%N || (code c =? 186)%N.

(** Characters with case ([str.title] looks at them). *)
Definition iscased (c : ascii) : bool := isupper c || islower c.

Definition lower_char (c : ascii) : ascii :=
  if isupper c then ascii_of_N (code c + 32) else c.

(** Upper case of one character, for the characters whose upper-case form is
    one character of the range: [a-z] and U+00E0..U+00FE but the division
    sign.  The other characters are left as they are. *)
Definition upper_char (c : ascii) : ascii :=
  if in_range 97 122 c || (in_range 224 254 c && negb (code c =? 247)%N)
  then ascii_of_N (code c - 32) else c.

(** Title case of one character: that of U+00DF is the two characters "Ss",
    that of any other character of the range is its upper case.  The title
    case of U+00B5 is U+039C and that of U+00FF is U+0178, which lie beyond
    the range: see [title_in_range]. *)
Definition title_char (c : ascii) : string :=
  if (code c =? 223)%N then "Ss" else String (upper_char c) EmptyString.

(** [s.lower()] *)
Fixpoint lower (s : string) : string :=
  match s with
  | EmptyString => EmptyString
  | String c s' => String (lower_char c) (lower s')
  end.

(** [s.title()]: a character is put in title case after an uncased one (or
    at the start) and in lower case after a cased one. *)
Fixpoint title_from (prev_cased : bool) (s : string) : string :=
  match s with
  | EmptyString => EmptyString
  | String c s' =>
      (if prev_cased then String (lower_char c) EmptyString else title_char c)
      +:+ title_from (iscased c) s'
  end.

Definition title (s : string) : string := title_from false s.

(** The text keeps [s.title()] within the range: neither U+00B5 nor U+00FF
    stands where a character is put in title case.  For such a text [title]
    is [s.title()]; for another, Python's result holds U+039C or U+0178, where
    [title] keeps the character it found. *)
Fixpoint title_in_range_from (prev_cased : bool) (s : string) : bool :=
  match s with
  | EmptyString => true
  | String c s' =>
      (prev_cased || negb ((code c =? 181)%N || (code c =? 255)%N))
      && title_in_range_from (iscased c) s'
  end.

Definition title_in_range (s : string) : bool := title_in_range_from false s.

(** [s.split()] with no argument: the maximal runs of non-space characters. *)
Fixpoint split (s : string) : list string :=
  match s with
  | EmptyString => []
  | String c s' =>
      if isspace c then split s'
      else match s' with
           | EmptyString => [String c EmptyString]
           | String d _ =>
               if isspace d then String c EmptyString :: split s'
               else match split s' with
                    | w :: ws => String c w :: ws
                    | [] => [String c EmptyString]
                    end
           end
  end.

Fixpoint lstrip (s : string) : string :=
  match s with
  | String c s' => if isspace c then lstrip s' else s
  | EmptyString => EmptyString
  end.

(** Drops trailing spaces: the result of the tail is empty exactly when the
    tail is all spaces. *)
Fixpoint rstrip (s : string) : string :=
  match s with
  | EmptyString => EmptyString
  | String c s' =>
      match rstrip s' with
      | EmptyString => if isspace c then EmptyString else String c EmptyString
      | r => String c r
      end
  end.

(** [s.strip()] *)
Definition strip (s : string) : string := rstrip (lstrip s).

(** [old] is a prefix of [s]: [Some rest] with [s = old +:+ rest]. *)
Fixpoint strip_prefix (old s : string) : option string :=
  match old with
  | EmptyString => Some s
  | String a old' =>
      match s with
      | String b s' => if Ascii.eqb a b then strip_prefix old' s' else None
      | EmptyString => None
      end
  end.

(** [s.replace(old, new)] for a non-empty [old]: the occurrences of [old] are
    replaced from left to right, without overlap.  [skip] counts the
    characters of an occurrence just replaced that are still to be passed. *)
Fixpoint replace_from (skip : nat) (old new s : string) : string :=
  match s with
  | EmptyString => EmptyString
  | String c s' =>
      match skip with
      | S skip' => replace_from skip' old new s'
      | O =>
          match strip_prefix old s with
          | Some _ => new +:+ replace_from (String.length old - 1) old new s'
          | None => String c (replace_from 0 old new s')
          end
      end
  end.

Definition replace (old new s : string) : string := replace_from 0 old new s.

(** The characters of [s] that [keep] accepts, in order. *)
Fixpoint filter (keep : ascii -> bool) (s : string) : string :=
  match s with
  | EmptyString => EmptyString
  | String c s' => if keep c then String c (filter keep s') else filter keep s'
  end.

Fixpoint forallb (p : ascii -> bool) (s : string) : bool :=
  match s with
  | EmptyString => true
  | String c s' => p c && forallb p s'
  end.

(** ["\n".join(l)] and friends. *)
Fixpoint join (sep : string) (l : list string) : string :=
  match l with
  | [] => EmptyString
  | [x] => x
  | x :: l' => x +:+ sep +:+ join sep l'
  end.

(** The string of the characters with the given codes. *)
Definition of_codes (l : list nat) : string :=
  string_of_list_ascii (map ascii_of_nat l).

Definition digit_char (n : nat) : ascii := ascii_of_nat (48 + n).

(** Decimal digits of a natural number, most significant first. *)
Fixpoint nat_digits (fuel n : nat) (acc : string) : string :=
  match fuel with
  | O => acc
  | S fuel' =>
      let acc' := String (digit_char (n mod 10)) acc in
      if (n <? 10)%nat then acc' else nat_digits fuel' (n / 10) acc'
  end.

(** [str(n)] for a natural number. *)
Definition of_nat (n : nat) : string := nat_digits (S n) n EmptyString.

(** [str(z)] for an integer. *)
Definition of_Z (z : Z) : string :=
  if (z <? 0)%Z then String "-" (of_nat (Z.to_nat (- z))) else of_nat (Z.to_nat z).

(** Two digits, zero padded ([%I], [%M], [%d] of [strftime]). *)
Definition two_digits (n : nat) : string :=
  String (digit_char ((n / 10) mod 10)) (String (digit_char (n mod 10)) EmptyString).

End Str.

(** ** Exceptions *)

(** The exceptions the modelled code can raise. *)
Inductive exn : Type :=
| re_error          (* re.error: the pattern does not compile *)
| AttributeError    (* an attribute of None *)
| TypeError         (* None >= 1, item assignment on a str, ... *)
| IndexError        (* no such group; random.choice of an empty list *)
| SyntaxError       (* eval of a malformed expression *)
| ZeroDivisionError
| OverflowError.    (* re.search on a repetition count of 2^32 - 1 or more *)

Inductive outcome (A : Type) : Type :=
| Ret (a : A)
| Raise (e : exn).
Arguments Ret {A} a.
Arguments Raise {A} e.

Definition obind {A B : Type} (x : outcome A) (f : A -> outcome B) : outcome B :=
  match x with
  | Ret a => f a
  | Raise e => Raise e
  end.

Notation "'do!' x := c1 'in' c2" := (obind c1 (fun x => c2))
  (at level 10, x name, c1 at level 200, c2 at level 200).

(** ** Regular expressions: the interface of [re.search] *)

Module Re.

(** A match object: [groups] holds group 0 (the whole match) and then the
    capture groups of the pattern in order, [None] for a group that took no
    part in the match; [lastindex] is the number of the capture group that
    was closed last, [None] when the match used no group. *)
Record match_obj : Type := {
  groups : list (option string);
  lastindex : option nat
}.

(** [m.group(i)]: IndexError for a group the pattern does not have. *)
Definition group (m : match_obj) (i : nat) : outcome (option string) :=
  match groups m !! i with
  | Some g => Ret g
  | None => Raise IndexError
  end.

(** The three ways [re.search(pattern, text, re.IGNORECASE)] ends when
    re.error is the only exception it raises. *)
Inductive search_result : Type :=
| Found (m : match_obj)
| NotFound                 (* returns None *)
| BadPattern.              (* raises re.error *)

(** A search engine: pattern, text, result. *)
Definition engine : Type := string -> string -> search_result.

(** [re.search] can also raise an exception that is not re.error: CPython
    raises OverflowError ("the repetition number is too large") for a
    repetition count of 2^32 - 1 or more, as in [a{4294967296}].  A
    [searcher] gives the call as an [outcome]: a match, [None], or the
    exception raised, [re_error] standing for re.error. *)
Definition searcher : Type := string -> string -> outcome (option match_obj).

(** An engine is a searcher that raises re.error only. *)
Definition lift (re : engine) : searcher :=
  fun pattern text =>
    match re pattern text with
    | Found m => Ret (Some m)
    | NotFound => Ret None
    | BadPattern => Raise re_error
    end.

(** The engine that answers as the searcher does where the searcher returns
    or raises re.error. *)
Definition restrict (search : searcher) : engine :=
  fun pattern text =>
    match search pattern text with
    | Ret (Some m) => Found m
    | Ret None => NotFound
    | Raise _ => BadPattern
    end.

(** The exception other than re.error that the search of [pattern] raises. *)
Definition crash (search : searcher) (text pattern : string) : option exn :=
  match search pattern text with
  | Raise re_error => None
  | Raise e => Some e
  | Ret _ => None
  end.

(** The first such exception along a list of patterns. *)
Fixpoint first_crash (search : searcher) (text : string) (pats : list string)
  : option exn :=
  match pats with
  | [] => None
  | pattern :: rest =>
      match crash search text pattern with
      | Some e => Some e
      | None => first_crash search text rest
      end
  end.

End Re.

(** ** A search engine for a fragment of Python's pattern language

    [PyRe.search] is used wherever a statement needs a concrete engine.  It
    implements [re.search(pattern, text, re.IGNORECASE)] by backtracking for
    patterns built from: literal characters, [.], [^], [$], [\b], [\B], the
    classes [\d \w \s] (and [\D \W \S]), escaped punctuation, bracket classes
    with ranges and negation, capture groups, alternation and the greedy
    repetitions [* + ?].  Anything else (counted repetition, lazy repetition,
    [(?...)] groups, back-references, letter escapes such as [\n]) is answered
    with [BadPattern] although Python may accept it; the repetition of a body
    that can match the empty string is not covered either.  All patterns of
    the catalogs below are inside the fragment. *)

Module PyRe.

Inductive regex : Type :=
| Eps
| Cls (p : ascii -> bool)
| Seq (a b : regex)
| Alt (a b : regex)
| Star (a : regex)
| Plus (a : regex)
| Opt (a : regex)
| Group (n : nat) (a : regex)
| Bol
| Eol
| WordB (positive : bool).

(** The class [\w]: letters, digits and the underscore (Latin-1). *)
Definition isword (c : ascii) : bool :=
  Str.in_range 48 57 c || Str.in_range 65 90 c || (Str.code c =? 95)%N
  || Str.in_range 97 122 c || (Str.code c =? 170)%N || Str.in_range 178 179 c
  || (Str.code c =? 181)%N || Str.in_range 185 186 c || Str.in_range 188 190 c
  || Str.in_range 192 214 c || Str.in_range 216 246 c || Str.in_range 248 255 c.

(** Under [re.IGNORECASE] a character is in a class when one of its case
    forms is. *)
Definition ci (p : ascii -> bool) (c : ascii) : bool :=
  p c || p (Str.lower_char c) || p (Str.upper_char c).

Definition lit (c : ascii) : regex := Cls (ci (Ascii.eqb c)).

Definition is_punct (c : ascii) : bool :=
  negb (isword c) && Str.in_range 33 126 c.

(** The class an escape [\x] stands for, inside or outside brackets. *)
Definition escape_class (x : ascii) : option (ascii -> bool) :=
  if Ascii.eqb x "d" then Some Str.isdigit
  else if Ascii.eqb x "D" then Some (fun c => negb (Str.isdigit c))
  else if Ascii.eqb x "w" then Some isword
  else if Ascii.eqb x "W" then Some (fun c => negb (isword c))
  else if Ascii.eqb x "s" then Some Str.isspace
  else if Ascii.eqb x "S" then Some (fun c => negb (Str.isspace c))
  else if is_punct x || Ascii.eqb x " " then Some (Ascii.eqb x)
  else None.

(** The items of a bracket class up to the closing bracket: the class as a
    predicate and the rest of the pattern. *)
Fixpoint parse_set (first : bool) (acc : ascii -> bool) (s : list ascii)
  : option ((ascii -> bool) * list ascii) :=
  match s with
  | [] => None
  | c :: s' =>
      if Ascii.eqb c "]" && negb first then Some (acc, s')
      else if Ascii.eqb c "\" then
        match s' with
        | x :: s'' =>
            match escape_class x with
            | Some p => parse_set false (fun d => acc d || p d) s''
            | None => None
            end
        | [] => None
        end
      else
        match s' with
        | dash :: hi :: s'' =>
            if Ascii.eqb dash "-" && negb (Ascii.eqb hi "]") then
              if Ascii.eqb hi "\" then None
              else if (Str.code hi <? Str.code c)%N then None
              else parse_set false
                     (fun d => acc d || Str.in_range (Str.code c) (Str.code hi) d) s''
            else parse_set false (fun d => acc d || Ascii.eqb c d) s'
        | _ => parse_set false (fun d => acc d || Ascii.eqb c d) s'
        end
  end.

Definition is_repeat (c : ascii) : bool :=
  Ascii.eqb c "*" || Ascii.eqb c "+" || Ascii.eqb c "?" || Ascii.eqb c "{".

Definition repeat_of (q : ascii) (a : regex) : regex :=
  if Ascii.eqb q "*" then Star a else if Ascii.eqb q "+" then Plus a else Opt a.

(** An atom followed by its repetition mark, if any.  A second mark (lazy,
    possessive or multiple repeat) and a counted repetition are refused. *)
Definition parse_repeat (can_repeat : bool) (a : regex) (s : list ascii)
  : option (regex * list ascii) :=
  match s with
  | q :: s' =>
      if is_repeat q then
        if negb can_repeat || Ascii.eqb q "{" then None
        else match s' with
             | q' :: _ => if is_repeat q' then None else Some (repeat_of q a, s')
             | [] => Some (repeat_of q a, s')
             end
      else Some (a, s)
  | [] => Some (a, s)
  end.

Definition with_groups (ng : nat) (x : option (regex * list ascii))
  : option (regex * nat * list ascii) :=
  match x with
  | Some (r, s) => Some (r, ng, s)
  | None => None
  end.

(** Recursive descent: alternation, sequence, atom.  [ng] counts the capture
    groups opened so far.  [fuel] bounds the depth of the descent. *)
Fixpoint parse_alt (fuel ng : nat) (s : list ascii) : option (regex * nat * list ascii) :=
  match fuel with
  | O => None
  | S fuel' =>
      match parse_seq fuel' ng s with
      | Some (a, ng', s') =>
          match s' with
          | c :: s'' =>
              if Ascii.eqb c "|" then
                match parse_alt fuel' ng' s'' with
                | Some (b, ng'', s3) => Some (Alt a b, ng'', s3)
                | None => None
                end
              else Some (a, ng', s')
          | [] => Some (a, ng', s')
          end
      | None => None
      end
  end
with parse_seq (fuel ng : nat) (s : list ascii) : option (regex * nat * list ascii) :=
  match fuel with
  | O => None
  | S fuel' =>
      match s with
      | [] => Some (Eps, ng, s)
      | c :: _ =>
          if Ascii.eqb c "|" || Ascii.eqb c ")" then Some (Eps, ng, s)
          else
            match parse_atom fuel' ng s with
            | Some (a, ng', s') =>
                match parse_seq fuel' ng' s' with
                | Some (b, ng'', s'') => Some (Seq a b, ng'', s'')
                | None => None
                end
            | None => None
            end
      end
  end
with parse_atom (fuel ng : nat) (s : list ascii) : option (regex * nat * list ascii) :=
  match fuel with
  | O => None
  | S fuel' =>
      match s with
      | [] => None
      | c :: s' =>
          if Ascii.eqb c "(" then
            match s' with
            | q :: _ =>
                if Ascii.eqb q "?" then None
                else
                  match parse_alt fuel' (S ng) s' with
                  | Some (a, ng', close :: s'') =>
                      if Ascii.eqb close ")"
                      then with_groups ng' (parse_repeat true (Group (S ng) a) s'')
                      else None
                  | _ => None
                  end
            | [] => None
            end
          else if Ascii.eqb c "[" then
            match s' with
            | neg :: s'' =>
                let negated := Ascii.eqb neg "^" in
                match parse_set true (fun _ => false) (if negated then s'' else s') with
                | Some (p, rest) =>
                    with_groups ng
                      (parse_repeat true
                         (Cls (if negated then (fun d => negb (ci p d)) else ci p)) rest)
                | None => None
                end
            | [] => None
            end
          else if Ascii.eqb c "\" then
            match s' with
            | x :: s'' =>
                if Ascii.eqb x "b" || Ascii.eqb x "B"
                then with_groups ng (parse_repeat false (WordB (Ascii.eqb x "b")) s'')
                else
                  match escape_class x with
                  | Some p => with_groups ng (parse_repeat true (Cls (ci p)) s'')
                  | None => None
                  end
            | [] => None
            end
          else if Ascii.eqb c "^" then with_groups ng (parse_repeat false Bol s')
          else if Ascii.eqb c "$" then with_groups ng (parse_repeat false Eol s')
          else if is_repeat c then None
          else if Ascii.eqb c "." then
            with_groups ng
              (parse_repeat true (Cls (fun d => negb (Ascii.eqb d "010"))) s')
          else with_groups ng (parse_repeat true (lit c) s')
      end
  end.

(** [re.compile]: the pattern as a tree and its number of capture groups. *)
Definition compile (pattern : string) : option (regex * nat) :=
  let s := list_ascii_of_string pattern in
  match parse_alt (4 * length s + 4) 0 s with
  | Some (r, ng, []) => Some (r, ng)
  | _ => None
  end.

(** The state of the backtracking matcher: the text still to be read, the
    character before it, the captures made so far (latest first) and the
    group closed last. *)
Record mstate : Type := {
  ms_rest : string;
  ms_prev : option ascii;
  ms_caps : list (nat * string);
  ms_last : option nat
}.

Definition is_word_opt (c : option ascii) : bool :=
  match c with
  | Some c => isword c
  | None => false
  end.

Definition next_char (s : string) : option ascii :=
  match s with
  | String c _ => Some c
  | EmptyString => None
  end.

(** The first [n] characters of [s]. *)
Fixpoint take (n : nat) (s : string) : string :=
  match n, s with
  | S n', String c s' => String c (take n' s')
  | _, _ => EmptyString
  end.

(** The text between two positions of the same string, each given by the
    suffix that starts there. *)
Definition consumed (from to : string) : string :=
  take (String.length from - String.length to) from.

(** Greedy repetition of [body]: an iteration has to read at least one
    character. *)
Fixpoint star_loop (body : (mstate -> option mstate) -> mstate -> option mstate)
    (k : mstate -> option mstate) (fuel : nat) (st : mstate) : option mstate :=
  match fuel with
  | O => k st
  | S fuel' =>
      match body (fun st' =>
                    if (String.length (ms_rest st') <? String.length (ms_rest st))%nat
                    then star_loop body k fuel' st' else None) st with
      | Some r => Some r
      | None => k st
      end
  end.

(** [run r k st]: match [r] at [st] and continue with [k]; the first
    success in backtracking order. *)
Fixpoint run (r : regex) (k : mstate -> option mstate) (st : mstate) : option mstate :=
  match r with
  | Eps => k st
  | Cls p =>
      match ms_rest st with
      | String c s' =>
          if p c
          then k {| ms_rest := s'; ms_prev := Some c;
                    ms_caps := ms_caps st; ms_last := ms_last st |}
          else None
      | EmptyString => None
      end
  | Seq a b => run a (run b k) st
  | Alt a b =>
      match run a k st with
      | Some x => Some x
      | None => run b k st
      end
  | Opt a =>
      match run a k st with
      | Some x => Some x
      | None => k st
      end
  | Star a => star_loop (run a) k (S (String.length (ms_rest st))) st
  | Plus a =>
      run a (fun st' => star_loop (run a) k (S (String.length (ms_rest st'))) st') st
  | Group n a =>
      run a (fun st' =>
               k {| ms_rest := ms_rest st'; ms_prev := ms_prev st';
                    ms_caps := (n, consumed (ms_rest st) (ms_rest st')) :: ms_caps st';
                    ms_last := Some n |}) st
  | Bol => match ms_prev st with None => k st | Some _ => None end
  | Eol =>
      match ms_rest st with
      | EmptyString => k st
      | String c EmptyString => if Ascii.eqb c "010" then k st else None
      | _ => None
      end
  | WordB positive =>
      if Bool.eqb positive
           (xorb (is_word_opt (ms_prev st)) (is_word_opt (next_char (ms_rest st))))
      then k st else None
  end.

(** The leftmost position of [s] where [r] matches. *)
Fixpoint search_from (r : regex) (prev : option ascii) (s : string)
  : option (string * mstate) :=
  match run r Some {| ms_rest := s; ms_prev := prev; ms_caps := []; ms_last := None |} with
  | Some st => Some (s, st)
  | None =>
      match s with
      | String c s' => search_from r (Some c) s'
      | EmptyString => None
      end
  end.

Fixpoint assoc (n : nat) (caps : list (nat * string)) : option string :=
  match caps with
  | [] => None
  | (m, v) :: caps' => if (n =? m)%nat then Some v else assoc n caps'
  end.

Definition match_of (ng : nat) (start : string) (st : mstate) : Re.match_obj :=
  {| Re.groups := Some (consumed start (ms_rest st))
                  :: map (fun i => assoc i (ms_caps st)) (seq 1 ng);
     Re.lastindex := ms_last st |}.

(** [re.search(pattern, text, re.IGNORECASE)] *)
Definition search : Re.engine := fun pattern text =>
  match compile pattern with
  | None => Re.BadPattern
  | Some (r, ng) =>
      match search_from r None text with
      | Some (start, st) => Re.Found (match_of ng start st)
      | None => Re.NotFound
      end
  end.

End PyRe.

(** ** The clock: [datetime.now()] and the two [strftime] formats in use *)

Module Clock.

Record datetime : Type := {
  year : nat;       (* 1 .. 9999 *)
  month : nat;      (* 1 .. 12 *)
  day : nat;        (* 1 .. 31 *)
  hour : nat;       (* 0 .. 23 *)
  minute : nat      (* 0 .. 59 *)
}.

Definition is_leap (y : nat) : bool :=
  ((y mod 4 =? 0) && (negb (y mod 100 =? 0) || (y mod 400 =? 0)))%nat.

(** Days of the year before the first of month [m]. *)
Definition days_before_month (y m : nat) : nat :=
  nth (m - 1) [0; 31; 59; 90; 120; 151; 181; 212; 243; 273; 304; 334]%nat 0%nat
  + (if (2 <? m)%nat && is_leap y then 1 else 0)%nat.

(** [date.toordinal()]: 1 for 0001-01-01. *)
Definition toordinal (d : datetime) : nat :=
  let y := (year d - 1)%nat in
  (y * 365 + y / 4 - y / 100 + y / 400 + days_before_month (year d) (month d) + day d)%nat.

(** [date.weekday()]: 0 for Monday. *)
Definition weekday (d : datetime) : nat := ((toordinal d + 6) mod 7)%nat.

Definition day_name (w : nat) : string :=
  nth w ["Monday"; "Tuesday"; "Wednesday"; "Thursday"; "Friday"; "Saturday"; "Sunday"] "".

Definition month_name (m : nat) : string :=
  nth (m - 1) ["January"; "February"; "March"; "April"; "May"; "June"; "July";
               "August"; "September"; "October"; "November"; "December"] "".

(** [%I]: the hour on a 12-hour clock, 01 .. 12. *)
Definition hour12 (h : nat) : nat :=
  if (h mod 12 =? 0)%nat then 12%nat else (h mod 12)%nat.

(** [d.strftime("%I:%M %p")] in the C locale. *)
Definition strftime_time (d : datetime) : string :=
  Str.two_digits (hour12 (hour d)) +:+ ":" +:+ Str.two_digits (minute d) +:+ " "
  +:+ (if (hour d <? 12)%nat then "AM" else "PM").

(** [d.strftime("%A, %B %d, %Y")] in the C locale, for years of four digits. *)
Definition strftime_date (d : datetime) : string :=
  day_name (weekday d) +:+ ", " +:+ month_name (month d) +:+ " "
  +:+ Str.two_digits (day d) +:+ ", " +:+ Str.of_nat (year d).

End Clock.

(** ** Conversation state (class [ConversationContext], the same in both files) *)

(** What [user_data] holds: a string (name, birthday, favourite), the list of
    notes, or the favourites dictionary. *)
Inductive value : Type :=
| VStr (s : string)
| VList (l : list string)
| VDict (d : gmap string string).

(** Truth value of a Python object of these kinds. *)
Definition truthy (v : value) : bool :=
  match v with
  | VStr s => negb (String.eqb s "")
  | VList l => negb (Nat.eqb (length l) 0)
  | VDict d => negb (Nat.eqb (size d) 0)
  end.

Record exchange : Type := {
  timestamp : Clock.datetime;
  user : string;
  bot : string
}.

(** [context_writes] is not a field of the class: it counts the assignments
    to [current_context] made by [set_context] and [clear_context], so that
    statements can speak about them. *)
Record ConversationContext : Type := {
  history : list exchange;
  current_context : option string;
  user_data : gmap string value;
  session_start : Clock.datetime;
  context_writes : nat
}.

(** [ConversationContext()] *)
Definition new_context (now : Clock.datetime) : ConversationContext :=
  {| history := []; current_context := None; user_data := ∅;
     session_start := now; context_writes := 0 |}.

Definition add_exchange (now : Clock.datetime) (user_input bot_response : string)
    (c : ConversationContext) : ConversationContext :=
  {| history := history c ++ [{| timestamp := now; user := user_input; bot := bot_response |}];
     current_context := current_context c; user_data := user_data c;
     session_start := session_start c; context_writes := context_writes c |}.

Definition set_context (context : string) (c : ConversationContext) : ConversationContext :=
  {| history := history c; current_context := Some context; user_data := user_data c;
     session_start := session_start c; context_writes := S (context_writes c) |}.

Definition clear_context (c : ConversationContext) : ConversationContext :=
  {| history := history c; current_context := None; user_data := user_data c;
     session_start := session_start c; context_writes := S (context_writes c) |}.

Definition set_user_data (key : string) (v : value) (c : ConversationContext)
  : ConversationContext :=
  {| history := history c; current_context := current_context c;
     user_data := <[key := v]> (user_data c);
     session_start := session_start c; context_writes := context_writes c |}.

(** [get_user_data(key)], [None] when the key is absent. *)
Definition get_user_data (key : string) (c : ConversationContext) : option value :=
  user_data c !! key.

(** [get_user_data(key, default)] where a string is expected: the stored
    string, or the default when the key is absent. *)
Definition get_user_str (key default : string) (c : ConversationContext) : outcome string :=
  match user_data c !! key with
  | None => Ret default
  | Some (VStr s) => Ret s
  | Some _ => Raise TypeError    (* str.replace with a list or dict *)
  end.

(** Stateful code that can raise: a function of the conversation state that
    gives back the state it leaves, also when it raises. *)
Definition M (A : Type) : Type := ConversationContext -> outcome A * ConversationContext.

Definition mret {A : Type} (a : A) : M A := fun c => (Ret a, c).
Definition mraise {A : Type} (e : exn) : M A := fun c => (Raise e, c).
Definition mlift {A : Type} (x : outcome A) : M A := fun c => (x, c).
Definition mget : M ConversationContext := fun c => (Ret c, c).
Definition mmodify (f : ConversationContext -> ConversationContext) : M unit :=
  fun c => (Ret tt, f c).
Definition mbind' {A B : Type} (x : M A) (f : A -> M B) : M B :=
  fun c => match x c with
           | (Ret a, c') => f a c'
           | (Raise e, c') => (Raise e, c')
           end.

Notation "'run!' x := c1 'in' c2" := (mbind' c1 (fun x => c2))
  (at level 10, x name, c1 at level 200, c2 at level 200).

(** [random.choice(l)] with the random index drawn given as [rnd]:
    IndexError on an empty list. *)
Definition random_choice {A : Type} (rnd : nat) (l : list A) : outcome A :=
  match l !! (rnd mod length l)%nat with
  | Some x => Ret x
  | None => Raise IndexError
  end.

(** ** Sentiment (class [SentimentAnalyzer]) *)

Module Sentiment.

Inductive label : Type := positive | negative | neutral.

(** [analyze] with the two word sets of the class given. *)
Definition analyze (POSITIVE_WORDS NEGATIVE_WORDS : gset string) (text : string)
  : label * Q :=
  let words : gset string := list_to_set (Str.split (Str.lower text)) in
  let positive_count := size (words ∩ POSITIVE_WORDS) in
  let negative_count := size (words ∩ NEGATIVE_WORDS) in
  if (negative_count <? positive_count)%nat then
    (positive,
     (inject_Z (Z.of_nat positive_count)
      / inject_Z (Z.of_nat (positive_count + negative_count + 1)))%Q)
  else if (positive_count <? negative_count)%nat then
    (negative,
     (- inject_Z (Z.of_nat negative_count)
      / inject_Z (Z.of_nat (positive_count + negative_count + 1)))%Q)
  else (neutral, 0%Q).

End Sentiment.

(** ** An evaluator for a fragment of Python's expressions

    [_calculate] hands the cleaned-up text to [eval].  The chatbot is stated
    over any evaluator; [PyEval] is the concrete one used in examples.  It
    covers the expressions made of decimal integer literals, [+ - * //],
    unary signs, parentheses around an expression and blanks, whose value is
    an integer.  To every other string it answers SyntaxError; Python does
    evaluate some of them (true division, powers, floats, the empty tuple). *)

Module PyEval.

Inductive token : Type :=
| TInt (z : Z) | TPlus | TMinus | TStar | TFloor | TLPar | TRPar.

Inductive expr : Type :=
| Int (z : Z)
| Pos (e : expr)
| Neg (e : expr)
| Add (a b : expr)
| Sub (a b : expr)
| Mul (a b : expr)
| FloorDiv (a b : expr).

Definition digit_value (c : ascii) : Z := Z.of_N (Str.code c) - 48.

(** The digits at the start of [s]: their characters and the rest. *)
Fixpoint span_digits (s : list ascii) : list ascii * list ascii :=
  match s with
  | c :: s' =>
      if Str.isdigit c then let '(ds, rest) := span_digits s' in (c :: ds, rest)
      else ([], s)
  | [] => ([], [])
  end.

Definition number (ds : list ascii) : Z :=
  fold_left (fun acc c => acc * 10 + digit_value c)%Z ds 0%Z.

(** A decimal literal is all zeros or starts with a non-zero digit. *)
Definition literal_ok (ds : list ascii) : bool :=
  match ds with
  | c :: _ :: _ => negb (Ascii.eqb c "0") || forallb (Ascii.eqb "0") ds
  | _ => true
  end.

Fixpoint lex (fuel : nat) (s : list ascii) : option (list token) :=
  match fuel with
  | O => None
  | S fuel' =>
      match s with
      | [] => Some []
      | c :: s' =>
          if Ascii.eqb c " " || Ascii.eqb c "009" then lex fuel' s'
          else if Str.isdigit c then
            let '(ds, rest) := span_digits s in
            match rest with
            | d :: _ => if Ascii.eqb d "." then None
                        else if literal_ok ds
                             then option_map (cons (TInt (number ds))) (lex fuel' rest)
                             else None
            | [] => if literal_ok ds then Some [TInt (number ds)] else None
            end
          else if Ascii.eqb c "+" then option_map (cons TPlus) (lex fuel' s')
          else if Ascii.eqb c "-" then option_map (cons TMinus) (lex fuel' s')
          else if Ascii.eqb c "(" then option_map (cons TLPar) (lex fuel' s')
          else if Ascii.eqb c ")" then option_map (cons TRPar) (lex fuel' s')
          else if Ascii.eqb c "*" then
            match s' with
            | d :: _ => if Ascii.eqb d "*" then None
                        else option_map (cons TStar) (lex fuel' s')
            | [] => Some [TStar]
            end
          else if Ascii.eqb c "/" then
            match s' with
            | d :: s'' => if Ascii.eqb d "/" then option_map (cons TFloor) (lex fuel' s'')
                          else None
            | [] => None
            end
          else None
      end
  end.

(** Recursive descent with the precedences of Python: sums of products of
    signed atoms, all left associative. *)
Fixpoint parse_sum (fuel : nat) (ts : list token) : option (expr * list token) :=
  match fuel with
  | O => None
  | S fuel' =>
      match parse_product fuel' ts with
      | Some (a, rest) => sum_rest fuel' a rest
      | None => None
      end
  end
with sum_rest (fuel : nat) (a : expr) (ts : list token) : option (expr * list token) :=
  match fuel with
  | O => None
  | S fuel' =>
      match ts with
      | TPlus :: ts' =>
          match parse_product fuel' ts' with
          | Some (b, rest) => sum_rest fuel' (Add a b) rest
          | None => None
          end
      | TMinus :: ts' =>
          match parse_product fuel' ts' with
          | Some (b, rest) => sum_rest fuel' (Sub a b) rest
          | None => None
          end
      | _ => Some (a, ts)
      end
  end
with parse_product (fuel : nat) (ts : list token) : option (expr * list token) :=
  match fuel with
  | O => None
  | S fuel' =>
      match parse_signed fuel' ts with
      | Some (a, rest) => product_rest fuel' a rest
      | None => None
      end
  end
with product_rest (fuel : nat) (a : expr) (ts : list token) : option (expr * list token) :=
  match fuel with
  | O => None
  | S fuel' =>
      match ts with
      | TStar :: ts' =>
          match parse_signed fuel' ts' with
          | Some (b, rest) => product_rest fuel' (Mul a b) rest
          | None => None
          end
      | TFloor :: ts' =>
          match parse_signed fuel' ts' with
          | Some (b, rest) => product_rest fuel' (FloorDiv a b) rest
          | None => None
          end
      | _ => Some (a, ts)
      end
  end
with parse_signed (fuel : nat) (ts : list token) : option (expr * list token) :=
  match fuel with
  | O => None
  | S fuel' =>
      match ts with
      | TPlus :: ts' =>
          match parse_signed fuel' ts' with
          | Some (a, rest) => Some (Pos a, rest)
          | None => None
          end
      | TMinus :: ts' =>
          match parse_signed fuel' ts' with
          | Some (a, rest) => Some (Neg a, rest)
          | None => None
          end
      | TInt z :: ts' => Some (Int z, ts')
      | TLPar :: ts' =>
          match parse_sum fuel' ts' with
          | Some (a, TRPar :: rest) => Some (a, rest)
          | _ => None
          end
      | _ => None
      end
  end.

Fixpoint eval_expr (e : expr) : outcome Z :=
  match e with
  | Int z => Ret z
  | Pos a => eval_expr a
  | Neg a => do! x := eval_expr a in Ret (- x)%Z
  | Add a b => do! x := eval_expr a in do! y := eval_expr b in Ret (x + y)%Z
  | Sub a b => do! x := eval_expr a in do! y := eval_expr b in Ret (x - y)%Z
  | Mul a b => do! x := eval_expr a in do! y := eval_expr b in Ret (x * y)%Z
  | FloorDiv a b =>
      do! x := eval_expr a in
      do! y := eval_expr b in
      if (y =? 0)%Z then Raise ZeroDivisionError else Ret (x / y)%Z
  end.

(** [eval(expression)] *)
Definition eval (expression : string) : outcome Z :=
  let s := list_ascii_of_string expression in
  match lex (S (length s)) s with
  | Some ts =>
      match parse_sum (4 * length ts + 4) ts with
      | Some (e, []) => eval_expr e
      | _ => Raise SyntaxError
      end
  | None => Raise SyntaxError
  end.

(** [f"{result}"] for an integer result. *)
Definition format (z : Z) : outcome string := Ret (Str.of_Z z).

End PyEval.

(** ** Helpers shared by the two variants *)

(** [a > b] on scores. *)
Definition Qgt_bool (a b : Q) : bool := negb (Qle_bool a b).

(** Truth value of an optional string ([None] and [""] are false). *)
Definition nonempty (o : option string) : bool :=
  match o with
  | Some s => negb (String.eqb s "")
  | None => false
  end.

(** The characters [re.sub(r"[^\d\+\-\*\/\.\(\)\s]", "", expression)] keeps. *)
Definition arithmetic_char (c : ascii) : bool :=
  Str.isdigit c || Ascii.eqb c "+" || Ascii.eqb c "-" || Ascii.eqb c "*"
  || Ascii.eqb c "/" || Ascii.eqb c "." || Ascii.eqb c "(" || Ascii.eqb c ")"
  || Str.isspace c.

Definition sanitize (expression : string) : string :=
  Str.filter arithmetic_char expression.

Definition apology : string :=
  "I couldn't calculate that. Please use a format like '5 + 3' or '10 * 2'.".

(** [m.group(i)] used as a string ([.title()], [.strip()], [re.sub]): a
    method of [None] is an AttributeError. *)
Definition group_str (m : Re.match_obj) (i : nat) : outcome string :=
  do! g := Re.group m i in
  match g with
  | Some s => Ret s
  | None => Raise AttributeError
  end.

(** [response.replace(key, value)] for each entry in turn; a value that is
    not a string is a TypeError. *)
Fixpoint replace_all (replacements : list (string * value)) (response : string)
  : outcome string :=
  match replacements with
  | [] => Ret response
  | (key, VStr v) :: rest => replace_all rest (Str.replace key v response)
  | (_, _) :: _ => Raise TypeError
  end.

(** What iterating over a value yields ([enumerate(notes)]): the characters of
    a string, the elements of a list, the keys of a dictionary (in the order
    of the finite map, which need not be Python's insertion order; [notes] is
    only ever bound to a list). *)
Definition items (v : value) : list string :=
  match v with
  | VStr s => map (fun c => String c "") (list_ascii_of_string s)
  | VList l => l
  | VDict d => map fst (map_to_list d)
  end.

(** [get_user_data(key, default)] *)
Definition get_or (key : string) (default : value) (c : ConversationContext) : value :=
  match get_user_data key c with
  | Some v => v
  | None => default
  end.

(** ** Demo2: src/Chatbot/Demo2/chatbot.py *)

Module Demo2.

(** The closures the factory methods [_create_*_action] return. *)
Inductive action_fn : Type :=
| store_name_action
| calculate_action
| store_birthday_action
| save_note_action
| show_notes_action
| store_favorites_action.

Record Intent : Type := {
  name : string;
  patterns : list string;
  responses : list string;
  keywords : list string;
  context_set : option string;
  context_required : option string;
  action : option action_fn;
  action_type : option string
}.

(** One entry of [config["intents"]]; the optional keys may be missing. *)
Record intent_data : Type := {
  d_name : string;
  d_patterns : list string;
  d_responses : list string;
  d_keywords : option (list string);
  d_context_set : option string;
  d_context_required : option string;
  d_action_type : option string
}.

(** The [if]/[elif] chain of [_build_intents]. *)
Definition action_of_type (action_type : option string) : option action_fn :=
  match action_type with
  | None => None
  | Some t =>
      if String.eqb t "store_user_name" then Some store_name_action
      else if String.eqb t "calculate" then Some calculate_action
      else if String.eqb t "store_user_birthday" then Some store_birthday_action
      else if String.eqb t "store_user_note" then Some save_note_action
      else if String.eqb t "show_user_notes" then Some show_notes_action
      else if String.eqb t "add_favorites" then Some store_favorites_action
      else None
  end.

Definition build_intent (d : intent_data) : Intent :=
  {| name := d_name d;
     patterns := d_patterns d;
     responses := d_responses d;
     keywords := match d_keywords d with Some k => k | None => [] end;
     context_set := d_context_set d;
     context_required := d_context_required d;
     action := action_of_type (d_action_type d);
     action_type := d_action_type d |}.

Definition _build_intents (config_intents : list intent_data) : list Intent :=
  map build_intent config_intents.

(** The chatbot object without its conversation state, which is threaded
    separately.  The sentiment word sets are the class attributes of
    [SentimentAnalyzer] as [load_from_config] leaves them. *)
Record AdvancedChatbot : Type := {
  bot_name : string;
  intents : list Intent;
  unknown_positive : list string;
  unknown_negative : list string;
  unknown_neutral : list string;
  POSITIVE_WORDS : gset string;
  NEGATIVE_WORDS : gset string
}.

(** The configuration file: [bot_settings] (whose keys may be missing), the
    intents, and the optional sentiment word lists (positive, negative). *)
Record bot_settings : Type := {
  default_name : option string;
  unknown_response_positive : option (list string);
  unknown_response_negative : option (list string);
  unknown_response_neutral : option (list string)
}.

Record config : Type := {
  cfg_bot_settings : bot_settings;
  cfg_intents : list intent_data;
  cfg_sentiment_words : option (list string * list string)
}.

(** The word sets of the class body of [SentimentAnalyzer]:
    [POSITIVE_WORDS = set()] and [NEGATIVE_WORDS = set()]. *)
Definition initial_words : gset string * gset string := (∅, ∅).

(** [SentimentAnalyzer.load_from_config]: the two class attributes are bound
    anew when the configuration has "sentiment_words" and stay as they are
    when it has not. *)
Definition load_from_config (cfg : config) (words : gset string * gset string)
  : gset string * gset string :=
  match cfg_sentiment_words cfg with
  | Some (pos, neg) => (list_to_set pos, list_to_set neg)
  | None => words
  end.

(** [AdvancedChatbot(config_path, name)] once the file is read and validated.
    [words] are the word sets as the constructor finds them: [initial_words]
    in a process that has loaded no configuration, and otherwise what the
    last load left. *)
Definition new_chatbot (words : gset string * gset string) (cfg : config)
    (name : option string) : AdvancedChatbot :=
  let settings := cfg_bot_settings cfg in
  {| bot_name := if nonempty name then default "" name
                 else default "BERGEN TECH AI" (default_name settings);
     intents := _build_intents (cfg_intents cfg);
     unknown_positive := default ["That's great!"] (unknown_response_positive settings);
     unknown_negative :=
       default ["I'm sorry to hear that."] (unknown_response_negative settings);
     unknown_neutral := default ["Interesting!"] (unknown_response_neutral settings);
     POSITIVE_WORDS := fst (load_from_config cfg words);
     NEGATIVE_WORDS := snd (load_from_config cfg words) |}.

Section WithRuntime.

(** The Python runtime the code calls: [re.search(_, _, re.IGNORECASE)],
    [eval] and the formatting of its result in an f-string. *)
Variable re_search : Re.engine.
Variable pyval : Type.
Variable py_eval : string -> outcome pyval.
Variable py_str : pyval -> outcome string.

(** The [try] block of [_calculate]. *)
Definition calculate_try (m : option Re.match_obj) : outcome string :=
  match m with
  | None => Raise AttributeError
  | Some m =>
      do! expression :=
        (match Re.lastindex m with
         | Some (S _) => Re.group m 1
         | _ => Re.group m 0
         end) in
      do! expression :=
        (match expression with
         | Some s => Ret (sanitize s)
         | None => Raise TypeError     (* re.sub on None *)
         end) in
      do! result := py_eval expression in
      do! shown := py_str result in
      Ret ("The result of " +:+ expression +:+ " is **" +:+ shown +:+ "**")
  end.

Definition _calculate (m : option Re.match_obj) : string :=
  match calculate_try m with
  | Ret s => s
  | Raise _ => apology
  end.

Definition replacements (self : AdvancedChatbot) (now1 now2 : Clock.datetime)
    (c : ConversationContext) : list (string * value) :=
  [ ("{bot_name}", VStr (bot_name self));
    ("{user_name}", get_or "name" (VStr "friend") c);
    ("{current_time}", VStr (Clock.strftime_time now1));
    ("{current_date}", VStr (Clock.strftime_date now2));
    ("{user_birthday}", get_or "birthday" (VStr "unknown") c) ].

(** [now1] and [now2] are the two readings of [datetime.now()]. *)
Definition _fill_template (self : AdvancedChatbot) (now1 now2 : Clock.datetime)
    (c : ConversationContext) (response : string) : outcome string :=
  replace_all (replacements self now1 now2 c) response.

(** The pattern loop of [_score_intent]: a pattern that does not compile is
    passed over. *)
Definition score_patterns (pats : list string) (text_lower : string) (score : Q) : Q :=
  fold_left (fun score pattern =>
               match re_search pattern text_lower with
               | Re.Found _ => (score + 2)%Q
               | Re.NotFound => score
               | Re.BadPattern => score
               end) pats score.

Definition score_keywords (kws : list string) (text_words : gset string) (score : Q) : Q :=
  fold_left (fun score keyword =>
               if decide (Str.lower keyword ∈ text_words) then (score + (1 # 2))%Q else score)
            kws score.

Definition _score_intent (c : ConversationContext) (intent : Intent) (text : string) : Q :=
  let text_lower := Str.lower text in
  let score := score_patterns (patterns intent) text_lower 0%Q in
  let text_words : gset string := list_to_set (Str.split text_lower) in
  let score := score_keywords (keywords intent) text_words score in
  match context_required intent with
  | Some required =>
      if nonempty (Some required) then
        if decide (current_context c = Some required) then (score + 1)%Q
        else (score * (1 # 2))%Q
      else score
  | None => score
  end.

(** The inner loop of [classify_intent]: the match of the first pattern that
    matches, patterns that do not compile being passed over. *)
Fixpoint first_match (pats : list string) (text_lower : string) : option Re.match_obj :=
  match pats with
  | [] => None
  | pattern :: rest =>
      match re_search pattern text_lower with
      | Re.Found m => Some m
      | Re.NotFound => first_match rest text_lower
      | Re.BadPattern => first_match rest text_lower
      end
  end.

(** The running best of [classify_intent]. *)
Record best : Type := {
  best_intent : option Intent;
  best_score : Q;
  best_match : option Re.match_obj
}.

Definition classify_step (c : ConversationContext) (text : string)
    (b : best) (intent : Intent) : best :=
  let score := _score_intent c intent text in
  if Qgt_bool score (best_score b) then
    {| best_intent := Some intent;
       best_score := score;
       best_match := match first_match (patterns intent) (Str.lower text) with
                     | Some m => Some m
                     | None => best_match b
                     end |}
  else b.

Definition classify_loop (c : ConversationContext) (text : string)
    (catalog : list Intent) : best :=
  fold_left (classify_step c text) catalog
            {| best_intent := None; best_score := 0%Q; best_match := None |}.

Definition classify_intent (self : AdvancedChatbot) (c : ConversationContext)
    (text : string) : option Intent * option Re.match_obj :=
  let b := classify_loop c text (intents self) in
  if Qgt_bool (best_score b) (1 # 2)%Q then (best_intent b, best_match b)
  else (None, None).

(** [match and match.lastindex >= n]: false without a match, a TypeError when
    the match used no group ([None >= n]). *)
Definition lastindex_ge (m : option Re.match_obj) (n : nat) : outcome bool :=
  match m with
  | None => Ret false
  | Some m =>
      match Re.lastindex m with
      | None => Raise TypeError
      | Some k => Ret (n <=? k)%nat
      end
  end.

(** [store_favorites] *)
Definition store_favorites (favorite_type favorite_value : string) : M unit :=
  run! c := mget in
  run! favorites := mlift (match get_or "favorites" (VDict ∅) c with
                           | VDict d => Ret d
                           | _ => Raise TypeError
                           end) in
  let favorite_type :=
    if String.eqb favorite_type "band" then "music" else favorite_type in
  let favorites := <[favorite_type := favorite_value]> favorites in
  run! u := mmodify (set_user_data "favorites" (VDict favorites)) in
  mmodify (set_user_data ("favorite_" +:+ favorite_type) (VStr favorite_value)).

(** [intent.action(self, match)]: the action's result, [None] for "go on
    with the templated response". *)
Definition run_action (a : action_fn) (m : option Re.match_obj) : M (option string) :=
  match a with
  | store_name_action =>
      match m with
      | Some mo =>
          match Re.lastindex mo with
          | Some (S _) =>
              run! g := mlift (group_str mo 1) in
              run! u := mmodify (set_user_data "name" (VStr (Str.title g))) in
              mret None
          | _ => mret None
          end
      | None => mret None
      end
  | calculate_action => mret (Some (_calculate m))
  | store_birthday_action =>
      run! ok := mlift (lastindex_ge m 1) in
      if ok then
        run! g := mlift (match m with Some mo => group_str mo 1 | None => Raise AttributeError end) in
        run! u := mmodify (set_user_data "birthday" (VStr (Str.strip g))) in
        mret None
      else mret None
  | save_note_action =>
      run! ok := mlift (lastindex_ge m 1) in
      if ok then
        run! g := mlift (match m with Some mo => group_str mo 1 | None => Raise AttributeError end) in
        run! c := mget in
        run! notes := mlift (match get_user_data "notes" c with
                             | Some (VList l) => Ret l
                             | Some v => if truthy v then Raise AttributeError else Ret []
                             | None => Ret []
                             end) in
        run! u := mmodify (set_user_data "notes" (VList (notes ++ [Str.strip g]))) in
        mret None
      else mret None
  | show_notes_action =>
      run! c := mget in
      match get_user_data "notes" c with
      | Some notes =>
          if truthy notes then
            let formatted_notes :=
              Str.join (String "010" "")
                (imap (fun i note => Str.of_nat (i + 1) +:+ ". " +:+ note) (items notes)) in
            mret (Some ("Here are your saved notes:" +:+ String "010" formatted_notes))
          else mret (Some "You don't have any saved notes yet.")
      | None => mret (Some "You don't have any saved notes yet.")
      end
  | store_favorites_action =>
      run! ok := mlift (lastindex_ge m 2) in
      if ok then
        run! g1 := mlift (match m with Some mo => group_str mo 1 | None => Raise AttributeError end) in
        let favorite_type := Str.lower (Str.strip g1) in
        run! g2 := mlift (match m with Some mo => group_str mo 2 | None => Raise AttributeError end) in
        let favorite_value := Str.strip g2 in
        run! u := store_favorites favorite_type favorite_value in
        run! u' := mmodify (set_user_data "favorite_type" (VStr favorite_type)) in
        mret None
      else mret None
  end.

(** [self.unknown_responses.get(sentiment_type, ...)] *)
Definition unknown_responses (self : AdvancedChatbot) (l : Sentiment.label) : list string :=
  match l with
  | Sentiment.positive => unknown_positive self
  | Sentiment.negative => unknown_negative self
  | Sentiment.neutral => unknown_neutral self
  end.

(** One turn.  [rnd] is the index [random.choice] draws; [now1], [now2] are
    the clock readings of [_fill_template]. *)
Definition get_response (self : AdvancedChatbot) (rnd : nat)
    (now1 now2 : Clock.datetime) (user_input : string) : M string :=
  run! c := mget in
  let '(intent, m) := classify_intent self c user_input in
  let sentiment := Sentiment.analyze (POSITIVE_WORDS self) (NEGATIVE_WORDS self) user_input in
  match intent with
  | Some intent =>
      run! action_result :=
        (match action intent with
         | Some a => run_action a m
         | None => mret None
         end) in
      if nonempty action_result then
        run! c := mget in
        mlift (_fill_template self now1 now2 c (default "" action_result))
      else
        run! response := mlift (random_choice rnd (responses intent)) in
        run! c := mget in
        run! response := mlift (_fill_template self now1 now2 c response) in
        run! u := (if nonempty (context_set intent)
                   then mmodify (set_context (default "" (context_set intent)))
                   else mmodify clear_context) in
        mret response
  | None => mlift (random_choice rnd (unknown_responses self (fst sentiment)))
  end.

End WithRuntime.

End Demo2.

(** ** Demo2 when [re.search] raises more than re.error

    The definitions of [Demo2] take an engine, whose only exception is
    re.error, and the guard [except re.error] of [_score_intent] and
    [classify_intent] then makes both total.  Here the same three methods
    are given for a searcher: an exception that is not re.error passes the
    guard and leaves the method. *)

Module Demo2Exn.

Import Demo2.

Section WithRuntime.

Variable search : Re.searcher.
Variable pyval : Type.
Variable py_eval : string -> outcome pyval.
Variable py_str : pyval -> outcome string.

(** [try: re.search(pattern, text, re.IGNORECASE)] with [except re.error:
    continue]: re.error counts as no match. *)
Definition guarded (pattern text : string) : outcome (option Re.match_obj) :=
  match search pattern text with
  | Raise re_error => Ret None
  | r => r
  end.

(** The pattern loop of [_score_intent]. *)
Fixpoint score_patterns (pats : list string) (text_lower : string) (score : Q)
  : outcome Q :=
  match pats with
  | [] => Ret score
  | pattern :: rest =>
      do! m := guarded pattern text_lower in
      score_patterns rest text_lower
        (match m with Some _ => (score + 2)%Q | None => score end)
  end.

Definition _score_intent (c : ConversationContext) (intent : Intent) (text : string)
  : outcome Q :=
  let text_lower := Str.lower text in
  do! score := score_patterns (patterns intent) text_lower 0%Q in
  let text_words : gset string := list_to_set (Str.split text_lower) in
  let score := score_keywords (keywords intent) text_words score in
  match context_required intent with
  | Some required =>
      if nonempty (Some required) then
        if decide (current_context c = Some required) then Ret (score + 1)%Q
        else Ret (score * (1 # 2))%Q
      else Ret score
  | None => Ret score
  end.

(** The inner loop of [classify_intent]. *)
Fixpoint first_match (pats : list string) (text_lower : string)
  : outcome (option Re.match_obj) :=
  match pats with
  | [] => Ret None
  | pattern :: rest =>
      do! m := guarded pattern text_lower in
      match m with
      | Some m => Ret (Some m)
      | None => first_match rest text_lower
      end
  end.

Definition classify_step (c : ConversationContext) (text : string)
    (b : best) (intent : Intent) : outcome best :=
  do! score := _score_intent c intent text in
  if Qgt_bool score (best_score b) then
    do! m := first_match (patterns intent) (Str.lower text) in
    Ret {| best_intent := Some intent;
           best_score := score;
           best_match := match m with
                         | Some m => Some m
                         | None => best_match b
                         end |}
  else Ret b.

Fixpoint classify_loop (c : ConversationContext) (text : string)
    (catalog : list Intent) (b : best) : outcome best :=
  match catalog with
  | [] => Ret b
  | intent :: rest =>
      do! b' := classify_step c text b intent in
      classify_loop c text rest b'
  end.

Definition classify_intent (self : AdvancedChatbot) (c : ConversationContext)
    (text : string) : outcome (option Intent * option Re.match_obj) :=
  do! b := classify_loop c text (intents self)
             {| best_intent := None; best_score := 0%Q; best_match := None |} in
  if Qgt_bool (best_score b) (1 # 2)%Q then Ret (best_intent b, best_match b)
  else Ret (None, None).

(** One turn: an exception of [classify_intent] leaves [get_response] before
    anything else is done. *)
Definition get_response (self : AdvancedChatbot) (rnd : nat)
    (now1 now2 : Clock.datetime) (user_input : string) : M string :=
  run! c := mget in
  run! classified := mlift (classify_intent self c user_input) in
  let '(intent, m) := classified in
  let sentiment := Sentiment.analyze (POSITIVE_WORDS self) (NEGATIVE_WORDS self) user_input in
  match intent with
  | Some intent =>
      run! action_result :=
        (match action intent with
         | Some a => run_action pyval py_eval py_str a m
         | None => mret None
         end) in
      if nonempty action_result then
        run! c := mget in
        mlift (_fill_template self now1 now2 c (default "" action_result))
      else
        run! response := mlift (random_choice rnd (responses intent)) in
        run! c := mget in
        run! response := mlift (_fill_template self now1 now2 c response) in
        run! u := (if nonempty (context_set intent)
                   then mmodify (set_context (default "" (context_set intent)))
                   else mmodify clear_context) in
        mret response
  | None => mlift (random_choice rnd (unknown_responses self (fst sentiment)))
  end.

End WithRuntime.

End Demo2Exn.

(** ** Demo1: src/Chatbot/Demo1/bot.py *)

Module Demo1.

(** The two [lambda]s bound to [Intent.action] in [_setup_intents]. *)
Inductive action_fn : Type :=
| user_name_action      (* lambda self, match: self.context.set_user_data('name', match.group(1).title()) *)
| calculate_action.     (* lambda self, match: self._calculate(match) *)

Record Intent : Type := {
  name : string;
  patterns : list string;
  responses : list string;
  keywords : list string;
  context_set : option string;
  context_required : option string;
  action : option action_fn
}.

(** The intents [_setup_intents] appends, in order.  Twelve response texts
    hold characters beyond U+00FF (U+F8FF, U+201A, U+221E, U+222B), which are
    left out; the characters between U+0080 and U+00FF that stand beside
    them are kept and written by their codes. *)
Definition _setup_intents : list Intent :=
  [
    {| name := "greeting";
       patterns := ["\b(hi|hello|hey|greetings|howdy|hola)\b"; "^(hi|hello|hey)$"];
       keywords := ["hi"; "hello"; "hey"; "greetings"];
       responses := ["Hello! Welcome! How can I assist you today?";
                     "Hey there! Great to see you. What can I help with?";
                     "Hi! I'm {bot_name}, ready to chat. What's on your mind?"];
       context_set := None;
       context_required := None;
       action := None |};
    {| name := "farewell";
       patterns := ["\b(bye|goodbye|see you|farewell|quit|exit)\b"; "^(bye|quit|exit)$"];
       keywords := ["bye"; "goodbye"; "quit"; "exit"];
       responses := ["Goodbye! It was great chatting with you!";
                     "See you later! Take care!";
                     "Farewell! Come back anytime you want to chat!"];
       context_set := None;
       context_required := None;
       action := None |};
    {| name := "ask_bot_name";
       patterns := ["what('s| is) your name"; "who are you"; "your name\??"];
       keywords := ["name"; "who"; "called"];
       responses := ["I'm {bot_name}, your AI assistant!";
                     "You can call me {bot_name}. Nice to meet you!";
                     "My name is {bot_name}. How can I help?"];
       context_set := None;
       context_required := None;
       action := None |};
    {| name := "user_name";
       patterns := ["my name is (\w+)"; "i'm (\w+)"; "call me (\w+)"; "i am (\w+)"];
       keywords := ["name"; "call"; "am"];
       responses := ["Nice to meet you, {user_name}! How can I help you today?";
                     "Hello {user_name}! Great to have you here.";
                     "Welcome, {user_name}! What would you like to chat about?"];
       context_set := None;
       context_required := None;
       action := Some user_name_action |};
    {| name := "how_are_you";
       patterns := ["how are you";
                    "how('s| is) it going";
                    "how do you feel";
                    "you doing\??"];
       keywords := ["how"; "feeling"; "doing"];
       responses := ["I'm doing great, thanks for asking! How about you?";
                     "I'm excellent! Ready to help with whatever you need.";
                     "Feeling fantastic! What can I do for you today?"];
       context_set := Some "asked_user_feeling";
       context_required := None;
       action := None |};
    {| name := "user_feeling_good";
       patterns := ["i('m| am) (good|great|fine|okay|excellent|happy)";
                    "(good|great|fine|excellent|happy)$";
                    "doing (well|good|great)"];
       keywords := ["good"; "great"; "fine"; "happy"; "well"];
       responses := ["Wonderful to hear! What would you like to talk about?";
                     "That's great! Is there anything I can help you with?";
                     "Awesome! I'm glad you're doing well."];
       context_set := None;
       context_required := Some "asked_user_feeling";
       action := None |};
    {| name := "ask_time";
       patterns := ["what time is it";
                    "what('s| is) the time";
                    "current time";
                    "tell me the time"];
       keywords := ["time"; "clock"];
       responses := ["It's currently {current_time}.";
                     "The time is {current_time}.";
                     "Right now it's {current_time}."];
       context_set := None;
       context_required := None;
       action := None |};
    {| name := "ask_date";
       patterns := ["what('s| is) the date";
                    "what day is it";
                    "today('s)? date";
                    "current date"];
       keywords := ["date"; "day"; "today"];
       responses := ["Today is {current_date}.";
                     "It's {current_date}.";
                     "The date is {current_date}."];
       context_set := None;
       context_required := None;
       action := None |};
    {| name := "help";
       patterns := ["\bhelp\b"; "what can you do"; "capabilities"; "features"];
       keywords := ["help"; "assist"; "capabilities"];
       responses := [("Here's what I can help with:
                
" +:+ Str.of_codes [196; 162] +:+ " **Conversation**: Just chat with me about anything!
" +:+ Str.of_codes [196; 162] +:+ " **Time & Date**: Ask me what time or date it is
" +:+ Str.of_codes [196; 162] +:+ " **Jokes**: I know a few programming jokes
" +:+ Str.of_codes [196; 162] +:+ " **Remember Your Name**: Tell me your name, I'll remember it
" +:+ Str.of_codes [196; 162] +:+ " **Calculations**: Ask me to calculate something
" +:+ Str.of_codes [196; 162] +:+ " **Fun Facts**: Ask me for a random fact

Just type naturally and I'll do my best to understand!")];
       context_set := None;
       context_required := None;
       action := None |};
    {| name := "jokes";
       patterns := ["tell (me )?a joke"; "joke"; "make me laugh"; "something funny"];
       keywords := ["joke"; "funny"; "laugh"; "humor"];
       responses := [("Why do programmers prefer dark mode? Because light attracts bugs! " +:+ Str.of_codes [252; 234; 245]);
                     ("Why did the developer go broke? Because he used up all his cache! " +:+ Str.of_codes [252; 237]);
                     "A SQL query walks into a bar, approaches two tables, and asks... 'Can I join you?'";
                     ("Why do Java developers wear glasses? Because they can't C#! " +:+ Str.of_codes [252; 235; 236]);
                     "There are only 10 types of people: those who understand binary and those who don't.";
                     "Why was the JavaScript developer sad? Because he didn't Node how to Express himself!";
                     ("What's a programmer's favorite hangout place? Foo Bar! " +:+ Str.of_codes [252; 231])];
       context_set := None;
       context_required := None;
       action := None |};
    {| name := "thanks";
       patterns := ["thank(s| you)"; "thx"; "appreciate it"; "you('re| are) helpful"];
       keywords := ["thanks"; "thank"; "appreciate"];
       responses := [("You're welcome! Happy to help! " +:+ Str.of_codes [252; 242; 228]);
                     "Anytime! That's what I'm here for.";
                     "Glad I could assist!";
                     "My pleasure! Let me know if you need anything else."];
       context_set := None;
       context_required := None;
       action := None |};
    {| name := "calculate";
       patterns := ["calculate (.+)";
                    "what('s| is) (\d+[\s]*[\+\-\*\/][\s]*\d+)";
                    "(\d+[\s]*[\+\-\*\/][\s]*\d+)"];
       keywords := ["calculate"; "math"; "+"; "-"; "*"; "/"];
       responses := ["Let me calculate that..."];
       context_set := None;
       context_required := None;
       action := Some calculate_action |};
    {| name := "fun_fact";
       patterns := ["(tell me )?(a )?fun fact";
                    "random fact";
                    "interesting fact";
                    "did you know"];
       keywords := ["fact"; "interesting"; "random"];
       responses := [(Str.of_codes [252; 233; 216] +:+ " Fun fact: Honey never spoils! Archaeologists found 3000-year-old honey in Egyptian tombs that was still perfectly edible.");
                     (Str.of_codes [252; 233; 216] +:+ " Fun fact: Octopuses have three hearts and blue blood!");
                     (Str.of_codes [252; 233; 216] +:+ " Fun fact: The first computer programmer was Ada Lovelace, who wrote algorithms for Charles Babbage's Analytical Engine in the 1840s.");
                     (Str.of_codes [252; 233; 216] +:+ " Fun fact: A group of flamingos is called a 'flamboyance'!");
                     (Str.of_codes [252; 233; 216] +:+ " Fun fact: The shortest war in history lasted 38-45 minutes (between Britain and Zanzibar in 1896).");
                     (Str.of_codes [252; 233; 216] +:+ " Fun fact: Python is named after Monty Python, not the snake!")];
       context_set := None;
       context_required := None;
       action := None |};
    {| name := "about";
       patterns := ["tell me about yourself";
                    "who made you";
                    "what are you";
                    "are you (a )?(robot|ai|bot)"];
       keywords := ["about"; "yourself"; "made"; "created"];
       responses := ["I'm {bot_name}, an AI chatbot built with Python! I can have conversations, tell jokes, remember your name, and help with simple tasks. I'm always learning to be more helpful!";
                     "I'm a Python-powered chatbot named {bot_name}. I was created to demonstrate natural language processing concepts. Feel free to test my capabilities!"];
       context_set := None;
       context_required := None;
       action := None |}
  ].

(** The word sets of [SentimentAnalyzer]. *)
Definition POSITIVE_WORDS : gset string :=
  list_to_set
    ["good"; "great"; "awesome"; "excellent"; "happy"; "love"; "wonderful";
     "fantastic"; "amazing"; "best"; "nice"; "thank"; "thanks"; "perfect";
     "beautiful"; "brilliant"; "exciting"; "fun"; "glad"; "pleased"].

Definition NEGATIVE_WORDS : gset string :=
  list_to_set
    ["bad"; "terrible"; "awful"; "horrible"; "sad"; "hate"; "worst";
     "angry"; "upset"; "annoyed"; "frustrated"; "disappointed"; "boring";
     "stupid"; "dumb"; "useless"; "wrong"; "fail"; "failed"; "problem"].

(** [SentimentAnalyzer.analyze] *)
Definition analyze (text : string) : Sentiment.label * Q :=
  Sentiment.analyze POSITIVE_WORDS NEGATIVE_WORDS text.

(** The chatbot object without its conversation state. *)
Record AdvancedChatbot : Type := {
  bot_name : string;
  intents : list Intent
}.

(** [AdvancedChatbot(name)] *)
Definition new_chatbot (name : string) : AdvancedChatbot :=
  {| bot_name := name; intents := _setup_intents |}.

Section WithRuntime.

Variable re_search : Re.engine.
Variable pyval : Type.
Variable py_eval : string -> outcome pyval.
Variable py_str : pyval -> outcome string.

(** [re.search] as the code calls it, unguarded: re.error propagates. *)
Definition search (pattern text : string) : outcome (option Re.match_obj) :=
  match re_search pattern text with
  | Re.Found m => Ret (Some m)
  | Re.NotFound => Ret None
  | Re.BadPattern => Raise re_error
  end.

(** The [try] block of [_calculate]. *)
Definition calculate_try (m : option Re.match_obj) : outcome string :=
  match m with
  | None => Raise AttributeError
  | Some m =>
      do! expression :=
        (match Re.lastindex m with
         | Some (S _) => Re.group m 1
         | _ => Re.group m 0
         end) in
      do! expression :=
        (match expression with
         | Some s => Ret (sanitize s)
         | None => Raise TypeError     (* re.sub on None *)
         end) in
      do! result := py_eval expression in
      do! shown := py_str result in
      Ret ("The result of " +:+ expression +:+ " is **" +:+ shown +:+ "**")
  end.

Definition _calculate (m : option Re.match_obj) : string :=
  match calculate_try m with
  | Ret s => s
  | Raise _ => apology
  end.

Definition replacements (self : AdvancedChatbot) (now1 now2 : Clock.datetime)
    (c : ConversationContext) : list (string * value) :=
  [ ("{bot_name}", VStr (bot_name self));
    ("{user_name}", get_or "name" (VStr "friend") c);
    ("{current_time}", VStr (Clock.strftime_time now1));
    ("{current_date}", VStr (Clock.strftime_date now2)) ].

Definition _fill_template (self : AdvancedChatbot) (now1 now2 : Clock.datetime)
    (c : ConversationContext) (response : string) : outcome string :=
  replace_all (replacements self now1 now2 c) response.

(** The pattern loop of [_score_intent]. *)
Fixpoint score_patterns (pats : list string) (text_lower : string) (score : Q)
  : outcome Q :=
  match pats with
  | [] => Ret score
  | pattern :: rest =>
      do! m := search pattern text_lower in
      score_patterns rest text_lower
        (match m with Some _ => (score + 2)%Q | None => score end)
  end.

Definition _score_intent (c : ConversationContext) (intent : Intent) (text : string)
  : outcome Q :=
  let text_lower := Str.lower text in
  do! score := score_patterns (patterns intent) text_lower 0%Q in
  let words : gset string := list_to_set (Str.split text_lower) in
  let keyword_matches := size (words ∩ list_to_set (keywords intent)) in
  let score := (score + inject_Z (Z.of_nat keyword_matches) * (1 # 2))%Q in
  match context_required intent with
  | Some required =>
      if nonempty (Some required) then
        if decide (current_context c = Some required) then Ret (score + 1)%Q
        else Ret (score * (1 # 2))%Q
      else Ret score
  | None => Ret score
  end.

(** The inner loop of [classify_intent]: the match of the first pattern that
    matches. *)
Fixpoint first_match (pats : list string) (text_lower : string)
  : outcome (option Re.match_obj) :=
  match pats with
  | [] => Ret None
  | pattern :: rest =>
      do! m := search pattern text_lower in
      match m with
      | Some m => Ret (Some m)
      | None => first_match rest text_lower
      end
  end.

(** The running best of [classify_intent]. *)
Record best : Type := {
  best_intent : option Intent;
  best_score : Q;
  best_match : option Re.match_obj
}.

Definition classify_step (c : ConversationContext) (text : string)
    (b : best) (intent : Intent) : outcome best :=
  do! score := _score_intent c intent text in
  if Qgt_bool score (best_score b) then
    do! m := first_match (patterns intent) (Str.lower text) in
    Ret {| best_intent := Some intent;
           best_score := score;
           best_match := match m with
                         | Some m => Some m
                         | None => best_match b
                         end |}
  else Ret b.

Fixpoint classify_loop (c : ConversationContext) (text : string)
    (catalog : list Intent) (b : best) : outcome best :=
  match catalog with
  | [] => Ret b
  | intent :: rest =>
      do! b' := classify_step c text b intent in
      classify_loop c text rest b'
  end.

Definition classify_intent (self : AdvancedChatbot) (c : ConversationContext)
    (text : string) : outcome (option Intent * option Re.match_obj) :=
  do! b := classify_loop c text (intents self)
             {| best_intent := None; best_score := 0%Q; best_match := None |} in
  if Qgt_bool (best_score b) (1 # 2)%Q then Ret (best_intent b, best_match b)
  else Ret (None, None).

(** [intent.action(self, match)] *)
Definition run_action (a : action_fn) (m : option Re.match_obj) : M (option string) :=
  match a with
  | user_name_action =>
      run! g := mlift (match m with
                       | Some mo => group_str mo 1
                       | None => Raise AttributeError
                       end) in
      run! u := mmodify (set_user_data "name" (VStr (Str.title g))) in
      mret None
  | calculate_action => mret (Some (_calculate m))
  end.

(** The canned answers of [get_response] when no intent matches. *)
Definition defaults (l : Sentiment.label) : list string :=
  match l with
  | Sentiment.positive =>
      ["I love your positive energy! What else is on your mind?";
       "That sounds great! Tell me more.";
       "Wonderful! What else would you like to chat about?"]
  | Sentiment.negative =>
      ["I'm sorry to hear that. Is there anything I can help with?";
       "That sounds challenging. Want to talk about it?";
       "I understand. I'm here if you need to chat."]
  | Sentiment.neutral =>
      ["Interesting! Could you tell me more about that?";
       "I see. What else is on your mind?";
       "That's intriguing! Type 'help' to see what I can do.";
       "Hmm, I'm not quite sure what you mean. Try asking differently?"]
  end.

(** One turn. *)
Definition get_response (self : AdvancedChatbot) (rnd : nat)
    (now1 now2 : Clock.datetime) (user_input : string) : M string :=
  run! c := mget in
  run! classified := mlift (classify_intent self c user_input) in
  let '(intent, m) := classified in
  let sentiment := analyze user_input in
  match intent with
  | Some intent =>
      run! action_result :=
        (match action intent with
         | Some a => run_action a m
         | None => mret None
         end) in
      if nonempty action_result then
        run! c := mget in
        mlift (_fill_template self now1 now2 c (default "" action_result))
      else
        run! response := mlift (random_choice rnd (responses intent)) in
        run! c := mget in
        run! response := mlift (_fill_template self now1 now2 c response) in
        run! u := (if nonempty (context_set intent)
                   then mmodify (set_context (default "" (context_set intent)))
                   else mmodify clear_context) in
        mret response
  | None => mlift (random_choice rnd (defaults (fst sentiment)))
  end.

End WithRuntime.

End Demo1.

(** ** Definitions used to state the results *)

(** A natural number as a score. *)
Definition Qnat (n : nat) : Q := inject_Z (Z.of_nat n).

Definition is_found (r : Re.search_result) : bool :=
  match r with
  | Re.Found _ => true
  | _ => false
  end.

Definition is_bad (r : Re.search_result) : bool :=
  match r with
  | Re.BadPattern => true
  | _ => false
  end.

(** The number of patterns of the list that match the text. *)
Definition matching_patterns (re : Re.engine) (pats : list string) (text_lower : string)
  : nat :=
  length (List.filter (fun p => is_found (re p text_lower)) pats).

(** No pattern of the list is rejected by the engine on this text. *)
Definition all_compile (re : Re.engine) (pats : list string) (text_lower : string) : Prop :=
  Forall (fun p => re p text_lower <> Re.BadPattern) pats.

(** No pattern of any intent of a Demo1 catalog is rejected on this
    utterance. *)
Definition catalog_compiles (re : Re.engine) (catalog : list Demo1.Intent) (text : string)
  : Prop :=
  Forall (fun i => all_compile re (Demo1.patterns i) (Str.lower text)) catalog.

(** The score [Demo1._score_intent] returns, 0 standing in when it raises. *)
Definition score1 (re : Re.engine) (c : ConversationContext) (text : string)
    (i : Demo1.Intent) : Q :=
  match Demo1._score_intent re c i text with
  | Ret q => q
  | Raise _ => 0%Q
  end.

(** The score of an intent in Demo2, as a function of the intent. *)
Definition score2 (re : Re.engine) (c : ConversationContext) (text : string)
    (i : Demo2.Intent) : Q :=
  Demo2._score_intent re c i text.

(** The whitespace tokens of the lowercased utterance. *)
Definition tokens (text : string) : list string := Str.split (Str.lower text).

(** The number of distinct tokens of the text that are in a word set. *)
Definition overlap (words : gset string) (text : string) : nat :=
  length (List.filter (fun w => bool_decide (w ∈ words)) (remove_dups (tokens text))).

(** The number of distinct keywords that are tokens of the utterance. *)
Definition distinct_keywords_present (kws : list string) (text : string) : nat :=
  length (List.filter (fun k => bool_decide (k ∈ tokens text)) (remove_dups kws)).

(** The number of entries of the keyword list whose lower-case form is a
    token of the utterance. *)
Definition keyword_entries_present (kws : list string) (text : string) : nat :=
  length (List.filter (fun k => bool_decide (Str.lower k ∈ tokens text)) kws).

(** The context rule: with a required context, one point more when it is the
    current one, half the score otherwise. *)
Definition context_rule (required current : option string) (score : Q) : Q :=
  if nonempty required then
    if decide (current = required) then (score + 1)%Q else (score * (1 # 2))%Q
  else score.

(** The score of an intent as the specification words it: 2 for each
    matching pattern, 1/2 for each distinct keyword present, then the context
    rule. *)
Definition claimed_score (re : Re.engine) (pats kws : list string)
    (required current : option string) (text : string) : Q :=
  context_rule required current
    (2 * Qnat (matching_patterns re pats (Str.lower text))
     + (1 # 2) * Qnat (distinct_keywords_present kws text))%Q.

(** The patterns of a list that the engine does not reject on this text. *)
Definition without_bad (re : Re.engine) (text_lower : string) (pats : list string)
  : list string :=
  List.filter (fun p => negb (is_bad (re p text_lower))) pats.

(** A Demo2 intent with another pattern list. *)
Definition with_patterns (i : Demo2.Intent) (pats : list string) : Demo2.Intent :=
  {| Demo2.name := Demo2.name i; Demo2.patterns := pats;
     Demo2.responses := Demo2.responses i; Demo2.keywords := Demo2.keywords i;
     Demo2.context_set := Demo2.context_set i;
     Demo2.context_required := Demo2.context_required i;
     Demo2.action := Demo2.action i; Demo2.action_type := Demo2.action_type i |}.

(** A Demo2 chatbot with another catalog. *)
Definition with_intents (self : Demo2.AdvancedChatbot) (l : list Demo2.Intent)
  : Demo2.AdvancedChatbot :=
  {| Demo2.bot_name := Demo2.bot_name self; Demo2.intents := l;
     Demo2.unknown_positive := Demo2.unknown_positive self;
     Demo2.unknown_negative := Demo2.unknown_negative self;
     Demo2.unknown_neutral := Demo2.unknown_neutral self;
     Demo2.POSITIVE_WORDS := Demo2.POSITIVE_WORDS self;
     Demo2.NEGATIVE_WORDS := Demo2.NEGATIVE_WORDS self |}.

(** The intent, and the chatbot, without the patterns that are malformed. *)
Definition cleaned (re : Re.engine) (text : string) (i : Demo2.Intent) : Demo2.Intent :=
  with_patterns i (without_bad re (Str.lower text) (Demo2.patterns i)).

Definition cleaned_bot (re : Re.engine) (text : string) (self : Demo2.AdvancedChatbot)
  : Demo2.AdvancedChatbot :=
  with_intents self (map (cleaned re text) (Demo2.intents self)).

(** The patterns of a Demo2 catalog, in the order in which [classify_intent]
    first searches them. *)
Definition catalog_patterns (catalog : list Demo2.Intent) : list string :=
  flat_map Demo2.patterns catalog.

(** Two states with the same context tag and the same number of writes to
    it. *)
Definition same_context (c c' : ConversationContext) : Prop :=
  current_context c' = current_context c /\ context_writes c' = context_writes c.

(** The context update at the end of a turn that answers from a template. *)
Definition update_context (context_set : option string) (c : ConversationContext)
  : ConversationContext :=
  if nonempty context_set then set_context (default "" context_set) c
  else clear_context c.

(** The action step of a turn: the action of the intent, if it has one. *)
Definition action_step1 (pyval : Type) (py_eval : string -> outcome pyval)
    (py_str : pyval -> outcome string) (i : Demo1.Intent) (m : option Re.match_obj)
  : M (option string) :=
  match Demo1.action i with
  | Some a => Demo1.run_action pyval py_eval py_str a m
  | None => mret None
  end.

Definition action_step2 (pyval : Type) (py_eval : string -> outcome pyval)
    (py_str : pyval -> outcome string) (i : Demo2.Intent) (m : option Re.match_obj)
  : M (option string) :=
  match Demo2.action i with
  | Some a => Demo2.run_action pyval py_eval py_str a m
  | None => mret None
  end.

(** *** Templates *)

Definition is_brace (c : ascii) : bool := Ascii.eqb c "{" || Ascii.eqb c "}".

(** No brace occurs in the string. *)
Definition no_braces (s : string) : bool := Str.forallb (fun c => negb (is_brace c)) s.

(** No opening brace occurs in the string. *)
Definition no_lbrace (s : string) : bool := Str.forallb (fun c => negb (Ascii.eqb c "{")) s.

(** No closing brace occurs in the string. *)
Definition no_rbrace (s : string) : bool := Str.forallb (fun c => negb (Ascii.eqb c "}")) s.

(** The placeholder of a name: the name between braces. *)
Definition placeholder (x : string) : string := String "{" (x +:+ "}").

(** A template cut into pieces: plain text and placeholders. *)
Inductive segment : Type :=
| Text (t : string)
| Hole (x : string).

(** A piece that is the placeholder of [k] becomes the text [v]. *)
Definition fill_hole (k v : string) (seg : segment) : segment :=
  match seg with
  | Text t => Text t
  | Hole x => if String.eqb x k then Text v else Hole x
  end.

Definition render (seg : segment) : string :=
  match seg with
  | Text t => t
  | Hole x => placeholder x
  end.

Fixpoint template_of (segs : list segment) : string :=
  match segs with
  | [] => ""
  | seg :: rest => render seg +:+ template_of rest
  end.

(** Neither the text pieces nor the placeholder names hold a brace. *)
Definition well_formed (segs : list segment) : Prop :=
  Forall (fun seg => match seg with
                     | Text t => no_braces t = true
                     | Hole x => no_braces x = true
                     end) segs.

Fixpoint lookup_name (x : string) (env : list (string * string)) : option string :=
  match env with
  | [] => None
  | (k, v) :: rest => if String.eqb x k then Some v else lookup_name x rest
  end.

(** A piece with its placeholder, if it is one of [env], replaced by its
    value; any other placeholder stays as it is. *)
Definition substitute (env : list (string * string)) (seg : segment) : string :=
  match seg with
  | Text t => t
  | Hole x => match lookup_name x env with
              | Some v => v
              | None => placeholder x
              end
  end.

(** The template with every piece substituted. *)
Fixpoint substituted (env : list (string * string)) (segs : list segment) : string :=
  match segs with
  | [] => ""
  | seg :: rest => substitute env seg +:+ substituted env rest
  end.

(** A binding as an entry of the [replacements] dictionary. *)
Definition to_replacement (kv : string * string) : string * value :=
  (placeholder (fst kv), VStr (snd kv)).

(** The names and the values of the bindings hold no brace. *)
Definition plain_bindings (env : list (string * string)) : Prop :=
  Forall (fun kv => no_braces (fst kv) = true /\ no_braces (snd kv) = true) env.

(** The keys are placeholders of names without braces, none of them [x]. *)
Definition keys_miss (x : string) (reps : list (string * value)) : Prop :=
  Forall (fun r => exists k, fst r = placeholder k /\ no_braces k = true /\ x <> k) reps.

(** The string a fact holds, or the default when it is absent (or not a
    string). *)
Definition fact_or (key default : string) (c : ConversationContext) : string :=
  match get_user_data key c with
  | Some (VStr s) => s
  | _ => default
  end.

(** The facts the templates read are strings when present, as the actions
    leave them. *)
Definition facts_are_strings (c : ConversationContext) : Prop :=
  (forall v, get_user_data "name" c = Some v -> exists s, v = VStr s)
  /\ (forall v, get_user_data "birthday" c = Some v -> exists s, v = VStr s).

(** The placeholders each variant knows, with their values. *)
Definition bindings1 (self : Demo1.AdvancedChatbot) (now1 now2 : Clock.datetime)
    (c : ConversationContext) : list (string * string) :=
  [ ("bot_name", Demo1.bot_name self);
    ("user_name", fact_or "name" "friend" c);
    ("current_time", Clock.strftime_time now1);
    ("current_date", Clock.strftime_date now2) ].

Definition bindings2 (self : Demo2.AdvancedChatbot) (now1 now2 : Clock.datetime)
    (c : ConversationContext) : list (string * string) :=
  [ ("bot_name", Demo2.bot_name self);
    ("user_name", fact_or "name" "friend" c);
    ("current_time", Clock.strftime_time now1);
    ("current_date", Clock.strftime_date now2);
    ("user_birthday", fact_or "birthday" "unknown" c) ].

(** The text [_calculate] takes from a match: group 1 when the match used a
    group, the whole match otherwise. *)
Definition captured (m : Re.match_obj) : option string :=
  match Re.lastindex m with
  | Some (S _) => mjoin (Re.groups m !! 1%nat)
  | _ => mjoin (Re.groups m !! 0%nat)
  end.

(** The answer of [_calculate] for an expression that evaluates to a value
    shown as [shown]. *)
Definition result_text (expression shown : string) : string :=
  "The result of " +:+ expression +:+ " is **" +:+ shown +:+ "**".

(** The running best of a scan that replaces it on strict improvement only,
    over any score function: what [classify_intent] computes in both files,
    without the match. *)
Section RunningBest.

Context {I : Type} (sc : I -> Q).

Definition best_step (b : option I * Q) (x : I) : option I * Q :=
  if Qgt_bool (sc x) (snd b) then (Some x, sc x) else b.

Definition best_of (l : list I) : option I * Q := fold_left best_step l (None, 0%Q).

(** What the scan finds: nothing when no score is positive, otherwise the
    first element that reaches the greatest score. *)
Inductive first_max (l : list I) : option I * Q -> Prop :=
| first_max_none :
    Forall (fun j => (sc j <= 0)%Q) l ->
    first_max l (None, 0%Q)
| first_max_some (pre : list I) (i : I) (post : list I) :
    l = pre ++ i :: post ->
    (0 < sc i)%Q ->
    Forall (fun j => (sc j < sc i)%Q) pre ->
    Forall (fun j => (sc j <= sc i)%Q) post ->
    first_max l (Some i, sc i).

End RunningBest.

(** ** Example data *)

Module Ex.

(** A clock reading: Tuesday 3 November 2026, 14:05. *)
Definition now : Clock.datetime :=
  {| Clock.year := 2026; Clock.month := 11; Clock.day := 3;
     Clock.hour := 14; Clock.minute := 5 |}.

(** The state of a fresh session. *)
Definition fresh : ConversationContext := new_context now.

(** The chatbot of Demo1 under its default name. *)
Definition bot1 : Demo1.AdvancedChatbot := Demo1.new_chatbot "BERGEN TECH AI".

(** A Demo2 intent whose keyword list names one word twice, and one whose
    keyword is capitalised. *)
Definition twice : Demo2.Intent :=
  Demo2.build_intent
    {| Demo2.d_name := "greeting"; Demo2.d_patterns := [];
       Demo2.d_responses := ["Hello!"]; Demo2.d_keywords := Some ["hi"; "hi"];
       Demo2.d_context_set := None; Demo2.d_context_required := None;
       Demo2.d_action_type := None |}.

Definition capital : Demo2.Intent :=
  Demo2.build_intent
    {| Demo2.d_name := "greeting"; Demo2.d_patterns := [];
       Demo2.d_responses := ["Hello!"]; Demo2.d_keywords := Some ["Hi"];
       Demo2.d_context_set := None; Demo2.d_context_required := None;
       Demo2.d_action_type := None |}.

(** A configuration with the given intents and nothing else set. *)
Definition config_of (l : list Demo2.intent_data) : Demo2.config :=
  {| Demo2.cfg_bot_settings :=
       {| Demo2.default_name := None; Demo2.unknown_response_positive := None;
          Demo2.unknown_response_negative := None;
          Demo2.unknown_response_neutral := None |};
     Demo2.cfg_intents := l;
     Demo2.cfg_sentiment_words := None |}.

(** An intent entry with patterns, keywords and an action type only. *)
Definition entry (name : string) (pats kws : list string) (action_type : option string)
  : Demo2.intent_data :=
  {| Demo2.d_name := name; Demo2.d_patterns := pats;
     Demo2.d_responses := ["ok"]; Demo2.d_keywords := Some kws;
     Demo2.d_context_set := None; Demo2.d_context_required := None;
     Demo2.d_action_type := action_type |}.

(** Two intents engineered to score the same on "hello". *)
Definition tie_bot : Demo2.AdvancedChatbot :=
  Demo2.new_chatbot Demo2.initial_words
    (config_of [entry "hello_a" ["hello"] [] None; entry "hello_b" ["hello"] [] None])
    None.

(** The match of the pattern [calculate (.+)] on "calculate " followed by
    [capture]. *)
Definition calculate_match (capture : string) : Re.match_obj :=
  {| Re.groups := [Some ("calculate " +:+ capture); Some capture];
     Re.lastindex := Some 1%nat |}.

(** A Demo2 chatbot named like a placeholder. *)
Definition braces_bot : Demo2.AdvancedChatbot :=
  Demo2.new_chatbot Demo2.initial_words (config_of []) (Some "{user_name}").

(** A Demo2 configuration whose birthday intent has a pattern with a group
    and one without. *)
Definition birthday_bot : Demo2.AdvancedChatbot :=
  Demo2.new_chatbot Demo2.initial_words
    (config_of [entry "user_birthday" ["my birthday is (.+)"; "birthday"] ["birthday"]
                  (Some "store_user_birthday")])
    None.

(** The same shape for the name intent. *)
Definition name_bot : Demo2.AdvancedChatbot :=
  Demo2.new_chatbot Demo2.initial_words
    (config_of [entry "user_name" ["my name is (\w+)"; "name"] ["name"]
                  (Some "store_user_name")])
    None.

(** One turn of each variant with the example engine and evaluator, the
    first random draw and the example clock. *)
Definition turn1 (self : Demo1.AdvancedChatbot) (user_input : string) : M string :=
  Demo1.get_response PyRe.search Z PyEval.eval PyEval.format self 0 now now user_input.

Definition turn2 (self : Demo2.AdvancedChatbot) (user_input : string) : M string :=
  Demo2.get_response PyRe.search Z PyEval.eval PyEval.format self 0 now now user_input.

(** A Demo1 intent with a pattern that does not compile. *)
Definition unclosed : Demo1.Intent :=
  {| Demo1.name := "greeting"; Demo1.patterns := ["hello"; "("];
     Demo1.responses := ["Hello!"]; Demo1.keywords := ["hello"];
     Demo1.context_set := None; Demo1.context_required := None;
     Demo1.action := None |}.

(** The same intent in a Demo2 configuration. *)
Definition unclosed_bot : Demo2.AdvancedChatbot :=
  Demo2.new_chatbot Demo2.initial_words (config_of [entry "greeting" ["hello"; "("] ["hello"] None]) None.

(** A Demo2 configuration with an intent gated by a context and a later
    intent with three keywords. *)
Definition stale_bot : Demo2.AdvancedChatbot :=
  Demo2.new_chatbot Demo2.initial_words
    (config_of
       [ {| Demo2.d_name := "user_feeling_good"; Demo2.d_patterns := ["fine"];
            Demo2.d_responses := ["Wonderful to hear!"]; Demo2.d_keywords := None;
            Demo2.d_context_set := None;
            Demo2.d_context_required := Some "asked_user_feeling";
            Demo2.d_action_type := None |};
         entry "jokes" ["tell me a joke"] ["funny"; "laugh"; "humor"] None ])
    None.

(** A searcher that raises OverflowError on the pattern [a{4294967296}], as
    CPython does, and answers as [PyRe.search] on any other pattern. *)
Definition overflow_search : Re.searcher :=
  fun pattern text =>
    if String.eqb pattern "a{4294967296}" then Raise OverflowError
    else Re.lift PyRe.search pattern text.

(** A Demo2 greeting that holds this pattern after one that matches. *)
Definition too_large_bot : Demo2.AdvancedChatbot :=
  Demo2.new_chatbot Demo2.initial_words
    (config_of [entry "greeting" ["hello"; "a{4294967296}"] ["hello"] None]) None.

(** An intent without patterns or keywords. *)
Definition nothing : Demo1.Intent :=
  {| Demo1.name := ""; Demo1.patterns := []; Demo1.responses := [];
     Demo1.keywords := []; Demo1.context_set := None;
     Demo1.context_required := None; Demo1.action := None |}.

(** The [n]-th intent of the catalog of Demo1, from 0. *)
Definition intent1 (n : nat) : Demo1.Intent := nth n Demo1._setup_intents nothing.

End Ex.

(** * The rest of the two files: the last exchange, the configuration check,
      the statistics report and the chat loops *)

(** [get_last_exchange]: [self.history[-1] if self.history else None] *)
Definition get_last_exchange (c : ConversationContext) : option exchange :=
  last (history c).

(** [x in s] for two strings: [x] occurs in [s]. *)
Fixpoint occurs (x s : string) : bool :=
  match Str.strip_prefix x s with
  | Some _ => true
  | None =>
      match s with
      | EmptyString => false
      | String _ s' => occurs x s'
      end
  end.

(** ** Checking a configuration (class [ConfigLoader] of Demo2) *)

Module ConfigLoader.

(** What [json.load] returns.  A dictionary is the list of its entries in
    insertion order, each key once. *)
#[warnings="-register-all"] Inductive json : Type :=
| JNull
| JBool (b : bool)
| JNum (q : Q)
| JStr (s : string)
| JArr (l : list json)
| JObj (entries : list (string * json)).

(** What [validate_config] can raise: its own ValueError with a message, and
    what the built-in operations it uses raise. *)
Inductive error : Type :=
| ValueError (message : string)
| KeyError (key : string)
| Builtin (e : exn).

Inductive checked (A : Type) : Type :=
| Ok (a : A)
| Failed (e : error).
Arguments Ok {A} a.
Arguments Failed {A} e.

Definition is_str (x : string) (v : json) : bool :=
  match v with
  | JStr s => String.eqb s x
  | _ => false
  end.

(** [x in container] for a string [x]: a key of a dictionary, an element of
    a list, a part of a string; a TypeError for a number, a truth value or
    [None]. *)
Definition contains (container : json) (x : string) : outcome bool :=
  match container with
  | JObj entries => Ret (existsb (fun kv => String.eqb (fst kv) x) entries)
  | JArr l => Ret (existsb (is_str x) l)
  | JStr s => Ret (occurs x s)
  | JNull | JBool _ | JNum _ => Raise TypeError
  end.

(** [container[key]] for a string [key]. *)
Definition getitem (container : json) (key : string) : checked json :=
  match container with
  | JObj entries =>
      match List.find (fun kv => String.eqb (fst kv) key) entries with
      | Some kv => Ok (snd kv)
      | None => Failed (KeyError key)
      end
  | _ => Failed (Builtin TypeError)
  end.

(** What a [for] loop over the value runs through. *)
Definition iterate (v : json) : outcome (list json) :=
  match v with
  | JArr l => Ret l
  | JObj entries => Ret (map (fun kv => JStr (fst kv)) entries)
  | JStr s => Ret (map (fun c => JStr (String c EmptyString)) (list_ascii_of_string s))
  | JNull | JBool _ | JNum _ => Raise TypeError
  end.

Definition required_sections : list string := ["bot_settings"; "intents"].

Definition required_intent_fields : list string := ["name"; "patterns"; "responses"].

(** The loop over [required_sections]. *)
Fixpoint check_sections (sections : list string) (config : json) : checked unit :=
  match sections with
  | [] => Ok tt
  | section :: rest =>
      match contains config section with
      | Raise e => Failed (Builtin e)
      | Ret false =>
          Failed (ValueError ("Missing required section '" +:+ section +:+ "'"))
      | Ret true => check_sections rest config
      end
  end.

(** The loop over [required_intent_fields] for intent number [i]. *)
Fixpoint check_fields (i : nat) (fields : list string) (intent : json) : checked unit :=
  match fields with
  | [] => Ok tt
  | fld :: rest =>
      match contains intent fld with
      | Raise e => Failed (Builtin e)
      | Ret false =>
          Failed (ValueError ("Intent #" +:+ Str.of_nat i +:+ " missing field '"
                              +:+ fld +:+ "'"))
      | Ret true => check_fields i rest intent
      end
  end.

(** The loop over [enumerate(config["intents"])], from number [i]. *)
Fixpoint check_intents (i : nat) (intents : list json) : checked unit :=
  match intents with
  | [] => Ok tt
  | intent :: rest =>
      match check_fields i required_intent_fields intent with
      | Failed e => Failed e
      | Ok _ => check_intents (S i) rest
      end
  end.

(** [validate_config] *)
Definition validate_config (config : json) : checked bool :=
  match check_sections required_sections config with
  | Failed e => Failed e
  | Ok _ =>
      match getitem config "intents" with
      | Failed e => Failed e
      | Ok v =>
          match iterate v with
          | Raise e => Failed (Builtin e)
          | Ret intents =>
              match check_intents 0 intents with
              | Failed e => Failed e
              | Ok _ => Ok true
              end
          end
      end
  end.

End ConfigLoader.

(** ** What the chat loops read and print *)

(** What a turn draws from outside: the index [random.choice] picks, the two
    clock readings of [_fill_template], the clock reading of [add_exchange],
    and the whole seconds since the session started ([_show_stats]). *)
Record draws : Type := {
  drawn : nat;
  clock1 : Clock.datetime;
  clock2 : Clock.datetime;
  clock3 : Clock.datetime;
  seconds : Z
}.

(** What [input] gives at the prompt: a line, or Ctrl+C.  The end of the
    input, on which [input] raises at every call, is not among the events. *)
Inductive event : Type :=
| Line (text : string) (d : draws)
| Interrupt.

(** The lines of the statistics report that carry a figure.  Averages are
    given as the sum and the count, or as the exact quotient, that Python
    divides and rounds for display. *)
Inductive stats_line : Type :=
| TotalExchanges (n : nat)
| AvgUserLength (total count : nat)
| AvgBotLength (total count : nat)
| KnownAboutYou (facts : gmap string value)
| AverageSentiment (avg : Q)
| MostCommonWords (top_3 : list (string * nat))
| Duration (hours minutes secs : Z).

(** What the loop prints, without the decoration. *)
Inductive printed : Type :=
| Banner
| Says (response : string)
| Oops
| Goodbye
| Stats (report : list stats_line)
| SessionHad (exchanges : nat).

(** Whether the [while True] loop is still waiting for input. *)
Inductive status : Type := Running | Ended.

(** ** Demo1: [chat] and [main] *)

Module Session1.

Section WithRuntime.

Variable re_search : Re.engine.
Variable pyval : Type.
Variable py_eval : string -> outcome pyval.
Variable py_str : pyval -> outcome string.

Definition exit_words : list string := ["quit"; "exit"; "bye"; "goodbye"].

(** One pass through the body of the loop. *)
Definition chat_step (self : Demo1.AdvancedChatbot) (ev : event) (c : ConversationContext)
  : list printed * status * ConversationContext :=
  match ev with
  | Interrupt => ([Goodbye], Ended, c)
  | Line text d =>
      let user_input := Str.strip text in
      if String.eqb user_input "" then ([], Running, c)
      else
        match Demo1.get_response re_search pyval py_eval py_str self
                (drawn d) (clock1 d) (clock2 d) user_input c with
        | (Ret response, c') =>
            ([Says response],
             (if bool_decide (Str.lower user_input ∈ exit_words) then Ended else Running),
             add_exchange (clock3 d) user_input response c')
        | (Raise _, c') => ([Oops], Running, c')
        end
  end.

(** The loop over the events that arrive; [Running] when they end before
    the loop does. *)
Fixpoint chat_loop (self : Demo1.AdvancedChatbot) (events : list event)
    (c : ConversationContext) : list printed * status * ConversationContext :=
  match events with
  | [] => ([], Running, c)
  | ev :: rest =>
      match chat_step self ev c with
      | (out, Ended, c') => (out, Ended, c')
      | (out, Running, c') =>
          let '(out', st, c'') := chat_loop self rest c' in
          (out ++ out', st, c'')
      end
  end.

(** [chat] *)
Definition chat (self : Demo1.AdvancedChatbot) (events : list event)
    (c : ConversationContext) : list printed * status * ConversationContext :=
  let '(out, st, c') := chat_loop self events c in
  (Banner :: out, st, c').

(** [get_conversation_history] *)
Definition get_conversation_history (c : ConversationContext) : list exchange :=
  history c.

(** [main], started at [now]: what it prints, and whether it has ended. *)
Definition main (now : Clock.datetime) (events : list event) : list printed * status :=
  let bot := Demo1.new_chatbot "BERGEN TECH AI" in
  match chat bot events (new_context now) with
  | (out, Running, _) => (out, Running)
  | (out, Ended, c) =>
      let history := get_conversation_history c in
      (out ++ (if negb (Nat.eqb (length history) 0)
               then [SessionHad (length history)] else []),
       Ended)
  end.

End WithRuntime.

End Session1.

(** ** Demo2: [_show_stats], [chat] *)

Module Session2.

(** [re.findall(r"\b\w+\b", s)]: the maximal runs of word characters. *)
Fixpoint findall_words (s : string) : list string :=
  match s with
  | EmptyString => []
  | String c s' =>
      if PyRe.isword c then
        match s' with
        | EmptyString => [String c EmptyString]
        | String d _ =>
            if PyRe.isword d then
              match findall_words s' with
              | w :: ws => String c w :: ws
              | [] => [String c EmptyString]
              end
            else String c EmptyString :: findall_words s'
        end
      else findall_words s'
  end.

(** A dictionary of counts, in insertion order. *)
Definition tally : Type := list (string * nat).

(** [counts[key] += 1], or [counts[key] = 1] for a new key. *)
Fixpoint bump (key : string) (counts : tally) : tally :=
  match counts with
  | [] => [(key, 1%nat)]
  | (k, n) :: rest =>
      if String.eqb k key then (k, S n) :: rest else (k, n) :: bump key rest
  end.

(** [sorted(counts.items(), key=lambda item: item[1], reverse=True)]: by
    count, largest first; entries of equal count keep their order. *)
Fixpoint insert_desc (x : string * nat) (l : tally) : tally :=
  match l with
  | [] => [x]
  | y :: rest =>
      if (snd y <=? snd x)%nat then x :: y :: rest else y :: insert_desc x rest
  end.

Definition sorted_desc (counts : tally) : tally := foldr insert_desc [] counts.

(** The word count loop. *)
Definition word_counts (history : list exchange) : tally :=
  fold_left
    (fun counts exchange =>
       fold_left (fun counts word => bump word counts)
         (findall_words (Str.lower (user exchange))) counts)
    history [].

(** The chatbot with the exit commands its settings give. *)
Record Session : Type := {
  chatbot : Demo2.AdvancedChatbot;
  exit_commands : list string
}.

(** The part of [__init__] that reads [exit_commands]. *)
Definition new_session (words : gset string * gset string) (cfg : Demo2.config)
    (exit_commands_setting : option (list string)) (name : option string) : Session :=
  {| chatbot := Demo2.new_chatbot words cfg name;
     exit_commands := default ["quit"; "exit"] exit_commands_setting |}.

(** A local variable read before it is bound. *)
Inductive stats_error : Type := UnboundLocalError.

(** The nearest integer, a half going to the even one. *)
Definition round_half_even (q : Q) : Z :=
  let f := Qfloor q in
  match Qcompare (q - inject_Z f) (1 # 2) with
  | Lt => f
  | Gt => (f + 1)%Z
  | Eq => if Z.even f then f else (f + 1)%Z
  end.

(** The double that holds a sentiment score.  The score is 0 or at least 1/2
    and below 1 in size; the doubles there are the multiples of 2^-53, and
    the division that computes the score gives the nearest one. *)
Definition score_double (score : Q) : Q :=
  (inject_Z (round_half_even (score * inject_Z (2 ^ 53))) / inject_Z (2 ^ 53))%Q.

(** [round(x, 2)] for a double [x]: the nearest whole number of hundredths,
    a half going to the even one.  The double nearest to it is what Python
    keeps, and prints with two decimals at most. *)
Definition round2 (x : Q) : Q := (inject_Z (round_half_even (x * 100)) / 100)%Q.

Section WithRuntime.

Variable re_search : Re.engine.
Variable pyval : Type.
Variable py_eval : string -> outcome pyval.
Variable py_str : pyval -> outcome string.

(** The intent count loop. *)
Definition intent_counts (self : Demo2.AdvancedChatbot) (c : ConversationContext)
    (history : list exchange) : tally :=
  fold_left
    (fun counts exchange =>
       match fst (Demo2.classify_intent re_search self c (user exchange)) with
       | Some intent => bump (Demo2.name intent) counts
       | None => counts
       end)
    history [].

Definition most_used_intent (self : Demo2.AdvancedChatbot) (c : ConversationContext)
    (history : list exchange) : option string :=
  match sorted_desc (intent_counts self c history) with
  | [] => None
  | (name, _) :: _ => Some name
  end.

(** [_show_stats], [total_seconds] whole seconds into the session: the
    lines printed, and the exception if it raised.  [analysis] is bound by
    the loop over the history and read after it; the sum and the quotient of
    the average are those of doubles, exact for the one score there is; the
    most used intent is computed and not printed. *)
Definition _show_stats (self : Demo2.AdvancedChatbot) (total_seconds : Z)
    (c : ConversationContext) : list stats_line * option stats_error :=
  let history := history c in
  let out :=
    [TotalExchanges (length history)]
    ++ (if negb (Nat.eqb (length history) 0) then
          let user_lengths := map (fun h => String.length (user h)) history in
          let bot_lengths := map (fun h => String.length (bot h)) history in
          [AvgUserLength (list_sum user_lengths) (length user_lengths);
           AvgBotLength (list_sum bot_lengths) (length bot_lengths)]
        else [])
    ++ (if negb (Nat.eqb (size (user_data c)) 0) then [KnownAboutYou (user_data c)]
        else []) in
  let analysis :=
    fold_left
      (fun _ exchange =>
         Some (Sentiment.analyze (Demo2.POSITIVE_WORDS self) (Demo2.NEGATIVE_WORDS self)
                 (user exchange)))
      history None in
  match analysis with
  | None => (out, Some UnboundLocalError)
  | Some analysis =>
      let sentiment_scores := [snd analysis] in
      let avg :=
        round2 (fold_right Qplus 0 (map score_double sentiment_scores)
                / inject_Z (Z.of_nat (length sentiment_scores)))%Q in
      let top_3 := take 3 (sorted_desc (word_counts history)) in
      let most_used := most_used_intent self c history in
      let minutes := (total_seconds / 60)%Z in
      let secs := (total_seconds mod 60)%Z in
      let hours := (minutes / 60)%Z in
      let minutes := (minutes mod 60)%Z in
      (out ++ [AverageSentiment avg; MostCommonWords top_3; Duration hours minutes secs],
       None)
  end.

(** One pass through the body of the loop of [chat]. *)
Definition chat_step (self : Session) (ev : event) (c : ConversationContext)
  : list printed * status * ConversationContext :=
  match ev with
  | Interrupt => ([Goodbye], Ended, c)
  | Line text d =>
      let user_input := Str.strip text in
      if String.eqb user_input "" then ([], Running, c)
      else if String.eqb (Str.lower user_input) "stats" then
        match _show_stats (chatbot self) (seconds d) c with
        | (report, None) => ([Stats report], Running, c)
        | (report, Some _) => ([Stats report; Oops], Running, c)
        end
      else
        match Demo2.get_response re_search pyval py_eval py_str (chatbot self)
                (drawn d) (clock1 d) (clock2 d) user_input c with
        | (Ret response, c') =>
            ([Says response],
             (if bool_decide (Str.lower user_input ∈ exit_commands self)
              then Ended else Running),
             add_exchange (clock3 d) user_input response c')
        | (Raise _, c') => ([Oops], Running, c')
        end
  end.

Fixpoint chat_loop (self : Session) (events : list event) (c : ConversationContext)
  : list printed * status * ConversationContext :=
  match events with
  | [] => ([], Running, c)
  | ev :: rest =>
      match chat_step self ev c with
      | (out, Ended, c') => (out, Ended, c')
      | (out, Running, c') =>
          let '(out', st, c'') := chat_loop self rest c' in
          (out ++ out', st, c'')
      end
  end.

(** [chat] *)
Definition chat (self : Session) (events : list event) (c : ConversationContext)
  : list printed * status * ConversationContext :=
  let '(out, st, c') := chat_loop self events c in
  (Banner :: out, st, c').

End WithRuntime.

End Session2.

(** ** Definitions used to state the further results *)

(** The keys of [user_data] an action can assign: the favourites action
    assigns "favorites", "favorite_type" and "favorite_" followed by the
    kind of favourite. *)
Definition may_write2 (a : Demo2.action_fn) (key : string) : bool :=
  match a with
  | Demo2.store_name_action => String.eqb key "name"
  | Demo2.store_birthday_action => String.eqb key "birthday"
  | Demo2.save_note_action => String.eqb key "notes"
  | Demo2.store_favorites_action => String.prefix "favorite" key
  | Demo2.calculate_action | Demo2.show_notes_action => false
  end.

Definition may_write1 (a : Demo1.action_fn) (key : string) : bool :=
  match a with
  | Demo1.user_name_action => String.eqb key "name"
  | Demo1.calculate_action => false
  end.

(** From [c] to [c'] the history and the session start are the same, and so
    is every fact whose key is not [writable]. *)
Definition keeps (writable : string -> bool) (c c' : ConversationContext) : Prop :=
  history c' = history c /\ session_start c' = session_start c
  /\ forall key, writable key = false -> user_data c' !! key = user_data c !! key.

(** The action of an intent, or none. *)
Definition writable2 (i : option Demo2.Intent) (key : string) : bool :=
  match i with
  | Some i =>
      match Demo2.action i with
      | Some a => may_write2 a key
      | None => false
      end
  | None => false
  end.

Definition writable1 (i : option Demo1.Intent) (key : string) : bool :=
  match i with
  | Some i =>
      match Demo1.action i with
      | Some a => may_write1 a key
      | None => false
      end
  | None => false
  end.

(** The facts have the types the actions give them: the name and the
    birthday are strings, the notes a list, the favourites a dictionary. *)
Definition facts_well_typed (c : ConversationContext) : Prop :=
  facts_are_strings c
  /\ (forall v, get_user_data "notes" c = Some v -> exists l, v = VList l)
  /\ (forall v, get_user_data "favorites" c = Some v -> exists d, v = VDict d).

(** Group [i] of the match took part in it and holds [g]. *)
Definition captures (m : Re.match_obj) (i : nat) (g : string) : Prop :=
  Re.groups m !! i = Some (Some g).

(** The last group the match closed has number [n] at least. *)
Definition closed_group (m : Re.match_obj) (n : nat) : Prop :=
  exists k, Re.lastindex m = Some k /\ (n <= k)%nat.

(** The notes and the favourites remembered, none when the key is absent. *)
Definition notes_of (c : ConversationContext) : list string :=
  match get_user_data "notes" c with
  | Some (VList l) => l
  | _ => []
  end.

Definition favorites_of (c : ConversationContext) : gmap string string :=
  match get_user_data "favorites" c with
  | Some (VDict d) => d
  | _ => ∅
  end.

(** The state after the note action has run on each match in turn. *)
Definition after_notes (pyval : Type) (py_eval : string -> outcome pyval)
    (py_str : pyval -> outcome string) (ms : list Re.match_obj) (c : ConversationContext)
  : ConversationContext :=
  fold_left
    (fun c m => snd (Demo2.run_action pyval py_eval py_str Demo2.save_note_action (Some m) c))
    ms c.

(** Lines numbered from 1, one under the other. *)
Definition numbered (lines : list string) : string :=
  Str.join (String "010" "")
    (imap (fun i line => Str.of_nat (S i) +:+ ". " +:+ line) lines).

(** The kind of favourite as the favourites are filed: "band" under "music". *)
Definition filed_under (favorite_type : string) : string :=
  if String.eqb favorite_type "band" then "music" else favorite_type.

(** The context tag is none, or the tag, not empty, that an intent of the
    list sets. *)
Definition tag_from {I : Type} (context_set : I -> option string) (catalog : list I)
    (c : ConversationContext) : Prop :=
  current_context c = None
  \/ exists i, i ∈ catalog /\ context_set i = current_context c
               /\ nonempty (current_context c) = true.

(** The answers among the lines printed, in order. *)
Definition says (out : list printed) : list string :=
  omap (fun p => match p with Says s => Some s | _ => None end) out.

(** Ctrl+C, or a line that reads as one of the exit words. *)
Definition asks_to_leave (exit_words : list string) (ev : event) : Prop :=
  match ev with
  | Interrupt => True
  | Line text _ => Str.lower (Str.strip text) ∈ exit_words
  end.

(** The exchange was recorded for a line of the events that is not blank. *)
Definition recorded_from (events : list event) (x : exchange) : Prop :=
  user x <> "" /\ exists text d, Line text d ∈ events /\ user x = Str.strip text
                                 /\ timestamp x = clock3 d.

(** The loop of both chats, over the step of either. *)
Fixpoint run_loop
    (step : event -> ConversationContext -> list printed * status * ConversationContext)
    (events : list event) (c : ConversationContext)
  : list printed * status * ConversationContext :=
  match events with
  | [] => ([], Running, c)
  | ev :: rest =>
      match step ev c with
      | (out, Ended, c') => (out, Ended, c')
      | (out, Running, c') =>
          let '(out', st, c'') := run_loop step rest c' in
          (out ++ out', st, c'')
      end
  end.

(** The words of the user's lines in the history, in order, as
    [_show_stats] reads them. *)
Definition words_said (history : list exchange) : list string :=
  concat (map (fun exchange => Session2.findall_words (Str.lower (user exchange))) history).

(** How often [w] is among [words]. *)
Definition occurrences (w : string) (words : list string) : nat :=
  length (List.filter (String.eqb w) words).

(** The count a tally holds for [w], 0 when it has no entry. *)
Definition count_of (w : string) (counts : Session2.tally) : nat :=
  match List.find (fun entry => String.eqb (fst entry) w) counts with
  | Some entry => snd entry
  | None => 0%nat
  end.

(** The entries of a tally with the count [n], in order. *)
Definition with_count (n : nat) (counts : Session2.tally) : Session2.tally :=
  List.filter (fun entry => Nat.eqb (snd entry) n) counts.

(** The intent entry holds every required field. *)
Definition complete (intent : ConfigLoader.json) : Prop :=
  Forall (fun fld => ConfigLoader.contains intent fld = Ret true)
    ConfigLoader.required_intent_fields.

(** The messages of the two ValueErrors. *)
Definition missing_section (section : string) : string :=
  "Missing required section '" +:+ section +:+ "'".

Definition missing_field (i : nat) (fld : string) : string :=
  "Intent #" +:+ Str.of_nat i +:+ " missing field '" +:+ fld +:+ "'".

(** The keys of a dictionary. *)
Definition keys (entries : list (string * ConfigLoader.json)) : list string :=
  map fst entries.

(** A Demo1 intent as an entry of a Demo2 configuration, and as the intent
    Demo2 builds from it. *)
Definition as_entry (i : Demo1.Intent) : Demo2.intent_data :=
  {| Demo2.d_name := Demo1.name i;
     Demo2.d_patterns := Demo1.patterns i;
     Demo2.d_responses := Demo1.responses i;
     Demo2.d_keywords := Some (Demo1.keywords i);
     Demo2.d_context_set := Demo1.context_set i;
     Demo2.d_context_required := Demo1.context_required i;
     Demo2.d_action_type :=
       match Demo1.action i with
       | Some Demo1.user_name_action => Some "store_user_name"
       | Some Demo1.calculate_action => Some "calculate"
       | None => None
       end |}.

Definition as_demo2 (i : Demo1.Intent) : Demo2.Intent := Demo2.build_intent (as_entry i).

(** The keywords are in lower case and none is listed twice. *)
Definition plain_keywords (i : Demo1.Intent) : Prop :=
  NoDup (Demo1.keywords i) /\ Forall (fun k => Str.lower k = k) (Demo1.keywords i).

(** ** More example data *)

Module Sample.

(** The match of [note (.+)] on "note  buy milk " and on "note call bob". *)
Definition note1 : Re.match_obj :=
  {| Re.groups := [Some "note  buy milk "; Some " buy milk "];
     Re.lastindex := Some 1%nat |}.

Definition note2 : Re.match_obj :=
  {| Re.groups := [Some "note call bob"; Some "call bob"];
     Re.lastindex := Some 1%nat |}.

(** The match of [my favorite (\w+) is (.+)] on "my favorite band is queen". *)
Definition band : Re.match_obj :=
  {| Re.groups := [Some "my favorite band is queen"; Some "band"; Some "queen"];
     Re.lastindex := Some 2%nat |}.

(** The match of [my name is (\w+)] on "my name is alice". *)
Definition alice : Re.match_obj :=
  {| Re.groups := [Some "my name is alice"; Some "alice"];
     Re.lastindex := Some 1%nat |}.

(** What a turn of the examples draws: the first choice, the example clock,
    no time into the session. *)
Definition draw : draws :=
  {| drawn := 0; clock1 := Ex.now; clock2 := Ex.now; clock3 := Ex.now; seconds := 0 |}.

(** A configuration whose second intent has no responses. *)
Definition incomplete_config : ConfigLoader.json :=
  ConfigLoader.JObj
    [ ("bot_settings", ConfigLoader.JObj []);
      ("intents",
       ConfigLoader.JArr
         [ ConfigLoader.JObj
             [ ("name", ConfigLoader.JStr "greeting");
               ("patterns", ConfigLoader.JArr [ConfigLoader.JStr "hello"]);
               ("responses", ConfigLoader.JArr [ConfigLoader.JStr "Hello!"]) ];
           ConfigLoader.JObj
             [ ("name", ConfigLoader.JStr "farewell");
               ("patterns", ConfigLoader.JArr [ConfigLoader.JStr "bye"]) ] ]) ].

(** A configuration with one intent that has the three fields. *)
Definition greeting_entry : list (string * ConfigLoader.json) :=
  [ ("name", ConfigLoader.JStr "greeting");
    ("patterns", ConfigLoader.JArr [ConfigLoader.JStr "hello"]);
    ("responses", ConfigLoader.JArr [ConfigLoader.JStr "Hello!"]) ].

Definition complete_entries : list (string * ConfigLoader.json) :=
  [ ("bot_settings", ConfigLoader.JObj []);
    ("intents", ConfigLoader.JArr [ConfigLoader.JObj greeting_entry]) ].

(** The catalog of Demo1 as a Demo2 configuration would give it. *)
Definition bot1_as_demo2 : Demo2.AdvancedChatbot :=
  Demo2.new_chatbot Demo2.initial_words
    (Ex.config_of (map as_entry Demo1._setup_intents)) None.

(** A Demo2 chatbot whose configuration gives sentiment words. *)
Definition words_bot : Demo2.AdvancedChatbot :=
  Demo2.new_chatbot Demo2.initial_words
    {| Demo2.cfg_bot_settings := Demo2.cfg_bot_settings (Ex.config_of []);
       Demo2.cfg_intents := [];
       Demo2.cfg_sentiment_words := Some (["good"; "great"; "happy"], ["bad"; "sad"]) |}
    None.

(** The match of the first pattern of the greeting of Demo1 on "hello". *)
Definition hello : Re.match_obj :=
  {| Re.groups := [Some "hello"; Some "hello"]; Re.lastindex := Some 1%nat |}.

End Sample.

(** * Results *)

(** ** Scores *)

Lemma Qnat_S (n : nat) : (Qnat (S n) == Qnat n + 1)%Q.
Proof.
  unfold Qnat. rewrite Nat2Z.inj_succ. unfold Z.succ.
  rewrite inject_Z_plus. reflexivity.
Qed.

Lemma Qnat_nonneg (n : nat) : (0 <= Qnat n)%Q.
Proof.
  unfold Qnat. change 0%Q with (inject_Z 0). rewrite <- Zle_Qle. lia.
Qed.

Lemma Qgt_bool_true (a b : Q) : Qgt_bool a b = true <-> (b < a)%Q.
Proof.
  unfold Qgt_bool. rewrite negb_true_iff. split.
  - intros H. apply Qnot_le_lt. intros Hle. apply Qle_bool_iff in Hle. congruence.
  - intros H. destruct (Qle_bool a b) eqn:E; [|reflexivity].
    apply Qle_bool_iff in E. exfalso. apply (Qlt_not_le _ _ H E).
Qed.

Lemma Qgt_bool_false (a b : Q) : Qgt_bool a b = false <-> (a <= b)%Q.
Proof.
  unfold Qgt_bool. rewrite negb_false_iff. apply Qle_bool_iff.
Qed.

(** The size of an intersection with a set built from a list, counted on the
    list. *)
Lemma size_inter_list (words : gset string) (l : list string) :
  size (words ∩ list_to_set l)
  = length (List.filter (fun k => bool_decide (k ∈ words)) (remove_dups l)).
Proof.
  assert (Hnd : NoDup (List.filter (fun k => bool_decide (k ∈ words)) (remove_dups l))).
  { apply NoDup_ListNoDup, List.NoDup_filter, NoDup_ListNoDup, NoDup_remove_dups. }
  rewrite <- (size_list_to_set (C := gset string) _ Hnd).
  f_equal. apply set_eq. intros x.
  rewrite elem_of_intersection, !elem_of_list_to_set.
  rewrite (list_elem_of_In (List.filter _ _)), List.filter_In, <- list_elem_of_In.
  rewrite elem_of_remove_dups, bool_decide_eq_true. tauto.
Qed.
Lemma context_rule_proper (required current : option string) (a b : Q) :
  (a == b)%Q -> (context_rule required current a == context_rule required current b)%Q.
Proof.
  intros H. unfold context_rule.
  destruct (nonempty required); [|exact H].
  destruct (decide (current = required)); rewrite H; reflexivity.
Qed.

Lemma context_rule_nonneg (required current : option string) (a : Q) :
  (0 <= a)%Q -> (0 <= context_rule required current a)%Q.
Proof.
  intros H. unfold context_rule.
  destruct (nonempty required); [|exact H].
  destruct (decide (current = required)); lra.
Qed.

Section Scoring.

Variable re : Re.engine.

Lemma demo2_score_patterns (pats : list string) (t : string) (s : Q) :
  (Demo2.score_patterns re pats t s == s + 2 * Qnat (matching_patterns re pats t))%Q.
Proof.
  revert s. unfold Demo2.score_patterns, matching_patterns.
  induction pats as [|p pats IH]; intros s; simpl.
  - unfold Qnat. simpl. ring.
  - rewrite IH. destruct (re p t); simpl.
    + rewrite Qnat_S. ring.
    + reflexivity.
    + reflexivity.
Qed.

Lemma demo2_score_keywords (kws : list string) (words : gset string) (s : Q) :
  (Demo2.score_keywords kws words s
   == s + (1 # 2) * Qnat (length (List.filter
                                    (fun k => bool_decide (Str.lower k ∈ words)) kws)))%Q.
Proof.
  revert s. unfold Demo2.score_keywords.
  induction kws as [|k kws IH]; intros s; simpl.
  - unfold Qnat. simpl. ring.
  - rewrite IH. destruct (decide (Str.lower k ∈ words)) as [Hin|Hout].
    + rewrite (bool_decide_eq_true_2 _ Hin). simpl. rewrite Qnat_S. ring.
    + rewrite (bool_decide_eq_false_2 _ Hout). reflexivity.
Qed.

Lemma filter_tokens_set (f : string -> string) (kws : list string) (text : string) :
  List.filter (fun k => bool_decide (f k ∈ (list_to_set (tokens text) : gset string))) kws
  = List.filter (fun k => bool_decide (f k ∈ tokens text)) kws.
Proof.
  apply List.filter_ext. intros k. apply bool_decide_ext, elem_of_list_to_set.
Qed.

Lemma demo2_score (c : ConversationContext) (i : Demo2.Intent) (text : string) :
  (Demo2._score_intent re c i text
   == context_rule (Demo2.context_required i) (current_context c)
        (2 * Qnat (matching_patterns re (Demo2.patterns i) (Str.lower text))
         + (1 # 2) * Qnat (keyword_entries_present (Demo2.keywords i) text)))%Q.
Proof.
  unfold Demo2._score_intent, keyword_entries_present.
  set (s := Demo2.score_keywords _ _ _).
  assert (Hs : (s == 2 * Qnat (matching_patterns re (Demo2.patterns i) (Str.lower text))
                 + (1 # 2) * Qnat (length (List.filter
                     (fun k => bool_decide (Str.lower k ∈ tokens text))
                     (Demo2.keywords i))))%Q).
  { unfold s. rewrite demo2_score_keywords, demo2_score_patterns.
    change (Str.split (Str.lower text)) with (tokens text).
    rewrite (filter_tokens_set Str.lower). ring. }
  clearbody s.
  unfold context_rule.
  destruct (Demo2.context_required i) as [r|]; simpl; [|exact Hs].
  destruct (negb (r =? "")%string); [|exact Hs].
  destruct (decide (current_context c = Some r)); rewrite Hs; reflexivity.
Qed.

Lemma demo1_score_patterns (pats : list string) (t : string) (s : Q) :
  all_compile re pats t ->
  Demo1.score_patterns re pats t s = Ret (Demo2.score_patterns re pats t s).
Proof.
  unfold all_compile. intros H. revert s.
  induction H as [|p pats Hp _ IH]; intros s; simpl.
  - reflexivity.
  - unfold Demo1.search. destruct (re p t); simpl; try apply IH. congruence.
Qed.

Lemma demo1_score_patterns_bad (pats : list string) (t : string) (s : Q) :
  ~ all_compile re pats t -> Demo1.score_patterns re pats t s = Raise re_error.
Proof.
  unfold all_compile. revert s.
  induction pats as [|p pats IH]; intros s H; simpl.
  - exfalso. apply H. constructor.
  - unfold Demo1.search. destruct (re p t) eqn:E; simpl; try reflexivity.
    + apply IH. intros HF. apply H. constructor; [congruence|exact HF].
    + apply IH. intros HF. apply H. constructor; [congruence|exact HF].
Qed.

Lemma demo1_score (c : ConversationContext) (i : Demo1.Intent) (text : string) :
  all_compile re (Demo1.patterns i) (Str.lower text) ->
  exists q, Demo1._score_intent re c i text = Ret q
            /\ (q == claimed_score re (Demo1.patterns i) (Demo1.keywords i)
                       (Demo1.context_required i) (current_context c) text)%Q.
Proof.
  intros Hc. unfold Demo1._score_intent, claimed_score, distinct_keywords_present.
  rewrite (demo1_score_patterns _ _ _ Hc). simpl.
  rewrite size_inter_list.
  change (Str.split (Str.lower text)) with (tokens text).
  rewrite (filter_tokens_set (fun k => k)).
  set (n := length _).
  set (s := (Demo2.score_patterns re _ _ 0 + _)%Q).
  assert (Hs : (s == 2 * Qnat (matching_patterns re (Demo1.patterns i) (Str.lower text))
                 + (1 # 2) * Qnat n)%Q).
  { unfold s. rewrite demo2_score_patterns. fold (Qnat n). ring. }
  clearbody s. unfold context_rule.
  destruct (Demo1.context_required i) as [r|]; simpl.
  - destruct (negb (r =? "")%string).
    + destruct (decide (current_context c = Some r));
        eexists; (split; [reflexivity|]); rewrite Hs; reflexivity.
    + eexists; split; [reflexivity|exact Hs].
  - eexists; split; [reflexivity|exact Hs].
Qed.

End Scoring.
(** C1, counterexample: in Demo2 a keyword listed twice counts twice, and a
    keyword is compared in lower case.  With keywords [hi, hi], no pattern
    and the utterance "hi" the score is 1, while 2 per matching pattern plus
    1/2 per distinct keyword present gives 1/2; with the keyword [Hi] the
    score is 1/2, while [Hi] is no token of "hi". *)
Lemma score_counts_keyword_entries :
  ~ (Demo2._score_intent PyRe.search Ex.fresh Ex.twice "hi"
     == claimed_score PyRe.search (Demo2.patterns Ex.twice) (Demo2.keywords Ex.twice)
          (Demo2.context_required Ex.twice) (current_context Ex.fresh) "hi")%Q
  /\ ~ (Demo2._score_intent PyRe.search Ex.fresh Ex.capital "hi"
        == claimed_score PyRe.search (Demo2.patterns Ex.capital) (Demo2.keywords Ex.capital)
             (Demo2.context_required Ex.capital) (current_context Ex.fresh) "hi")%Q.
Proof.
  split; unfold Qeq; vm_compute; discriminate.
Qed.

(** C1 (amended): the score of an intent is 2 for each pattern that matches
    the lowercased utterance, plus 1/2 for keywords found among the
    whitespace tokens of the lowercased utterance -- in Demo1 for each
    distinct keyword that is a token as written (when no pattern is
    malformed), in Demo2 for each entry of the keyword list whose lower-case
    form is a token -- followed by the context rule: with a required context,
    plus 1 when it is the current one, otherwise the whole score is halved
    (2 becomes 3 on a match and 1 on a mismatch).  The score is never
    negative. *)
Theorem score_intent_formula (re : Re.engine) (c : ConversationContext) (text : string) :
  (forall i : Demo1.Intent,
      all_compile re (Demo1.patterns i) (Str.lower text) ->
      exists q, Demo1._score_intent re c i text = Ret q
                /\ (q == claimed_score re (Demo1.patterns i) (Demo1.keywords i)
                           (Demo1.context_required i) (current_context c) text)%Q
                /\ (0 <= q)%Q)
  /\ (forall i : Demo2.Intent,
         (Demo2._score_intent re c i text
          == context_rule (Demo2.context_required i) (current_context c)
               (2 * Qnat (matching_patterns re (Demo2.patterns i) (Str.lower text))
                + (1 # 2) * Qnat (keyword_entries_present (Demo2.keywords i) text)))%Q
         /\ (0 <= Demo2._score_intent re c i text)%Q)
  /\ (forall required current : option string,
         nonempty required = true ->
         (context_rule required current 2
          == if decide (current = required) then 3 else 1)%Q).
Proof.
  split; [|split].
  - intros i Hc. destruct (demo1_score re c i text Hc) as (q & Hq & Heq).
    exists q. split; [exact Hq|]. split; [exact Heq|].
    rewrite Heq. unfold claimed_score. apply context_rule_nonneg.
    pose proof (Qnat_nonneg (matching_patterns re (Demo1.patterns i) (Str.lower text))).
    pose proof (Qnat_nonneg (distinct_keywords_present (Demo1.keywords i) text)).
    lra.
  - intros i. pose proof (demo2_score re c i text) as Heq.
    split; [exact Heq|]. rewrite Heq. apply context_rule_nonneg.
    pose proof (Qnat_nonneg (matching_patterns re (Demo2.patterns i) (Str.lower text))).
    pose proof (Qnat_nonneg (keyword_entries_present (Demo2.keywords i) text)).
    lra.
  - intros required current Hset. unfold context_rule. rewrite Hset.
    destruct (decide (current = required)); reflexivity.
Qed.
(** C1, witness: the greeting intent of Demo1 on "hello there" scores 2.5
    (one pattern, one keyword). *)
Lemma score_intent_formula_witness :
  all_compile PyRe.search (Demo1.patterns (Ex.intent1 0)) (Str.lower "hello there")
  /\ exists q, Demo1._score_intent PyRe.search Ex.fresh (Ex.intent1 0) "hello there" = Ret q
               /\ (q == 5 # 2)%Q.
Proof.
  assert (Hc : all_compile PyRe.search (Demo1.patterns (Ex.intent1 0))
                 (Str.lower "hello there")).
  { repeat constructor; vm_compute; discriminate. }
  split; [exact Hc|].
  destruct (proj1 (score_intent_formula PyRe.search Ex.fresh "hello there")
              (Ex.intent1 0) Hc) as (q & Hq & Heq & _).
  exists q. split; [exact Hq|].
  rewrite Heq. vm_compute. reflexivity.
Defined.

(** ** The running best *)

Section RunningBestFacts.

Context {I : Type} (sc : I -> Q).

Lemma best_of_snoc (l : list I) (x : I) :
  best_of sc (l ++ [x]) = best_step sc (best_of sc l) x.
Proof.
  unfold best_of. rewrite fold_left_app. reflexivity.
Qed.

Lemma best_of_first_max (l : list I) : first_max sc l (best_of sc l).
Proof.
  induction l as [|x l IH] using rev_ind.
  - apply first_max_none. constructor.
  - rewrite best_of_snoc. unfold best_step.
    destruct IH as [Hall | pre i post Hl Hpos Hpre Hpost]; simpl.
    + destruct (Qgt_bool (sc x) 0) eqn:E.
      * apply Qgt_bool_true in E.
        apply (first_max_some sc _ l x []); [reflexivity|exact E| |constructor].
        eapply Forall_impl; [exact Hall|]. intros j Hj. simpl in Hj. lra.
      * apply Qgt_bool_false in E. apply first_max_none.
        apply Forall_app. split; [exact Hall|]. repeat constructor. exact E.
    + destruct (Qgt_bool (sc x) (sc i)) eqn:E.
      * apply Qgt_bool_true in E.
        apply (first_max_some sc _ l x []); [reflexivity|lra| |constructor].
        subst l. apply Forall_app. split.
        -- eapply Forall_impl; [exact Hpre|]. intros j Hj. simpl in Hj. lra.
        -- constructor; [exact E|].
           eapply Forall_impl; [exact Hpost|]. intros j Hj. simpl in Hj. lra.
      * apply Qgt_bool_false in E.
        apply (first_max_some sc _ pre i (post ++ [x])); [|exact Hpos|exact Hpre|].
        -- subst l. rewrite <- app_assoc. reflexivity.
        -- apply Forall_app. split; [exact Hpost|]. repeat constructor. exact E.
Qed.

(** The greatest score, or 0 when none is positive, bounds every score. *)
Lemma best_of_bound (l : list I) :
  Forall (fun j => (sc j <= snd (best_of sc l))%Q) l /\ (0 <= snd (best_of sc l))%Q.
Proof.
  destruct (best_of_first_max l) as [Hall | pre i post Hl Hpos Hpre Hpost]; simpl.
  - split; [exact Hall|lra].
  - split; [|lra]. subst l. apply Forall_app. split.
    + eapply Forall_impl; [exact Hpre|]. intros j Hj. simpl in Hj. lra.
    + constructor; [lra|exact Hpost].
Qed.

End RunningBestFacts.
(** ** Classification *)

Section Classification.

Variable re : Re.engine.
Variable c : ConversationContext.
Variable text : string.

Lemma demo2_loop_best (l : list Demo2.Intent) (b0 : Demo2.best) :
  let b := fold_left (Demo2.classify_step re c text) l b0 in
  (Demo2.best_intent b, Demo2.best_score b)
  = fold_left (best_step (score2 re c text)) l
      (Demo2.best_intent b0, Demo2.best_score b0).
Proof.
  revert b0. induction l as [|i l IH]; intros b0; simpl; [reflexivity|].
  rewrite IH. f_equal.
  unfold Demo2.classify_step, best_step, score2. simpl.
  destruct (Qgt_bool _ _); reflexivity.
Qed.

Lemma demo2_classify_best (self : Demo2.AdvancedChatbot) :
  let b := Demo2.classify_loop re c text (Demo2.intents self) in
  (Demo2.best_intent b, Demo2.best_score b)
  = best_of (score2 re c text) (Demo2.intents self).
Proof.
  unfold Demo2.classify_loop, best_of. apply demo2_loop_best.
Qed.

Lemma demo1_score_ret (i : Demo1.Intent) :
  all_compile re (Demo1.patterns i) (Str.lower text) ->
  Demo1._score_intent re c i text = Ret (score1 re c text i).
Proof.
  intros H. destruct (demo1_score re c i text H) as (q & Hq & _).
  unfold score1. rewrite Hq. reflexivity.
Qed.

Lemma demo1_first_match (pats : list string) (t : string) :
  all_compile re pats t ->
  Demo1.first_match re pats t = Ret (Demo2.first_match re pats t).
Proof.
  unfold all_compile. induction 1 as [|p pats Hp _ IH]; simpl; [reflexivity|].
  unfold Demo1.search. destruct (re p t); simpl; try exact IH; congruence.
Qed.

Lemma demo1_loop_best (l : list Demo1.Intent) (b0 : Demo1.best) :
  catalog_compiles re l text ->
  exists b, Demo1.classify_loop re c text l b0 = Ret b
            /\ (Demo1.best_intent b, Demo1.best_score b)
               = fold_left (best_step (score1 re c text)) l
                   (Demo1.best_intent b0, Demo1.best_score b0).
Proof.
  unfold catalog_compiles. intros H. revert b0.
  induction H as [|i l Hi _ IH]; intros b0; simpl.
  - exists b0. split; reflexivity.
  - unfold Demo1.classify_step. rewrite (demo1_score_ret i Hi). simpl.
    rewrite (demo1_first_match _ _ Hi). simpl.
    unfold best_step at 2. simpl.
    destruct (Qgt_bool (score1 re c text i) (Demo1.best_score b0)); simpl.
    + match goal with |- context [Demo1.classify_loop _ _ _ _ ?b] =>
        destruct (IH b) as (b' & Hb' & Heq) end.
      exists b'. split; [exact Hb'|exact Heq].
    + destruct (IH b0) as (b' & Hb' & Heq).
      exists b'. split; [exact Hb'|exact Heq].
Qed.

End Classification.
Section Threshold.

Context {I : Type} (sc : I -> Q).

(** The scan ends at or below 1/2 exactly when every score does. *)
Lemma best_of_low (l : list I) :
  Qgt_bool (snd (best_of sc l)) (1 # 2) = false
  <-> Forall (fun j => (sc j <= 1 # 2)%Q) l.
Proof.
  rewrite Qgt_bool_false. destruct (best_of_bound sc l) as [Hall Hpos]. split.
  - intros H. eapply Forall_impl; [exact Hall|]. intros j Hj. simpl in Hj. lra.
  - intros H.
    destruct (best_of_first_max sc l) as [_ | pre i post Hl _ _ _]; simpl; [lra|].
    subst l. apply Forall_app in H. destruct H as [_ H].
    apply Forall_cons in H. destruct H as [H _]. exact H.
Qed.

(** Above 1/2 the scan holds the first element with the greatest score. *)
Lemma best_of_high (l : list I) :
  Qgt_bool (snd (best_of sc l)) (1 # 2) = true ->
  exists pre i post,
    best_of sc l = (Some i, sc i) /\ l = pre ++ i :: post /\ (1 # 2 < sc i)%Q
    /\ Forall (fun j => (sc j < sc i)%Q) pre
    /\ Forall (fun j => (sc j <= sc i)%Q) post.
Proof.
  rewrite Qgt_bool_true.
  destruct (best_of_first_max sc l) as [_ | pre i post Hl _ Hpre Hpost]; simpl.
  - intros H. exfalso. lra.
  - intros H. exists pre, i, post. repeat split; assumption.
Qed.

Lemma high_not_all_low (l : list I) :
  Exists (fun j => (1 # 2 < sc j)%Q) l ->
  ~ Forall (fun j => (sc j <= 1 # 2)%Q) l.
Proof.
  intros HE HF. rewrite Exists_exists in HE. destruct HE as (j & Hj & Hlt).
  rewrite Forall_forall in HF. specialize (HF j Hj). simpl in HF. lra.
Qed.

Lemma first_max_all_le (pre post : list I) (i : I) :
  Forall (fun j => (sc j < sc i)%Q) pre ->
  Forall (fun j => (sc j <= sc i)%Q) post ->
  Forall (fun j => (sc j <= sc i)%Q) (pre ++ i :: post).
Proof.
  intros Hpre Hpost. apply Forall_app. split.
  - eapply Forall_impl; [exact Hpre|]. intros j Hj. simpl in Hj. lra.
  - constructor; [lra|exact Hpost].
Qed.


End Threshold.

Section Decision.

Variable re : Re.engine.
Variable c : ConversationContext.
Variable u : string.

(** What [Demo2.classify_intent] returns, from the scan. *)
Lemma demo2_classify_cases (self : Demo2.AdvancedChatbot) :
  (Forall (fun j => (score2 re c u j <= 1 # 2)%Q) (Demo2.intents self)
   /\ Demo2.classify_intent re self c u = (None, None))
  \/ (exists pre i post m,
        Demo2.classify_intent re self c u = (Some i, m)
        /\ Demo2.intents self = pre ++ i :: post
        /\ (1 # 2 < score2 re c u i)%Q
        /\ Forall (fun j => (score2 re c u j < score2 re c u i)%Q) pre
        /\ Forall (fun j => (score2 re c u j <= score2 re c u i)%Q) post).
Proof.
  unfold Demo2.classify_intent.
  pose proof (demo2_classify_best re c u self) as Hb. simpl in Hb.
  set (b := Demo2.classify_loop re c u (Demo2.intents self)) in *.
  assert (Hs : Demo2.best_score b = snd (best_of (score2 re c u) (Demo2.intents self))).
  { rewrite <- Hb. reflexivity. }
  assert (Hi : Demo2.best_intent b = fst (best_of (score2 re c u) (Demo2.intents self))).
  { rewrite <- Hb. reflexivity. }
  rewrite Hs.
  destruct (Qgt_bool (snd (best_of (score2 re c u) (Demo2.intents self))) (1 # 2)) eqn:E.
  - right. destruct (best_of_high _ _ E) as (pre & i & post & Hbest & Hl & Hgt & Hpre & Hpost).
    exists pre, i, post, (Demo2.best_match b).
    rewrite Hi, Hbest. simpl. repeat split; assumption.
  - left. split; [|reflexivity]. apply best_of_low. exact E.
Qed.

(** What [Demo1.classify_intent] returns when no pattern is malformed. *)
Lemma demo1_classify_cases (self : Demo1.AdvancedChatbot) :
  catalog_compiles re (Demo1.intents self) u ->
  (Forall (fun j => (score1 re c u j <= 1 # 2)%Q) (Demo1.intents self)
   /\ Demo1.classify_intent re self c u = Ret (None, None))
  \/ (exists pre i post m,
        Demo1.classify_intent re self c u = Ret (Some i, m)
        /\ Demo1.intents self = pre ++ i :: post
        /\ (1 # 2 < score1 re c u i)%Q
        /\ Forall (fun j => (score1 re c u j < score1 re c u i)%Q) pre
        /\ Forall (fun j => (score1 re c u j <= score1 re c u i)%Q) post).
Proof.
  intros Hc. unfold Demo1.classify_intent.
  destruct (demo1_loop_best re c u (Demo1.intents self)
              {| Demo1.best_intent := None; Demo1.best_score := 0;
                 Demo1.best_match := None |} Hc) as (b & Hb & Heq).
  rewrite Hb. simpl. simpl in Heq. fold (best_of (score1 re c u) (Demo1.intents self)) in Heq.
  assert (Hs : Demo1.best_score b = snd (best_of (score1 re c u) (Demo1.intents self))).
  { rewrite <- Heq. reflexivity. }
  assert (Hi : Demo1.best_intent b = fst (best_of (score1 re c u) (Demo1.intents self))).
  { rewrite <- Heq. reflexivity. }
  rewrite Hs.
  destruct (Qgt_bool (snd (best_of (score1 re c u) (Demo1.intents self))) (1 # 2)) eqn:E.
  - right. destruct (best_of_high _ _ E) as (pre & i & post & Hbest & Hl & Hgt & Hpre & Hpost).
    exists pre, i, post, (Demo1.best_match b).
    rewrite Hi, Hbest. simpl. repeat split; assumption.
  - left. split; [|reflexivity]. apply best_of_low. exact E.
Qed.

End Decision.
Lemma all_compile_dec (re : Re.engine) (pats : list string) (t : string) :
  {all_compile re pats t} + {~ all_compile re pats t}.
Proof.
  unfold all_compile. apply Forall_dec. intros p.
  destruct (re p t); [left|left|right]; congruence.
Qed.

Lemma demo1_score_ret_compiles (re : Re.engine) (c : ConversationContext)
    (i : Demo1.Intent) (text : string) (q : Q) :
  Demo1._score_intent re c i text = Ret q ->
  all_compile re (Demo1.patterns i) (Str.lower text).
Proof.
  intros H. destruct (all_compile_dec re (Demo1.patterns i) (Str.lower text)) as [Hc|Hn].
  - exact Hc.
  - exfalso. unfold Demo1._score_intent in H.
    rewrite (demo1_score_patterns_bad re _ _ _ Hn) in H. discriminate.
Qed.

Lemma demo1_loop_ret_compiles (re : Re.engine) (c : ConversationContext) (text : string)
    (l : list Demo1.Intent) (b0 b : Demo1.best) :
  Demo1.classify_loop re c text l b0 = Ret b -> catalog_compiles re l text.
Proof.
  unfold catalog_compiles. revert b0.
  induction l as [|i l IH]; intros b0 H; [constructor|].
  simpl in H. unfold Demo1.classify_step in H.
  destruct (Demo1._score_intent re c i text) as [q|e] eqn:Hq; [|discriminate].
  constructor; [eapply demo1_score_ret_compiles; exact Hq|].
  simpl in H. destruct (Qgt_bool q (Demo1.best_score b0)).
  - destruct (Demo1.first_match re (Demo1.patterns i) (Str.lower text)); [|discriminate].
    simpl in H. eapply IH. exact H.
  - simpl in H. eapply IH. exact H.
Qed.

Lemma demo1_classify_ret_compiles (re : Re.engine) (c : ConversationContext)
    (text : string) (self : Demo1.AdvancedChatbot)
    (r : option Demo1.Intent * option Re.match_obj) :
  Demo1.classify_intent re self c text = Ret r ->
  catalog_compiles re (Demo1.intents self) text.
Proof.
  unfold Demo1.classify_intent. intros H.
  destruct (Demo1.classify_loop re c text (Demo1.intents self) _) as [b|e] eqn:Hb;
    [|discriminate].
  eapply demo1_loop_ret_compiles. exact Hb.
Qed.

Lemma compiled_not_bad (p t : string) :
  PyRe.compile p <> None -> PyRe.search p t <> Re.BadPattern.
Proof.
  unfold PyRe.search. destruct (PyRe.compile p) as [[r ng]|]; [|congruence].
  intros _. destruct (PyRe.search_from r None t) as [[start st]|]; discriminate.
Qed.

Lemma compiled_catalog (l : list Demo1.Intent) (u : string) :
  List.forallb (fun i => List.forallb (fun p => bool_decide (is_Some (PyRe.compile p)))
                           (Demo1.patterns i)) l = true ->
  catalog_compiles PyRe.search l u.
Proof.
  unfold catalog_compiles, all_compile. intros H.
  rewrite List.forallb_forall in H. apply Forall_forall. intros i Hi.
  apply list_elem_of_In in Hi. specialize (H i Hi).
  rewrite List.forallb_forall in H. apply Forall_forall. intros p Hp.
  apply list_elem_of_In in Hp. specialize (H p Hp).
  apply bool_decide_eq_true in H. apply compiled_not_bad.
  destruct H as [x Hx]. congruence.
Qed.

(** Every pattern of the built-in catalog of Demo1 compiles. *)
Lemma builtin_catalog_compiles (name u : string) :
  catalog_compiles PyRe.search (Demo1.intents (Demo1.new_chatbot name)) u.
Proof. apply compiled_catalog. vm_compute. reflexivity. Qed.

(** C2: [classify] returns (none, none) exactly when every intent of the
    catalog scores at most 1/2 on the utterance under the current context;
    when some intent scores above 1/2 the returned intent is one of the
    catalog with the greatest score.  In Demo1, whose scorer raises on a
    malformed pattern, this is for catalogs without one, such as its
    built-in catalog, and then [classify] does return. *)
Theorem classify_none_iff_all_low :
  (forall (re : Re.engine) (c : ConversationContext) (u : string)
          (self : Demo2.AdvancedChatbot),
      (Demo2.classify_intent re self c u = (None, None)
       <-> Forall (fun j => (Demo2._score_intent re c j u <= 1 # 2)%Q) (Demo2.intents self))
      /\ (Exists (fun j => (1 # 2 < Demo2._score_intent re c j u)%Q) (Demo2.intents self) ->
          exists i m,
            Demo2.classify_intent re self c u = (Some i, m)
            /\ i ∈ Demo2.intents self
            /\ Forall (fun j => (Demo2._score_intent re c j u
                                 <= Demo2._score_intent re c i u)%Q)
                 (Demo2.intents self)))
  /\ (forall (re : Re.engine) (c : ConversationContext) (u : string)
             (self : Demo1.AdvancedChatbot),
         catalog_compiles re (Demo1.intents self) u ->
         Forall (fun j => Demo1._score_intent re c j u = Ret (score1 re c u j))
           (Demo1.intents self)
         /\ exists r,
             Demo1.classify_intent re self c u = Ret r
             /\ (r = (None, None)
                 <-> Forall (fun j => (score1 re c u j <= 1 # 2)%Q) (Demo1.intents self))
             /\ (Exists (fun j => (1 # 2 < score1 re c u j)%Q) (Demo1.intents self) ->
                 exists i m,
                   r = (Some i, m)
                   /\ i ∈ Demo1.intents self
                   /\ Forall (fun j => (score1 re c u j <= score1 re c u i)%Q)
                        (Demo1.intents self)))
  /\ (forall name u : string,
         catalog_compiles PyRe.search (Demo1.intents (Demo1.new_chatbot name)) u).
Proof.
  split; [|split].
  - intros re c u self.
    destruct (demo2_classify_cases re c u self)
      as [[Hlow Hnone] | (pre & i & post & m & Hcl & Hl & Hgt & Hpre & Hpost)];
      unfold score2 in *.
    + split.
      * rewrite Hnone. split; [intros _; exact Hlow|reflexivity].
      * intros HE. exfalso. exact (high_not_all_low _ _ HE Hlow).
    + split.
      * rewrite Hcl. split; [discriminate|].
        intros Hlow. exfalso. rewrite Hl in Hlow.
        apply Forall_app in Hlow. destruct Hlow as [_ Hlow].
        apply Forall_cons in Hlow. destruct Hlow as [Hlow _]. cbv beta in Hlow. lra.
      * intros _. exists i, m. split; [exact Hcl|]. split.
        -- rewrite Hl. apply elem_of_app. right. apply elem_of_cons. left. reflexivity.
        -- rewrite Hl.
           apply (first_max_all_le (fun j => Demo2._score_intent re c j u)); assumption.
  - intros re c u self Hc. split.
    { unfold catalog_compiles in Hc. eapply Forall_impl; [exact Hc|].
      intros j Hj. apply demo1_score_ret. exact Hj. }
    destruct (demo1_classify_cases re c u self Hc)
      as [[Hlow Hnone] | (pre & i & post & m & Hcl & Hl & Hgt & Hpre & Hpost)].
    + exists (None, None). split; [exact Hnone|]. split.
      * split; [intros _; exact Hlow|reflexivity].
      * intros HE. exfalso. exact (high_not_all_low _ _ HE Hlow).
    + exists (Some i, m). split; [exact Hcl|]. split.
      * split; [discriminate|].
        intros Hlow. exfalso. rewrite Hl in Hlow.
        apply Forall_app in Hlow. destruct Hlow as [_ Hlow].
        apply Forall_cons in Hlow. destruct Hlow as [Hlow _]. cbv beta in Hlow. lra.
      * intros _. exists i, m. split; [reflexivity|]. split.
        -- rewrite Hl. apply elem_of_app. right. apply elem_of_cons. left. reflexivity.
        -- rewrite Hl. apply (first_max_all_le (score1 re c u)); assumption.
  - apply builtin_catalog_compiles.
Qed.

(** C2, witness on the catalog of Demo1, all of whose patterns compile: no
    intent scores above 1/2 on "xyzzy", and it is not classified. *)
Lemma classify_none_iff_all_low_witness :
  catalog_compiles PyRe.search (Demo1.intents Ex.bot1) "xyzzy"
  /\ Demo1.classify_intent PyRe.search Ex.bot1 Ex.fresh "xyzzy" = Ret (None, None)
  /\ Forall (fun j => (score1 PyRe.search Ex.fresh "xyzzy" j <= 1 # 2)%Q)
       (Demo1.intents Ex.bot1).
Proof.
  pose proof (proj2 (proj2 classify_none_iff_all_low) "BERGEN TECH AI" "xyzzy") as Hc.
  split; [exact Hc|].
  destruct (proj1 (proj2 classify_none_iff_all_low) PyRe.search Ex.fresh "xyzzy" Ex.bot1 Hc)
    as (_ & r & Hr & Hiff & _).
  assert (E : Demo1.classify_intent PyRe.search Ex.bot1 Ex.fresh "xyzzy" = Ret (None, None))
    by (vm_compute; reflexivity).
  split; [exact E|].
  apply Hiff. rewrite E in Hr. injection Hr as <-. reflexivity.
Defined.

(** ** The arithmetic action *)

Lemma sanitize_app (a b : string) : sanitize (a +:+ b) = sanitize a +:+ sanitize b.
Proof.
  unfold sanitize. induction a as [|x a IH]; simpl; [reflexivity|].
  rewrite IH. destruct (arithmetic_char x); reflexivity.
Qed.

Lemma sanitize_only_arithmetic (s : string) :
  Str.forallb arithmetic_char (sanitize s) = true.
Proof.
  unfold sanitize. induction s as [|x s IH]; simpl; [reflexivity|].
  destruct (arithmetic_char x) eqn:E; simpl; [rewrite E|]; exact IH.
Qed.

Lemma sanitize_keeps_arithmetic (s : string) :
  Str.forallb arithmetic_char s = true -> sanitize s = s.
Proof.
  unfold sanitize. induction s as [|x s IH]; simpl; [reflexivity|].
  intros H. apply andb_true_iff in H. destruct H as [Hx Hs].
  rewrite Hx, (IH Hs). reflexivity.
Qed.

Section Calculate.

Variable pyval : Type.
Variable py_eval : string -> outcome pyval.
Variable py_str : pyval -> outcome string.

(** The two files have the same [_calculate]. *)
Lemma calculate_same (m : option Re.match_obj) :
  Demo1._calculate pyval py_eval py_str m = Demo2._calculate pyval py_eval py_str m.
Proof. reflexivity. Qed.

Lemma calculate_captured (m : Re.match_obj) (s : string) :
  captured m = Some s ->
  Demo2._calculate pyval py_eval py_str (Some m)
  = match py_eval (sanitize s) with
    | Ret v => match py_str v with
               | Ret shown => result_text (sanitize s) shown
               | Raise _ => apology
               end
    | Raise _ => apology
    end.
Proof.
  unfold captured, Demo2._calculate, Demo2.calculate_try, Re.group, result_text.
  intros H.
  destruct (Re.lastindex m) as [[|k]|];
    (destruct (Re.groups m !! _) as [[g|]|]; simpl in H; try discriminate;
     injection H as ->; simpl;
     destruct (py_eval (sanitize s)) as [v|e]; simpl; [|reflexivity];
     destruct (py_str v); reflexivity).
Qed.

Lemma calculate_not_captured (m : option Re.match_obj) :
  match m with Some m => captured m = None | None => True end ->
  Demo2._calculate pyval py_eval py_str m = apology.
Proof.
  destruct m as [m|]; [|reflexivity].
  unfold captured, Demo2._calculate, Demo2.calculate_try, Re.group.
  intros H.
  destruct (Re.lastindex m) as [[|k]|];
    (destruct (Re.groups m !! _) as [[g|]|]; simpl in H; try discriminate; reflexivity).
Qed.

End Calculate.
(** C4, counterexample: the capture "; rm -rf" does not clean up to the
    empty string; two blanks and the minus sign stay. *)
Lemma sanitize_rm_rf_not_empty : sanitize "; rm -rf" <> "".
Proof. vm_compute. discriminate. Qed.

(** C4 (amended): the arithmetic action keeps of the captured text exactly
    the digits, decimal points, parentheses, white space and [+ - * /], in
    order, and evaluates what is left; whenever a step fails (no match, no
    capture, [eval] or the formatting raises) it returns the fixed apology,
    and it never raises.  The capture "5 + 3abc" cleans up to "5 + 3" and
    evaluates to 8.  The capture "; rm -rf" cleans up to two blanks and a
    minus sign, which is not an expression, and the action returns the
    apology. *)
Theorem calculate_sanitizes_and_apologises :
  (forall (pyval : Type) (py_eval : string -> outcome pyval)
          (py_str : pyval -> outcome string) (m : option Re.match_obj),
      Demo1._calculate pyval py_eval py_str m = Demo2._calculate pyval py_eval py_str m
      /\ match m with
         | Some mo =>
             match captured mo with
             | Some s =>
                 Demo2._calculate pyval py_eval py_str m
                 = match py_eval (sanitize s) with
                   | Ret v => match py_str v with
                              | Ret shown => result_text (sanitize s) shown
                              | Raise _ => apology
                              end
                   | Raise _ => apology
                   end
             | None => Demo2._calculate pyval py_eval py_str m = apology
             end
         | None => Demo2._calculate pyval py_eval py_str m = apology
         end)
  /\ (forall a b : string, sanitize (a +:+ b) = sanitize a +:+ sanitize b)
  /\ (forall c : ascii,
         sanitize (String c "") = if arithmetic_char c then String c "" else "")
  /\ (forall c : ascii,
         arithmetic_char c = true
         <-> Str.isdigit c = true \/ Str.isspace c = true
             \/ c ∈ ["+"; "-"; "*"; "/"; "."; "("; ")"]%char)
  /\ (sanitize "5 + 3abc" = "5 + 3"
      /\ PyEval.eval "5 + 3" = Ret 8%Z
      /\ Demo2._calculate Z PyEval.eval PyEval.format (Some (Ex.calculate_match "5 + 3abc"))
         = "The result of 5 + 3 is **8**")
  /\ (sanitize "; rm -rf" = "  -"
      /\ PyEval.eval "  -" = Raise SyntaxError
      /\ Demo2._calculate Z PyEval.eval PyEval.format (Some (Ex.calculate_match "; rm -rf"))
         = apology).
Proof.
  split; [|split; [|split; [|split; [|split]]]].
  - intros pyval py_eval py_str m. split; [apply calculate_same|].
    destruct m as [mo|]; [|reflexivity].
    destruct (captured mo) as [s|] eqn:E.
    + apply calculate_captured. exact E.
    + apply (calculate_not_captured pyval py_eval py_str (Some mo)). exact E.
  - apply sanitize_app.
  - intros c. unfold sanitize. simpl. destruct (arithmetic_char c); reflexivity.
  - intros c. unfold arithmetic_char.
    rewrite !orb_true_iff, !Ascii.eqb_eq, !elem_of_cons, elem_of_nil.
    intuition congruence.
  - repeat split; vm_compute; reflexivity.
  - repeat split; vm_compute; reflexivity.
Qed.
(** ** Actions that raise *)

(** C5 (the code at the failing inputs): an action can raise, and
    [get_response] lets the exception through.  In Demo2 the birthday action
    compares [match.lastindex] with 1 although it is [None] for a match
    without groups, where the name action checks it first; in Demo1 the name
    action calls [group] on the match although an intent can win on keywords
    alone, without any match. *)
Theorem action_error_reaches_get_response :
  (forall (pyval : Type) (py_eval : string -> outcome pyval)
          (py_str : pyval -> outcome string) (m : Re.match_obj) (c : ConversationContext),
      Re.lastindex m = None ->
      Demo2.run_action pyval py_eval py_str Demo2.store_birthday_action (Some m) c
      = (Raise TypeError, c)
      /\ Demo2.run_action pyval py_eval py_str Demo2.store_name_action (Some m) c
         = (Ret None, c))
  /\ (forall (pyval : Type) (py_eval : string -> outcome pyval)
             (py_str : pyval -> outcome string) (c : ConversationContext),
         Demo1.run_action pyval py_eval py_str Demo1.user_name_action None c
         = (Raise AttributeError, c))
  /\ fst (Ex.turn2 Ex.birthday_bot "when is my birthday" Ex.fresh) = Raise TypeError
  /\ fst (Ex.turn2 Ex.name_bot "what is my name" Ex.fresh) = Ret "ok"
  /\ fst (Ex.turn1 Ex.bot1 "call am" Ex.fresh) = Raise AttributeError.
Proof.
  split; [|split; [|split; [|split]]].
  - intros pyval py_eval py_str m c H. simpl.
    unfold mbind', mlift, Demo2.lastindex_ge. rewrite H. split; reflexivity.
  - intros. reflexivity.
  - vm_compute. reflexivity.
  - vm_compute. reflexivity.
  - vm_compute. reflexivity.
Qed.

(** ** Malformed patterns *)

Section Malformed.

Variable re : Re.engine.

Lemma score_patterns_without_bad (pats : list string) (t : string) (s : Q) :
  Demo2.score_patterns re pats t s = Demo2.score_patterns re (without_bad re t pats) t s.
Proof.
  unfold Demo2.score_patterns, without_bad. revert s.
  induction pats as [|p pats IH]; intros s; simpl; [reflexivity|].
  destruct (re p t) eqn:E; simpl; try rewrite E; apply IH.
Qed.

Lemma first_match_without_bad (pats : list string) (t : string) :
  Demo2.first_match re pats t = Demo2.first_match re (without_bad re t pats) t.
Proof.
  unfold without_bad.
  induction pats as [|p pats IH]; simpl; [reflexivity|].
  destruct (re p t) eqn:E; simpl; try rewrite E; try reflexivity; apply IH.
Qed.

Lemma score_patterns_skip (pre post : list string) (p t : string) (s : Q) :
  re p t = Re.BadPattern ->
  Demo2.score_patterns re (pre ++ p :: post) t s = Demo2.score_patterns re (pre ++ post) t s.
Proof.
  intros H. unfold Demo2.score_patterns. rewrite !fold_left_app. simpl.
  rewrite H. reflexivity.
Qed.

Lemma first_match_skip (pre post : list string) (p t : string) :
  re p t = Re.BadPattern ->
  Demo2.first_match re (pre ++ p :: post) t = Demo2.first_match re (pre ++ post) t.
Proof.
  intros H. induction pre as [|x pre IH]; simpl.
  - rewrite H. reflexivity.
  - rewrite IH. reflexivity.
Qed.

Lemma score_cleaned (c : ConversationContext) (i : Demo2.Intent) (text : string) :
  Demo2._score_intent re c (cleaned re text i) text = Demo2._score_intent re c i text.
Proof.
  unfold Demo2._score_intent, cleaned. simpl.
  rewrite <- score_patterns_without_bad. reflexivity.
Qed.

Lemma classify_loop_cleaned (c : ConversationContext) (text : string)
    (l : list Demo2.Intent) (b0 b0' : Demo2.best) :
  Demo2.best_intent b0' = cleaned re text <$> Demo2.best_intent b0 ->
  Demo2.best_score b0' = Demo2.best_score b0 ->
  Demo2.best_match b0' = Demo2.best_match b0 ->
  let b := fold_left (Demo2.classify_step re c text) l b0 in
  let b' := fold_left (Demo2.classify_step re c text) (map (cleaned re text) l) b0' in
  Demo2.best_intent b' = cleaned re text <$> Demo2.best_intent b
  /\ Demo2.best_score b' = Demo2.best_score b
  /\ Demo2.best_match b' = Demo2.best_match b.
Proof.
  revert b0 b0'. induction l as [|i l IH]; intros b0 b0' Hi Hs Hm; simpl.
  - auto.
  - apply IH; unfold Demo2.classify_step; rewrite score_cleaned, Hs;
      destruct (Qgt_bool _ _); simpl; auto.
    rewrite <- first_match_without_bad, Hm. reflexivity.
Qed.

Lemma classify_cleaned (self : Demo2.AdvancedChatbot) (c : ConversationContext)
    (text : string) :
  Demo2.classify_intent re (cleaned_bot re text self) c text
  = (cleaned re text <$> fst (Demo2.classify_intent re self c text),
     snd (Demo2.classify_intent re self c text)).
Proof.
  unfold Demo2.classify_intent, Demo2.classify_loop, cleaned_bot. simpl.
  destruct (classify_loop_cleaned c text (Demo2.intents self)
              {| Demo2.best_intent := None; Demo2.best_score := 0;
                 Demo2.best_match := None |}
              {| Demo2.best_intent := None; Demo2.best_score := 0;
                 Demo2.best_match := None |} eq_refl eq_refl eq_refl)
    as (Hi & Hs & Hm).
  rewrite Hs. destruct (Qgt_bool _ _); simpl; [|reflexivity].
  rewrite Hi, Hm. reflexivity.
Qed.

Lemma demo1_score_bad (c : ConversationContext) (i : Demo1.Intent) (text : string) :
  ~ all_compile re (Demo1.patterns i) (Str.lower text) ->
  Demo1._score_intent re c i text = Raise re_error.
Proof.
  intros H. unfold Demo1._score_intent.
  rewrite (demo1_score_patterns_bad re _ _ _ H). reflexivity.
Qed.

Lemma demo1_loop_bad (c : ConversationContext) (text : string)
    (l : list Demo1.Intent) (b0 : Demo1.best) :
  ~ catalog_compiles re l text ->
  Demo1.classify_loop re c text l b0 = Raise re_error.
Proof.
  unfold catalog_compiles. revert b0.
  induction l as [|i l IH]; intros b0 H.
  - exfalso. apply H. constructor.
  - simpl. unfold Demo1.classify_step.
    destruct (all_compile_dec re (Demo1.patterns i) (Str.lower text)) as [Hc|Hn].
    + rewrite (demo1_score_ret re c text i Hc). simpl.
      rewrite (demo1_first_match re _ _ Hc). simpl.
      assert (Hl : ~ Forall (fun i => all_compile re (Demo1.patterns i) (Str.lower text)) l).
      { intros HF. apply H. constructor; assumption. }
      destruct (Qgt_bool _ _); simpl; apply IH; exact Hl.
    + rewrite (demo1_score_bad c i text Hn). reflexivity.
Qed.

End Malformed.
(** ** A search that raises more than re.error *)

Section Searcher.

Variable search : Re.searcher.
Variable re : Re.engine.
Hypothesis agree : forall p t, Re.restrict search p t = re p t.

Lemma first_crash_app (t : string) (l1 l2 : list string) :
  Re.first_crash search t (l1 ++ l2)
  = match Re.first_crash search t l1 with
    | Some e => Some e
    | None => Re.first_crash search t l2
    end.
Proof.
  induction l1 as [|p l1 IH]; simpl; [reflexivity|].
  destruct (Re.crash search t p); [reflexivity|exact IH].
Qed.

Lemma first_crash_filter (t : string) (keep : string -> bool) (l : list string) :
  Re.first_crash search t l = None -> Re.first_crash search t (List.filter keep l) = None.
Proof.
  induction l as [|p l IH]; simpl; [reflexivity|].
  destruct (Re.crash search t p) eqn:E; [discriminate|]. intros H.
  destruct (keep p); simpl; [rewrite E|]; apply IH; exact H.
Qed.

(** The first exception met is that of a pattern all of whose predecessors
    raise nothing but re.error. *)
Lemma first_crash_some (t : string) (l : list string) (e : exn) :
  Re.first_crash search t l = Some e
  <-> exists pre p post,
        l = pre ++ p :: post /\ search p t = Raise e /\ e <> re_error
        /\ Forall (fun p' => forall e', search p' t = Raise e' -> e' = re_error) pre.
Proof.
  split.
  - induction l as [|p l IH]; simpl; [discriminate|].
    destruct (Re.crash search t p) as [e'|] eqn:E.
    + intros [= ->]. exists [], p, l. split; [reflexivity|].
      unfold Re.crash in E. destruct (search p t) as [m|[]]; try discriminate;
        injection E as <-; repeat split; try discriminate; constructor.
    + intros H. destruct (IH H) as (pre & q & post & -> & Hq & Hne & Hpre).
      exists (p :: pre), q, post. split; [reflexivity|]. split; [exact Hq|].
      split; [exact Hne|]. constructor; [|exact Hpre].
      intros e' He'. unfold Re.crash in E. rewrite He' in E.
      destruct e'; try discriminate. reflexivity.
  - intros (pre & p & post & -> & Hp & Hne & Hpre).
    induction pre as [|x pre IH]; simpl.
    + unfold Re.crash. rewrite Hp. destruct e; try reflexivity. congruence.
    + apply Forall_cons in Hpre. destruct Hpre as [Hx Hpre].
      assert (Ex : Re.crash search t x = None).
      { unfold Re.crash. destruct (search x t) as [m|e'] eqn:E'; [reflexivity|].
        rewrite (Hx e' eq_refl). reflexivity. }
      rewrite Ex. apply IH. exact Hpre.
Qed.

Lemma guarded_search (p t : string) :
  Demo2Exn.guarded search p t
  = match Re.crash search t p with
    | Some e => Raise e
    | None => Ret (match re p t with Re.Found m => Some m | _ => None end)
    end.
Proof.
  rewrite <- agree. unfold Demo2Exn.guarded, Re.crash, Re.restrict.
  destruct (search p t) as [[m|]|[]]; reflexivity.
Qed.

Lemma searcher_score_patterns (pats : list string) (t : string) (q : Q) :
  Demo2Exn.score_patterns search pats t q
  = match Re.first_crash search t pats with
    | Some e => Raise e
    | None => Ret (Demo2.score_patterns re pats t q)
    end.
Proof.
  unfold Demo2.score_patterns. revert q.
  induction pats as [|p pats IH]; intros q; [reflexivity|].
  cbn [Demo2Exn.score_patterns Re.first_crash fold_left].
  rewrite guarded_search. destruct (Re.crash search t p); [reflexivity|].
  cbn [obind]. rewrite IH. destruct (re p t); reflexivity.
Qed.

Lemma searcher_first_match (pats : list string) (t : string) :
  Re.first_crash search t pats = None ->
  Demo2Exn.first_match search pats t = Ret (Demo2.first_match re pats t).
Proof.
  induction pats as [|p pats IH]; [reflexivity|].
  cbn [Demo2Exn.first_match Re.first_crash Demo2.first_match].
  rewrite guarded_search. destruct (Re.crash search t p); [discriminate|].
  intros H. cbn [obind]. destruct (re p t); try reflexivity; apply IH; exact H.
Qed.

Lemma searcher_score (c : ConversationContext) (i : Demo2.Intent) (text : string) :
  Demo2Exn._score_intent search c i text
  = match Re.first_crash search (Str.lower text) (Demo2.patterns i) with
    | Some e => Raise e
    | None => Ret (Demo2._score_intent re c i text)
    end.
Proof.
  unfold Demo2Exn._score_intent, Demo2._score_intent. cbv zeta.
  rewrite searcher_score_patterns.
  destruct (Re.first_crash search (Str.lower text) (Demo2.patterns i)); [reflexivity|].
  cbn [obind]. destruct (Demo2.context_required i) as [r|]; [|reflexivity].
  destruct (nonempty (Some r)); [|reflexivity].
  destruct (decide (current_context c = Some r)); reflexivity.
Qed.

Lemma searcher_step (c : ConversationContext) (text : string) (b : Demo2.best)
    (i : Demo2.Intent) :
  Demo2Exn.classify_step search c text b i
  = match Re.first_crash search (Str.lower text) (Demo2.patterns i) with
    | Some e => Raise e
    | None => Ret (Demo2.classify_step re c text b i)
    end.
Proof.
  unfold Demo2Exn.classify_step, Demo2.classify_step. rewrite searcher_score.
  destruct (Re.first_crash search (Str.lower text) (Demo2.patterns i)) eqn:E;
    [reflexivity|].
  cbn [obind]. cbv zeta. destruct (Qgt_bool _ _); [|reflexivity].
  rewrite (searcher_first_match _ _ E). reflexivity.
Qed.

Lemma searcher_loop (c : ConversationContext) (text : string) (l : list Demo2.Intent)
    (b : Demo2.best) :
  Demo2Exn.classify_loop search c text l b
  = match Re.first_crash search (Str.lower text) (catalog_patterns l) with
    | Some e => Raise e
    | None => Ret (fold_left (Demo2.classify_step re c text) l b)
    end.
Proof.
  unfold catalog_patterns. revert b. induction l as [|i l IH]; intros b; [reflexivity|].
  cbn [Demo2Exn.classify_loop flat_map fold_left].
  rewrite first_crash_app, searcher_step.
  destruct (Re.first_crash search (Str.lower text) (Demo2.patterns i)); [reflexivity|].
  cbn [obind]. apply IH.
Qed.

(** With a searcher [classify_intent] raises the first exception that is
    not re.error, and otherwise returns what it returns with the engine. *)
Lemma searcher_classify (self : Demo2.AdvancedChatbot) (c : ConversationContext)
    (text : string) :
  Demo2Exn.classify_intent search self c text
  = match Re.first_crash search (Str.lower text) (catalog_patterns (Demo2.intents self)) with
    | Some e => Raise e
    | None => Ret (Demo2.classify_intent re self c text)
    end.
Proof.
  unfold Demo2Exn.classify_intent, Demo2.classify_intent, Demo2.classify_loop.
  rewrite searcher_loop.
  destruct (Re.first_crash search (Str.lower text) (catalog_patterns (Demo2.intents self)));
    [reflexivity|].
  cbn [obind]. cbv zeta. destruct (Qgt_bool _ _); reflexivity.
Qed.

Lemma searcher_turn (pyval : Type) (py_eval : string -> outcome pyval)
    (py_str : pyval -> outcome string) (self : Demo2.AdvancedChatbot) (rnd : nat)
    (now1 now2 : Clock.datetime) (u : string) (c : ConversationContext) :
  Demo2Exn.get_response search pyval py_eval py_str self rnd now1 now2 u c
  = match Re.first_crash search (Str.lower u) (catalog_patterns (Demo2.intents self)) with
    | Some e => (Raise e, c)
    | None => Demo2.get_response re pyval py_eval py_str self rnd now1 now2 u c
    end.
Proof.
  unfold Demo2Exn.get_response, Demo2.get_response, mbind', mget, mlift.
  rewrite searcher_classify.
  destruct (Re.first_crash search (Str.lower u) (catalog_patterns (Demo2.intents self)));
    [reflexivity|].
  destruct (Demo2.classify_intent re self c u) as [i m]. reflexivity.
Qed.

End Searcher.

(** An engine is the searcher that raises re.error only. *)
Lemma restrict_lift (re : Re.engine) (p t : string) : Re.restrict (Re.lift re) p t = re p t.
Proof. unfold Re.restrict, Re.lift. destruct (re p t); reflexivity. Qed.

Lemma lift_no_crash (re : Re.engine) (t : string) (l : list string) :
  Re.first_crash (Re.lift re) t l = None.
Proof.
  induction l as [|p l IH]; simpl; [reflexivity|].
  unfold Re.crash at 1, Re.lift at 1. destruct (re p t); exact IH.
Qed.

Lemma exn_score_skip (search : Re.searcher) (pre post : list string) (p t : string)
    (q : Q) :
  search p t = Raise re_error ->
  Demo2Exn.score_patterns search (pre ++ p :: post) t q
  = Demo2Exn.score_patterns search (pre ++ post) t q.
Proof.
  intros H. revert q. induction pre as [|x pre IH]; intros q; simpl.
  - unfold Demo2Exn.guarded at 1. rewrite H. reflexivity.
  - destruct (Demo2Exn.guarded search x t); simpl; [apply IH|reflexivity].
Qed.

Lemma exn_first_match_skip (search : Re.searcher) (pre post : list string) (p t : string) :
  search p t = Raise re_error ->
  Demo2Exn.first_match search (pre ++ p :: post) t
  = Demo2Exn.first_match search (pre ++ post) t.
Proof.
  intros H. induction pre as [|x pre IH]; simpl.
  - unfold Demo2Exn.guarded at 1. rewrite H. reflexivity.
  - destruct (Demo2Exn.guarded search x t) as [[m|]|e]; simpl; [reflexivity|apply IH|reflexivity].
Qed.

Lemma cleaned_patterns (re : Re.engine) (text : string) (l : list Demo2.Intent) :
  catalog_patterns (map (cleaned re text) l)
  = flat_map (fun i => without_bad re (Str.lower text) (Demo2.patterns i)) l.
Proof.
  unfold catalog_patterns. induction l as [|i l IH]; simpl; [reflexivity|].
  rewrite IH. reflexivity.
Qed.

Lemma cleaned_no_crash (search : Re.searcher) (re : Re.engine) (text : string)
    (l : list Demo2.Intent) :
  Re.first_crash search (Str.lower text) (catalog_patterns l) = None ->
  Re.first_crash search (Str.lower text) (catalog_patterns (map (cleaned re text) l)) = None.
Proof.
  rewrite cleaned_patterns. unfold catalog_patterns.
  induction l as [|i l IH]; simpl; [reflexivity|].
  rewrite !first_crash_app.
  destruct (Re.first_crash search (Str.lower text) (Demo2.patterns i)) eqn:E;
    [discriminate|].
  intros H. unfold without_bad. rewrite (first_crash_filter search _ _ _ E).
  apply IH. exact H.
Qed.

(** C6, counterexamples.  In Demo1 the scorer raises re.error on an intent
    with a pattern that does not compile (here an unclosed parenthesis),
    although another pattern and a keyword of the intent match.  In Demo2 a
    pattern whose repetition count is too large makes [re.search] raise
    OverflowError, which the guard [except re.error] does not catch: the
    scorer and the classifier raise it, although the pattern before it
    matches. *)
Lemma malformed_pattern_counterexamples :
  Demo1._score_intent PyRe.search Ex.fresh Ex.unclosed "hello" = Raise re_error
  /\ Ex.overflow_search "a{4294967296}" "hello" = Raise OverflowError
  /\ Forall (fun i => Demo2Exn._score_intent Ex.overflow_search Ex.fresh i "hello"
                      = Raise OverflowError) (Demo2.intents Ex.too_large_bot)
  /\ Demo2.intents Ex.too_large_bot <> []
  /\ Demo2Exn.classify_intent Ex.overflow_search Ex.too_large_bot Ex.fresh "hello"
     = Raise OverflowError.
Proof.
  split; [vm_compute; reflexivity|]. split; [reflexivity|].
  split; [|split; [discriminate|vm_compute; reflexivity]].
  repeat constructor.
Qed.

(** C6 (amended): in Demo2 a pattern on which [re.search] raises re.error is
    passed over: the score of the intent, and the match recorded for it, are
    what they are without that pattern.  While re.error is the only
    exception the patterns of the catalog raise, scoring and classification
    return, and classification gives the same result as on the catalog
    without the malformed patterns.  An exception that is not re.error is
    not caught: the scorer raises the first one the patterns of the intent
    raise, the classifier the first one the patterns of the catalog raise.
    Demo1 does not guard [re.search]: scoring an intent with a malformed
    pattern raises re.error, and so does classification over a catalog that
    holds one. *)
Theorem malformed_pattern_skipped (search : Re.searcher) (c : ConversationContext)
    (text : string) :
  (forall (i : Demo2.Intent) (pre post : list string) (p : string),
      Demo2.patterns i = pre ++ p :: post ->
      search p (Str.lower text) = Raise re_error ->
      Demo2Exn._score_intent search c i text
      = Demo2Exn._score_intent search c (with_patterns i (pre ++ post)) text
      /\ Demo2Exn.first_match search (Demo2.patterns i) (Str.lower text)
         = Demo2Exn.first_match search (pre ++ post) (Str.lower text))
  /\ (forall self : Demo2.AdvancedChatbot,
         Re.first_crash search (Str.lower text) (catalog_patterns (Demo2.intents self))
         = None ->
         Forall (fun i => exists q, Demo2Exn._score_intent search c i text = Ret q)
           (Demo2.intents self)
         /\ exists r,
             Demo2Exn.classify_intent search self c text = Ret r
             /\ Demo2Exn.classify_intent search
                  (cleaned_bot (Re.restrict search) text self) c text
                = Ret (cleaned (Re.restrict search) text <$> fst r, snd r))
  /\ (forall (i : Demo2.Intent) (e : exn),
         Re.first_crash search (Str.lower text) (Demo2.patterns i) = Some e ->
         Demo2Exn._score_intent search c i text = Raise e)
  /\ (forall (self : Demo2.AdvancedChatbot) (e : exn),
         Re.first_crash search (Str.lower text) (catalog_patterns (Demo2.intents self))
         = Some e ->
         Demo2Exn.classify_intent search self c text = Raise e)
  /\ (forall (re : Re.engine) (i : Demo1.Intent),
         ~ all_compile re (Demo1.patterns i) (Str.lower text) ->
         Demo1._score_intent re c i text = Raise re_error)
  /\ (forall (re : Re.engine) (self : Demo1.AdvancedChatbot),
         ~ catalog_compiles re (Demo1.intents self) text ->
         Demo1.classify_intent re self c text = Raise re_error).
Proof.
  pose proof (fun p t => eq_refl (Re.restrict search p t)) as agree.
  split; [|split; [|split; [|split; [|split]]]].
  - intros i pre post p Hp Hbad. split.
    + unfold Demo2Exn._score_intent. simpl. rewrite Hp.
      rewrite (exn_score_skip search pre post p _ _ Hbad). reflexivity.
    + rewrite Hp. apply exn_first_match_skip. exact Hbad.
  - intros self Hsafe. split.
    + apply Forall_forall. intros i Hi.
      rewrite (searcher_score search _ agree).
      assert (Hn : Re.first_crash search (Str.lower text) (Demo2.patterns i) = None).
      { apply list_elem_of_In, in_split in Hi. destruct Hi as (l1 & l2 & Hl).
        unfold catalog_patterns in Hsafe. rewrite Hl, flat_map_app in Hsafe.
        rewrite first_crash_app in Hsafe.
        destruct (Re.first_crash search (Str.lower text) (flat_map Demo2.patterns l1));
          [discriminate|].
        simpl in Hsafe. rewrite first_crash_app in Hsafe.
        destruct (Re.first_crash search (Str.lower text) (Demo2.patterns i));
          [discriminate|reflexivity]. }
      rewrite Hn. eexists. reflexivity.
    + exists (Demo2.classify_intent (Re.restrict search) self c text). split.
      * rewrite (searcher_classify search _ agree), Hsafe. reflexivity.
      * rewrite (searcher_classify search _ agree).
        unfold cleaned_bot at 1. cbn [with_intents Demo2.intents].
        rewrite (cleaned_no_crash search _ _ _ Hsafe).
        rewrite classify_cleaned. reflexivity.
  - intros i e He. rewrite (searcher_score search _ agree), He. reflexivity.
  - intros self e He. rewrite (searcher_classify search _ agree), He. reflexivity.
  - intros re i H. apply demo1_score_bad. exact H.
  - intros re self H. unfold Demo1.classify_intent.
    rewrite (demo1_loop_bad re c text _ _ H). reflexivity.
Qed.

(** C6, witness: a Demo2 greeting intent with the patterns [hello] and an
    unclosed parenthesis, on which the search raises re.error, scores 2.5 on
    "hello", as it does without the parenthesis, and is the intent
    returned. *)
Lemma malformed_pattern_skipped_witness :
  exists i : Demo2.Intent,
    Demo2.intents Ex.unclosed_bot = [i]
    /\ Demo2.patterns i = ["hello"] ++ "(" :: []
    /\ Re.lift PyRe.search "(" (Str.lower "hello") = Raise re_error
    /\ Demo2Exn._score_intent (Re.lift PyRe.search) Ex.fresh i "hello"
       = Demo2Exn._score_intent (Re.lift PyRe.search) Ex.fresh
           (with_patterns i (["hello"] ++ [])) "hello"
    /\ (exists q, Demo2Exn._score_intent (Re.lift PyRe.search) Ex.fresh i "hello" = Ret q
                  /\ (q == 5 # 2)%Q)
    /\ exists m, Demo2Exn.classify_intent (Re.lift PyRe.search) Ex.unclosed_bot Ex.fresh
                   "hello" = Ret (Some i, m).
Proof.
  exists (Demo2.build_intent (Ex.entry "greeting" ["hello"; "("] ["hello"] None)).
  split; [reflexivity|]. split; [reflexivity|].
  assert (Hbad : Re.lift PyRe.search "(" (Str.lower "hello") = Raise re_error)
    by (vm_compute; reflexivity).
  split; [exact Hbad|]. split.
  - exact (proj1 (proj1 (malformed_pattern_skipped (Re.lift PyRe.search) Ex.fresh "hello")
                    (Demo2.build_intent (Ex.entry "greeting" ["hello"; "("] ["hello"] None))
                    ["hello"] [] "(" eq_refl Hbad)).
  - split.
    + eexists. split; [vm_compute; reflexivity|]. vm_compute. reflexivity.
    + eexists. vm_compute. reflexivity.
Defined.
(** ** Writes to the context tag *)

Lemma same_context_refl (c : ConversationContext) : same_context c c.
Proof. split; reflexivity. Qed.

Lemma same_context_set_user_data (k : string) (v : value) (c c' : ConversationContext) :
  same_context c c' -> same_context c (set_user_data k v c').
Proof. intros [H1 H2]. split; simpl; assumption. Qed.

Create HintDb ctx.

#[local] Hint Resolve same_context_refl same_context_set_user_data : ctx.

Ltac run_cases :=
  repeat (simpl; unfold mbind', mlift, mmodify, mget, mret, mraise;
          match goal with
          | |- context [match ?x with _ => _ end] => destruct x
          | |- context [if ?x then _ else _] => destruct x
          end);
  simpl; auto with ctx.

Section Writes.

Variable pyval : Type.
Variable py_eval : string -> outcome pyval.
Variable py_str : pyval -> outcome string.

Lemma store_favorites_same_context (t v : string) (c : ConversationContext) :
  same_context c (snd (Demo2.store_favorites t v c)).
Proof. unfold Demo2.store_favorites. run_cases. Qed.

Lemma demo2_action_same_context (a : Demo2.action_fn) (m : option Re.match_obj)
    (c : ConversationContext) :
  same_context c (snd (Demo2.run_action pyval py_eval py_str a m c)).
Proof.
  destruct a; try (run_cases; fail).
  simpl. unfold mbind' at 1.
  destruct (mlift (Demo2.lastindex_ge m 2) c) as [[[|]|e] c1] eqn:E1;
    unfold mlift in E1; injection E1 as _ <-; simpl; auto with ctx.
  unfold mbind' at 1. unfold mlift at 1.
  destruct (match m with Some mo => group_str mo 1 | None => Raise AttributeError end);
    simpl; auto with ctx.
  unfold mbind' at 1. unfold mlift at 1.
  destruct (match m with Some mo => group_str mo 2 | None => Raise AttributeError end);
    simpl; auto with ctx.
  unfold mbind' at 1.
  pose proof (store_favorites_same_context (Str.lower (Str.strip a)) (Str.strip a0) c) as H.
  destruct (Demo2.store_favorites _ _ c) as [[u|e] c2]; simpl in *; auto.
Qed.

Lemma demo1_action_same_context (a : Demo1.action_fn) (m : option Re.match_obj)
    (c : ConversationContext) :
  same_context c (snd (Demo1.run_action pyval py_eval py_str a m c)).
Proof. destruct a; run_cases. Qed.

Lemma action_step2_same_context (i : Demo2.Intent) (m : option Re.match_obj)
    (c : ConversationContext) :
  same_context c (snd (action_step2 pyval py_eval py_str i m c)).
Proof.
  unfold action_step2. destruct (Demo2.action i).
  - apply demo2_action_same_context.
  - apply same_context_refl.
Qed.

Lemma action_step1_same_context (i : Demo1.Intent) (m : option Re.match_obj)
    (c : ConversationContext) :
  same_context c (snd (action_step1 pyval py_eval py_str i m c)).
Proof.
  unfold action_step1. destruct (Demo1.action i).
  - apply demo1_action_same_context.
  - apply same_context_refl.
Qed.

End Writes.
Section Turn.

Variable re : Re.engine.
Variable pyval : Type.
Variable py_eval : string -> outcome pyval.
Variable py_str : pyval -> outcome string.

(** The paths of one turn of Demo2, after the action step. *)
Lemma demo2_turn (self : Demo2.AdvancedChatbot) (rnd : nat) (now1 now2 : Clock.datetime)
    (u : string) (c : ConversationContext) :
  Demo2.get_response re pyval py_eval py_str self rnd now1 now2 u c
  = match fst (Demo2.classify_intent re self c u) with
    | None =>
        (random_choice rnd
           (Demo2.unknown_responses self
              (fst (Sentiment.analyze (Demo2.POSITIVE_WORDS self)
                      (Demo2.NEGATIVE_WORDS self) u))), c)
    | Some i =>
        let r := action_step2 pyval py_eval py_str i
                   (snd (Demo2.classify_intent re self c u)) c in
        match fst r with
        | Raise e => (Raise e, snd r)
        | Ret res =>
            if nonempty res
            then (Demo2._fill_template self now1 now2 (snd r) (default "" res), snd r)
            else
              match random_choice rnd (Demo2.responses i) with
              | Raise e => (Raise e, snd r)
              | Ret response =>
                  match Demo2._fill_template self now1 now2 (snd r) response with
                  | Raise e => (Raise e, snd r)
                  | Ret filled => (Ret filled, update_context (Demo2.context_set i) (snd r))
                  end
              end
        end
    end.
Proof.
  unfold Demo2.get_response. unfold mbind' at 1. unfold mget at 1.
  destruct (Demo2.classify_intent re self c u) as [[i|] m]; simpl; [|reflexivity].
  fold (action_step2 pyval py_eval py_str i m).
  unfold mbind' at 1.
  destruct (action_step2 pyval py_eval py_str i m c) as [[res|e] c1]; simpl; [|reflexivity].
  destruct (nonempty res).
  - reflexivity.
  - unfold mbind', mlift, mget, mmodify, mret, update_context. simpl.
    destruct (random_choice rnd (Demo2.responses i)); [|reflexivity].
    destruct (Demo2._fill_template self now1 now2 c1 a); [|reflexivity].
    destruct (nonempty (Demo2.context_set i)); reflexivity.
Qed.

(** The paths of one turn of Demo1. *)
Lemma demo1_turn (self : Demo1.AdvancedChatbot) (rnd : nat) (now1 now2 : Clock.datetime)
    (u : string) (c : ConversationContext) :
  Demo1.get_response re pyval py_eval py_str self rnd now1 now2 u c
  = match Demo1.classify_intent re self c u with
    | Raise e => (Raise e, c)
    | Ret (None, _) =>
        (random_choice rnd (Demo1.defaults (fst (Demo1.analyze u))), c)
    | Ret (Some i, m) =>
        let r := action_step1 pyval py_eval py_str i m c in
        match fst r with
        | Raise e => (Raise e, snd r)
        | Ret res =>
            if nonempty res
            then (Demo1._fill_template self now1 now2 (snd r) (default "" res), snd r)
            else
              match random_choice rnd (Demo1.responses i) with
              | Raise e => (Raise e, snd r)
              | Ret response =>
                  match Demo1._fill_template self now1 now2 (snd r) response with
                  | Raise e => (Raise e, snd r)
                  | Ret filled => (Ret filled, update_context (Demo1.context_set i) (snd r))
                  end
              end
        end
    end.
Proof.
  unfold Demo1.get_response. unfold mbind' at 1. unfold mget at 1.
  unfold mbind' at 1. unfold mlift at 1.
  destruct (Demo1.classify_intent re self c u) as [[[i|] m]|e]; simpl;
    [|reflexivity|reflexivity].
  fold (action_step1 pyval py_eval py_str i m).
  unfold mbind' at 1.
  destruct (action_step1 pyval py_eval py_str i m c) as [[res|e] c1]; simpl; [|reflexivity].
  destruct (nonempty res).
  - reflexivity.
  - unfold mbind', mlift, mget, mmodify, mret, update_context. simpl.
    destruct (random_choice rnd (Demo1.responses i)); [|reflexivity].
    destruct (Demo1._fill_template self now1 now2 c1 a); [|reflexivity].
    destruct (nonempty (Demo1.context_set i)); reflexivity.
Qed.

End Turn.
Lemma update_context_effect (cs : option string) (c : ConversationContext) :
  context_writes (update_context cs c) = S (context_writes c)
  /\ current_context (update_context cs c) = (if nonempty cs then cs else None).
Proof.
  unfold update_context. destruct cs as [s|]; simpl; [|split; reflexivity].
  destruct (negb (s =? "")%string); split; reflexivity.
Qed.

(** C7, counterexample: a turn in which no intent matches ("xyzzy"), and a
    turn answered by the arithmetic action ("calculate 5 + 3"), do not write
    the context tag at all. *)
Lemma turn_without_context_write :
  context_writes (snd (Ex.turn1 Ex.bot1 "xyzzy" Ex.fresh)) <> S (context_writes Ex.fresh)
  /\ context_writes (snd (Ex.turn1 Ex.bot1 "calculate 5 + 3" Ex.fresh))
     <> S (context_writes Ex.fresh)
  /\ context_writes (snd (Ex.turn2 Ex.tie_bot "xyzzy" Ex.fresh)) <> S (context_writes Ex.fresh).
Proof. repeat split; vm_compute; discriminate. Qed.

(** C7 (amended): a turn writes the context tag at most once.  It writes it
    exactly once -- to the tag the intent sets, or to none -- when an intent
    matched, its action left the answer to the templates, and a template
    was drawn and filled; the turn then returns that answer.  When no intent
    matches the state is left as it was; when the action answers by itself,
    or anything raises, the tag is not written. *)
Theorem context_written_at_most_once (re : Re.engine) (pyval : Type)
    (py_eval : string -> outcome pyval) (py_str : pyval -> outcome string)
    (rnd : nat) (now1 now2 : Clock.datetime) (u : string) (c : ConversationContext) :
  (forall self : Demo2.AdvancedChatbot,
      let r := Demo2.get_response re pyval py_eval py_str self rnd now1 now2 u c in
      let cl := Demo2.classify_intent re self c u in
      (same_context c (snd r)
       \/ exists i filled,
           fst cl = Some i /\ fst r = Ret filled
           /\ context_writes (snd r) = S (context_writes c)
           /\ current_context (snd r)
              = (if nonempty (Demo2.context_set i) then Demo2.context_set i else None))
      /\ (fst cl = None -> snd r = c)
      /\ (forall i, fst cl = Some i ->
            match fst (action_step2 pyval py_eval py_str i (snd cl) c) with
            | Raise e => fst r = Raise e /\ same_context c (snd r)
            | Ret res =>
                if nonempty res then same_context c (snd r)
                else match fst r with
                     | Ret _ => context_writes (snd r) = S (context_writes c)
                     | Raise _ => same_context c (snd r)
                     end
            end))
  /\ (forall self : Demo1.AdvancedChatbot,
         let r := Demo1.get_response re pyval py_eval py_str self rnd now1 now2 u c in
         (same_context c (snd r)
          \/ exists i m filled,
              Demo1.classify_intent re self c u = Ret (Some i, m) /\ fst r = Ret filled
              /\ context_writes (snd r) = S (context_writes c)
              /\ current_context (snd r)
                 = (if nonempty (Demo1.context_set i) then Demo1.context_set i else None))
         /\ (forall m, Demo1.classify_intent re self c u = Ret (None, m) -> snd r = c)
         /\ (forall e, Demo1.classify_intent re self c u = Raise e -> r = (Raise e, c))
         /\ (forall i m, Demo1.classify_intent re self c u = Ret (Some i, m) ->
               match fst (action_step1 pyval py_eval py_str i m c) with
               | Raise e => fst r = Raise e /\ same_context c (snd r)
               | Ret res =>
                   if nonempty res then same_context c (snd r)
                   else match fst r with
                        | Ret _ => context_writes (snd r) = S (context_writes c)
                        | Raise _ => same_context c (snd r)
                        end
               end)).
Proof.
  split.
  - intros self r cl. subst r cl. rewrite demo2_turn.
    destruct (Demo2.classify_intent re self c u) as [[i|] m]; simpl.
    + pose proof (action_step2_same_context pyval py_eval py_str i m c) as Hsame.
      destruct (action_step2 pyval py_eval py_str i m c) as [[res|e] c1] eqn:Est; simpl in *.
      * assert (Hmain :
          forall r,
            r = (if nonempty res
                 then (Demo2._fill_template self now1 now2 c1 (default "" res), c1)
                 else match random_choice rnd (Demo2.responses i) with
                      | Ret response =>
                          match Demo2._fill_template self now1 now2 c1 response with
                          | Ret filled => (Ret filled, update_context (Demo2.context_set i) c1)
                          | Raise e => (Raise e, c1)
                          end
                      | Raise e => (Raise e, c1)
                      end) ->
            (same_context c (snd r)
             \/ exists i0 filled,
                 Some i = Some i0 /\ fst r = Ret filled
                 /\ context_writes (snd r) = S (context_writes c)
                 /\ current_context (snd r)
                    = (if nonempty (Demo2.context_set i0)
                       then Demo2.context_set i0 else None))
            /\ (if nonempty res then same_context c (snd r)
                else match fst r with
                     | Ret _ => context_writes (snd r) = S (context_writes c)
                     | Raise _ => same_context c (snd r)
                     end)).
        { intros r ->. destruct (nonempty res); simpl; [auto|].
          destruct (random_choice rnd (Demo2.responses i)) as [response|e]; simpl; [|auto].
          destruct (Demo2._fill_template self now1 now2 c1 response) as [filled|e];
            simpl; [|auto].
          destruct (update_context_effect (Demo2.context_set i) c1) as [Hw Hc].
          destruct Hsame as [Hc1 Hw1]. rewrite Hw1 in Hw.
          split; [|exact Hw]. right. exists i, filled. auto. }
        destruct (Hmain _ eq_refl) as [H1 H2].
        split; [exact H1|]. split; [discriminate|].
        intros i0 Hi0. injection Hi0 as <-. rewrite Est. simpl. exact H2.
      * split; [left; exact Hsame|]. split; [discriminate|].
        intros i0 Hi0. injection Hi0 as <-. rewrite Est. simpl. auto.
    + split; [left; apply same_context_refl|]. split; [reflexivity|]. discriminate.
  - intros self r. subst r. rewrite demo1_turn.
    destruct (Demo1.classify_intent re self c u) as [[[i|] m]|e]; simpl.
    + pose proof (action_step1_same_context pyval py_eval py_str i m c) as Hsame.
      destruct (action_step1 pyval py_eval py_str i m c) as [[res|e] c1] eqn:Est; simpl in *.
      * assert (Hmain :
          forall r,
            r = (if nonempty res
                 then (Demo1._fill_template self now1 now2 c1 (default "" res), c1)
                 else match random_choice rnd (Demo1.responses i) with
                      | Ret response =>
                          match Demo1._fill_template self now1 now2 c1 response with
                          | Ret filled => (Ret filled, update_context (Demo1.context_set i) c1)
                          | Raise e => (Raise e, c1)
                          end
                      | Raise e => (Raise e, c1)
                      end) ->
            (same_context c (snd r)
             \/ exists i0 m0 filled,
                 Ret (Some i, m) = Ret (Some i0, m0) /\ fst r = Ret filled
                 /\ context_writes (snd r) = S (context_writes c)
                 /\ current_context (snd r)
                    = (if nonempty (Demo1.context_set i0)
                       then Demo1.context_set i0 else None))
            /\ (if nonempty res then same_context c (snd r)
                else match fst r with
                     | Ret _ => context_writes (snd r) = S (context_writes c)
                     | Raise _ => same_context c (snd r)
                     end)).
        { intros r ->. destruct (nonempty res); simpl; [auto|].
          destruct (random_choice rnd (Demo1.responses i)) as [response|e]; simpl; [|auto].
          destruct (Demo1._fill_template self now1 now2 c1 response) as [filled|e];
            simpl; [|auto].
          destruct (update_context_effect (Demo1.context_set i) c1) as [Hw Hc].
          destruct Hsame as [Hc1 Hw1]. rewrite Hw1 in Hw.
          split; [|exact Hw]. right. exists i, m, filled. auto. }
        destruct (Hmain _ eq_refl) as [H1 H2].
        split; [exact H1|]. split; [discriminate|]. split; [discriminate|].
        intros i0 m0 Hi0. injection Hi0 as <- <-. rewrite Est. simpl. exact H2.
      * split; [left; exact Hsame|]. split; [discriminate|]. split; [discriminate|].
        intros i0 m0 Hi0. injection Hi0 as <- <-. rewrite Est. simpl. auto.
    + split; [left; apply same_context_refl|]. split; [reflexivity|].
      split; discriminate.
    + split; [left; apply same_context_refl|]. split; [discriminate|].
      split; [|discriminate]. intros e0 He0. injection He0 as <-. reflexivity.
Qed.
(** ** Sentiment *)

Lemma size_list_inter (l : list string) (words : gset string) :
  size ((list_to_set l : gset string) ∩ words)
  = length (List.filter (fun w => bool_decide (w ∈ words)) (remove_dups l)).
Proof.
  assert (Hnd : NoDup (List.filter (fun w => bool_decide (w ∈ words)) (remove_dups l))).
  { apply NoDup_ListNoDup, List.NoDup_filter, NoDup_ListNoDup, NoDup_remove_dups. }
  rewrite <- (size_list_to_set (C := gset string) _ Hnd).
  f_equal. apply set_eq. intros x.
  rewrite elem_of_intersection, !elem_of_list_to_set.
  rewrite (list_elem_of_In (List.filter _ _)), List.filter_In, <- list_elem_of_In.
  rewrite elem_of_remove_dups, bool_decide_eq_true. tauto.
Qed.

Lemma analyze_counts (POS NEG : gset string) (text : string) :
  Sentiment.analyze POS NEG text
  = let p := overlap POS text in
    let n := overlap NEG text in
    if (n <? p)%nat then (Sentiment.positive, (Qnat p / Qnat (p + n + 1))%Q)
    else if (p <? n)%nat then (Sentiment.negative, (- Qnat n / Qnat (p + n + 1))%Q)
    else (Sentiment.neutral, 0%Q).
Proof.
  unfold Sentiment.analyze, overlap, tokens. rewrite !size_list_inter. reflexivity.
Qed.

Lemma overlap_none (words : gset string) (text : string) :
  (forall w, w ∈ tokens text -> w ∉ words) -> overlap words text = 0%nat.
Proof.
  intros H. unfold overlap.
  destruct (List.filter _ _) as [|x l] eqn:E; [reflexivity|]. exfalso.
  assert (Hx : In x (List.filter (fun w => bool_decide (w ∈ words))
                       (remove_dups (tokens text)))).
  { rewrite E. left. reflexivity. }
  apply List.filter_In in Hx. destruct Hx as [Hin Hd].
  apply bool_decide_eq_true in Hd.
  apply list_elem_of_In in Hin. rewrite elem_of_remove_dups in Hin.
  exact (H x Hin Hd).
Qed.

Lemma overlap_size (words : gset string) (text : string) :
  overlap words text = size ((list_to_set (tokens text) : gset string) ∩ words).
Proof. unfold overlap. rewrite size_list_inter. reflexivity. Qed.

Lemma overlap_two (words : gset string) (text : string) (a b : string) :
  a <> b ->
  (forall w, w ∈ tokens text /\ w ∈ words <-> w = a \/ w = b) ->
  overlap words text = 2%nat.
Proof.
  intros Hab H. rewrite overlap_size.
  assert (E : (list_to_set (tokens text) : gset string) ∩ words = {[a]} ∪ {[b]}).
  { apply set_eq. intros w.
    rewrite elem_of_intersection, elem_of_list_to_set, elem_of_union, !elem_of_singleton.
    apply H. }
  rewrite E, size_union by set_solver. rewrite !size_singleton. reflexivity.
Qed.

(** C9: [analyze] splits the lowercased text at white space into a set of
    words, counts the words that are in the positive set (p) and in the
    negative set (n), and answers positive with score p/(p+n+1) when p > n,
    negative with score -n/(p+n+1) when n > p, and neutral with score 0
    otherwise.  A text whose sentiment words are exactly "good" and "great"
    is positive with score 2/3; a text without sentiment words is neutral
    with score 0. *)
Theorem analyze_label_and_score (POS NEG : gset string) (text : string) :
  let p := overlap POS text in
  let n := overlap NEG text in
  ((n < p)%nat ->
   Sentiment.analyze POS NEG text
   = (Sentiment.positive, (Qnat p / Qnat (p + n + 1))%Q))
  /\ ((p < n)%nat ->
      Sentiment.analyze POS NEG text
      = (Sentiment.negative, (- Qnat n / Qnat (p + n + 1))%Q))
  /\ (p = n -> Sentiment.analyze POS NEG text = (Sentiment.neutral, 0%Q))
  /\ ((forall w, w ∈ tokens text /\ w ∈ POS <-> w = "good" \/ w = "great") ->
      (forall w, w ∈ tokens text -> w ∉ NEG) ->
      Sentiment.analyze POS NEG text = (Sentiment.positive, (2 # 3)%Q))
  /\ ((forall w, w ∈ tokens text -> w ∉ POS) ->
      (forall w, w ∈ tokens text -> w ∉ NEG) ->
      Sentiment.analyze POS NEG text = (Sentiment.neutral, 0%Q))
  /\ Demo1.analyze "This is GOOD and great" = (Sentiment.positive, (2 # 3)%Q)
  /\ Demo1.analyze "what time is it" = (Sentiment.neutral, 0%Q).
Proof.
  intros p n. rewrite analyze_counts. cbv zeta. fold p n.
  split; [|split; [|split; [|split; [|split; [|split]]]]].
  - intros H. apply Nat.ltb_lt in H. rewrite H. reflexivity.
  - intros H. assert (Hn : (n <? p)%nat = false) by (apply Nat.ltb_ge; lia).
    apply Nat.ltb_lt in H. rewrite Hn, H. reflexivity.
  - intros H. rewrite H, Nat.ltb_irrefl. reflexivity.
  - intros Hp Hn. unfold p, n.
    rewrite (overlap_two POS text "good" "great") by (try discriminate; exact Hp).
    rewrite (overlap_none NEG text Hn). reflexivity.
  - intros Hp Hn. unfold p, n.
    rewrite (overlap_none POS text Hp), (overlap_none NEG text Hn). reflexivity.
  - vm_compute. reflexivity.
  - vm_compute. reflexivity.
Qed.

(** C9, witness: the general statement at the word sets of Demo1 and a text
    with two positive words and one negative word. *)
Lemma analyze_label_and_score_witness :
  (overlap Demo1.NEGATIVE_WORDS "good bad great" < overlap Demo1.POSITIVE_WORDS "good bad great")%nat
  /\ Demo1.analyze "good bad great" = (Sentiment.positive, (2 # 4)%Q).
Proof.
  assert (H : (overlap Demo1.NEGATIVE_WORDS "good bad great"
               < overlap Demo1.POSITIVE_WORDS "good bad great")%nat).
  { vm_compute. lia. }
  split; [exact H|].
  unfold Demo1.analyze.
  rewrite (proj1 (analyze_label_and_score Demo1.POSITIVE_WORDS Demo1.NEGATIVE_WORDS
                    "good bad great") H).
  vm_compute. reflexivity.
Defined.
(** ** The match returned with the intent *)

(** C10: the match [classify] returns need not come from a pattern of the
    intent it returns.  When an intent takes over as the running best and
    none of its patterns matches, the match recorded for an earlier intent
    is kept; so an intent that wins on keywords is returned with the match
    of an earlier, lower-scoring intent, or with no match at all.  On the
    catalog of Demo1: "funny laugh humor fine" returns the jokes intent with
    the match of a pattern of the earlier user_feeling_good intent, and
    "call am" returns the user_name intent without a match. *)
Theorem classify_match_of_other_intent :
  (forall (re : Re.engine) (c : ConversationContext) (text : string)
          (b : Demo2.best) (i : Demo2.Intent),
      Qgt_bool (Demo2._score_intent re c i text) (Demo2.best_score b) = true ->
      Demo2.first_match re (Demo2.patterns i) (Str.lower text) = None ->
      Demo2.best_intent (Demo2.classify_step re c text b i) = Some i
      /\ Demo2.best_match (Demo2.classify_step re c text b i) = Demo2.best_match b)
  /\ (forall (re : Re.engine) (c : ConversationContext) (text : string)
             (b : Demo1.best) (i : Demo1.Intent) (q : Q),
         Demo1._score_intent re c i text = Ret q ->
         Qgt_bool q (Demo1.best_score b) = true ->
         Demo1.first_match re (Demo1.patterns i) (Str.lower text) = Ret None ->
         exists b', Demo1.classify_step re c text b i = Ret b'
                    /\ Demo1.best_intent b' = Some i
                    /\ Demo1.best_match b' = Demo1.best_match b)
  /\ (exists (a b : Demo1.Intent) (m : Re.match_obj) (pre mid post : list Demo1.Intent),
         Demo1.intents Ex.bot1 = pre ++ b :: mid ++ a :: post
         /\ Demo1.name a = "jokes" /\ Demo1.name b = "user_feeling_good"
         /\ Demo1.classify_intent PyRe.search Ex.bot1 Ex.fresh "funny laugh humor fine"
            = Ret (Some a, Some m)
         /\ Demo1.first_match PyRe.search (Demo1.patterns a)
              (Str.lower "funny laugh humor fine") = Ret None
         /\ Demo1.first_match PyRe.search (Demo1.patterns b)
              (Str.lower "funny laugh humor fine") = Ret (Some m))
  /\ (exists a : Demo1.Intent,
         Demo1.name a = "user_name"
         /\ Demo1.classify_intent PyRe.search Ex.bot1 Ex.fresh "call am"
            = Ret (Some a, None))
  /\ (exists (a b : Demo2.Intent) (m : Re.match_obj),
         Demo2.intents Ex.stale_bot = [b; a]
         /\ Demo2.classify_intent PyRe.search Ex.stale_bot Ex.fresh "funny laugh humor fine"
            = (Some a, Some m)
         /\ Demo2.first_match PyRe.search (Demo2.patterns a)
              (Str.lower "funny laugh humor fine") = None
         /\ Demo2.first_match PyRe.search (Demo2.patterns b)
              (Str.lower "funny laugh humor fine") = Some m)
  /\ (exists a : Demo2.Intent,
         Demo2.classify_intent PyRe.search Ex.stale_bot Ex.fresh "funny laugh humor"
         = (Some a, None)).
Proof.
  split; [|split; [|split; [|split; [|split]]]].
  - intros re c text b i Hgt Hfm. unfold Demo2.classify_step.
    rewrite Hgt, Hfm. split; reflexivity.
  - intros re c text b i q Hq Hgt Hfm. unfold Demo1.classify_step.
    rewrite Hq. simpl. rewrite Hgt, Hfm. simpl.
    eexists. split; [reflexivity|]. split; reflexivity.
  - exists (Ex.intent1 9), (Ex.intent1 5).
    eexists. exists (firstn 5 Demo1._setup_intents),
                    (firstn 3 (skipn 6 Demo1._setup_intents)),
                    (skipn 10 Demo1._setup_intents).
    split; [reflexivity|]. split; [reflexivity|]. split; [reflexivity|].
    split; [vm_compute; reflexivity|]. split; vm_compute; reflexivity.
  - exists (Ex.intent1 3). split; vm_compute; reflexivity.
  - eexists. eexists. eexists. split; [reflexivity|].
    split; [vm_compute; reflexivity|]. split; vm_compute; reflexivity.
  - eexists. vm_compute. reflexivity.
Qed.

(** C10, witness: the takeover step on the catalog of Demo1, from the running
    best left by user_feeling_good to the jokes intent. *)
Lemma classify_match_of_other_intent_witness :
  exists (b b' : Demo1.best) (q : Q),
    Demo1.classify_loop PyRe.search Ex.fresh "funny laugh humor fine"
      (firstn 9 Demo1._setup_intents)
      {| Demo1.best_intent := None; Demo1.best_score := 0; Demo1.best_match := None |}
    = Ret b
    /\ Demo1._score_intent PyRe.search Ex.fresh (Ex.intent1 9) "funny laugh humor fine" = Ret q
    /\ Demo1.classify_step PyRe.search Ex.fresh "funny laugh humor fine" b (Ex.intent1 9)
       = Ret b'
    /\ Demo1.best_intent b' = Some (Ex.intent1 9)
    /\ Demo1.best_match b' = Demo1.best_match b
    /\ Demo1.best_match b <> None.
Proof.
  assert (Hr : exists b,
             Demo1.classify_loop PyRe.search Ex.fresh "funny laugh humor fine"
               (firstn 9 Demo1._setup_intents)
               {| Demo1.best_intent := None; Demo1.best_score := 0;
                  Demo1.best_match := None |} = Ret b
             /\ Demo1.best_match b <> None
             /\ Qgt_bool (3 # 2) (Demo1.best_score b) = true).
  { vm_compute. eexists. split; [reflexivity|]. split; [discriminate|reflexivity]. }
  destruct Hr as (b & Hr & Hne & Hgt).
  assert (Hq : Demo1._score_intent PyRe.search Ex.fresh (Ex.intent1 9)
                 "funny laugh humor fine" = Ret (3 # 2)%Q) by (vm_compute; reflexivity).
  assert (Hfm : Demo1.first_match PyRe.search (Demo1.patterns (Ex.intent1 9))
                  (Str.lower "funny laugh humor fine") = Ret None)
    by (vm_compute; reflexivity).
  destruct (proj1 (proj2 classify_match_of_other_intent) PyRe.search Ex.fresh
              "funny laugh humor fine" b (Ex.intent1 9) (3 # 2)%Q Hq Hgt Hfm)
    as (b' & Hb' & Hi & Hm).
  exists b, b', (3 # 2)%Q. repeat split; assumption.
Defined.
(** ** Templates *)

Lemma append_cons (c : ascii) (a s : string) : String c a +:+ s = String c (a +:+ s).
Proof. reflexivity. Qed.

Lemma append_nil_r (s : string) : s +:+ "" = s.
Proof. induction s as [|c s IH]; [reflexivity|]. rewrite append_cons, IH. reflexivity. Qed.

Lemma append_assoc (a b c : string) : (a +:+ b) +:+ c = a +:+ (b +:+ c).
Proof.
  induction a as [|x a IH]; [reflexivity|]. rewrite !append_cons, IH. reflexivity.
Qed.

Lemma append_length (a b : string) :
  String.length (a +:+ b) = (String.length a + String.length b)%nat.
Proof.
  induction a as [|x a IH]; [reflexivity|]. rewrite append_cons. simpl. rewrite IH.
  reflexivity.
Qed.

Lemma strip_prefix_cons (a b : ascii) (old s : string) :
  Str.strip_prefix (String a old) (String b s)
  = if Ascii.eqb a b then Str.strip_prefix old s else None.
Proof. reflexivity. Qed.

Lemma forallb_cons (p : ascii -> bool) (c : ascii) (s : string) :
  Str.forallb p (String c s) = p c && Str.forallb p s.
Proof. reflexivity. Qed.

Lemma forallb_app (p : ascii -> bool) (a b : string) :
  Str.forallb p (a +:+ b) = Str.forallb p a && Str.forallb p b.
Proof.
  induction a as [|x a IH]; [reflexivity|]. rewrite append_cons. simpl. rewrite IH.
  apply andb_assoc.
Qed.

Lemma no_braces_split (s : string) :
  no_braces s = true <-> no_lbrace s = true /\ no_rbrace s = true.
Proof.
  unfold no_braces, no_lbrace, no_rbrace, is_brace.
  induction s as [|c s IH]; simpl; [tauto|].
  rewrite !andb_true_iff, IH, negb_orb, andb_true_iff. tauto.
Qed.

Section Replace.

Variable new : string.

Lemma strip_prefix_self (old r : string) : Str.strip_prefix old (old +:+ r) = Some r.
Proof.
  induction old as [|a old IH]; [reflexivity|].
  rewrite append_cons. simpl. rewrite Ascii.eqb_refl. exact IH.
Qed.

Lemma strip_prefix_app (old s r t : string) :
  Str.strip_prefix old s = Some r -> Str.strip_prefix old (s +:+ t) = Some (r +:+ t).
Proof.
  revert s. induction old as [|a old IH]; intros s H; simpl in *.
  - injection H as <-. reflexivity.
  - destruct s as [|b s]; [discriminate|]. rewrite append_cons.
    destruct (Ascii.eqb a b); [|discriminate]. apply IH. exact H.
Qed.

Lemma strip_prefix_length (old s r : string) :
  Str.strip_prefix old s = Some r ->
  String.length s = (String.length old + String.length r)%nat.
Proof.
  revert s. induction old as [|a old IH]; intros s H; simpl in *.
  - injection H as <-. reflexivity.
  - destruct s as [|b s]; [discriminate|].
    destruct (Ascii.eqb a b); [|discriminate]. simpl. f_equal. apply IH. exact H.
Qed.

(** A match of a text without opening brace does not reach into what starts
    with an opening brace. *)
Lemma strip_prefix_no_straddle (body a R r : string) :
  no_lbrace body = true ->
  Str.strip_prefix body (a +:+ String "{" R) = Some r ->
  exists r', Str.strip_prefix body a = Some r' /\ r = r' +:+ String "{" R.
Proof.
  unfold no_lbrace. revert a. induction body as [|d body IH]; intros a Hb H.
  - simpl in H. injection H as <-. exists a. split; reflexivity.
  - rewrite forallb_cons in Hb. apply andb_true_iff in Hb.
    destruct Hb as [Hd Hb]. destruct a as [|c a].
    + change ("" +:+ String "{" R) with (String "{" R) in H.
      rewrite strip_prefix_cons in H.
      destruct (Ascii.eqb d "{"); [discriminate Hd|discriminate H].
    + rewrite append_cons, strip_prefix_cons in H. rewrite strip_prefix_cons.
      destruct (Ascii.eqb d c); [|discriminate].
      apply IH; assumption.
Qed.

(** Two different names without closing brace: the placeholder of one is
    not at the start of a text that starts with the placeholder of the other. *)
Lemma strip_prefix_other_name (k x R : string) :
  no_rbrace k = true -> no_rbrace x = true -> k <> x ->
  Str.strip_prefix (k +:+ "}") (x +:+ String "}" R) = None.
Proof.
  unfold no_rbrace. revert x. induction k as [|a k IH]; intros x Hk Hx Hne.
  - destruct x as [|c x]; [congruence|].
    change ("" +:+ "}") with "}". rewrite append_cons, strip_prefix_cons.
    rewrite forallb_cons in Hx. apply andb_true_iff in Hx. destruct Hx as [Hc _].
    rewrite Ascii.eqb_sym. destruct (Ascii.eqb c "}"); [discriminate|reflexivity].
  - rewrite forallb_cons in Hk. apply andb_true_iff in Hk. destruct Hk as [Ha Hk].
    rewrite append_cons. destruct x as [|c x].
    + change ("" +:+ String "}" R) with (String "}" R). rewrite strip_prefix_cons.
      destruct (Ascii.eqb a "}"); [discriminate|reflexivity].
    + rewrite append_cons, strip_prefix_cons.
      destruct (Ascii.eqb a c) eqn:E; [|reflexivity].
      apply Ascii.eqb_eq in E. subst c.
      rewrite forallb_cons in Hx. apply andb_true_iff in Hx. destruct Hx as [_ Hx].
      apply IH; [assumption|assumption|congruence].
Qed.

Variable body : string.

(** The passes of [replace] for [String "{" body]. *)
Local Abbreviation pass skip s := (Str.replace_from skip (String "{" body) new s).

Lemma replace_skip (t R : string) : pass (String.length t) (t +:+ R) = pass 0 R.
Proof.
  induction t as [|c t IH]; [reflexivity|]. rewrite append_cons. simpl. exact IH.
Qed.

Lemma replace_text (t R : string) :
  no_lbrace t = true -> pass 0 (t +:+ R) = t +:+ pass 0 R.
Proof.
  unfold no_lbrace. induction t as [|c t IH]; intros H; [reflexivity|].
  rewrite forallb_cons in H. apply andb_true_iff in H. destruct H as [Hc Ht].
  rewrite !append_cons.
  change (pass 0 (String c (t +:+ R)))
    with (match Str.strip_prefix (String "{" body) (String c (t +:+ R)) with
          | Some _ => new +:+ pass (String.length (String "{" body) - 1) (t +:+ R)
          | None => String c (pass 0 (t +:+ R))
          end).
  rewrite strip_prefix_cons, Ascii.eqb_sym.
  destruct (Ascii.eqb c "{"); [discriminate|].
  rewrite (IH Ht). reflexivity.
Qed.

Lemma replace_text_end (t : string) : no_lbrace t = true -> pass 0 t = t.
Proof.
  intros H. rewrite <- (append_nil_r t) at 1. rewrite (replace_text t "" H).
  simpl. apply append_nil_r.
Qed.

End Replace.
Section Pass.

Variables k new : string.
Hypothesis k_plain : no_braces k = true.

Local Abbreviation key := (placeholder k).
Local Abbreviation pass skip s := (Str.replace_from skip key new s).

Lemma pass_step (c : ascii) (s : string) :
  pass 0 (String c s)
  = match Str.strip_prefix key (String c s) with
    | Some _ => new +:+ pass (String.length (k +:+ "}")) s
    | None => String c (pass 0 s)
    end.
Proof.
  unfold placeholder. simpl. rewrite Nat.sub_0_r. reflexivity.
Qed.

Lemma key_prefix_cons (c : ascii) (s : string) :
  Str.strip_prefix key (String c s)
  = if Ascii.eqb "{" c then Str.strip_prefix (k +:+ "}") s else None.
Proof. reflexivity. Qed.

Lemma key_body_no_lbrace : no_lbrace (k +:+ "}") = true.
Proof.
  unfold no_lbrace. rewrite forallb_app. apply andb_true_iff. split; [|reflexivity].
  apply no_braces_split in k_plain. apply k_plain.
Qed.

Lemma name_body_no_lbrace (x : string) :
  no_braces x = true -> no_lbrace (x +:+ "}") = true.
Proof.
  intros H. unfold no_lbrace. rewrite forallb_app. apply andb_true_iff.
  split; [|reflexivity]. apply no_braces_split in H. apply H.
Qed.

Lemma pass_text (t R : string) :
  no_lbrace t = true -> pass 0 (t +:+ R) = t +:+ pass 0 R.
Proof. exact (replace_text new (k +:+ "}") t R). Qed.

(** The placeholder of another name is passed as it is. *)
Lemma pass_other_hole (x R : string) :
  no_braces x = true -> x <> k ->
  pass 0 (placeholder x +:+ R) = placeholder x +:+ pass 0 R.
Proof.
  intros Hx Hne. unfold placeholder at 2 3. rewrite append_cons, pass_step.
  unfold placeholder at 1. rewrite strip_prefix_cons, Ascii.eqb_refl.
  rewrite append_assoc. change ("}" +:+ R) with (String "}" R).
  rewrite strip_prefix_other_name.
  - change (String "}" R) with ("}" +:+ R). rewrite <- (append_assoc x "}" R).
    rewrite (pass_text (x +:+ "}") R (name_body_no_lbrace x Hx)).
    reflexivity.
  - apply no_braces_split in k_plain. apply k_plain.
  - apply no_braces_split in Hx. apply Hx.
  - congruence.
Qed.

(** The placeholder of [k] is replaced by the value. *)
Lemma pass_own_hole (R : string) : pass 0 (key +:+ R) = new +:+ pass 0 R.
Proof.
  unfold placeholder at 2. rewrite append_cons, pass_step.
  unfold placeholder. rewrite strip_prefix_cons, Ascii.eqb_refl.
  rewrite strip_prefix_self.
  rewrite (replace_skip new (k +:+ "}") (k +:+ "}") R). reflexivity.
Qed.

(** One pass over a well-formed template fills the placeholders of [k]. *)
Lemma pass_template (segs : list segment) :
  well_formed segs ->
  pass 0 (template_of segs) = template_of (map (fill_hole k new) segs).
Proof.
  unfold well_formed. induction 1 as [|seg segs Hseg _ IH]; [reflexivity|].
  change (template_of (seg :: segs)) with (render seg +:+ template_of segs).
  change (map (fill_hole k new) (seg :: segs))
    with (fill_hole k new seg :: map (fill_hole k new) segs).
  change (template_of (fill_hole k new seg :: map (fill_hole k new) segs))
    with (render (fill_hole k new seg) +:+ template_of (map (fill_hole k new) segs)).
  rewrite <- IH. destruct seg as [t|x].
  - apply no_braces_split in Hseg. destruct Hseg as [Ht _].
    apply (pass_text t _ Ht).
  - unfold fill_hole. destruct (String.eqb x k) eqn:E.
    + apply String.eqb_eq in E. subst x. apply pass_own_hole.
    + apply String.eqb_neq in E. apply (pass_other_hole x _ Hseg E).
Qed.

(** One pass leaves the placeholder of another name where it is, and treats
    what is before and after it separately. *)
Lemma pass_around_hole (x a b : string) (skip : nat) :
  no_braces x = true -> x <> k -> (skip <= String.length a)%nat ->
  pass skip (a +:+ placeholder x +:+ b) = pass skip a +:+ placeholder x +:+ pass 0 b.
Proof.
  intros Hx Hne. revert skip. induction a as [|c a IH]; intros skip Hskip.
  - simpl in Hskip. assert (skip = 0)%nat as -> by lia.
    change ("" +:+ placeholder x +:+ b) with (placeholder x +:+ b).
    rewrite (pass_other_hole x b Hx Hne). reflexivity.
  - rewrite append_cons. destruct skip as [|skip].
    + rewrite !pass_step, !key_prefix_cons.
      destruct (Ascii.eqb "{" c).
      * destruct (Str.strip_prefix (k +:+ "}") a) as [r'|] eqn:Ea.
        -- rewrite (strip_prefix_app _ _ _ (placeholder x +:+ b) Ea).
           rewrite append_assoc. f_equal. apply IH.
           apply strip_prefix_length in Ea. lia.
        -- destruct (Str.strip_prefix (k +:+ "}") (a +:+ placeholder x +:+ b))
             as [r|] eqn:Eab.
           ++ exfalso. unfold placeholder in Eab. rewrite append_cons in Eab.
              destruct (strip_prefix_no_straddle _ _ _ _ key_body_no_lbrace Eab)
                as (r' & Hr' & _). congruence.
           ++ rewrite append_cons. f_equal. apply IH. lia.
      * rewrite append_cons. f_equal. apply IH. lia.
    + simpl. apply IH. simpl in Hskip. lia.
Qed.

End Pass.
Lemma fill_hole_well_formed (k v : string) (segs : list segment) :
  no_braces v = true -> well_formed segs -> well_formed (map (fill_hole k v) segs).
Proof.
  intros Hv. unfold well_formed. induction 1 as [|seg segs Hseg _ IH]; simpl.
  - constructor.
  - constructor; [|exact IH]. destruct seg as [t|x]; simpl; [exact Hseg|].
    destruct (String.eqb x k); [exact Hv|exact Hseg].
Qed.

Lemma substituted_nil (segs : list segment) : substituted [] segs = template_of segs.
Proof.
  induction segs as [|seg segs IH]; [reflexivity|]. simpl. rewrite IH.
  destruct seg; reflexivity.
Qed.

Lemma substituted_cons (k v : string) (env : list (string * string))
    (segs : list segment) :
  substituted env (map (fill_hole k v) segs) = substituted ((k, v) :: env) segs.
Proof.
  induction segs as [|seg segs IH]; [reflexivity|]. simpl. rewrite IH. f_equal.
  destruct seg as [t|x]; simpl; [reflexivity|].
  destruct (String.eqb x k); reflexivity.
Qed.

(** The passes of [_fill_template] over a well-formed template, for values
    without braces, amount to substituting every placeholder at once. *)
Lemma replace_all_template (env : list (string * string)) (segs : list segment) :
  plain_bindings env -> well_formed segs ->
  replace_all (map to_replacement env) (template_of segs) = Ret (substituted env segs).
Proof.
  unfold plain_bindings. intros Henv. revert segs.
  induction Henv as [|[k v] env [Hk Hv] _ IH]; intros segs Hwf; simpl.
  - rewrite substituted_nil. reflexivity.
  - unfold Str.replace. simpl in Hk, Hv.
    rewrite (pass_template k v Hk segs Hwf).
    rewrite (IH _ (fill_hole_well_formed k v segs Hv Hwf)).
    rewrite substituted_cons. reflexivity.
Qed.

(** A placeholder that is none of the keys stays where it is, and what is
    before and after it is filled separately. *)
Lemma replace_all_around_hole (x : string) (reps : list (string * value)) (a b : string) :
  no_braces x = true -> keys_miss x reps ->
  replace_all reps (a +:+ placeholder x +:+ b)
  = do! fa := replace_all reps a in
    do! fb := replace_all reps b in
    Ret (fa +:+ placeholder x +:+ fb).
Proof.
  intros Hx Hreps. revert a b.
  induction Hreps as [|[key v] reps (k & Hkey & Hk & Hne) _ IH]; intros a b; simpl.
  - reflexivity.
  - simpl in Hkey. subst key. destruct v as [v| |]; try reflexivity.
    unfold Str.replace.
    rewrite (pass_around_hole k v Hk x a b 0 Hx Hne) by lia.
    apply IH.
Qed.
(** The texts the clock gives hold no brace. *)

Lemma digit_char_plain (m : nat) : (m < 10)%nat -> is_brace (Str.digit_char m) = false.
Proof.
  intros H. do 10 (destruct m as [|m]; [reflexivity|]). lia.
Qed.

Lemma no_braces_app (a b : string) :
  no_braces a = true -> no_braces b = true -> no_braces (a +:+ b) = true.
Proof.
  unfold no_braces. intros Ha Hb. rewrite forallb_app, Ha, Hb. reflexivity.
Qed.

Lemma no_braces_cons (c : ascii) (s : string) :
  is_brace c = false -> no_braces s = true -> no_braces (String c s) = true.
Proof.
  unfold no_braces. intros Hc Hs. rewrite forallb_cons, Hc, Hs. reflexivity.
Qed.

Lemma two_digits_plain (n : nat) : no_braces (Str.two_digits n) = true.
Proof.
  unfold Str.two_digits.
  apply no_braces_cons; [apply digit_char_plain, Nat.mod_upper_bound; lia|].
  apply no_braces_cons; [apply digit_char_plain, Nat.mod_upper_bound; lia|].
  reflexivity.
Qed.

Lemma nat_digits_plain (fuel n : nat) (acc : string) :
  no_braces acc = true -> no_braces (Str.nat_digits fuel n acc) = true.
Proof.
  revert n acc. induction fuel as [|fuel IH]; intros n acc Hacc; simpl; [exact Hacc|].
  assert (H : no_braces (String (Str.digit_char (n mod 10)) acc) = true).
  { apply no_braces_cons; [apply digit_char_plain, Nat.mod_upper_bound; lia|exact Hacc]. }
  destruct (n <? 10)%nat; [exact H|]. apply IH. exact H.
Qed.

Lemma day_name_plain (w : nat) : no_braces (Clock.day_name w) = true.
Proof. do 8 (destruct w as [|w]; [reflexivity|]). destruct w; reflexivity. Qed.

Lemma month_name_plain (m : nat) : no_braces (Clock.month_name m) = true.
Proof. do 14 (destruct m as [|m]; [reflexivity|]). destruct m; reflexivity. Qed.

Lemma strftime_time_plain (d : Clock.datetime) : no_braces (Clock.strftime_time d) = true.
Proof.
  unfold Clock.strftime_time.
  repeat (apply no_braces_app; [try apply two_digits_plain; try reflexivity|]).
  destruct (Clock.hour d <? 12)%nat; reflexivity.
Qed.

Lemma strftime_date_plain (d : Clock.datetime) : no_braces (Clock.strftime_date d) = true.
Proof.
  unfold Clock.strftime_date.
  repeat (apply no_braces_app;
          [try apply two_digits_plain; try apply day_name_plain;
           try apply month_name_plain; try reflexivity|]).
  apply nat_digits_plain. reflexivity.
Qed.

Lemma strftime_time_length (d : Clock.datetime) :
  String.length (Clock.strftime_time d) = 8%nat.
Proof.
  unfold Clock.strftime_time. rewrite !append_length.
  destruct (Clock.hour d <? 12)%nat; reflexivity.
Qed.

Lemma hour12_range (h : nat) : (1 <= Clock.hour12 h <= 12)%nat.
Proof.
  unfold Clock.hour12. pose proof (Nat.mod_upper_bound h 12).
  destruct (h mod 12 =? 0)%nat eqn:E; [lia|]. apply Nat.eqb_neq in E. lia.
Qed.

(** The dictionary of each variant as bindings, when the facts are strings. *)
Lemma get_or_fact (key default : string) (c : ConversationContext) :
  (forall v, get_user_data key c = Some v -> exists s, v = VStr s) ->
  get_or key (VStr default) c = VStr (fact_or key default c).
Proof.
  intros H. unfold get_or, fact_or.
  destruct (get_user_data key c) as [v|]; [|reflexivity].
  destruct (H v eq_refl) as [s ->]. reflexivity.
Qed.

Lemma replacements2_bindings (self : Demo2.AdvancedChatbot) (now1 now2 : Clock.datetime)
    (c : ConversationContext) :
  facts_are_strings c ->
  Demo2.replacements self now1 now2 c = map to_replacement (bindings2 self now1 now2 c).
Proof.
  intros [Hn Hb]. unfold Demo2.replacements, bindings2. simpl.
  rewrite (get_or_fact "name" "friend" c Hn), (get_or_fact "birthday" "unknown" c Hb).
  reflexivity.
Qed.

Lemma replacements1_bindings (self : Demo1.AdvancedChatbot) (now1 now2 : Clock.datetime)
    (c : ConversationContext) :
  facts_are_strings c ->
  Demo1.replacements self now1 now2 c = map to_replacement (bindings1 self now1 now2 c).
Proof.
  intros [Hn _]. unfold Demo1.replacements, bindings1. simpl.
  rewrite (get_or_fact "name" "friend" c Hn). reflexivity.
Qed.
Lemma keys_miss_bindings (x : string) (env : list (string * string)) :
  Forall (fun kv => no_braces (fst kv) = true /\ x <> fst kv) env ->
  keys_miss x (map to_replacement env).
Proof.
  unfold keys_miss. induction 1 as [|[k v] env [Hk Hne] _ IH]; simpl; constructor.
  - exists k. auto.
  - exact IH.
Qed.

(** C8, counterexample: Demo1 does not know the birthday placeholder and
    leaves it in the answer; and since the placeholders are replaced one
    after the other, a value that reads like a later placeholder is replaced
    in its turn (a Demo2 chatbot named "{user_name}" introduces itself as
    "friend"). *)
Lemma fill_template_counterexamples :
  Demo1._fill_template Ex.bot1 Ex.now Ex.now Ex.fresh "Born on {user_birthday}"
  <> Ret "Born on unknown"
  /\ Demo2._fill_template Ex.braces_bot Ex.now Ex.now Ex.fresh "I am {bot_name}"
     <> Ret "I am {user_name}".
Proof. split; vm_compute; discriminate. Qed.

(** C8 (amended): [fill] replaces placeholders by plain substring
    replacement, one placeholder after the other: the bot name; the
    remembered user name, "friend" when there is none; the time as 12-hour
    HH:MM AM/PM; the date as weekday, month name, day, year; and, in Demo2
    only, the remembered birthday, "unknown" when there is none (Demo1 has
    no such placeholder).  On a template whose text pieces and placeholder
    names hold no brace, and for values without braces, this substitutes
    every known placeholder at once.  A placeholder it does not know is left
    as it is, whatever is around it.  "Hi {bot_name}!" with the bot name
    "Bot" gives "Hi Bot!".  The facts read are strings when present. *)
Theorem fill_template_substitutes (now1 now2 : Clock.datetime) (c : ConversationContext) :
  facts_are_strings c ->
  (forall (self : Demo2.AdvancedChatbot) (segs : list segment),
      well_formed segs ->
      no_braces (Demo2.bot_name self) = true ->
      no_braces (fact_or "name" "friend" c) = true ->
      no_braces (fact_or "birthday" "unknown" c) = true ->
      Demo2._fill_template self now1 now2 c (template_of segs)
      = Ret (substituted (bindings2 self now1 now2 c) segs))
  /\ (forall (self : Demo1.AdvancedChatbot) (segs : list segment),
         well_formed segs ->
         no_braces (Demo1.bot_name self) = true ->
         no_braces (fact_or "name" "friend" c) = true ->
         Demo1._fill_template self now1 now2 c (template_of segs)
         = Ret (substituted (bindings1 self now1 now2 c) segs))
  /\ (forall (self : Demo2.AdvancedChatbot) (x a b : string),
         no_braces x = true ->
         x ∉ ["bot_name"; "user_name"; "current_time"; "current_date"; "user_birthday"] ->
         Demo2._fill_template self now1 now2 c (a +:+ placeholder x +:+ b)
         = do! fa := Demo2._fill_template self now1 now2 c a in
           do! fb := Demo2._fill_template self now1 now2 c b in
           Ret (fa +:+ placeholder x +:+ fb))
  /\ (forall (self : Demo1.AdvancedChatbot) (x a b : string),
         no_braces x = true ->
         x ∉ ["bot_name"; "user_name"; "current_time"; "current_date"] ->
         Demo1._fill_template self now1 now2 c (a +:+ placeholder x +:+ b)
         = do! fa := Demo1._fill_template self now1 now2 c a in
           do! fb := Demo1._fill_template self now1 now2 c b in
           Ret (fa +:+ placeholder x +:+ fb))
  /\ (forall self : Demo2.AdvancedChatbot,
         Demo2.bot_name self = "Bot" ->
         Demo2._fill_template self now1 now2 c "Hi {bot_name}!" = Ret "Hi Bot!")
  /\ (forall self : Demo1.AdvancedChatbot,
         Demo1.bot_name self = "Bot" ->
         Demo1._fill_template self now1 now2 c "Hi {bot_name}!" = Ret "Hi Bot!")
  /\ (forall self : Demo2.AdvancedChatbot,
         Demo2._fill_template self now1 now2 c "Hello {foo}!" = Ret "Hello {foo}!")
  /\ (forall self : Demo1.AdvancedChatbot,
         Demo1._fill_template self now1 now2 c "{user_birthday}" = Ret "{user_birthday}")
  /\ (String.length (Clock.strftime_time now1) = 8%nat
      /\ (1 <= Clock.hour12 (Clock.hour now1) <= 12)%nat
      /\ Clock.strftime_time Ex.now = "02:05 PM"
      /\ Clock.strftime_date Ex.now = "Tuesday, November 03, 2026").
Proof.
  intros Hfacts.
  split; [|split; [|split; [|split; [|split; [|split; [|split; [|split]]]]]]].
  - intros self segs Hwf Hbot Hname Hbirth. unfold Demo2._fill_template.
    rewrite (replacements2_bindings self now1 now2 c Hfacts).
    apply replace_all_template; [|exact Hwf].
    unfold plain_bindings, bindings2.
    repeat constructor; simpl; auto using strftime_time_plain, strftime_date_plain.
  - intros self segs Hwf Hbot Hname. unfold Demo1._fill_template.
    rewrite (replacements1_bindings self now1 now2 c Hfacts).
    apply replace_all_template; [|exact Hwf].
    unfold plain_bindings, bindings1.
    repeat constructor; simpl; auto using strftime_time_plain, strftime_date_plain.
  - intros self x a b Hx Hnot. unfold Demo2._fill_template.
    rewrite (replacements2_bindings self now1 now2 c Hfacts).
    apply replace_all_around_hole; [exact Hx|].
    apply keys_miss_bindings. unfold bindings2.
    repeat constructor; simpl; try reflexivity;
      intros ->; apply Hnot; set_solver.
  - intros self x a b Hx Hnot. unfold Demo1._fill_template.
    rewrite (replacements1_bindings self now1 now2 c Hfacts).
    apply replace_all_around_hole; [exact Hx|].
    apply keys_miss_bindings. unfold bindings1.
    repeat constructor; simpl; try reflexivity;
      intros ->; apply Hnot; set_solver.
  - intros self Hbot. unfold Demo2._fill_template.
    rewrite (replacements2_bindings self now1 now2 c Hfacts).
    unfold bindings2. rewrite Hbot. reflexivity.
  - intros self Hbot. unfold Demo1._fill_template.
    rewrite (replacements1_bindings self now1 now2 c Hfacts).
    unfold bindings1. rewrite Hbot. reflexivity.
  - intros self. unfold Demo2._fill_template.
    rewrite (replacements2_bindings self now1 now2 c Hfacts). reflexivity.
  - intros self. unfold Demo1._fill_template.
    rewrite (replacements1_bindings self now1 now2 c Hfacts). reflexivity.
  - split; [apply strftime_time_length|]. split; [apply hour12_range|].
    split; vm_compute; reflexivity.
Qed.
(** C8, witness: a fresh session, the template "Hi {bot_name}, I am
    {foo}{user_name}!" cut into its pieces, and the Demo2 bot of the
    examples. *)
Lemma fill_template_substitutes_witness :
  facts_are_strings Ex.fresh
  /\ Demo2._fill_template Ex.tie_bot Ex.now Ex.now Ex.fresh
       (template_of [Text "Hi "; Hole "bot_name"; Text ", I am "; Hole "foo";
                     Hole "user_name"; Text "!"])
     = Ret "Hi BERGEN TECH AI, I am {foo}friend!".
Proof.
  assert (H : facts_are_strings Ex.fresh).
  { split; intros v Hv; vm_compute in Hv; discriminate. }
  split; [exact H|].
  rewrite (proj1 (fill_template_substitutes Ex.now Ex.now Ex.fresh H) Ex.tie_bot).
  - reflexivity.
  - repeat constructor.
  - reflexivity.
  - reflexivity.
  - reflexivity.
Defined.

(** ** The facts stay strings *)

Lemma facts_new_context (now : Clock.datetime) : facts_are_strings (new_context now).
Proof. split; intros v Hv; unfold get_user_data in Hv; simpl in Hv; discriminate. Qed.

Lemma facts_set_str (key s : string) (c : ConversationContext) :
  facts_are_strings c -> facts_are_strings (set_user_data key (VStr s) c).
Proof.
  intros [Hn Hb]. unfold facts_are_strings, get_user_data. simpl. split; intros v.
  - destruct (decide (key = "name")) as [->|Hne].
    + rewrite lookup_insert_eq. intros [= <-]. eauto.
    + rewrite lookup_insert_ne by exact Hne. apply Hn.
  - destruct (decide (key = "birthday")) as [->|Hne].
    + rewrite lookup_insert_eq. intros [= <-]. eauto.
    + rewrite lookup_insert_ne by exact Hne. apply Hb.
Qed.

Lemma facts_set_other (key : string) (v : value) (c : ConversationContext) :
  key <> "name" -> key <> "birthday" ->
  facts_are_strings c -> facts_are_strings (set_user_data key v c).
Proof.
  intros H1 H2 [Hn Hb]. unfold facts_are_strings, get_user_data. simpl.
  rewrite !lookup_insert_ne by assumption. split; assumption.
Qed.

Lemma facts_update_context (cs : option string) (c : ConversationContext) :
  facts_are_strings c -> facts_are_strings (update_context cs c).
Proof.
  intros H. unfold update_context. destruct (nonempty cs); exact H.
Qed.

#[local] Hint Resolve facts_set_str facts_update_context : ctx.
#[local] Hint Extern 2 (facts_are_strings (set_user_data _ _ _)) =>
  apply facts_set_other; [discriminate|discriminate|] : ctx.

Section Facts.

Variable re : Re.engine.
Variable pyval : Type.
Variable py_eval : string -> outcome pyval.
Variable py_str : pyval -> outcome string.

Lemma facts_store_favorites (t v : string) (c : ConversationContext) :
  facts_are_strings c -> facts_are_strings (snd (Demo2.store_favorites t v c)).
Proof. intros H. unfold Demo2.store_favorites. run_cases. Qed.

Lemma facts_action2 (a : Demo2.action_fn) (m : option Re.match_obj)
    (c : ConversationContext) :
  facts_are_strings c ->
  facts_are_strings (snd (Demo2.run_action pyval py_eval py_str a m c)).
Proof.
  intros H. destruct a; try (run_cases; fail).
  simpl. unfold mbind' at 1.
  destruct (mlift (Demo2.lastindex_ge m 2) c) as [[[|]|e] c1] eqn:E1;
    unfold mlift in E1; injection E1 as _ <-; simpl; auto with ctx.
  unfold mbind' at 1. unfold mlift at 1.
  destruct (match m with Some mo => group_str mo 1 | None => Raise AttributeError end);
    simpl; auto with ctx.
  unfold mbind' at 1. unfold mlift at 1.
  destruct (match m with Some mo => group_str mo 2 | None => Raise AttributeError end);
    simpl; auto with ctx.
  unfold mbind' at 1.
  pose proof (facts_store_favorites (Str.lower (Str.strip a)) (Str.strip a0) c H) as H'.
  destruct (Demo2.store_favorites _ _ c) as [[u|e] c2]; simpl in *; auto with ctx.
Qed.

Lemma facts_action1 (a : Demo1.action_fn) (m : option Re.match_obj)
    (c : ConversationContext) :
  facts_are_strings c ->
  facts_are_strings (snd (Demo1.run_action pyval py_eval py_str a m c)).
Proof. intros H. destruct a; run_cases. Qed.

(** A turn keeps the name and the birthday strings. *)
Lemma facts_turn2 (self : Demo2.AdvancedChatbot) (rnd : nat) (now1 now2 : Clock.datetime)
    (u : string) (c : ConversationContext) :
  facts_are_strings c ->
  facts_are_strings
    (snd (Demo2.get_response re pyval py_eval py_str self rnd now1 now2 u c)).
Proof.
  intros H. rewrite demo2_turn.
  destruct (Demo2.classify_intent re self c u) as [[i|] m]; simpl; [|exact H].
  assert (H1 : facts_are_strings (snd (action_step2 pyval py_eval py_str i m c))).
  { unfold action_step2. destruct (Demo2.action i); [apply facts_action2|]; exact H. }
  destruct (action_step2 pyval py_eval py_str i m c) as [[res|e] c1]; simpl in *;
    [|exact H1].
  destruct (nonempty res); simpl; [exact H1|].
  destruct (random_choice rnd (Demo2.responses i)); simpl; [|exact H1].
  destruct (Demo2._fill_template self now1 now2 c1 a); simpl; auto with ctx.
Qed.

Lemma facts_turn1 (self : Demo1.AdvancedChatbot) (rnd : nat) (now1 now2 : Clock.datetime)
    (u : string) (c : ConversationContext) :
  facts_are_strings c ->
  facts_are_strings
    (snd (Demo1.get_response re pyval py_eval py_str self rnd now1 now2 u c)).
Proof.
  intros H. rewrite demo1_turn.
  destruct (Demo1.classify_intent re self c u) as [[[i|] m]|e]; simpl;
    [|exact H|exact H].
  assert (H1 : facts_are_strings (snd (action_step1 pyval py_eval py_str i m c))).
  { unfold action_step1. destruct (Demo1.action i); [apply facts_action1|]; exact H. }
  destruct (action_step1 pyval py_eval py_str i m c) as [[res|e] c1]; simpl in *;
    [|exact H1].
  destruct (nonempty res); simpl; [exact H1|].
  destruct (random_choice rnd (Demo1.responses i)); simpl; [|exact H1].
  destruct (Demo1._fill_template self now1 now2 c1 a); simpl; auto with ctx.
Qed.

End Facts.

(** * More of the two files *)

(** ** The letter case of the utterance *)

Lemma lower_char_idem (a : ascii) : Str.lower_char (Str.lower_char a) = Str.lower_char a.
Proof. destruct a as [[] [] [] [] [] [] [] []]; reflexivity. Qed.

Lemma lower_idem (s : string) : Str.lower (Str.lower s) = Str.lower s.
Proof.
  induction s as [|a s IH]; simpl; [reflexivity|].
  rewrite lower_char_idem, IH. reflexivity.
Qed.

Section LetterCase.

Variable re : Re.engine.
Variable c : ConversationContext.
Variable u : string.

Lemma demo2_score_lower (i : Demo2.Intent) :
  Demo2._score_intent re c i (Str.lower u) = Demo2._score_intent re c i u.
Proof. unfold Demo2._score_intent. rewrite lower_idem. reflexivity. Qed.

Lemma demo2_step_lower (b : Demo2.best) (i : Demo2.Intent) :
  Demo2.classify_step re c (Str.lower u) b i = Demo2.classify_step re c u b i.
Proof.
  unfold Demo2.classify_step. rewrite demo2_score_lower, lower_idem. reflexivity.
Qed.

Lemma demo2_classify_lower (self : Demo2.AdvancedChatbot) :
  Demo2.classify_intent re self c (Str.lower u) = Demo2.classify_intent re self c u.
Proof.
  unfold Demo2.classify_intent, Demo2.classify_loop.
  generalize ({| Demo2.best_intent := None; Demo2.best_score := 0;
                 Demo2.best_match := None |}).
  assert (H : forall l b, fold_left (Demo2.classify_step re c (Str.lower u)) l b
                          = fold_left (Demo2.classify_step re c u) l b).
  { induction l as [|i l IH]; intros b; simpl; [reflexivity|].
    rewrite demo2_step_lower. apply IH. }
  intros b. rewrite H. reflexivity.
Qed.

Lemma demo1_score_lower (i : Demo1.Intent) :
  Demo1._score_intent re c i (Str.lower u) = Demo1._score_intent re c i u.
Proof. unfold Demo1._score_intent. rewrite lower_idem. reflexivity. Qed.

Lemma demo1_step_lower (b : Demo1.best) (i : Demo1.Intent) :
  Demo1.classify_step re c (Str.lower u) b i = Demo1.classify_step re c u b i.
Proof.
  unfold Demo1.classify_step. rewrite demo1_score_lower, lower_idem. reflexivity.
Qed.

Lemma demo1_classify_lower (self : Demo1.AdvancedChatbot) :
  Demo1.classify_intent re self c (Str.lower u) = Demo1.classify_intent re self c u.
Proof.
  unfold Demo1.classify_intent.
  generalize ({| Demo1.best_intent := None; Demo1.best_score := 0;
                 Demo1.best_match := None |}).
  assert (H : forall l b, Demo1.classify_loop re c (Str.lower u) l b
                          = Demo1.classify_loop re c u l b).
  { induction l as [|i l IH]; intros b; simpl; [reflexivity|].
    rewrite demo1_step_lower. destruct (Demo1.classify_step re c u b i); simpl;
      [apply IH|reflexivity]. }
  intros b. rewrite H. reflexivity.
Qed.

End LetterCase.

Lemma analyze_lower (POS NEG : gset string) (u : string) :
  Sentiment.analyze POS NEG (Str.lower u) = Sentiment.analyze POS NEG u.
Proof. unfold Sentiment.analyze. rewrite lower_idem. reflexivity. Qed.

Section LetterCaseTurn.

Variable re : Re.engine.
Variable pyval : Type.
Variable py_eval : string -> outcome pyval.
Variable py_str : pyval -> outcome string.

Lemma demo2_response_lower (self : Demo2.AdvancedChatbot) (rnd : nat)
    (now1 now2 : Clock.datetime) (u : string) (c : ConversationContext) :
  Demo2.get_response re pyval py_eval py_str self rnd now1 now2 (Str.lower u) c
  = Demo2.get_response re pyval py_eval py_str self rnd now1 now2 u c.
Proof.
  unfold Demo2.get_response, mbind', mget.
  rewrite demo2_classify_lower, analyze_lower. reflexivity.
Qed.

Lemma demo1_response_lower (self : Demo1.AdvancedChatbot) (rnd : nat)
    (now1 now2 : Clock.datetime) (u : string) (c : ConversationContext) :
  Demo1.get_response re pyval py_eval py_str self rnd now1 now2 (Str.lower u) c
  = Demo1.get_response re pyval py_eval py_str self rnd now1 now2 u c.
Proof.
  unfold Demo1.get_response, mbind', mget, mlift, Demo1.analyze.
  rewrite demo1_classify_lower, analyze_lower. reflexivity.
Qed.

End LetterCaseTurn.

(** X1: A turn sees the utterance only in lower case: in both files
    [get_response] gives the same answer and leaves the same state for an
    utterance and for its lower-case form, whatever the catalog, the search
    engine and the evaluator. *)
Theorem turn_ignores_letter_case (re : Re.engine) (pyval : Type)
    (py_eval : string -> outcome pyval) (py_str : pyval -> outcome string)
    (rnd : nat) (now1 now2 : Clock.datetime) (u : string) (c : ConversationContext) :
  (forall self : Demo2.AdvancedChatbot,
      Demo2.get_response re pyval py_eval py_str self rnd now1 now2 (Str.lower u) c
      = Demo2.get_response re pyval py_eval py_str self rnd now1 now2 u c)
  /\ (forall self : Demo1.AdvancedChatbot,
         Demo1.get_response re pyval py_eval py_str self rnd now1 now2 (Str.lower u) c
         = Demo1.get_response re pyval py_eval py_str self rnd now1 now2 u c).
Proof.
  split; intros self.
  - apply demo2_response_lower.
  - apply demo1_response_lower.
Qed.

(** ** The range of the sentiment score *)

Lemma Qnat_add (a b : nat) : (Qnat (a + b) == Qnat a + Qnat b)%Q.
Proof. unfold Qnat. rewrite Nat2Z.inj_add, inject_Z_plus. reflexivity. Qed.

Lemma Qnat_le (a b : nat) : (a <= b)%nat -> (Qnat a <= Qnat b)%Q.
Proof. intros H. unfold Qnat. rewrite <- Zle_Qle. lia. Qed.

Lemma Qnat_1 : (Qnat 1 == 1)%Q.
Proof. reflexivity. Qed.

Lemma Qnat_total (p n : nat) : (Qnat (p + n + 1) == Qnat p + Qnat n + 1)%Q.
Proof. rewrite !Qnat_add, Qnat_1. reflexivity. Qed.

(** X2: The sign of the score tells the label, and a score that is not zero is
    at least one half in size: positive scores lie in [1/2, 1), negative
    scores in (-1, -1/2], and the score is 0 exactly for neutral. *)
Theorem sentiment_score_range (POS NEG : gset string) (text : string) :
  match Sentiment.analyze POS NEG text with
  | (Sentiment.positive, score) => (1 # 2 <= score)%Q /\ (score < 1)%Q
  | (Sentiment.negative, score) => (-1 < score)%Q /\ (score <= - (1 # 2))%Q
  | (Sentiment.neutral, score) => score = 0%Q
  end.
Proof.
  rewrite analyze_counts. cbv zeta.
  set (p := overlap POS text). set (n := overlap NEG text).
  pose proof (Qnat_nonneg p) as Hp0. pose proof (Qnat_nonneg n) as Hn0.
  assert (HD : (0 < Qnat (p + n + 1))%Q) by (rewrite Qnat_total; lra).
  destruct (n <? p)%nat eqn:E1.
  - apply Nat.ltb_lt in E1.
    assert (H : (Qnat n + 1 <= Qnat p)%Q).
    { rewrite <- Qnat_1, <- Qnat_add. apply Qnat_le. lia. }
    split.
    + apply Qle_shift_div_l; [exact HD|]. rewrite Qnat_total. lra.
    + apply Qlt_shift_div_r; [exact HD|]. rewrite Qnat_total. lra.
  - destruct (p <? n)%nat eqn:E2; [|reflexivity].
    apply Nat.ltb_lt in E2.
    assert (H : (Qnat p + 1 <= Qnat n)%Q).
    { rewrite <- Qnat_1, <- Qnat_add. apply Qnat_le. lia. }
    split.
    + apply Qlt_shift_div_l; [exact HD|]. rewrite Qnat_total. lra.
    + apply Qle_shift_div_r; [exact HD|]. rewrite Qnat_total. lra.
Qed.

(** ** The grain and the ceiling of a score *)

Lemma Qnat_mul (a b : nat) : (Qnat (a * b) == Qnat a * Qnat b)%Q.
Proof. unfold Qnat. rewrite Nat2Z.inj_mul, inject_Z_mult. reflexivity. Qed.

Lemma filter_length_bound {A : Type} (f : A -> bool) (l : list A) :
  (length (List.filter f l) <= length l)%nat.
Proof.
  induction l as [|x l IH]; simpl; [lia|]. destruct (f x); simpl; lia.
Qed.

Lemma remove_dups_length_bound (l : list string) :
  (length (remove_dups l) <= length l)%nat.
Proof.
  induction l as [|x l IH]; simpl; [lia|].
  destruct (decide_rel elem_of x l); simpl; lia.
Qed.

Lemma context_rule_quarters (required current : option string) (s : Q) (m k M K : nat) :
  (s == 2 * Qnat m + (1 # 2) * Qnat k)%Q -> (m <= M)%nat -> (k <= K)%nat ->
  (exists j : nat, (context_rule required current s == Qnat j / 4)%Q)
  /\ (context_rule required current s <= 2 * Qnat M + (1 # 2) * Qnat K + 1)%Q.
Proof.
  intros Hs Hm Hk.
  pose proof (Qnat_le _ _ Hm) as HmQ. pose proof (Qnat_le _ _ Hk) as HkQ.
  pose proof (Qnat_nonneg m) as Hm0. pose proof (Qnat_nonneg k) as Hk0.
  assert (H8 : (Qnat 8 == 8)%Q) by reflexivity.
  assert (H4 : (Qnat 4 == 4)%Q) by reflexivity.
  assert (H2 : (Qnat 2 == 2)%Q) by reflexivity.
  unfold context_rule. destruct (nonempty required).
  - destruct (decide (current = required)).
    + split.
      * exists (8 * m + 2 * k + 4)%nat.
        rewrite !Qnat_add, !Qnat_mul, H8, H4, H2, Hs. field.
      * rewrite Hs. lra.
    + split.
      * exists (4 * m + k)%nat. rewrite Qnat_add, Qnat_mul, H4, Hs. field.
      * rewrite Hs. lra.
  - split.
    + exists (8 * m + 2 * k)%nat. rewrite Qnat_add, !Qnat_mul, H8, H2, Hs. field.
    + rewrite Hs. lra.
Qed.

(** X3: Every score is a whole number of quarters, and at most 2 for each
    pattern of the intent plus 1/2 for each keyword plus 1: in Demo2 always,
    in Demo1 whenever the scorer returns. *)
Theorem score_in_quarters (re : Re.engine) (c : ConversationContext) (text : string) :
  (forall i : Demo2.Intent,
      (exists j : nat, (Demo2._score_intent re c i text == Qnat j / 4)%Q)
      /\ (Demo2._score_intent re c i text
          <= 2 * Qnat (length (Demo2.patterns i))
             + (1 # 2) * Qnat (length (Demo2.keywords i)) + 1)%Q)
  /\ (forall (i : Demo1.Intent) (q : Q),
         Demo1._score_intent re c i text = Ret q ->
         (exists j : nat, (q == Qnat j / 4)%Q)
         /\ (q <= 2 * Qnat (length (Demo1.patterns i))
                  + (1 # 2) * Qnat (length (Demo1.keywords i)) + 1)%Q).
Proof.
  split.
  - intros i.
    pose proof (demo2_score re c i text) as H.
    destruct (context_rule_quarters (Demo2.context_required i) (current_context c)
                _ (matching_patterns re (Demo2.patterns i) (Str.lower text))
                (keyword_entries_present (Demo2.keywords i) text)
                (length (Demo2.patterns i)) (length (Demo2.keywords i))
                (Qeq_refl _)
                (filter_length_bound _ _) (filter_length_bound _ _)) as [[j Hj] Hb].
    split.
    + exists j. rewrite H. exact Hj.
    + rewrite H. exact Hb.
  - intros i q Hq.
    destruct (all_compile_dec re (Demo1.patterns i) (Str.lower text)) as [Hc|Hc].
    + destruct (demo1_score re c i text Hc) as (q' & Hq' & Heq).
      rewrite Hq in Hq'. injection Hq' as <-.
      assert (Hk : (distinct_keywords_present (Demo1.keywords i) text
                    <= length (Demo1.keywords i))%nat).
      { unfold distinct_keywords_present.
        etransitivity; [apply filter_length_bound|apply remove_dups_length_bound]. }
      destruct (context_rule_quarters (Demo1.context_required i) (current_context c)
                  _ (matching_patterns re (Demo1.patterns i) (Str.lower text))
                  (distinct_keywords_present (Demo1.keywords i) text)
                  (length (Demo1.patterns i)) (length (Demo1.keywords i))
                  (Qeq_refl _) (filter_length_bound _ _) Hk) as [[j Hj] Hb].
      unfold claimed_score in Heq. split.
      * exists j. rewrite Heq. exact Hj.
      * rewrite Heq. exact Hb.
    + exfalso. unfold Demo1._score_intent in Hq.
      rewrite (demo1_score_patterns_bad re _ _ _ Hc) in Hq. discriminate.
Qed.

(** X3, witness: the first intent of the catalog of Demo1 and "hello there". *)
Lemma score_in_quarters_witness :
  exists q : Q,
    Demo1._score_intent PyRe.search Ex.fresh (Ex.intent1 0) "hello there" = Ret q
    /\ (exists j : nat, (q == Qnat j / 4)%Q).
Proof.
  assert (H : Demo1._score_intent PyRe.search Ex.fresh (Ex.intent1 0) "hello there"
              = Ret (5 # 2)%Q) by (vm_compute; reflexivity).
  exists (5 # 2)%Q. split; [exact H|].
  exact (proj1 (proj2 (score_in_quarters PyRe.search Ex.fresh "hello there")
                  (Ex.intent1 0) (5 # 2)%Q H)).
Defined.

(** ** What a turn leaves alone *)

Lemma keeps_refl (w : string -> bool) (c : ConversationContext) : keeps w c c.
Proof. repeat split. Qed.

Lemma keeps_set_user_data (w : string -> bool) (k : string) (v : value)
    (c c' : ConversationContext) :
  w k = true -> keeps w c c' -> keeps w c (set_user_data k v c').
Proof.
  intros Hk (Hh & Hs & Hd). repeat split; simpl; try assumption.
  intros key Hkey. rewrite lookup_insert_ne; [apply Hd; exact Hkey|].
  intros ->. congruence.
Qed.

Lemma keeps_update_context (w : string -> bool) (cs : option string)
    (c c' : ConversationContext) :
  keeps w c c' -> keeps w c (update_context cs c').
Proof.
  intros H. unfold update_context. destruct (nonempty cs); exact H.
Qed.

Lemma prefix_favorite_key (t : string) : String.prefix "favorite" ("favorite_" +:+ t) = true.
Proof. reflexivity. Qed.

Section Frame.

Variable re : Re.engine.
Variable pyval : Type.
Variable py_eval : string -> outcome pyval.
Variable py_str : pyval -> outcome string.

Lemma store_favorites_keeps (t v : string) (c : ConversationContext) :
  keeps (may_write2 Demo2.store_favorites_action) c (snd (Demo2.store_favorites t v c)).
Proof.
  unfold Demo2.store_favorites, mbind', mget, mlift, mmodify. simpl.
  destruct (get_or "favorites" (VDict ∅) c); simpl; try apply keeps_refl.
  apply keeps_set_user_data; [apply prefix_favorite_key|].
  apply keeps_set_user_data; [reflexivity|]. apply keeps_refl.
Qed.

Lemma demo2_action_keeps (a : Demo2.action_fn) (m : option Re.match_obj)
    (c : ConversationContext) :
  keeps (may_write2 a) c (snd (Demo2.run_action pyval py_eval py_str a m c)).
Proof.
  destruct a; simpl.
  - destruct m as [mo|]; [|apply keeps_refl].
    destruct (Re.lastindex mo) as [[|k]|]; try apply keeps_refl.
    unfold mbind', mlift, mmodify, mret.
    destruct (group_str mo 1); simpl; [|apply keeps_refl].
    apply keeps_set_user_data; [reflexivity|apply keeps_refl].
  - apply keeps_refl.
  - unfold mbind', mlift, mmodify, mret.
    destruct (Demo2.lastindex_ge m 1) as [[|]|]; simpl; try apply keeps_refl.
    destruct (match m with Some mo => group_str mo 1 | None => Raise AttributeError end);
      simpl; [|apply keeps_refl].
    apply keeps_set_user_data; [reflexivity|apply keeps_refl].
  - unfold mbind', mlift, mmodify, mret, mget.
    destruct (Demo2.lastindex_ge m 1) as [[|]|]; simpl; try apply keeps_refl.
    destruct (match m with Some mo => group_str mo 1 | None => Raise AttributeError end);
      simpl; [|apply keeps_refl].
    destruct (match get_user_data "notes" c with
              | Some (VList l) => Ret l
              | Some v => if truthy v then Raise AttributeError else Ret []
              | None => Ret []
              end); simpl; [|apply keeps_refl].
    apply keeps_set_user_data; [reflexivity|apply keeps_refl].
  - unfold mbind', mget, mret.
    destruct (get_user_data "notes" c) as [notes|]; [|apply keeps_refl].
    destruct (truthy notes); apply keeps_refl.
  - unfold mbind' at 1. unfold mlift at 1.
    destruct (Demo2.lastindex_ge m 2) as [[|]|]; simpl; try apply keeps_refl.
    unfold mbind' at 1. unfold mlift at 1.
    destruct (match m with Some mo => group_str mo 1 | None => Raise AttributeError end)
      as [g1|]; simpl; [|apply keeps_refl].
    unfold mbind' at 1. unfold mlift at 1.
    destruct (match m with Some mo => group_str mo 2 | None => Raise AttributeError end)
      as [g2|]; simpl; [|apply keeps_refl].
    unfold mbind' at 1.
    pose proof (store_favorites_keeps (Str.lower (Str.strip g1)) (Str.strip g2) c) as H.
    destruct (Demo2.store_favorites _ _ c) as [[u|e] c2]; simpl in *; [|exact H].
    unfold mbind', mmodify, mret. simpl.
    apply keeps_set_user_data; [reflexivity|exact H].
Qed.

Lemma demo1_action_keeps (a : Demo1.action_fn) (m : option Re.match_obj)
    (c : ConversationContext) :
  keeps (may_write1 a) c (snd (Demo1.run_action pyval py_eval py_str a m c)).
Proof.
  destruct a; simpl; [|apply keeps_refl].
  unfold mbind', mlift, mmodify, mret.
  destruct (match m with Some mo => group_str mo 1 | None => Raise AttributeError end);
    simpl; [|apply keeps_refl].
  apply keeps_set_user_data; [reflexivity|apply keeps_refl].
Qed.

Lemma demo2_turn_keeps (self : Demo2.AdvancedChatbot) (rnd : nat)
    (now1 now2 : Clock.datetime) (u : string) (c : ConversationContext) :
  keeps (writable2 (fst (Demo2.classify_intent re self c u))) c
    (snd (Demo2.get_response re pyval py_eval py_str self rnd now1 now2 u c)).
Proof.
  rewrite demo2_turn.
  destruct (Demo2.classify_intent re self c u) as [[i|] m]; simpl; [|apply keeps_refl].
  assert (H : keeps (writable2 (Some i)) c (snd (action_step2 pyval py_eval py_str i m c))).
  { unfold action_step2, writable2. destruct (Demo2.action i) as [a|].
    - apply demo2_action_keeps.
    - apply keeps_refl. }
  destruct (action_step2 pyval py_eval py_str i m c) as [[res|e] c1]; simpl in *;
    [|exact H].
  destruct (nonempty res); simpl; [exact H|].
  destruct (random_choice rnd (Demo2.responses i)) as [t|]; simpl; [|exact H].
  destruct (Demo2._fill_template self now1 now2 c1 t); simpl; [|exact H].
  apply keeps_update_context. exact H.
Qed.

Lemma demo1_turn_keeps (self : Demo1.AdvancedChatbot) (rnd : nat)
    (now1 now2 : Clock.datetime) (u : string) (c : ConversationContext) :
  keeps (writable1 (match Demo1.classify_intent re self c u with
                    | Ret (i, _) => i
                    | Raise _ => None
                    end)) c
    (snd (Demo1.get_response re pyval py_eval py_str self rnd now1 now2 u c)).
Proof.
  rewrite demo1_turn.
  destruct (Demo1.classify_intent re self c u) as [[[i|] m]|e]; simpl;
    try apply keeps_refl.
  assert (H : keeps (writable1 (Some i)) c (snd (action_step1 pyval py_eval py_str i m c))).
  { unfold action_step1, writable1. destruct (Demo1.action i) as [a|].
    - apply demo1_action_keeps.
    - apply keeps_refl. }
  destruct (action_step1 pyval py_eval py_str i m c) as [[res|e] c1]; simpl in *;
    [|exact H].
  destruct (nonempty res); simpl; [exact H|].
  destruct (random_choice rnd (Demo1.responses i)) as [t|]; simpl; [|exact H].
  destruct (Demo1._fill_template self now1 now2 c1 t); simpl; [|exact H].
  apply keeps_update_context. exact H.
Qed.

End Frame.

(** X4: A turn never touches the history or the session start, and changes no
    remembered fact but those the action of the winning intent assigns: the
    name for the name action, the birthday for the birthday action, the
    notes for the note action, keys that begin with "favorite" for the
    favourites action, nothing for the other actions, for an intent without
    action and when no intent wins.  This holds whether the turn returns or
    raises. *)
Theorem turn_keeps_other_facts (re : Re.engine) (pyval : Type)
    (py_eval : string -> outcome pyval) (py_str : pyval -> outcome string)
    (rnd : nat) (now1 now2 : Clock.datetime) (u : string) (c : ConversationContext) :
  (forall self : Demo2.AdvancedChatbot,
      keeps (writable2 (fst (Demo2.classify_intent re self c u))) c
        (snd (Demo2.get_response re pyval py_eval py_str self rnd now1 now2 u c)))
  /\ (forall self : Demo1.AdvancedChatbot,
         keeps (writable1 (match Demo1.classify_intent re self c u with
                           | Ret (i, _) => i
                           | Raise _ => None
                           end)) c
           (snd (Demo1.get_response re pyval py_eval py_str self rnd now1 now2 u c))).
Proof.
  split; intros self.
  - apply demo2_turn_keeps.
  - apply demo1_turn_keeps.
Qed.

(** ** The types of the remembered facts *)

Lemma well_typed_new (now : Clock.datetime) : facts_well_typed (new_context now).
Proof.
  split; [apply facts_new_context|].
  split; intros v Hv; unfold get_user_data in Hv; simpl in Hv; discriminate.
Qed.

Lemma well_typed_set_str (k s : string) (c : ConversationContext) :
  k <> "notes" -> k <> "favorites" ->
  facts_well_typed c -> facts_well_typed (set_user_data k (VStr s) c).
Proof.
  intros H1 H2 (Hs & Hn & Hf). split; [apply facts_set_str; exact Hs|].
  unfold get_user_data in *. simpl.
  rewrite !lookup_insert_ne by assumption. split; assumption.
Qed.

Lemma well_typed_set_notes (l : list string) (c : ConversationContext) :
  facts_well_typed c -> facts_well_typed (set_user_data "notes" (VList l) c).
Proof.
  intros (Hs & Hn & Hf). split; [apply facts_set_other; [discriminate|discriminate|exact Hs]|].
  unfold get_user_data in *. simpl. split; intros v.
  - rewrite lookup_insert_eq. intros [= <-]. eauto.
  - rewrite lookup_insert_ne by discriminate. apply Hf.
Qed.

Lemma well_typed_set_favorites (d : gmap string string) (c : ConversationContext) :
  facts_well_typed c -> facts_well_typed (set_user_data "favorites" (VDict d) c).
Proof.
  intros (Hs & Hn & Hf). split; [apply facts_set_other; [discriminate|discriminate|exact Hs]|].
  unfold get_user_data in *. simpl. split; intros v.
  - rewrite lookup_insert_ne by discriminate. apply Hn.
  - rewrite lookup_insert_eq. intros [= <-]. eauto.
Qed.

Lemma well_typed_update_context (cs : option string) (c : ConversationContext) :
  facts_well_typed c -> facts_well_typed (update_context cs c).
Proof. intros H. unfold update_context. destruct (nonempty cs); exact H. Qed.

Lemma well_typed_add_exchange (now : Clock.datetime) (u b : string)
    (c : ConversationContext) :
  facts_well_typed c -> facts_well_typed (add_exchange now u b c).
Proof. intros H. exact H. Qed.

Lemma favorite_key_not_notes (t : string) : "favorite_" +:+ t <> "notes".
Proof. intros H. discriminate H. Qed.

Lemma favorite_key_not_favorites (t : string) : "favorite_" +:+ t <> "favorites".
Proof.
  intros H. discriminate H.
Qed.

Section WellTyped.

Variable re : Re.engine.
Variable pyval : Type.
Variable py_eval : string -> outcome pyval.
Variable py_str : pyval -> outcome string.

Lemma well_typed_store_favorites (t v : string) (c : ConversationContext) :
  facts_well_typed c -> facts_well_typed (snd (Demo2.store_favorites t v c)).
Proof.
  intros H. unfold Demo2.store_favorites, mbind', mget, mlift, mmodify. simpl.
  destruct (get_or "favorites" (VDict ∅) c); simpl; try exact H.
  apply well_typed_set_str;
    [apply favorite_key_not_notes|apply favorite_key_not_favorites|].
  apply well_typed_set_favorites. exact H.
Qed.

Lemma well_typed_action2 (a : Demo2.action_fn) (m : option Re.match_obj)
    (c : ConversationContext) :
  facts_well_typed c ->
  facts_well_typed (snd (Demo2.run_action pyval py_eval py_str a m c)).
Proof.
  intros H. destruct a; simpl.
  - destruct m as [mo|]; [|exact H].
    destruct (Re.lastindex mo) as [[|k]|]; try exact H.
    unfold mbind', mlift, mmodify, mret.
    destruct (group_str mo 1); simpl; [|exact H].
    apply well_typed_set_str; [discriminate|discriminate|exact H].
  - exact H.
  - unfold mbind', mlift, mmodify, mret.
    destruct (Demo2.lastindex_ge m 1) as [[|]|]; simpl; try exact H.
    destruct (match m with Some mo => group_str mo 1 | None => Raise AttributeError end);
      simpl; [|exact H].
    apply well_typed_set_str; [discriminate|discriminate|exact H].
  - unfold mbind', mlift, mmodify, mret, mget.
    destruct (Demo2.lastindex_ge m 1) as [[|]|]; simpl; try exact H.
    destruct (match m with Some mo => group_str mo 1 | None => Raise AttributeError end);
      simpl; [|exact H].
    destruct (match get_user_data "notes" c with
              | Some (VList l) => Ret l
              | Some v => if truthy v then Raise AttributeError else Ret []
              | None => Ret []
              end); simpl; [|exact H].
    apply well_typed_set_notes. exact H.
  - unfold mbind', mget, mret.
    destruct (get_user_data "notes" c) as [notes|]; [|exact H].
    destruct (truthy notes); exact H.
  - unfold mbind' at 1. unfold mlift at 1.
    destruct (Demo2.lastindex_ge m 2) as [[|]|]; simpl; try exact H.
    unfold mbind' at 1. unfold mlift at 1.
    destruct (match m with Some mo => group_str mo 1 | None => Raise AttributeError end)
      as [g1|]; simpl; [|exact H].
    unfold mbind' at 1. unfold mlift at 1.
    destruct (match m with Some mo => group_str mo 2 | None => Raise AttributeError end)
      as [g2|]; simpl; [|exact H].
    unfold mbind' at 1.
    pose proof (well_typed_store_favorites (Str.lower (Str.strip g1)) (Str.strip g2) c H)
      as H'.
    destruct (Demo2.store_favorites _ _ c) as [[u|e] c2]; simpl in *; [|exact H'].
    unfold mbind', mmodify, mret. simpl.
    apply well_typed_set_str; [discriminate|discriminate|exact H'].
Qed.

Lemma well_typed_action1 (a : Demo1.action_fn) (m : option Re.match_obj)
    (c : ConversationContext) :
  facts_well_typed c ->
  facts_well_typed (snd (Demo1.run_action pyval py_eval py_str a m c)).
Proof.
  intros H. destruct a; simpl; [|exact H].
  unfold mbind', mlift, mmodify, mret.
  destruct (match m with Some mo => group_str mo 1 | None => Raise AttributeError end);
    simpl; [|exact H].
  apply well_typed_set_str; [discriminate|discriminate|exact H].
Qed.

Lemma well_typed_turn2 (self : Demo2.AdvancedChatbot) (rnd : nat)
    (now1 now2 : Clock.datetime) (u : string) (c : ConversationContext) :
  facts_well_typed c ->
  facts_well_typed
    (snd (Demo2.get_response re pyval py_eval py_str self rnd now1 now2 u c)).
Proof.
  intros H. rewrite demo2_turn.
  destruct (Demo2.classify_intent re self c u) as [[i|] m]; simpl; [|exact H].
  assert (H1 : facts_well_typed (snd (action_step2 pyval py_eval py_str i m c))).
  { unfold action_step2. destruct (Demo2.action i); [apply well_typed_action2|]; exact H. }
  destruct (action_step2 pyval py_eval py_str i m c) as [[res|e] c1]; simpl in *;
    [|exact H1].
  destruct (nonempty res); simpl; [exact H1|].
  destruct (random_choice rnd (Demo2.responses i)) as [t|]; simpl; [|exact H1].
  destruct (Demo2._fill_template self now1 now2 c1 t); simpl; [|exact H1].
  apply well_typed_update_context. exact H1.
Qed.

Lemma well_typed_turn1 (self : Demo1.AdvancedChatbot) (rnd : nat)
    (now1 now2 : Clock.datetime) (u : string) (c : ConversationContext) :
  facts_well_typed c ->
  facts_well_typed
    (snd (Demo1.get_response re pyval py_eval py_str self rnd now1 now2 u c)).
Proof.
  intros H. rewrite demo1_turn.
  destruct (Demo1.classify_intent re self c u) as [[[i|] m]|e]; simpl;
    [|exact H|exact H].
  assert (H1 : facts_well_typed (snd (action_step1 pyval py_eval py_str i m c))).
  { unfold action_step1. destruct (Demo1.action i); [apply well_typed_action1|]; exact H. }
  destruct (action_step1 pyval py_eval py_str i m c) as [[res|e] c1]; simpl in *;
    [|exact H1].
  destruct (nonempty res); simpl; [exact H1|].
  destruct (random_choice rnd (Demo1.responses i)) as [t|]; simpl; [|exact H1].
  destruct (Demo1._fill_template self now1 now2 c1 t); simpl; [|exact H1].
  apply well_typed_update_context. exact H1.
Qed.

(** What every turn and every recorded exchange preserve holds after a chat. *)
Lemma chat_loop2_invariant (P : ConversationContext -> Prop) (self : Session2.Session) :
  (forall rnd now1 now2 u c, P c ->
     P (snd (Demo2.get_response re pyval py_eval py_str (Session2.chatbot self)
               rnd now1 now2 u c))) ->
  (forall now u b c, P c -> P (add_exchange now u b c)) ->
  forall events c, P c ->
    P (snd (Session2.chat_loop re pyval py_eval py_str self events c)).
Proof.
  intros Hturn Hadd events.
  induction events as [|ev events IH]; intros c Hc; simpl; [exact Hc|].
  assert (Hstep : P (snd (Session2.chat_step re pyval py_eval py_str self ev c))).
  { destruct ev as [text d|]; simpl; [|exact Hc].
    destruct (String.eqb (Str.strip text) ""); simpl; [exact Hc|].
    destruct (String.eqb (Str.lower (Str.strip text)) "stats").
    - destruct (Session2._show_stats re (Session2.chatbot self) (seconds d) c)
        as [report [e|]]; exact Hc.
    - specialize (Hturn (drawn d) (clock1 d) (clock2 d) (Str.strip text) c Hc).
      destruct (Demo2.get_response _ _ _ _ _ _ _ _ _ c) as [[response|e] c']; simpl in *.
      + apply Hadd. exact Hturn.
      + exact Hturn. }
  destruct (Session2.chat_step re pyval py_eval py_str self ev c) as [[out [|]] c'];
    simpl in *.
  - specialize (IH c' Hstep).
    destruct (Session2.chat_loop re pyval py_eval py_str self events c') as [[out' st] c''].
    exact IH.
  - exact Hstep.
Qed.

Lemma chat_loop1_invariant (P : ConversationContext -> Prop) (self : Demo1.AdvancedChatbot) :
  (forall rnd now1 now2 u c, P c ->
     P (snd (Demo1.get_response re pyval py_eval py_str self rnd now1 now2 u c))) ->
  (forall now u b c, P c -> P (add_exchange now u b c)) ->
  forall events c, P c ->
    P (snd (Session1.chat_loop re pyval py_eval py_str self events c)).
Proof.
  intros Hturn Hadd events.
  induction events as [|ev events IH]; intros c Hc; simpl; [exact Hc|].
  assert (Hstep : P (snd (Session1.chat_step re pyval py_eval py_str self ev c))).
  { destruct ev as [text d|]; simpl; [|exact Hc].
    destruct (String.eqb (Str.strip text) ""); simpl; [exact Hc|].
    specialize (Hturn (drawn d) (clock1 d) (clock2 d) (Str.strip text) c Hc).
    destruct (Demo1.get_response _ _ _ _ _ _ _ _ _ c) as [[response|e] c']; simpl in *.
    - apply Hadd. exact Hturn.
    - exact Hturn. }
  destruct (Session1.chat_step re pyval py_eval py_str self ev c) as [[out [|]] c'];
    simpl in *.
  - specialize (IH c' Hstep).
    destruct (Session1.chat_loop re pyval py_eval py_str self events c') as [[out' st] c''].
    exact IH.
  - exact Hstep.
Qed.

End WellTyped.

Lemma replace_all_strings (env : list (string * string)) (t : string) :
  exists s, replace_all (map to_replacement env) t = Ret s.
Proof.
  revert t. induction env as [|[k v] env IH]; intros t; simpl; [eauto|]. apply IH.
Qed.

Lemma fill2_returns (self : Demo2.AdvancedChatbot) (now1 now2 : Clock.datetime)
    (c : ConversationContext) (t : string) :
  facts_are_strings c -> exists s, Demo2._fill_template self now1 now2 c t = Ret s.
Proof.
  intros H. unfold Demo2._fill_template. rewrite (replacements2_bindings _ _ _ _ H).
  apply replace_all_strings.
Qed.

Lemma fill1_returns (self : Demo1.AdvancedChatbot) (now1 now2 : Clock.datetime)
    (c : ConversationContext) (t : string) :
  facts_are_strings c -> exists s, Demo1._fill_template self now1 now2 c t = Ret s.
Proof.
  intros H. unfold Demo1._fill_template. rewrite (replacements1_bindings _ _ _ _ H).
  apply replace_all_strings.
Qed.

(** X5: Whatever is typed in a chat that starts with a new session, the name and
    the birthday, when remembered, are strings, the notes are a list and the
    favourites are a dictionary; every turn keeps this, and in such a state
    filling a template never raises. *)
Theorem session_facts_well_typed (re : Re.engine) (pyval : Type)
    (py_eval : string -> outcome pyval) (py_str : pyval -> outcome string) :
  (forall (self : Session2.Session) (events : list event) (now : Clock.datetime),
      facts_well_typed
        (snd (Session2.chat re pyval py_eval py_str self events (new_context now))))
  /\ (forall (self : Demo1.AdvancedChatbot) (events : list event) (now : Clock.datetime),
         facts_well_typed
           (snd (Session1.chat re pyval py_eval py_str self events (new_context now))))
  /\ (forall (self : Demo2.AdvancedChatbot) rnd now1 now2 u c,
         facts_well_typed c ->
         facts_well_typed
           (snd (Demo2.get_response re pyval py_eval py_str self rnd now1 now2 u c)))
  /\ (forall (self : Demo1.AdvancedChatbot) rnd now1 now2 u c,
         facts_well_typed c ->
         facts_well_typed
           (snd (Demo1.get_response re pyval py_eval py_str self rnd now1 now2 u c)))
  /\ (forall (self : Demo2.AdvancedChatbot) now1 now2 c t,
         facts_well_typed c -> exists s, Demo2._fill_template self now1 now2 c t = Ret s)
  /\ (forall (self : Demo1.AdvancedChatbot) now1 now2 c t,
         facts_well_typed c -> exists s, Demo1._fill_template self now1 now2 c t = Ret s).
Proof.
  split; [|split; [|split; [|split; [|split]]]].
  - intros self events now. unfold Session2.chat.
    pose proof (chat_loop2_invariant re pyval py_eval py_str facts_well_typed self
                  (fun rnd now1 now2 u c =>
                     well_typed_turn2 re pyval py_eval py_str _ rnd now1 now2 u c)
                  well_typed_add_exchange events (new_context now) (well_typed_new now)) as H.
    destruct (Session2.chat_loop _ _ _ _ _ _ _) as [[out st] c']. exact H.
  - intros self events now. unfold Session1.chat.
    pose proof (chat_loop1_invariant re pyval py_eval py_str facts_well_typed self
                  (fun rnd now1 now2 u c =>
                     well_typed_turn1 re pyval py_eval py_str _ rnd now1 now2 u c)
                  well_typed_add_exchange events (new_context now) (well_typed_new now)) as H.
    destruct (Session1.chat_loop _ _ _ _ _ _ _) as [[out st] c']. exact H.
  - intros. apply well_typed_turn2. assumption.
  - intros. apply well_typed_turn1. assumption.
  - intros self now1 now2 c t [H _]. apply fill2_returns. exact H.
  - intros self now1 now2 c t [H _]. apply fill1_returns. exact H.
Qed.

(** ** Notes: saved, then shown *)

Lemma lastindex_ge_closed (m : Re.match_obj) (n : nat) :
  closed_group m n -> Demo2.lastindex_ge (Some m) n = Ret true.
Proof.
  intros (k & Hk & Hle). unfold Demo2.lastindex_ge. rewrite Hk.
  f_equal. apply Nat.leb_le. exact Hle.
Qed.

Lemma group_str_captures (m : Re.match_obj) (i : nat) (g : string) :
  captures m i g -> group_str m i = Ret g.
Proof. intros H. unfold group_str, Re.group. rewrite H. reflexivity. Qed.

Lemma notes_of_set (l : list string) (c : ConversationContext) :
  notes_of (set_user_data "notes" (VList l) c) = l.
Proof. unfold notes_of, get_user_data. simpl. rewrite lookup_insert_eq. reflexivity. Qed.

Section Notes.

Variable pyval : Type.
Variable py_eval : string -> outcome pyval.
Variable py_str : pyval -> outcome string.

Lemma save_note_step (m : Re.match_obj) (g : string) (c : ConversationContext) :
  facts_well_typed c -> closed_group m 1 -> captures m 1 g ->
  Demo2.run_action pyval py_eval py_str Demo2.save_note_action (Some m) c
  = (Ret None, set_user_data "notes" (VList (notes_of c ++ [Str.strip g])) c).
Proof.
  intros (_ & Hn & _) Hc Hg. unfold Demo2.run_action.
  unfold mbind', mlift, mget, mmodify, mret.
  rewrite (lastindex_ge_closed m 1 Hc), (group_str_captures m 1 g Hg).
  unfold notes_of. destruct (get_user_data "notes" c) as [v|]; [|reflexivity].
  destruct (Hn v eq_refl) as [l ->]. reflexivity.
Qed.

Lemma after_notes_all (gs : list string) (ms : list Re.match_obj) (c : ConversationContext) :
  facts_well_typed c ->
  Forall2 (fun g m => closed_group m 1 /\ captures m 1 g) gs ms ->
  facts_well_typed (after_notes pyval py_eval py_str ms c)
  /\ notes_of (after_notes pyval py_eval py_str ms c) = notes_of c ++ map Str.strip gs
  /\ keeps (fun key => String.eqb key "notes") c (after_notes pyval py_eval py_str ms c)
  /\ current_context (after_notes pyval py_eval py_str ms c) = current_context c.
Proof.
  intros Hc H. revert c Hc. unfold after_notes.
  induction H as [|g m gs ms [Hm Hg] _ IH]; intros c Hc; cbn [fold_left map].
  - rewrite app_nil_r. split; [exact Hc|]. split; [reflexivity|].
    split; [apply keeps_refl|reflexivity].
  - rewrite (save_note_step m g c Hc Hm Hg). cbn [snd].
    destruct (IH (set_user_data "notes" (VList (notes_of c ++ [Str.strip g])) c)
                (well_typed_set_notes _ c Hc)) as (H1 & H2 & (H3 & H4 & H5) & H6).
    split; [exact H1|]. split.
    + rewrite H2, notes_of_set, <- app_assoc. reflexivity.
    + split; [|exact H6]. repeat split; try assumption.
      intros key Hkey. rewrite (H5 key Hkey). simpl.
      apply lookup_insert_ne. intros <-. discriminate Hkey.
Qed.

Lemma show_notes_result (m : option Re.match_obj) (c : ConversationContext) :
  facts_well_typed c ->
  Demo2.run_action pyval py_eval py_str Demo2.show_notes_action m c
  = (Ret (Some (match notes_of c with
                | [] => "You don't have any saved notes yet."
                | _ :: _ =>
                    "Here are your saved notes:" +:+ String "010" (numbered (notes_of c))
                end)), c).
Proof.
  intros (_ & Hn & _). simpl. unfold mbind', mget, mret, notes_of.
  destruct (get_user_data "notes" c) as [v|]; [|reflexivity].
  destruct (Hn v eq_refl) as [l ->]. destruct l as [|n l]; [reflexivity|].
  simpl truthy. cbv iota. unfold numbered, items.
  rewrite (imap_ext (fun i note => Str.of_nat (i + 1) +:+ ". " +:+ note)
             (fun i line => Str.of_nat (S i) +:+ ". " +:+ line) (n :: l));
    [reflexivity|].
  intros i x _. simpl. rewrite Nat.add_1_r. reflexivity.
Qed.

End Notes.

(** X6: Notes come back as they went in.  When the note action runs on matches
    whose first groups hold g1, ..., gn, the notes remembered grow by the
    stripped g1, ..., gn in this order, no step raises, and nothing else
    changes; the show action then answers "Here are your saved notes:" and
    all the notes, oldest first, numbered from 1, one to a line -- or that
    there are no notes yet when none was saved -- and changes nothing. *)
Theorem notes_saved_then_shown (pyval : Type) (py_eval : string -> outcome pyval)
    (py_str : pyval -> outcome string) (gs : list string) (ms : list Re.match_obj)
    (c : ConversationContext) :
  facts_well_typed c ->
  Forall2 (fun g m => closed_group m 1 /\ captures m 1 g) gs ms ->
  let c' := after_notes pyval py_eval py_str ms c in
  notes_of c' = notes_of c ++ map Str.strip gs
  /\ keeps (fun key => String.eqb key "notes") c c'
  /\ current_context c' = current_context c
  /\ (forall m g c0, facts_well_typed c0 -> closed_group m 1 -> captures m 1 g ->
        fst (Demo2.run_action pyval py_eval py_str Demo2.save_note_action (Some m) c0)
        = Ret None)
  /\ (forall m,
        Demo2.run_action pyval py_eval py_str Demo2.show_notes_action m c'
        = (Ret (Some (match notes_of c' with
                      | [] => "You don't have any saved notes yet."
                      | _ :: _ =>
                          "Here are your saved notes:"
                          +:+ String "010" (numbered (notes_of c'))
                      end)), c')).
Proof.
  intros Hc H c'.
  destruct (after_notes_all pyval py_eval py_str gs ms c Hc H) as (H1 & H2 & H3 & H4).
  split; [exact H2|]. split; [exact H3|]. split; [exact H4|]. split.
  - intros m g c0 Hc0 Hm Hg. rewrite (save_note_step _ _ _ m g c0 Hc0 Hm Hg). reflexivity.
  - intros m. apply show_notes_result. exact H1.
Qed.

(** X6, witness: two notes saved in a new session, then shown. *)
Lemma notes_saved_then_shown_witness :
  facts_well_typed Ex.fresh
  /\ Forall2 (fun g m => closed_group m 1 /\ captures m 1 g)
       [" buy milk "; "call bob"]
       [Sample.note1; Sample.note2]
  /\ fst (Demo2.run_action Z PyEval.eval PyEval.format Demo2.show_notes_action None
            (after_notes Z PyEval.eval PyEval.format [Sample.note1; Sample.note2]
               Ex.fresh))
     = Ret (Some ("Here are your saved notes:" +:+ String "010" "1. buy milk"
                  +:+ String "010" "2. call bob")).
Proof.
  assert (H1 : facts_well_typed Ex.fresh) by apply well_typed_new.
  assert (H2 : Forall2 (fun g m => closed_group m 1 /\ captures m 1 g)
                 [" buy milk "; "call bob"] [Sample.note1; Sample.note2]).
  { constructor; [split; [exists 1%nat; split; [reflexivity|lia]|reflexivity]|].
    constructor; [split; [exists 1%nat; split; [reflexivity|lia]|reflexivity]|].
    constructor. }
  split; [exact H1|]. split; [exact H2|].
  destruct (notes_saved_then_shown Z PyEval.eval PyEval.format _ _ _ H1 H2)
    as (_ & _ & _ & _ & Hshow).
  rewrite (Hshow None). vm_compute. reflexivity.
Defined.

(** ** Favourites *)

Lemma favorite_key_inj (a b : string) : "favorite_" +:+ a = "favorite_" +:+ b -> a = b.
Proof. intros H. injection H. auto. Qed.

Lemma get_or_favorites (c : ConversationContext) :
  facts_well_typed c -> get_or "favorites" (VDict ∅) c = VDict (favorites_of c).
Proof.
  intros (_ & _ & Hf). unfold get_or, favorites_of.
  destruct (get_user_data "favorites" c) as [v|]; [|reflexivity].
  destruct (Hf v eq_refl) as [d ->]. reflexivity.
Qed.

Section Favourites.

Variable pyval : Type.
Variable py_eval : string -> outcome pyval.
Variable py_str : pyval -> outcome string.

Lemma store_favorites_result (t v : string) (c : ConversationContext) :
  facts_well_typed c ->
  Demo2.store_favorites t v c
  = (Ret tt,
     set_user_data ("favorite_" +:+ filed_under t) (VStr v)
       (set_user_data "favorites" (VDict (<[filed_under t := v]> (favorites_of c))) c)).
Proof.
  intros H. unfold Demo2.store_favorites, mbind', mget, mlift, mmodify.
  rewrite (get_or_favorites c H). reflexivity.
Qed.

Lemma favorites_action_result (m : Re.match_obj) (t v : string) (c : ConversationContext) :
  facts_well_typed c -> closed_group m 2 -> captures m 1 t -> captures m 2 v ->
  Demo2.run_action pyval py_eval py_str Demo2.store_favorites_action (Some m) c
  = (Ret None,
     set_user_data "favorite_type" (VStr (Str.lower (Str.strip t)))
       (set_user_data ("favorite_" +:+ filed_under (Str.lower (Str.strip t)))
          (VStr (Str.strip v))
          (set_user_data "favorites"
             (VDict (<[filed_under (Str.lower (Str.strip t)) := Str.strip v]>
                       (favorites_of c))) c))).
Proof.
  intros H Hm Ht Hv. unfold Demo2.run_action.
  unfold mbind' at 1. unfold mlift at 1. rewrite (lastindex_ge_closed m 2 Hm).
  unfold mbind' at 1. unfold mlift at 1. rewrite (group_str_captures m 1 t Ht).
  unfold mbind' at 1. unfold mlift at 1. rewrite (group_str_captures m 2 v Hv).
  unfold mbind' at 1. rewrite (store_favorites_result _ _ c H).
  reflexivity.
Qed.

End Favourites.

(** X7: The favourites action, on a match whose first two groups hold the kind
    and the value: it returns no answer of its own; the favourites hold the
    stripped value under the stripped, lower-case kind, a band being filed
    under "music"; the key "favorite_" followed by that kind holds the same
    value (unless the kind is "type", a key the next assignment takes); the
    key "favorite_type" holds the kind as it was said, "band" for a band;
    the other favourites and every key that does not begin with "favorite"
    stay as they were, and so do the history and the context tag. *)
Theorem favourite_filed (pyval : Type) (py_eval : string -> outcome pyval)
    (py_str : pyval -> outcome string) (m : Re.match_obj) (t v : string)
    (c : ConversationContext) :
  facts_well_typed c -> closed_group m 2 -> captures m 1 t -> captures m 2 v ->
  let kind := Str.lower (Str.strip t) in
  let r := Demo2.run_action pyval py_eval py_str Demo2.store_favorites_action (Some m) c in
  fst r = Ret None
  /\ favorites_of (snd r) = <[filed_under kind := Str.strip v]> (favorites_of c)
  /\ get_user_data "favorite_type" (snd r) = Some (VStr kind)
  /\ (filed_under kind <> "type" ->
      get_user_data ("favorite_" +:+ filed_under kind) (snd r) = Some (VStr (Str.strip v)))
  /\ keeps (String.prefix "favorite") c (snd r)
  /\ current_context (snd r) = current_context c.
Proof.
  intros H Hm Ht Hv kind r. unfold r.
  rewrite (favorites_action_result pyval py_eval py_str m t v c H Hm Ht Hv).
  fold kind. cbn [fst snd].
  split; [reflexivity|]. split; [|split; [|split; [|split]]].
  - unfold favorites_of, get_user_data. simpl.
    rewrite lookup_insert_ne by discriminate.
    rewrite lookup_insert_ne by apply favorite_key_not_favorites.
    rewrite lookup_insert_eq. reflexivity.
  - unfold get_user_data. simpl. rewrite lookup_insert_eq. reflexivity.
  - intros Hne. unfold get_user_data. simpl.
    rewrite lookup_insert_ne.
    + rewrite lookup_insert_eq. reflexivity.
    + intros E. apply Hne. symmetry.
      apply (favorite_key_inj "type" (filed_under kind)). exact E.
  - apply keeps_set_user_data; [reflexivity|].
    apply keeps_set_user_data; [apply prefix_favorite_key|].
    apply keeps_set_user_data; [reflexivity|apply keeps_refl].
  - reflexivity.
Qed.

(** X7, witness: a favourite band in a new session. *)
Lemma favourite_filed_witness :
  facts_well_typed Ex.fresh /\ closed_group Sample.band 2
  /\ captures Sample.band 1 "band" /\ captures Sample.band 2 "queen"
  /\ favorites_of
       (snd (Demo2.run_action Z PyEval.eval PyEval.format Demo2.store_favorites_action
               (Some Sample.band) Ex.fresh))
     = {[ "music" := "queen" ]}
  /\ get_user_data "favorite_type"
       (snd (Demo2.run_action Z PyEval.eval PyEval.format Demo2.store_favorites_action
               (Some Sample.band) Ex.fresh))
     = Some (VStr "band").
Proof.
  assert (H1 : facts_well_typed Ex.fresh) by apply well_typed_new.
  assert (H2 : closed_group Sample.band 2) by (exists 2%nat; split; [reflexivity|lia]).
  assert (H3 : captures Sample.band 1 "band") by reflexivity.
  assert (H4 : captures Sample.band 2 "queen") by reflexivity.
  destruct (favourite_filed Z PyEval.eval PyEval.format Sample.band "band" "queen"
              Ex.fresh H1 H2 H3 H4) as (_ & Hf & Ht & _).
  split; [exact H1|]. split; [exact H2|]. split; [exact H3|]. split; [exact H4|].
  split; [|exact Ht].
  rewrite Hf. reflexivity.
Defined.

(** ** The turns of Demo1 that raise *)

Lemma random_choice_nonempty {A : Type} (rnd : nat) (l : list A) :
  l <> [] -> exists x, random_choice rnd l = Ret x /\ x ∈ l.
Proof.
  intros Hl. unfold random_choice.
  destruct (l !! (rnd mod length l)%nat) as [x|] eqn:E.
  - exists x. split; [reflexivity|]. eapply list_elem_of_lookup_2. exact E.
  - exfalso. apply lookup_ge_None in E.
    assert (Hlen : (length l <> 0)%nat) by (destruct l; [congruence|discriminate]).
    pose proof (Nat.mod_upper_bound rnd (length l) Hlen). lia.
Qed.

Lemma random_choice_empty {A : Type} (rnd : nat) :
  random_choice rnd (@nil A) = Raise IndexError.
Proof. reflexivity. Qed.

Lemma group_str_raises (o : option Re.match_obj) (e : exn) :
  match o with Some mo => group_str mo 1 | None => Raise AttributeError end = Raise e ->
  e = AttributeError \/ e = IndexError.
Proof.
  destruct o as [mo|]; [|intros [= <-]; left; reflexivity].
  unfold group_str, Re.group. destruct (Re.groups mo !! 1%nat) as [[g|]|]; simpl.
  - discriminate.
  - intros [= <-]. left. reflexivity.
  - intros [= <-]. right. reflexivity.
Qed.

Lemma demo1_catalog_checked :
  List.forallb
    (fun i => negb (Nat.eqb (length (Demo1.responses i)) 0)
              && Bool.eqb (String.eqb (Demo1.name i) "user_name")
                   (match Demo1.action i with
                    | Some Demo1.user_name_action => true
                    | _ => false
                    end))
    Demo1._setup_intents = true.
Proof. vm_compute. reflexivity. Qed.

Lemma demo1_catalog_safe (i : Demo1.Intent) :
  i ∈ Demo1._setup_intents ->
  Demo1.responses i <> []
  /\ (Demo1.name i = "user_name" <-> Demo1.action i = Some Demo1.user_name_action).
Proof.
  intros Hi. pose proof demo1_catalog_checked as H.
  rewrite List.forallb_forall in H. apply list_elem_of_In in Hi.
  specialize (H i Hi). apply andb_true_iff in H. destruct H as [H1 H2].
  apply Bool.eqb_prop in H2. split.
  - intros E. rewrite E in H1. discriminate.
  - rewrite <- String.eqb_eq, H2.
    destruct (Demo1.action i) as [[|]|]; split; congruence.
Qed.

Section Demo1Turn.

Variable re : Re.engine.
Variable pyval : Type.
Variable py_eval : string -> outcome pyval.
Variable py_str : pyval -> outcome string.

(** The answer drawn from the templates of an intent, in state [c1]. *)
Lemma demo1_template_answer (self : Demo1.AdvancedChatbot) (rnd : nat)
    (now1 now2 : Clock.datetime) (i : Demo1.Intent) (c1 : ConversationContext) :
  facts_are_strings c1 -> Demo1.responses i <> [] ->
  exists t s, t ∈ Demo1.responses i
    /\ random_choice rnd (Demo1.responses i) = Ret t
    /\ Demo1._fill_template self now1 now2 c1 t = Ret s.
Proof.
  intros Hc Hr. destruct (random_choice_nonempty rnd _ Hr) as (t & Ht & Hin).
  destruct (fill1_returns self now1 now2 c1 t Hc) as [s Hs].
  exists t, s. repeat split; assumption.
Qed.

Lemma demo1_turn_returns_or_name (self : Demo1.AdvancedChatbot) (rnd : nat)
    (now1 now2 : Clock.datetime) (u : string) (c : ConversationContext)
    (i : Demo1.Intent) (m : option Re.match_obj) :
  facts_are_strings c -> Demo1.responses i <> [] ->
  Demo1.classify_intent re self c u = Ret (Some i, m) ->
  let r := Demo1.get_response re pyval py_eval py_str self rnd now1 now2 u c in
  match Demo1.action i with
  | Some Demo1.user_name_action =>
      match match m with Some mo => group_str mo 1 | None => Raise AttributeError end with
      | Raise e => r = (Raise e, c)
      | Ret g => exists s, fst r = Ret s
      end
  | _ => exists s, fst r = Ret s
  end.
Proof.
  intros Hc Hr Hcl r. unfold r. rewrite demo1_turn, Hcl. unfold action_step1.
  destruct (Demo1.action i) as [[|]|]; simpl.
  - unfold mbind', mlift, mmodify, mret.
    destruct (match m with Some mo => group_str mo 1 | None => Raise AttributeError end)
      as [g|e]; simpl; [|reflexivity].
    destruct (demo1_template_answer self rnd now1 now2 i
                (set_user_data "name" (VStr (Str.title g)) c)
                (facts_set_str _ _ _ Hc) Hr) as (t & s & _ & Ht & Hs).
    rewrite Ht, Hs. exists s. reflexivity.
  - destruct (negb (Demo1._calculate pyval py_eval py_str m =? "")%string).
    + destruct (fill1_returns self now1 now2 c
                  (Demo1._calculate pyval py_eval py_str m) Hc) as [s Hs].
      rewrite Hs. exists s. reflexivity.
    + destruct (demo1_template_answer self rnd now1 now2 i c Hc Hr)
        as (t & s & _ & Ht & Hs).
      rewrite Ht, Hs. exists s. reflexivity.
  - destruct (demo1_template_answer self rnd now1 now2 i c Hc Hr)
      as (t & s & _ & Ht & Hs).
    rewrite Ht, Hs. exists s. reflexivity.
Qed.

Lemma demo1_fallback (self : Demo1.AdvancedChatbot) (rnd : nat)
    (now1 now2 : Clock.datetime) (u : string) (c : ConversationContext)
    (m : option Re.match_obj) :
  Demo1.classify_intent re self c u = Ret (None, m) ->
  exists s, s ∈ Demo1.defaults (fst (Demo1.analyze u))
    /\ Demo1.get_response re pyval py_eval py_str self rnd now1 now2 u c = (Ret s, c).
Proof.
  intros Hcl. rewrite demo1_turn, Hcl.
  destruct (random_choice_nonempty rnd (Demo1.defaults (fst (Demo1.analyze u))))
    as (s & Hs & Hin).
  { destruct (fst (Demo1.analyze u)); discriminate. }
  exists s. rewrite Hs. split; [exact Hin|reflexivity].
Qed.

(** With the built-in catalog, a turn raises exactly when the name intent
    wins and the match handed to its action has no first group to read. *)
Lemma demo1_builtin_raises (name : string) (rnd : nat) (now1 now2 : Clock.datetime)
    (u : string) (c : ConversationContext) (e : exn) :
  catalog_compiles re Demo1._setup_intents u -> facts_are_strings c ->
  fst (Demo1.get_response re pyval py_eval py_str (Demo1.new_chatbot name)
         rnd now1 now2 u c) = Raise e
  <-> exists i m,
        Demo1.classify_intent re (Demo1.new_chatbot name) c u = Ret (Some i, m)
        /\ Demo1.name i = "user_name"
        /\ match m with Some mo => group_str mo 1 | None => Raise AttributeError end
           = Raise e.
Proof.
  intros Hcat Hc.
  destruct (demo1_classify_cases re c u (Demo1.new_chatbot name) Hcat)
    as [[_ Hcl]|(pre & i & post & m & Hcl & Hl & _)].
  - destruct (demo1_fallback (Demo1.new_chatbot name) rnd now1 now2 u c None Hcl)
      as (s & _ & Hs).
    rewrite Hs, Hcl. simpl. split; [discriminate|].
    intros (i & m & H & _). discriminate.
  - assert (Hin : i ∈ Demo1._setup_intents).
    { change Demo1._setup_intents with (Demo1.intents (Demo1.new_chatbot name)).
      rewrite Hl. apply elem_of_app. right. left. }
    destruct (demo1_catalog_safe i Hin) as [Hr Hname].
    pose proof (demo1_turn_returns_or_name (Demo1.new_chatbot name) rnd now1 now2 u c i m
                  Hc Hr Hcl) as H.
    cbv zeta in H. rewrite Hcl. split.
    + intros He. exists i, m. split; [reflexivity|].
      destruct (Demo1.action i) as [[|]|] eqn:Ea.
      * split; [apply Hname; reflexivity|].
        destruct (match m with Some mo => group_str mo 1 | None => Raise AttributeError end)
          as [g|e'].
        -- destruct H as [s Hs]. congruence.
        -- rewrite H in He. simpl in He. exact He.
      * destruct H as [s Hs]. congruence.
      * destruct H as [s Hs]. congruence.
    + intros (i' & m' & [= <- <-] & Hn & Hg).
      apply Hname in Hn. rewrite Hn, Hg in H. rewrite H. reflexivity.
Qed.

End Demo1Turn.

(** X8: In Demo1 with its built-in catalog, for a search engine that accepts
    the patterns of the catalog and a state whose name fact is a string, a
    turn raises exactly when the intent "user_name" wins and its action
    cannot read group 1 of the match it is handed: there is no match, or the
    match has no such group.  The exception is then an AttributeError or an
    IndexError and the state is left as it was.  Every other turn returns
    an answer. *)
Theorem demo1_turn_raises_only_in_name_action (re : Re.engine) (pyval : Type)
    (py_eval : string -> outcome pyval) (py_str : pyval -> outcome string)
    (name : string) (rnd : nat) (now1 now2 : Clock.datetime) (u : string)
    (c : ConversationContext) :
  catalog_compiles re Demo1._setup_intents u -> facts_are_strings c ->
  let self := Demo1.new_chatbot name in
  let r := Demo1.get_response re pyval py_eval py_str self rnd now1 now2 u c in
  (forall e, fst r = Raise e
     <-> exists i m,
           Demo1.classify_intent re self c u = Ret (Some i, m)
           /\ Demo1.name i = "user_name"
           /\ match m with Some mo => group_str mo 1 | None => Raise AttributeError end
              = Raise e)
  /\ (forall e, fst r = Raise e -> (e = AttributeError \/ e = IndexError) /\ snd r = c).
Proof.
  intros Hcat Hc self r.
  split.
  - intros e. apply demo1_builtin_raises; assumption.
  - intros e He.
    destruct (proj1 (demo1_builtin_raises re pyval py_eval py_str name rnd now1 now2
                       u c e Hcat Hc) He) as (i & m & Hcl & Hn & Hg).
    split; [eapply group_str_raises; exact Hg|].
    unfold r, self. rewrite demo1_turn, Hcl. unfold action_step1.
    assert (Hin : i ∈ Demo1._setup_intents).
    { destruct (demo1_classify_cases re c u (Demo1.new_chatbot name) Hcat)
        as [[_ Hcl']|(pre & i' & post & m' & Hcl' & Hl & _)]; [congruence|].
      assert (i' = i) by congruence. subst i'.
      change Demo1._setup_intents with (Demo1.intents (Demo1.new_chatbot name)).
      rewrite Hl. apply elem_of_app. right. left. }
    destruct (demo1_catalog_safe i Hin) as [_ Hname].
    rewrite (proj1 Hname Hn). simpl. unfold mbind', mlift. rewrite Hg. reflexivity.
Qed.

(** X8, witness: the engine of the examples accepts the built-in patterns; "call am" in
    a new session makes the name intent win without a match. *)
Lemma demo1_turn_raises_only_in_name_action_witness :
  catalog_compiles PyRe.search Demo1._setup_intents "call am"
  /\ facts_are_strings Ex.fresh
  /\ fst (Ex.turn1 Ex.bot1 "call am" Ex.fresh) = Raise AttributeError
  /\ snd (Ex.turn1 Ex.bot1 "call am" Ex.fresh) = Ex.fresh.
Proof.
  assert (H1 : catalog_compiles PyRe.search Demo1._setup_intents "call am")
    by apply (builtin_catalog_compiles "BERGEN TECH AI").
  assert (H2 : facts_are_strings Ex.fresh) by apply facts_new_context.
  assert (H3 : fst (Ex.turn1 Ex.bot1 "call am" Ex.fresh) = Raise AttributeError)
    by (vm_compute; reflexivity).
  split; [exact H1|]. split; [exact H2|]. split; [exact H3|].
  destruct (demo1_turn_raises_only_in_name_action PyRe.search Z PyEval.eval PyEval.format
              "BERGEN TECH AI" 0 Ex.now Ex.now "call am" Ex.fresh H1 H2) as (_ & H).
  exact (proj2 (H AttributeError H3)).
Defined.

(** ** The answer when no intent wins *)

Lemma analyze_no_words (text : string) :
  Sentiment.analyze ∅ ∅ text = (Sentiment.neutral, 0%Q).
Proof.
  unfold Sentiment.analyze.
  rewrite !intersection_empty_r_L, size_empty. reflexivity.
Qed.

(** X9: When no intent scores above 1/2 the turn answers with one of the canned
    sentences for the sentiment of the utterance, as it stands (no template
    is filled), and leaves the state as it was.  Demo1 has three or four
    such sentences for each sentiment; in Demo2 they come from the settings,
    and a turn that finds the list empty raises IndexError.  A Demo2
    configuration without sentiment words leaves the word sets of the class
    as the constructor finds them; while these are the empty sets of the
    class body, every utterance is neutral. *)
Theorem fallback_answer (re : Re.engine) (pyval : Type)
    (py_eval : string -> outcome pyval) (py_str : pyval -> outcome string)
    (rnd : nat) (now1 now2 : Clock.datetime) (u : string) (c : ConversationContext) :
  (forall self : Demo1.AdvancedChatbot,
      catalog_compiles re (Demo1.intents self) u ->
      Forall (fun j => (score1 re c u j <= 1 # 2)%Q) (Demo1.intents self) ->
      exists s, s ∈ Demo1.defaults (fst (Demo1.analyze u))
        /\ Demo1.get_response re pyval py_eval py_str self rnd now1 now2 u c = (Ret s, c))
  /\ (forall self : Demo2.AdvancedChatbot,
         Forall (fun j => (score2 re c u j <= 1 # 2)%Q) (Demo2.intents self) ->
         let answers :=
           Demo2.unknown_responses self
             (fst (Sentiment.analyze (Demo2.POSITIVE_WORDS self)
                     (Demo2.NEGATIVE_WORDS self) u)) in
         let r := Demo2.get_response re pyval py_eval py_str self rnd now1 now2 u c in
         (answers = [] -> r = (Raise IndexError, c))
         /\ (answers <> [] -> exists s, s ∈ answers /\ r = (Ret s, c)))
  /\ (forall (words : gset string * gset string) (cfg : Demo2.config)
        (name : option string),
         Demo2.cfg_sentiment_words cfg = None ->
         let self := Demo2.new_chatbot words cfg name in
         (Demo2.POSITIVE_WORDS self, Demo2.NEGATIVE_WORDS self) = words
         /\ (words = Demo2.initial_words ->
             Demo2.unknown_responses self
               (fst (Sentiment.analyze (Demo2.POSITIVE_WORDS self)
                       (Demo2.NEGATIVE_WORDS self) u))
             = default ["Interesting!"]
                 (Demo2.unknown_response_neutral (Demo2.cfg_bot_settings cfg)))).
Proof.
  split; [|split].
  - intros self Hcat Hlow.
    destruct (demo1_classify_cases re c u self Hcat)
      as [[_ Hcl]|(pre & i & post & m & _ & Hl & Hgt & _)].
    + apply (demo1_fallback re pyval py_eval py_str self rnd now1 now2 u c None Hcl).
    + exfalso. rewrite Hl in Hlow. apply Forall_app in Hlow. destruct Hlow as [_ Hlow].
      apply Forall_cons in Hlow. destruct Hlow as [Hlow _]. simpl in Hlow. lra.
  - intros self Hlow answers r.
    assert (Hcl : fst (Demo2.classify_intent re self c u) = None).
    { destruct (demo2_classify_cases re c u self)
        as [[_ Hcl]|(pre & i & post & m & _ & Hl & Hgt & _)].
      - rewrite Hcl. reflexivity.
      - exfalso. rewrite Hl in Hlow. apply Forall_app in Hlow. destruct Hlow as [_ Hlow].
        apply Forall_cons in Hlow. destruct Hlow as [Hlow _]. simpl in Hlow. lra. }
    unfold r. rewrite demo2_turn, Hcl. fold answers. split.
    + intros ->. reflexivity.
    + intros Hne. destruct (random_choice_nonempty rnd answers Hne) as (s & Hs & Hin).
      exists s. rewrite Hs. split; [exact Hin|reflexivity].
  - intros words cfg name Hw self.
    unfold self, Demo2.new_chatbot, Demo2.load_from_config. simpl. rewrite Hw.
    split; [destruct words; reflexivity|].
    intros ->. simpl. rewrite analyze_no_words. reflexivity.
Qed.

(** X9, witness: "xyzzy" in a new session of Demo1: no intent scores, the utterance is
    neutral. *)
Lemma fallback_answer_witness :
  catalog_compiles PyRe.search (Demo1.intents Ex.bot1) "xyzzy"
  /\ Forall (fun j => (score1 PyRe.search Ex.fresh "xyzzy" j <= 1 # 2)%Q)
       (Demo1.intents Ex.bot1)
  /\ exists s, s ∈ Demo1.defaults Sentiment.neutral
       /\ Ex.turn1 Ex.bot1 "xyzzy" Ex.fresh = (Ret s, Ex.fresh).
Proof.
  assert (H1 : catalog_compiles PyRe.search (Demo1.intents Ex.bot1) "xyzzy")
    by apply builtin_catalog_compiles.
  assert (H2 : Forall (fun j => (score1 PyRe.search Ex.fresh "xyzzy" j <= 1 # 2)%Q)
                 (Demo1.intents Ex.bot1)).
  { apply Forall_forall. intros j Hj.
    assert (Hb : List.forallb
                   (fun j => Qle_bool (score1 PyRe.search Ex.fresh "xyzzy" j) (1 # 2))
                   (Demo1.intents Ex.bot1) = true) by (vm_compute; reflexivity).
    rewrite List.forallb_forall in Hb. apply Qle_bool_iff, Hb, list_elem_of_In, Hj. }
  split; [exact H1|]. split; [exact H2|].
  exact (proj1 (fallback_answer PyRe.search Z PyEval.eval PyEval.format 0 Ex.now Ex.now
                  "xyzzy" Ex.fresh) Ex.bot1 H1 H2).
Defined.

(** ** The turns of Demo2 that raise *)

Lemma random_choice_raises {A : Type} (rnd : nat) (l : list A) (e : exn) :
  random_choice rnd l = Raise e <-> l = [] /\ e = IndexError.
Proof.
  split.
  - intros H. destruct l as [|x l].
    + rewrite random_choice_empty in H. split; congruence.
    + destruct (random_choice_nonempty rnd (x :: l)) as (y & Hy & _); [discriminate|].
      congruence.
  - intros [-> ->]. reflexivity.
Qed.

(** The turns that raise when [re.search] raises nothing but re.error. *)
Lemma demo2_turn_raises_cases (re : Re.engine) (pyval : Type)
    (py_eval : string -> outcome pyval) (py_str : pyval -> outcome string)
    (self : Demo2.AdvancedChatbot) (rnd : nat) (now1 now2 : Clock.datetime)
    (u : string) (c : ConversationContext) (e : exn) :
  facts_are_strings c ->
  fst (Demo2.get_response re pyval py_eval py_str self rnd now1 now2 u c) = Raise e
  <-> match Demo2.classify_intent re self c u with
      | (None, _) =>
          Demo2.unknown_responses self
            (fst (Sentiment.analyze (Demo2.POSITIVE_WORDS self)
                    (Demo2.NEGATIVE_WORDS self) u)) = []
          /\ e = IndexError
      | (Some i, m) =>
          match fst (action_step2 pyval py_eval py_str i m c) with
          | Raise e' => e' = e
          | Ret res => nonempty res = false /\ Demo2.responses i = [] /\ e = IndexError
          end
      end.
Proof.
  intros Hc. rewrite demo2_turn.
  destruct (Demo2.classify_intent re self c u) as [[i|] m]; cbn [fst snd].
  - assert (H1 : facts_are_strings (snd (action_step2 pyval py_eval py_str i m c))).
    { unfold action_step2. destruct (Demo2.action i); [apply facts_action2|]; exact Hc. }
    destruct (action_step2 pyval py_eval py_str i m c) as [[res|e'] c1]; cbn [fst snd] in *.
    + destruct (nonempty res).
      * destruct (fill2_returns self now1 now2 c1 (default "" res) H1) as [s Hs].
        rewrite Hs. cbn [fst]. split; [discriminate|]. intros [H _]. discriminate.
      * destruct (random_choice rnd (Demo2.responses i)) as [t|e'] eqn:Et.
        -- destruct (fill2_returns self now1 now2 c1 t H1) as [s Hs].
           rewrite Hs. cbn [fst]. split; [discriminate|].
           intros (_ & Hr & _). rewrite Hr, random_choice_empty in Et. discriminate.
        -- apply random_choice_raises in Et. destruct Et as [Hr ->]. cbn [fst].
           split.
           ++ intros [= <-]. auto.
           ++ intros (_ & _ & ->). reflexivity.
    + split; [intros [= <-]; reflexivity|intros ->; reflexivity].
  - rewrite <- random_choice_raises. reflexivity.
Qed.

(** X10: In a state whose name and birthday facts are strings, a turn of Demo2
    raises in four cases only: [classify_intent] raises (the same
    exception), which it does exactly when the search of some pattern of
    the catalog raises an exception that is not re.error, the first such
    exception being the one raised; the action of the winning intent raises
    (the same exception); the action leaves the answer to the templates and
    the intent has none (IndexError); no intent wins and the settings give
    no canned sentence for the sentiment (IndexError).  In every other case
    the turn returns an answer.  With a search that raises re.error only,
    the turn is the one the chat loop runs. *)
Theorem demo2_turn_raises_iff (search : Re.searcher) (pyval : Type)
    (py_eval : string -> outcome pyval) (py_str : pyval -> outcome string)
    (self : Demo2.AdvancedChatbot) (rnd : nat) (now1 now2 : Clock.datetime)
    (u : string) (c : ConversationContext) (e : exn) :
  facts_are_strings c ->
  (fst (Demo2Exn.get_response search pyval py_eval py_str self rnd now1 now2 u c) = Raise e
   <-> match Demo2Exn.classify_intent search self c u with
       | Raise e' => e' = e
       | Ret (None, _) =>
           Demo2.unknown_responses self
             (fst (Sentiment.analyze (Demo2.POSITIVE_WORDS self)
                     (Demo2.NEGATIVE_WORDS self) u)) = []
           /\ e = IndexError
       | Ret (Some i, m) =>
           match fst (action_step2 pyval py_eval py_str i m c) with
           | Raise e' => e' = e
           | Ret res => nonempty res = false /\ Demo2.responses i = [] /\ e = IndexError
           end
       end)
  /\ (Demo2Exn.classify_intent search self c u = Raise e
      <-> exists pre p post,
            catalog_patterns (Demo2.intents self) = pre ++ p :: post
            /\ search p (Str.lower u) = Raise e /\ e <> re_error
            /\ Forall (fun p' => forall e', search p' (Str.lower u) = Raise e' ->
                                            e' = re_error) pre)
  /\ (forall re : Re.engine,
         Demo2Exn.get_response (Re.lift re) pyval py_eval py_str self rnd now1 now2 u c
         = Demo2.get_response re pyval py_eval py_str self rnd now1 now2 u c).
Proof.
  intros Hc.
  pose proof (fun p t => eq_refl (Re.restrict search p t)) as agree.
  split; [|split].
  - rewrite (searcher_turn search _ agree), (searcher_classify search _ agree).
    destruct (Re.first_crash search (Str.lower u) (catalog_patterns (Demo2.intents self))).
    + cbn [fst]. split; [intros [= <-]; reflexivity|intros ->; reflexivity].
    + apply demo2_turn_raises_cases. exact Hc.
  - rewrite (searcher_classify search _ agree), <- first_crash_some.
    destruct (Re.first_crash search (Str.lower u) (catalog_patterns (Demo2.intents self)));
      split; congruence.
  - intros re.
    rewrite (searcher_turn (Re.lift re) re (restrict_lift re)), lift_no_crash.
    reflexivity.
Qed.

(** X10, witness.  The birthday action on a match without group raises
    TypeError; a catalog with a pattern on which the search raises
    OverflowError makes the turn raise it. *)
Lemma demo2_turn_raises_iff_witness :
  facts_are_strings Ex.fresh
  /\ fst (Demo2Exn.get_response (Re.lift PyRe.search) Z PyEval.eval PyEval.format
           Ex.birthday_bot 0 Ex.now Ex.now "when is my birthday" Ex.fresh)
     = Raise TypeError
  /\ fst (Demo2Exn.get_response Ex.overflow_search Z PyEval.eval PyEval.format
           Ex.too_large_bot 0 Ex.now Ex.now "hello" Ex.fresh)
     = Raise OverflowError.
Proof.
  assert (H : facts_are_strings Ex.fresh) by apply facts_new_context.
  split; [exact H|]. split.
  - apply (proj1 (demo2_turn_raises_iff (Re.lift PyRe.search) Z PyEval.eval PyEval.format
                    Ex.birthday_bot 0 Ex.now Ex.now "when is my birthday" Ex.fresh
                    TypeError H)).
    vm_compute. reflexivity.
  - apply (proj1 (demo2_turn_raises_iff Ex.overflow_search Z PyEval.eval PyEval.format
                    Ex.too_large_bot 0 Ex.now Ex.now "hello" Ex.fresh OverflowError H)).
    vm_compute. reflexivity.
Defined.

(** ** The values of the context tag *)

Lemma tag_from_same {I : Type} (cs : I -> option string) (l : list I)
    (c c' : ConversationContext) :
  current_context c' = current_context c -> tag_from cs l c -> tag_from cs l c'.
Proof. unfold tag_from. intros ->. auto. Qed.

Lemma tag_from_update {I : Type} (cs : I -> option string) (l : list I) (i : I)
    (c : ConversationContext) :
  i ∈ l -> tag_from cs l (update_context (cs i) c).
Proof.
  intros Hi. unfold tag_from.
  destruct (update_context_effect (cs i) c) as [_ H]. rewrite H.
  destruct (nonempty (cs i)) eqn:E; [right|left; reflexivity].
  exists i. repeat split; assumption.
Qed.

Section Tag.

Variable re : Re.engine.
Variable pyval : Type.
Variable py_eval : string -> outcome pyval.
Variable py_str : pyval -> outcome string.

Lemma tag_turn2 (self : Demo2.AdvancedChatbot) (rnd : nat) (now1 now2 : Clock.datetime)
    (u : string) (c : ConversationContext) :
  tag_from Demo2.context_set (Demo2.intents self) c ->
  tag_from Demo2.context_set (Demo2.intents self)
    (snd (Demo2.get_response re pyval py_eval py_str self rnd now1 now2 u c)).
Proof.
  intros H. rewrite demo2_turn.
  destruct (demo2_classify_cases re c u self)
    as [[_ Hcl]|(pre & i & post & m & Hcl & Hl & _)]; rewrite Hcl; cbn [fst snd].
  - exact H.
  - assert (Hin : i ∈ Demo2.intents self).
    { rewrite Hl. apply elem_of_app. right. left. }
    pose proof (action_step2_same_context pyval py_eval py_str i m c) as [Hs _].
    destruct (action_step2 pyval py_eval py_str i m c) as [[res|e] c1]; cbn [fst snd] in *.
    + destruct (nonempty res); cbn [snd]; [apply (tag_from_same _ _ c); assumption|].
      destruct (random_choice rnd (Demo2.responses i)) as [t|]; cbn [snd];
        [|apply (tag_from_same _ _ c); assumption].
      destruct (Demo2._fill_template self now1 now2 c1 t); cbn [snd];
        [|apply (tag_from_same _ _ c); assumption].
      apply tag_from_update. exact Hin.
    + apply (tag_from_same _ _ c); assumption.
Qed.

Lemma tag_turn1 (self : Demo1.AdvancedChatbot) (rnd : nat) (now1 now2 : Clock.datetime)
    (u : string) (c : ConversationContext) :
  tag_from Demo1.context_set (Demo1.intents self) c ->
  tag_from Demo1.context_set (Demo1.intents self)
    (snd (Demo1.get_response re pyval py_eval py_str self rnd now1 now2 u c)).
Proof.
  intros H. rewrite demo1_turn.
  destruct (Demo1.classify_intent re self c u) as [[[i|] m]|e] eqn:Hcl; cbn [fst snd];
    [|exact H|exact H].
  assert (Hin : i ∈ Demo1.intents self).
  { destruct (demo1_classify_cases re c u self
                (demo1_classify_ret_compiles re c u self _ Hcl))
      as [[_ Hcl']|(pre & i' & post & m' & Hcl' & Hl & _)]; [congruence|].
    assert (i' = i) by congruence. subst i'.
    rewrite Hl. apply elem_of_app. right. left. }
  pose proof (action_step1_same_context pyval py_eval py_str i m c) as [Hs _].
  destruct (action_step1 pyval py_eval py_str i m c) as [[res|e] c1]; cbn [fst snd] in *.
  - destruct (nonempty res); cbn [snd]; [apply (tag_from_same _ _ c); assumption|].
    destruct (random_choice rnd (Demo1.responses i)) as [t|]; cbn [snd];
      [|apply (tag_from_same _ _ c); assumption].
    destruct (Demo1._fill_template self now1 now2 c1 t); cbn [snd];
      [|apply (tag_from_same _ _ c); assumption].
    apply tag_from_update. exact Hin.
  - apply (tag_from_same _ _ c); assumption.
Qed.

End Tag.

Lemma demo1_catalog_tags (i : Demo1.Intent) :
  i ∈ Demo1._setup_intents ->
  Demo1.context_set i = None \/ Demo1.context_set i = Some "asked_user_feeling".
Proof.
  intros Hi.
  assert (H : List.forallb
                (fun i => match Demo1.context_set i with
                          | None => true
                          | Some t => String.eqb t "asked_user_feeling"
                          end) Demo1._setup_intents = true) by (vm_compute; reflexivity).
  rewrite List.forallb_forall in H. apply list_elem_of_In in Hi. specialize (H i Hi).
  destruct (Demo1.context_set i) as [t|]; [right|left; reflexivity].
  apply String.eqb_eq in H. congruence.
Qed.

(** X11: The context tag only takes values the catalog gives it: after any chat
    that starts with a new session it is none, or the tag that some intent
    of the catalog sets, and never the empty string; every turn keeps this.
    With the built-in catalog of Demo1 the tag is none or
    "asked_user_feeling". *)
Theorem context_tag_from_catalog (re : Re.engine) (pyval : Type)
    (py_eval : string -> outcome pyval) (py_str : pyval -> outcome string) :
  (forall (self : Session2.Session) (events : list event) (now : Clock.datetime),
      tag_from Demo2.context_set (Demo2.intents (Session2.chatbot self))
        (snd (Session2.chat re pyval py_eval py_str self events (new_context now))))
  /\ (forall (self : Demo1.AdvancedChatbot) (events : list event) (now : Clock.datetime),
         tag_from Demo1.context_set (Demo1.intents self)
           (snd (Session1.chat re pyval py_eval py_str self events (new_context now))))
  /\ (forall (self : Demo2.AdvancedChatbot) rnd now1 now2 u c,
         tag_from Demo2.context_set (Demo2.intents self) c ->
         tag_from Demo2.context_set (Demo2.intents self)
           (snd (Demo2.get_response re pyval py_eval py_str self rnd now1 now2 u c)))
  /\ (forall (self : Demo1.AdvancedChatbot) rnd now1 now2 u c,
         tag_from Demo1.context_set (Demo1.intents self) c ->
         tag_from Demo1.context_set (Demo1.intents self)
           (snd (Demo1.get_response re pyval py_eval py_str self rnd now1 now2 u c)))
  /\ (forall (name : string) (events : list event) (now : Clock.datetime),
         let c := snd (Session1.chat re pyval py_eval py_str (Demo1.new_chatbot name)
                         events (new_context now)) in
         current_context c = None \/ current_context c = Some "asked_user_feeling").
Proof.
  assert (H2 : forall (self : Session2.Session) events now,
             tag_from Demo2.context_set (Demo2.intents (Session2.chatbot self))
               (snd (Session2.chat re pyval py_eval py_str self events (new_context now)))).
  { intros self events now. unfold Session2.chat.
    pose proof (chat_loop2_invariant re pyval py_eval py_str
                  (tag_from Demo2.context_set (Demo2.intents (Session2.chatbot self))) self
                  (fun rnd now1 now2 u c =>
                     tag_turn2 re pyval py_eval py_str _ rnd now1 now2 u c)
                  (fun now u b c H => H) events (new_context now)
                  (or_introl eq_refl)) as H.
    destruct (Session2.chat_loop _ _ _ _ _ _ _) as [[out st] c']. exact H. }
  assert (H1 : forall (self : Demo1.AdvancedChatbot) events now,
             tag_from Demo1.context_set (Demo1.intents self)
               (snd (Session1.chat re pyval py_eval py_str self events (new_context now)))).
  { intros self events now. unfold Session1.chat.
    pose proof (chat_loop1_invariant re pyval py_eval py_str
                  (tag_from Demo1.context_set (Demo1.intents self)) self
                  (fun rnd now1 now2 u c =>
                     tag_turn1 re pyval py_eval py_str _ rnd now1 now2 u c)
                  (fun now u b c H => H) events (new_context now)
                  (or_introl eq_refl)) as H.
    destruct (Session1.chat_loop _ _ _ _ _ _ _) as [[out st] c']. exact H. }
  split; [exact H2|]. split; [exact H1|]. split; [|split].
  - intros. apply tag_turn2. assumption.
  - intros. apply tag_turn1. assumption.
  - intros name events now c.
    destruct (H1 (Demo1.new_chatbot name) events now) as [H|(i & Hi & Hcs & _)].
    + left. exact H.
    + fold c in Hcs. rewrite <- Hcs. destruct (demo1_catalog_tags i Hi) as [E|E];
        rewrite E; auto.
Qed.

(** ** Leaving the chat of Demo1 *)

Lemma fill1_plain (self : Demo1.AdvancedChatbot) (now1 now2 : Clock.datetime)
    (c : ConversationContext) (t : string) :
  facts_are_strings c -> no_lbrace t = true ->
  Demo1._fill_template self now1 now2 c t = Ret t.
Proof.
  intros Hc Ht. unfold Demo1._fill_template.
  rewrite (replacements1_bindings _ _ _ _ Hc). unfold bindings1.
  cbn [map to_replacement replace_all fst snd]. unfold Str.replace, placeholder.
  rewrite !(replace_text_end _ _ t Ht). reflexivity.
Qed.

Lemma context_rule_bound (required current : option string) (b : Q) :
  (0 <= b)%Q -> (context_rule required current b <= b + 1)%Q.
Proof.
  intros H. unfold context_rule. destruct (nonempty required); [|lra].
  destruct (decide (current = required)); lra.
Qed.

(** The score of a Demo1 intent before the context rule. *)
Lemma demo1_score_bound (re : Re.engine) (c : ConversationContext) (u : string)
    (j : Demo1.Intent) :
  all_compile re (Demo1.patterns j) (Str.lower u) ->
  let base := (2 * Qnat (matching_patterns re (Demo1.patterns j) (Str.lower u))
               + (1 # 2) * Qnat (distinct_keywords_present (Demo1.keywords j) u))%Q in
  (score1 re c u j <= base + 1)%Q
  /\ (Demo1.context_required j = None -> (score1 re c u j == base)%Q).
Proof.
  intros Hc base. destruct (demo1_score re c j u Hc) as (q & Hq & Heq).
  unfold score1. rewrite Hq. unfold claimed_score in Heq. fold base in Heq.
  assert (Hb : (0 <= base)%Q).
  { unfold base. pose proof (Qnat_nonneg (matching_patterns re (Demo1.patterns j) (Str.lower u))).
    pose proof (Qnat_nonneg (distinct_keywords_present (Demo1.keywords j) u)). lra. }
  split.
  - rewrite Heq. apply context_rule_bound. exact Hb.
  - intros Hn. rewrite Heq, Hn. reflexivity.
Qed.

Lemma exit_word_scores (w : string) (j : Demo1.Intent) :
  w ∈ Session1.exit_words -> j ∈ Demo1._setup_intents ->
  (Demo1.name j = "farewell" /\ j = Ex.intent1 1
   /\ Demo1.context_required j = None
   /\ (5 # 2 <= 2 * Qnat (matching_patterns PyRe.search (Demo1.patterns j) (Str.lower w))
                + (1 # 2) * Qnat (distinct_keywords_present (Demo1.keywords j) w))%Q)
  \/ (2 * Qnat (matching_patterns PyRe.search (Demo1.patterns j) (Str.lower w))
      + (1 # 2) * Qnat (distinct_keywords_present (Demo1.keywords j) w) <= 0)%Q.
Proof.
  intros Hw Hj. unfold Session1.exit_words in Hw.
  repeat (apply elem_of_cons in Hw as [->|Hw]);
    try (apply elem_of_nil in Hw; contradiction);
    unfold Demo1._setup_intents in Hj;
    repeat (apply elem_of_cons in Hj as [->|Hj]);
    try (apply elem_of_nil in Hj; contradiction);
    first [ right; vm_compute; discriminate
          | left; repeat split; vm_compute; discriminate ].
Qed.

Lemma farewell_wins (name w : string) (c : ConversationContext) :
  w ∈ Session1.exit_words ->
  exists m, Demo1.classify_intent PyRe.search (Demo1.new_chatbot name) c w
            = Ret (Some (Ex.intent1 1), m).
Proof.
  intros Hw.
  pose proof (builtin_catalog_compiles name w) as Hcat.
  assert (Hf : Ex.intent1 1 ∈ Demo1._setup_intents).
  { unfold Demo1._setup_intents. right. left. }
  assert (Hsf : (5 # 2 <= score1 PyRe.search c w (Ex.intent1 1))%Q).
  { destruct (exit_word_scores w _ Hw Hf) as [(_ & _ & Hn & Hb)|Hb].
    - assert (Hc : all_compile PyRe.search (Demo1.patterns (Ex.intent1 1)) (Str.lower w)).
      { unfold catalog_compiles in Hcat. rewrite Forall_forall in Hcat.
        apply Hcat. exact Hf. }
      destruct (demo1_score_bound PyRe.search c w _ Hc) as [_ He].
      rewrite (He Hn). exact Hb.
    - exfalso. revert Hb. unfold Session1.exit_words in Hw.
      repeat (apply elem_of_cons in Hw as [->|Hw]);
        try (apply elem_of_nil in Hw; contradiction);
        vm_compute; intros Hb; apply Hb; reflexivity. }
  assert (Hother : forall j, j ∈ Demo1._setup_intents -> j <> Ex.intent1 1 ->
                     (score1 PyRe.search c w j <= 1)%Q).
  { intros j Hj Hne.
    assert (Hc : all_compile PyRe.search (Demo1.patterns j) (Str.lower w)).
    { unfold catalog_compiles in Hcat. rewrite Forall_forall in Hcat. apply Hcat. exact Hj. }
    destruct (exit_word_scores w j Hw Hj) as [(_ & E & _)|Hb]; [contradiction|].
    destruct (demo1_score_bound PyRe.search c w j Hc) as [Hle _]. cbv zeta in Hle. lra. }
  destruct (demo1_classify_cases PyRe.search c w (Demo1.new_chatbot name) Hcat)
    as [[Hlow _]|(pre & i & post & m & Hcl & Hl & Hgt & Hpre & Hpost)].
  - exfalso. rewrite Forall_forall in Hlow. specialize (Hlow _ Hf). simpl in Hlow. lra.
  - exists m. rewrite Hcl. do 3 f_equal.
    assert (Hi : i ∈ Demo1._setup_intents).
    { change Demo1._setup_intents with (Demo1.intents (Demo1.new_chatbot name)).
      rewrite Hl. apply elem_of_app. right. left. }
    assert (Hfi : (score1 PyRe.search c w (Ex.intent1 1) <= score1 PyRe.search c w i)%Q).
    { change Demo1._setup_intents with (Demo1.intents (Demo1.new_chatbot name)) in Hf.
      rewrite Hl in Hf. apply elem_of_app in Hf. destruct Hf as [Hf|Hf].
      - rewrite Forall_forall in Hpre. specialize (Hpre _ Hf). simpl in Hpre. lra.
      - apply elem_of_cons in Hf. destruct Hf as [<-|Hf]; [lra|].
        rewrite Forall_forall in Hpost. exact (Hpost _ Hf). }
    destruct (exit_word_scores w i Hw Hi) as [(_ & E & _)|Hb]; [exact E|].
    exfalso.
    assert (Hc : all_compile PyRe.search (Demo1.patterns i) (Str.lower w)).
    { unfold catalog_compiles in Hcat. rewrite Forall_forall in Hcat. apply Hcat. exact Hi. }
    destruct (demo1_score_bound PyRe.search c w i Hc) as [Hle _]. cbv zeta in Hle. lra.
Qed.

Lemma farewell_answers_plain (t : string) :
  t ∈ Demo1.responses (Ex.intent1 1) -> no_lbrace t = true.
Proof.
  intros Ht. change (Demo1.responses (Ex.intent1 1))
    with ["Goodbye! It was great chatting with you!"; "See you later! Take care!";
          "Farewell! Come back anytime you want to chat!"] in Ht.
  repeat (apply elem_of_cons in Ht as [->|Ht]); try reflexivity.
  apply elem_of_nil in Ht. contradiction.
Qed.

Lemma lower_empty (s : string) : Str.lower s = "" -> s = "".
Proof. destruct s; [reflexivity|discriminate]. Qed.

(** X12: In Demo1, "quit", "exit", "bye" and "goodbye" always end the chat, in
    any letter case and with blanks around, in every state whose name fact
    is a string: the farewell intent wins, the line is answered with one of
    its three sentences, the exchange is recorded with the stripped line,
    the context tag is cleared and the loop ends. *)
Theorem exit_word_ends_chat (pyval : Type) (py_eval : string -> outcome pyval)
    (py_str : pyval -> outcome string) (name text : string) (d : draws)
    (c : ConversationContext) :
  facts_are_strings c ->
  Str.lower (Str.strip text) ∈ Session1.exit_words ->
  exists s, s ∈ Demo1.responses (Ex.intent1 1)
    /\ Session1.chat_step PyRe.search pyval py_eval py_str (Demo1.new_chatbot name)
         (Line text d) c
       = ([Says s], Ended, add_exchange (clock3 d) (Str.strip text) s (clear_context c)).
Proof.
  intros Hc Hw. unfold Session1.chat_step.
  destruct (String.eqb (Str.strip text) "") eqn:E.
  { exfalso. apply String.eqb_eq in E. rewrite E in Hw. simpl in Hw.
    unfold Session1.exit_words in Hw.
    repeat (apply elem_of_cons in Hw as [Hw|Hw]; [discriminate Hw|]).
    apply elem_of_nil in Hw. exact Hw. }
  rewrite <- demo1_response_lower.
  destruct (farewell_wins name _ c Hw) as [m Hcl].
  rewrite demo1_turn, Hcl. unfold action_step1.
  change (Demo1.action (Ex.intent1 1)) with (@None Demo1.action_fn).
  cbn [fst snd mret nonempty].
  destruct (random_choice_nonempty (drawn d) (Demo1.responses (Ex.intent1 1)))
    as (t & Ht & Hin); [discriminate|].
  rewrite Ht, (fill1_plain _ _ _ c t Hc (farewell_answers_plain t Hin)).
  exists t. split; [exact Hin|].
  rewrite (bool_decide_eq_true_2 _ Hw). reflexivity.
Qed.

(** X12, witness: " Quit " typed in a new session. *)
Lemma exit_word_ends_chat_witness :
  facts_are_strings Ex.fresh
  /\ Str.lower (Str.strip " Quit ") ∈ Session1.exit_words
  /\ snd (fst (Session1.chat_step PyRe.search Z PyEval.eval PyEval.format Ex.bot1
                 (Line " Quit " {| drawn := 0; clock1 := Ex.now; clock2 := Ex.now;
                                   clock3 := Ex.now; seconds := 0 |}) Ex.fresh))
     = Ended.
Proof.
  assert (H1 : facts_are_strings Ex.fresh) by apply facts_new_context.
  assert (H2 : Str.lower (Str.strip " Quit ") ∈ Session1.exit_words).
  { vm_compute. left. }
  split; [exact H1|]. split; [exact H2|].
  destruct (exit_word_ends_chat Z PyEval.eval PyEval.format "BERGEN TECH AI" " Quit "
              {| drawn := 0; clock1 := Ex.now; clock2 := Ex.now;
                 clock3 := Ex.now; seconds := 0 |} Ex.fresh H1 H2) as (s & _ & Hs).
  unfold Ex.bot1. rewrite Hs. reflexivity.
Defined.

(** ** What a chat records and when it ends *)

Lemma recorded_from_more (ev : event) (events : list event) (x : exchange) :
  recorded_from events x -> recorded_from (ev :: events) x.
Proof.
  intros (Hu & text & d & Hin & Ht). split; [exact Hu|].
  exists text, d. split; [right; exact Hin|exact Ht].
Qed.

Section Chat.

Variable re : Re.engine.
Variable pyval : Type.
Variable py_eval : string -> outcome pyval.
Variable py_str : pyval -> outcome string.

Lemma chat_step1_records (self : Demo1.AdvancedChatbot) (ev : event)
    (c : ConversationContext) :
  let '(out, st, c') := Session1.chat_step re pyval py_eval py_str self ev c in
  exists new, history c' = history c ++ new /\ map bot new = says out
              /\ Forall (recorded_from [ev]) new
              /\ (st = Ended -> asks_to_leave Session1.exit_words ev).
Proof.
  destruct ev as [text d|]; simpl.
  2:{ exists []. rewrite app_nil_r. repeat split; constructor. }
  destruct (String.eqb (Str.strip text) "") eqn:E.
  { exists []. rewrite app_nil_r. repeat split; try constructor. discriminate. }
  pose proof (demo1_turn_keeps re pyval py_eval py_str self (drawn d) (clock1 d) (clock2 d)
                (Str.strip text) c) as (Hh & _).
  destruct (Demo1.get_response _ _ _ _ _ _ _ _ _ c) as [[s|e] c1]; cbn [snd] in Hh.
  - exists [{| timestamp := clock3 d; user := Str.strip text; bot := s |}].
    simpl. rewrite Hh. repeat split.
    + constructor; [|constructor]. split.
      * simpl. intros E'. rewrite E' in E. discriminate.
      * exists text, d. repeat split. left.
    + destruct (bool_decide _) eqn:B; [|discriminate].
      intros _. apply bool_decide_eq_true in B. exact B.
  - exists []. rewrite app_nil_r. repeat split; try constructor; try assumption.
    discriminate.
Qed.

Lemma chat_loop1_records (self : Demo1.AdvancedChatbot) (events : list event)
    (c : ConversationContext) :
  let '(out, st, c') := Session1.chat_loop re pyval py_eval py_str self events c in
  exists new, history c' = history c ++ new /\ map bot new = says out
              /\ Forall (recorded_from events) new
              /\ (st = Ended ->
                  exists before ev after,
                    events = before ++ ev :: after
                    /\ asks_to_leave Session1.exit_words ev).
Proof.
  revert c. induction events as [|ev events IH]; intros c; simpl.
  { exists []. rewrite app_nil_r. repeat split; try constructor. discriminate. }
  pose proof (chat_step1_records self ev c) as Hstep.
  destruct (Session1.chat_step re pyval py_eval py_str self ev c) as [[out st] c1].
  destruct Hstep as (new1 & Hh1 & Hb1 & Hr1 & He1).
  destruct st.
  - specialize (IH c1).
    destruct (Session1.chat_loop re pyval py_eval py_str self events c1)
      as [[out' st'] c2].
    destruct IH as (new2 & Hh2 & Hb2 & Hr2 & He2).
    exists (new1 ++ new2). split; [rewrite Hh2, Hh1, app_assoc; reflexivity|].
    split; [unfold says in *; rewrite map_app, omap_app, Hb1, Hb2; reflexivity|].
    split.
    + apply Forall_app. split.
      * eapply Forall_impl; [exact Hr1|]. intros x (Hu & text & d & Hin & Ht).
        split; [exact Hu|]. exists text, d. split; [|exact Ht].
        apply elem_of_cons in Hin. destruct Hin as [->|Hin]; [left|].
        apply elem_of_nil in Hin. contradiction.
      * eapply Forall_impl; [exact Hr2|]. intros x. apply recorded_from_more.
    + intros Hst. destruct (He2 Hst) as (before & ev' & after & -> & Hev).
      exists (ev :: before), ev', after. split; [reflexivity|exact Hev].
  - exists new1. split; [exact Hh1|]. split; [exact Hb1|]. split.
    + eapply Forall_impl; [exact Hr1|]. intros x (Hu & text & d & Hin & Ht).
      split; [exact Hu|]. exists text, d. split; [|exact Ht].
      apply elem_of_cons in Hin. destruct Hin as [->|Hin]; [left|].
      apply elem_of_nil in Hin. contradiction.
    + intros _. exists [], ev, events. split; [reflexivity|]. apply He1. reflexivity.
Qed.

Lemma chat_step2_records (self : Session2.Session) (ev : event)
    (c : ConversationContext) :
  let '(out, st, c') := Session2.chat_step re pyval py_eval py_str self ev c in
  exists new, history c' = history c ++ new /\ map bot new = says out
              /\ Forall (recorded_from [ev]) new
              /\ (st = Ended -> asks_to_leave (Session2.exit_commands self) ev).
Proof.
  destruct ev as [text d|]; simpl.
  2:{ exists []. rewrite app_nil_r. repeat split; constructor. }
  destruct (String.eqb (Str.strip text) "") eqn:E.
  { exists []. rewrite app_nil_r. repeat split; try constructor. discriminate. }
  destruct (String.eqb (Str.lower (Str.strip text)) "stats").
  { destruct (Session2._show_stats re (Session2.chatbot self) (seconds d) c)
      as [report [e|]]; exists []; rewrite app_nil_r;
      repeat split; try constructor; discriminate. }
  pose proof (demo2_turn_keeps re pyval py_eval py_str (Session2.chatbot self)
                (drawn d) (clock1 d) (clock2 d) (Str.strip text) c) as (Hh & _).
  destruct (Demo2.get_response _ _ _ _ _ _ _ _ _ c) as [[s|e] c1]; cbn [snd] in Hh.
  - exists [{| timestamp := clock3 d; user := Str.strip text; bot := s |}].
    simpl. rewrite Hh. repeat split.
    + constructor; [|constructor]. split.
      * simpl. intros E'. rewrite E' in E. discriminate.
      * exists text, d. repeat split. left.
    + destruct (bool_decide _) eqn:B; [|discriminate].
      intros _. apply bool_decide_eq_true in B. exact B.
  - exists []. rewrite app_nil_r. repeat split; try constructor; try assumption.
    discriminate.
Qed.

Lemma chat_loop2_records (self : Session2.Session) (events : list event)
    (c : ConversationContext) :
  let '(out, st, c') := Session2.chat_loop re pyval py_eval py_str self events c in
  exists new, history c' = history c ++ new /\ map bot new = says out
              /\ Forall (recorded_from events) new
              /\ (st = Ended ->
                  exists before ev after,
                    events = before ++ ev :: after
                    /\ asks_to_leave (Session2.exit_commands self) ev).
Proof.
  revert c. induction events as [|ev events IH]; intros c; simpl.
  { exists []. rewrite app_nil_r. repeat split; try constructor. discriminate. }
  pose proof (chat_step2_records self ev c) as Hstep.
  destruct (Session2.chat_step re pyval py_eval py_str self ev c) as [[out st] c1].
  destruct Hstep as (new1 & Hh1 & Hb1 & Hr1 & He1).
  destruct st.
  - specialize (IH c1).
    destruct (Session2.chat_loop re pyval py_eval py_str self events c1)
      as [[out' st'] c2].
    destruct IH as (new2 & Hh2 & Hb2 & Hr2 & He2).
    exists (new1 ++ new2). split; [rewrite Hh2, Hh1, app_assoc; reflexivity|].
    split; [unfold says in *; rewrite map_app, omap_app, Hb1, Hb2; reflexivity|].
    split.
    + apply Forall_app. split.
      * eapply Forall_impl; [exact Hr1|]. intros x (Hu & text & d & Hin & Ht).
        split; [exact Hu|]. exists text, d. split; [|exact Ht].
        apply elem_of_cons in Hin. destruct Hin as [->|Hin]; [left|].
        apply elem_of_nil in Hin. contradiction.
      * eapply Forall_impl; [exact Hr2|]. intros x. apply recorded_from_more.
    + intros Hst. destruct (He2 Hst) as (before & ev' & after & -> & Hev).
      exists (ev :: before), ev', after. split; [reflexivity|exact Hev].
  - exists new1. split; [exact Hh1|]. split; [exact Hb1|]. split.
    + eapply Forall_impl; [exact Hr1|]. intros x (Hu & text & d & Hin & Ht).
      split; [exact Hu|]. exists text, d. split; [|exact Ht].
      apply elem_of_cons in Hin. destruct Hin as [->|Hin]; [left|].
      apply elem_of_nil in Hin. contradiction.
    + intros _. exists [], ev, events. split; [reflexivity|]. apply He1. reflexivity.
Qed.

End Chat.

Section Loop.

Variable step : event -> ConversationContext -> list printed * status * ConversationContext.

Lemma run_loop_app (evs1 evs2 : list event) (c : ConversationContext) :
  run_loop step (evs1 ++ evs2) c
  = match run_loop step evs1 c with
    | (out1, Ended, c1) => (out1, Ended, c1)
    | (out1, Running, c1) =>
        let '(out2, st, c2) := run_loop step evs2 c1 in (out1 ++ out2, st, c2)
    end.
Proof.
  revert c. induction evs1 as [|ev evs1 IH]; intros c; simpl.
  - destruct (run_loop step evs2 c) as [[out2 st] c2]. reflexivity.
  - destruct (step ev c) as [[out [|]] c1]; [|reflexivity].
    rewrite IH. destruct (run_loop step evs1 c1) as [[out1 [|]] c2]; [|reflexivity].
    destruct (run_loop step evs2 c2) as [[out2 st] c3]. rewrite app_assoc. reflexivity.
Qed.

Lemma run_loop_ended (P : event -> Prop) (events : list event) (c : ConversationContext) :
  (forall ev c0, snd (fst (step ev c0)) = Ended -> P ev) ->
  snd (fst (run_loop step events c)) = Ended ->
  exists before ev after,
    events = before ++ ev :: after /\ P ev
    /\ snd (fst (run_loop step before c)) = Running
    /\ run_loop step events c = run_loop step (before ++ [ev]) c.
Proof.
  intros HP. revert c. induction events as [|ev events IH]; intros c; simpl.
  - discriminate.
  - destruct (step ev c) as [[out [|]] c1] eqn:Es.
    + intros H.
      destruct (run_loop step events c1) as [[out' st'] c2] eqn:El. simpl in H. subst st'.
      destruct (IH c1) as (before & ev' & after & -> & Hev & Hrun & Heq).
      { rewrite El. reflexivity. }
      exists (ev :: before), ev', after. split; [reflexivity|]. split; [exact Hev|].
      split.
      * simpl. rewrite Es.
        destruct (run_loop step before c1) as [[ob sb] cb]. simpl in *. exact Hrun.
      * simpl. rewrite Es, <- Heq, El. reflexivity.
    + intros _. exists [], ev, events. split; [reflexivity|]. split.
      * apply (HP ev c). rewrite Es. reflexivity.
      * split; [reflexivity|]. simpl. rewrite Es. reflexivity.
Qed.

End Loop.

Section ChatEnds.

Variable re : Re.engine.
Variable pyval : Type.
Variable py_eval : string -> outcome pyval.
Variable py_str : pyval -> outcome string.

Lemma chat_loop1_run (self : Demo1.AdvancedChatbot) (events : list event)
    (c : ConversationContext) :
  Session1.chat_loop re pyval py_eval py_str self events c
  = run_loop (Session1.chat_step re pyval py_eval py_str self) events c.
Proof.
  revert c. induction events as [|ev events IH]; intros c; simpl; [reflexivity|].
  destruct (Session1.chat_step re pyval py_eval py_str self ev c) as [[out [|]] c1];
    [|reflexivity].
  rewrite IH. reflexivity.
Qed.

Lemma chat_loop2_run (self : Session2.Session) (events : list event)
    (c : ConversationContext) :
  Session2.chat_loop re pyval py_eval py_str self events c
  = run_loop (Session2.chat_step re pyval py_eval py_str self) events c.
Proof.
  revert c. induction events as [|ev events IH]; intros c; simpl; [reflexivity|].
  destruct (Session2.chat_step re pyval py_eval py_str self ev c) as [[out [|]] c1];
    [|reflexivity].
  rewrite IH. reflexivity.
Qed.

Lemma chat_step1_ended (self : Demo1.AdvancedChatbot) (ev : event)
    (c : ConversationContext) :
  snd (fst (Session1.chat_step re pyval py_eval py_str self ev c)) = Ended ->
  asks_to_leave Session1.exit_words ev.
Proof.
  pose proof (chat_step1_records re pyval py_eval py_str self ev c) as H.
  destruct (Session1.chat_step re pyval py_eval py_str self ev c) as [[out st] c1].
  destruct H as (_ & _ & _ & _ & H). exact H.
Qed.

Lemma chat_step2_ended (self : Session2.Session) (ev : event) (c : ConversationContext) :
  snd (fst (Session2.chat_step re pyval py_eval py_str self ev c)) = Ended ->
  asks_to_leave (Session2.exit_commands self) ev.
Proof.
  pose proof (chat_step2_records re pyval py_eval py_str self ev c) as H.
  destruct (Session2.chat_step re pyval py_eval py_str self ev c) as [[out st] c1].
  destruct H as (_ & _ & _ & _ & H). exact H.
Qed.

End ChatEnds.


(** X14: A chat ends only on Ctrl+C or on a line that, stripped and in lower
    case, is one of the exit words; the loop was still running before that
    event, and what is typed after it is never read.  Events that arrive
    while the loop runs are handled from the state the earlier ones left. *)
Theorem chat_ends_on_request (re : Re.engine) (pyval : Type)
    (py_eval : string -> outcome pyval) (py_str : pyval -> outcome string) :
  (forall (self : Session2.Session) (events : list event) (c : ConversationContext),
      snd (fst (Session2.chat_loop re pyval py_eval py_str self events c)) = Ended ->
      exists before ev after,
        events = before ++ ev :: after
        /\ asks_to_leave (Session2.exit_commands self) ev
        /\ snd (fst (Session2.chat_loop re pyval py_eval py_str self before c)) = Running
        /\ Session2.chat_loop re pyval py_eval py_str self events c
           = Session2.chat_loop re pyval py_eval py_str self (before ++ [ev]) c)
  /\ (forall (self : Demo1.AdvancedChatbot) (events : list event) (c : ConversationContext),
         snd (fst (Session1.chat_loop re pyval py_eval py_str self events c)) = Ended ->
         exists before ev after,
           events = before ++ ev :: after
           /\ asks_to_leave Session1.exit_words ev
           /\ snd (fst (Session1.chat_loop re pyval py_eval py_str self before c)) = Running
           /\ Session1.chat_loop re pyval py_eval py_str self events c
              = Session1.chat_loop re pyval py_eval py_str self (before ++ [ev]) c)
  /\ (forall (self : Session2.Session) (evs1 evs2 : list event) (c : ConversationContext),
         Session2.chat_loop re pyval py_eval py_str self (evs1 ++ evs2) c
         = match Session2.chat_loop re pyval py_eval py_str self evs1 c with
           | (out1, Ended, c1) => (out1, Ended, c1)
           | (out1, Running, c1) =>
               let '(out2, st, c2) :=
                 Session2.chat_loop re pyval py_eval py_str self evs2 c1 in
               (out1 ++ out2, st, c2)
           end)
  /\ (forall (self : Demo1.AdvancedChatbot) (evs1 evs2 : list event)
        (c : ConversationContext),
         Session1.chat_loop re pyval py_eval py_str self (evs1 ++ evs2) c
         = match Session1.chat_loop re pyval py_eval py_str self evs1 c with
           | (out1, Ended, c1) => (out1, Ended, c1)
           | (out1, Running, c1) =>
               let '(out2, st, c2) :=
                 Session1.chat_loop re pyval py_eval py_str self evs2 c1 in
               (out1 ++ out2, st, c2)
           end).
Proof.
  split; [|split; [|split]].
  - intros self events c H. rewrite chat_loop2_run in H.
    destruct (run_loop_ended _ (asks_to_leave (Session2.exit_commands self)) events c
                (chat_step2_ended re pyval py_eval py_str self) H)
      as (before & ev & after & He & Hev & Hrun & Heq).
    exists before, ev, after. rewrite !chat_loop2_run. repeat split; assumption.
  - intros self events c H. rewrite chat_loop1_run in H.
    destruct (run_loop_ended _ (asks_to_leave Session1.exit_words) events c
                (chat_step1_ended re pyval py_eval py_str self) H)
      as (before & ev & after & He & Hev & Hrun & Heq).
    exists before, ev, after. rewrite !chat_loop1_run. repeat split; assumption.
  - intros self evs1 evs2 c. rewrite !chat_loop2_run, run_loop_app.
    destruct (run_loop _ evs1 c) as [[out1 [|]] c1]; [|reflexivity].
    rewrite chat_loop2_run. reflexivity.
  - intros self evs1 evs2 c. rewrite !chat_loop1_run, run_loop_app.
    destruct (run_loop _ evs1 c) as [[out1 [|]] c1]; [|reflexivity].
    rewrite chat_loop1_run. reflexivity.
Qed.

(** X14, witness: three lines typed to Demo1 in a new session; the chat ends
    at "quit". *)
Lemma chat_ends_on_request_witness :
  snd (fst (Session1.chat_loop PyRe.search Z PyEval.eval PyEval.format Ex.bot1
              [Line "hi" Sample.draw; Line "quit" Sample.draw; Line "more" Sample.draw]
              Ex.fresh)) = Ended
  /\ exists before ev after,
       [Line "hi" Sample.draw; Line "quit" Sample.draw; Line "more" Sample.draw]
       = before ++ ev :: after
       /\ asks_to_leave Session1.exit_words ev.
Proof.
  assert (H : snd (fst (Session1.chat_loop PyRe.search Z PyEval.eval PyEval.format Ex.bot1
                          [Line "hi" Sample.draw; Line "quit" Sample.draw;
                           Line "more" Sample.draw] Ex.fresh)) = Ended)
    by (vm_compute; reflexivity).
  split; [exact H|].
  destruct (proj1 (proj2 (chat_ends_on_request PyRe.search Z PyEval.eval PyEval.format))
              Ex.bot1 _ Ex.fresh H) as (before & ev & after & He & Hev & _).
  exists before, ev, after. split; assumption.
Defined.

(** ** What [main] of Demo1 reports *)

Lemma chat_step1_prints (re : Re.engine) (pyval : Type) (py_eval : string -> outcome pyval)
    (py_str : pyval -> outcome string) (self : Demo1.AdvancedChatbot) (ev : event)
    (c : ConversationContext) (n : nat) :
  SessionHad n ∉ fst (fst (Session1.chat_step re pyval py_eval py_str self ev c)).
Proof.
  destruct ev as [text d|]; simpl.
  - destruct (String.eqb (Str.strip text) ""); simpl; [apply not_elem_of_nil|].
    destruct (Demo1.get_response _ _ _ _ _ _ _ _ _ c) as [[s|e] c1]; simpl;
      intros H; apply list_elem_of_singleton in H; discriminate.
  - intros H. apply list_elem_of_singleton in H. discriminate.
Qed.

Lemma chat_loop1_prints (re : Re.engine) (pyval : Type) (py_eval : string -> outcome pyval)
    (py_str : pyval -> outcome string) (self : Demo1.AdvancedChatbot)
    (events : list event) (c : ConversationContext) (n : nat) :
  SessionHad n ∉ fst (fst (Session1.chat_loop re pyval py_eval py_str self events c)).
Proof.
  revert c. induction events as [|ev events IH]; intros c; simpl; [apply not_elem_of_nil|].
  pose proof (chat_step1_prints re pyval py_eval py_str self ev c n) as Hs.
  destruct (Session1.chat_step re pyval py_eval py_str self ev c) as [[out [|]] c1];
    simpl in *; [|exact Hs].
  specialize (IH c1).
  destruct (Session1.chat_loop re pyval py_eval py_str self events c1) as [[out' st] c2].
  simpl in *. rewrite elem_of_app. tauto.
Qed.

(** X15: [main] of Demo1 reports the exchanges of the session once the chat has
    ended, and only then: its last line gives their number, which is the
    number of answers the chat printed, when there was one at least, and
    there is no such line when there was none or the chat is not over. *)
Theorem main_reports_exchanges (re : Re.engine) (pyval : Type)
    (py_eval : string -> outcome pyval) (py_str : pyval -> outcome string)
    (now : Clock.datetime) (events : list event) :
  let '(out, st) := Session1.main re pyval py_eval py_str now events in
  match st, length (says out) with
  | Ended, S k =>
      exists out', out = out' ++ [SessionHad (S k)] /\ forall n, SessionHad n ∉ out'
  | _, _ => forall n, SessionHad n ∉ out
  end.
Proof.
  unfold Session1.main, Session1.chat, Session1.get_conversation_history.
  pose proof (chat_loop1_records re pyval py_eval py_str
                (Demo1.new_chatbot "BERGEN TECH AI") events (new_context now)) as H.
  pose proof (fun n => chat_loop1_prints re pyval py_eval py_str
                (Demo1.new_chatbot "BERGEN TECH AI") events (new_context now) n) as Hp.
  destruct (Session1.chat_loop re pyval py_eval py_str _ events (new_context now))
    as [[out st] c']. simpl in Hp.
  destruct H as (new & Hh & Hb & _). simpl in Hh.
  assert (Hlen : length (history c') = length (says out)).
  { rewrite Hh, <- Hb, length_map. reflexivity. }
  assert (Hban : forall n, SessionHad n ∉ Banner :: out).
  { intros n Hin. apply elem_of_cons in Hin. destruct Hin as [Hin|Hin];
      [discriminate|exact (Hp n Hin)]. }
  destruct st.
  - change (says (Banner :: out)) with (says out).
    destruct (length (says out)); exact Hban.
  - assert (Hsays : forall tail, says tail = [] ->
                      says ((Banner :: out) ++ tail) = says out).
    { intros tail Ht. unfold says in *. rewrite omap_app, Ht, app_nil_r. reflexivity. }
    rewrite Hlen. destruct (length (says out)) as [|k] eqn:Ek; simpl negb; cbv iota.
    + rewrite app_nil_r. change (says (Banner :: out)) with (says out).
      rewrite Ek. exact Hban.
    + rewrite (Hsays [SessionHad (S k)] eq_refl), Ek.
      exists (Banner :: out). split; [reflexivity|exact Hban].
Qed.

(** ** The statistics report *)

Lemma count_of_bump (w k : string) (t : Session2.tally) :
  count_of w (Session2.bump k t)
  = if String.eqb k w then S (count_of w t) else count_of w t.
Proof.
  unfold count_of. induction t as [|[k' n] t IH]; simpl.
  - destruct (String.eqb k w); reflexivity.
  - destruct (String.eqb k' k) eqn:E; simpl.
    + apply String.eqb_eq in E. subst k'. destruct (String.eqb k w); reflexivity.
    + destruct (String.eqb k' w) eqn:E'; simpl.
      * apply String.eqb_eq in E'. subst k'.
        rewrite String.eqb_sym, E. reflexivity.
      * exact IH.
Qed.

Lemma bump_keys (k : string) (t : Session2.tally) :
  map fst (Session2.bump k t)
  = if bool_decide (k ∈ map fst t) then map fst t else map fst t ++ [k].
Proof.
  induction t as [|[k' n] t IH]; simpl; [reflexivity|].
  destruct (String.eqb k' k) eqn:E; simpl.
  - apply String.eqb_eq in E. subst k'.
    rewrite bool_decide_eq_true_2 by left. reflexivity.
  - rewrite IH. apply String.eqb_neq in E.
    destruct (decide (k ∈ map fst t)) as [Hin|Hout].
    + rewrite !bool_decide_eq_true_2; [reflexivity|right; exact Hin|exact Hin].
    + rewrite !bool_decide_eq_false_2; [reflexivity| |exact Hout].
      intros H. apply elem_of_cons in H. destruct H as [H|H]; congruence.
Qed.

Lemma bump_keys_NoDup (k : string) (t : Session2.tally) :
  NoDup (map fst t) -> NoDup (map fst (Session2.bump k t)).
Proof.
  intros H. rewrite bump_keys. destruct (decide (k ∈ map fst t)) as [Hin|Hout].
  - rewrite bool_decide_eq_true_2 by exact Hin. exact H.
  - rewrite bool_decide_eq_false_2 by exact Hout.
    apply NoDup_app. split; [exact H|]. split.
    + intros x Hx Hx'. apply list_elem_of_singleton in Hx'. subst x. contradiction.
    + apply NoDup_singleton.
Qed.

Lemma bump_positive (k : string) (t : Session2.tally) :
  Forall (fun e => (1 <= snd e)%nat) t ->
  Forall (fun e => (1 <= snd e)%nat) (Session2.bump k t).
Proof.
  induction 1 as [|[k' n] t Hn Ht IH]; simpl.
  - constructor; [simpl; lia|constructor].
  - simpl in Hn. destruct (String.eqb k' k).
    + constructor; [simpl; lia|exact Ht].
    + constructor; [exact Hn|exact IH].
Qed.

Lemma occurrences_cons (w x : string) (l : list string) :
  occurrences w (x :: l)
  = if String.eqb x w then S (occurrences w l) else occurrences w l.
Proof.
  unfold occurrences. simpl. rewrite (String.eqb_sym w x).
  destruct (String.eqb x w); reflexivity.
Qed.

Lemma tally_words (ws : list string) (t : Session2.tally) :
  let t' := fold_left (fun counts word => Session2.bump word counts) ws t in
  (forall w, count_of w t' = (count_of w t + occurrences w ws)%nat)
  /\ (NoDup (map fst t) -> NoDup (map fst t'))
  /\ (Forall (fun e => (1 <= snd e)%nat) t -> Forall (fun e => (1 <= snd e)%nat) t').
Proof.
  revert t. induction ws as [|x ws IH]; intros t; simpl.
  - split; [intros w; unfold occurrences; simpl; lia|split; intros H; exact H].
  - destruct (IH (Session2.bump x t)) as (H1 & H2 & H3). split; [|split].
    + intros w. rewrite H1, count_of_bump, occurrences_cons.
      destruct (String.eqb x w); lia.
    + intros H. apply H2, bump_keys_NoDup, H.
    + intros H. apply H3, bump_positive, H.
Qed.

Lemma word_counts_fold (history : list exchange) (t : Session2.tally) :
  fold_left
    (fun counts exchange =>
       fold_left (fun counts word => Session2.bump word counts)
         (Session2.findall_words (Str.lower (user exchange))) counts)
    history t
  = fold_left (fun counts word => Session2.bump word counts) (words_said history) t.
Proof.
  revert t. unfold words_said. induction history as [|x h IH]; intros t; simpl.
  - reflexivity.
  - rewrite fold_left_app. apply IH.
Qed.

Lemma count_of_entry (w : string) (n : nat) (t : Session2.tally) :
  NoDup (map fst t) -> (w, n) ∈ t -> count_of w t = n.
Proof.
  unfold count_of. induction t as [|[k m] t IH]; simpl; intros Hnd Hin.
  - apply elem_of_nil in Hin. contradiction.
  - apply NoDup_cons in Hnd. destruct Hnd as [Hk Hnd].
    apply elem_of_cons in Hin. destruct Hin as [[= <- <-]|Hin].
    + rewrite String.eqb_refl. reflexivity.
    + destruct (String.eqb k w) eqn:E.
      * apply String.eqb_eq in E. subst k. exfalso. apply Hk.
        apply list_elem_of_fmap. exists (w, n). split; [reflexivity|exact Hin].
      * apply IH; assumption.
Qed.

Lemma count_of_missing (w : string) (t : Session2.tally) :
  w ∉ map fst t -> count_of w t = 0%nat.
Proof.
  unfold count_of. induction t as [|[k m] t IH]; simpl; intros H; [reflexivity|].
  destruct (String.eqb k w) eqn:E.
  - apply String.eqb_eq in E. subst k. exfalso. apply H. left.
  - apply IH. intros Hin. apply H. right. exact Hin.
Qed.

(** Sorting by count, largest first. *)
Lemma insert_desc_perm (x : string * nat) (l : Session2.tally) :
  Session2.insert_desc x l ≡ₚ x :: l.
Proof.
  induction l as [|y l IH]; simpl; [reflexivity|].
  destruct (snd y <=? snd x)%nat; [reflexivity|].
  rewrite IH. apply Permutation_swap.
Qed.

Lemma sorted_desc_perm (t : Session2.tally) : Session2.sorted_desc t ≡ₚ t.
Proof.
  unfold Session2.sorted_desc. induction t as [|x t IH]; simpl; [reflexivity|].
  rewrite insert_desc_perm, IH. reflexivity.
Qed.

Lemma insert_desc_sorted (x : string * nat) (l : Session2.tally) :
  StronglySorted (fun a b => (snd b <= snd a)%nat) l ->
  StronglySorted (fun a b => (snd b <= snd a)%nat) (Session2.insert_desc x l).
Proof.
  induction 1 as [|y l Hs IH Hy]; simpl.
  - constructor; constructor.
  - destruct (snd y <=? snd x)%nat eqn:E.
    + apply Nat.leb_le in E. constructor; [constructor; assumption|].
      constructor; [exact E|]. eapply Forall_impl; [exact Hy|].
      intros z Hz. simpl in Hz. lia.
    + apply Nat.leb_gt in E. constructor; [exact IH|].
      rewrite insert_desc_perm. constructor; [lia|exact Hy].
Qed.

Lemma sorted_desc_sorted (t : Session2.tally) :
  StronglySorted (fun a b => (snd b <= snd a)%nat) (Session2.sorted_desc t).
Proof.
  unfold Session2.sorted_desc. induction t as [|x t IH]; simpl; [constructor|].
  apply insert_desc_sorted. exact IH.
Qed.

Lemma insert_desc_with_count (n : nat) (x : string * nat) (l : Session2.tally) :
  StronglySorted (fun a b => (snd b <= snd a)%nat) l ->
  with_count n (Session2.insert_desc x l) = with_count n (x :: l).
Proof.
  unfold with_count. induction 1 as [|y l Hs IH Hy]; simpl; [reflexivity|].
  destruct (snd y <=? snd x)%nat eqn:E; [reflexivity|].
  apply Nat.leb_gt in E. simpl. rewrite IH. simpl.
  destruct (snd x =? n)%nat eqn:Ex; [|reflexivity].
  destruct (snd y =? n)%nat eqn:Ey; [|reflexivity].
  apply Nat.eqb_eq in Ex, Ey. lia.
Qed.

Lemma with_count_cons (n : nat) (x : string * nat) (l : Session2.tally) :
  with_count n (x :: l)
  = if (snd x =? n)%nat then x :: with_count n l else with_count n l.
Proof. reflexivity. Qed.

Lemma sorted_desc_stable (n : nat) (t : Session2.tally) :
  with_count n (Session2.sorted_desc t) = with_count n t.
Proof.
  induction t as [|x t IH]; [reflexivity|].
  change (Session2.sorted_desc (x :: t))
    with (Session2.insert_desc x (Session2.sorted_desc t)).
  rewrite insert_desc_with_count by apply sorted_desc_sorted.
  rewrite !with_count_cons, IH. reflexivity.
Qed.

Lemma sorted_app_le (l1 l2 : Session2.tally) (a b : string * nat) :
  StronglySorted (fun a b => (snd b <= snd a)%nat) (l1 ++ l2) ->
  a ∈ l1 -> b ∈ l2 -> (snd b <= snd a)%nat.
Proof.
  induction l1 as [|x l1 IH]; simpl; intros Hs Ha Hb.
  - apply elem_of_nil in Ha. contradiction.
  - apply StronglySorted_inv in Hs. destruct Hs as [Hs Hx].
    apply elem_of_cons in Ha. destruct Ha as [->|Ha].
    + rewrite Forall_forall in Hx. apply Hx. apply elem_of_app. right. exact Hb.
    + apply IH; assumption.
Qed.

Lemma sorted_take (n : nat) (l : Session2.tally) :
  StronglySorted (fun a b => (snd b <= snd a)%nat) l ->
  StronglySorted (fun a b => (snd b <= snd a)%nat) (take n l).
Proof.
  intros H. revert n. induction H as [|x l Hs IH Hx]; intros [|n]; simpl;
    try constructor.
  - apply IH.
  - rewrite Forall_forall in *. intros y Hy. apply Hx.
    exact (subseteq_take n l y Hy).
Qed.

(** X16: The three most common words.  The tally counts, for every word, how
    often it occurs in the user's lines (in lower case, a word being a
    maximal run of word characters), with one entry for each word; the
    report lists the three entries with the largest counts, or all when
    there are fewer than three, largest first: no word left out occurs more
    often than a word listed.  Sorting keeps entries of equal count in the
    order of the tally. *)
Theorem stats_top_three (history : list exchange) :
  let words := words_said history in
  let counts := Session2.word_counts history in
  let top := take 3 (Session2.sorted_desc counts) in
  (forall w, count_of w counts = occurrences w words)
  /\ NoDup (map fst counts)
  /\ length top = (3 `min` length counts)%nat
  /\ (forall w n, (w, n) ∈ top -> n = occurrences w words /\ (1 <= n)%nat)
  /\ (forall w n w', (w, n) ∈ top -> w' ∉ map fst top ->
        (occurrences w' words <= n)%nat)
  /\ StronglySorted (fun a b => (snd b <= snd a)%nat) top
  /\ (forall n, with_count n (Session2.sorted_desc counts) = with_count n counts).
Proof.
  intros words counts top.
  assert (Hfold : counts
                  = fold_left (fun counts word => Session2.bump word counts) words []).
  { unfold counts, Session2.word_counts. apply word_counts_fold. }
  destruct (tally_words words []) as (Hcount & Hnd & Hpos). cbv zeta in *.
  rewrite <- Hfold in *.
  specialize (Hnd (NoDup_nil_2)). specialize (Hpos (Forall_nil_2 _)).
  assert (Hc : forall w, count_of w counts = occurrences w words).
  { intros w. rewrite Hcount. reflexivity. }
  assert (Htop : forall e, e ∈ top -> e ∈ counts).
  { intros e He. rewrite <- (sorted_desc_perm counts).
    exact (subseteq_take 3 _ e He). }
  split; [exact Hc|]. split; [exact Hnd|]. split; [|split; [|split; [|split]]].
  - unfold top. rewrite length_take, (Permutation_length (sorted_desc_perm counts)).
    reflexivity.
  - intros w n Hin. specialize (Htop _ Hin). split.
    + rewrite <- Hc. symmetry. apply count_of_entry; assumption.
    + rewrite Forall_forall in Hpos. exact (Hpos _ Htop).
  - intros w n w' Hin Hout. rewrite <- Hc.
    destruct (decide (w' ∈ map fst counts)) as [Hw|Hw].
    2:{ rewrite (count_of_missing w' counts Hw). lia. }
    apply list_elem_of_fmap in Hw. destruct Hw as ([w'' n'] & E & Hw). simpl in E. subst w''.
    rewrite (count_of_entry w' n' counts Hnd Hw).
    rewrite <- (sorted_desc_perm counts) in Hw.
    rewrite <- (take_drop 3 (Session2.sorted_desc counts)) in Hw.
    apply elem_of_app in Hw. destruct Hw as [Hw|Hw].
    + exfalso. apply Hout. apply list_elem_of_fmap. exists (w', n'). split; [reflexivity|exact Hw].
    + pose proof (sorted_desc_sorted counts) as Hs.
      rewrite <- (take_drop 3 (Session2.sorted_desc counts)) in Hs.
      exact (sorted_app_le _ _ (w, n) (w', n') Hs Hin Hw).
  - apply sorted_take, sorted_desc_sorted.
  - intros n. apply sorted_desc_stable.
Qed.

Lemma last_binding {A B : Type} (f : A -> B) (l : list A) (x : A) (b : option B) :
  fold_left (fun _ a => Some (f a)) (l ++ [x]) b = Some (f x).
Proof. rewrite fold_left_app. reflexivity. Qed.

Lemma no_binding {A B : Type} (f : A -> B) (l : list A) :
  fold_left (fun _ a => Some (f a)) l None = None <-> l = [].
Proof.
  split; [|intros ->; reflexivity].
  destruct l as [|a l] using rev_ind; [reflexivity|].
  rewrite last_binding. discriminate.
Qed.

(** X17: The statistics need an exchange.  [_show_stats] raises exactly when the
    history is empty: it reads the analysis of the last line after a loop
    that did not run.  It has then printed the number of exchanges, 0, and
    the facts known if there are any, and nothing else.  In the chat of
    Demo2 the word "stats", typed before any line was answered, therefore
    gets the apology for an error, and the state stays as it was. *)
Theorem stats_needs_an_exchange (re : Re.engine) (pyval : Type)
    (py_eval : string -> outcome pyval) (py_str : pyval -> outcome string) :
  (forall (self : Demo2.AdvancedChatbot) (total_seconds : Z) (c : ConversationContext),
      (snd (Session2._show_stats re self total_seconds c) = Some Session2.UnboundLocalError
       <-> history c = [])
      /\ (history c = [] ->
          fst (Session2._show_stats re self total_seconds c)
          = TotalExchanges 0
            :: (if negb (Nat.eqb (size (user_data c)) 0) then [KnownAboutYou (user_data c)]
                else [])))
  /\ (forall (self : Session2.Session) (text : string) (d : draws) (c : ConversationContext),
         Str.lower (Str.strip text) = "stats" -> history c = [] -> user_data c = ∅ ->
         Session2.chat_step re pyval py_eval py_str self (Line text d) c
         = ([Stats [TotalExchanges 0]; Oops], Running, c)).
Proof.
  assert (H : forall (self : Demo2.AdvancedChatbot) (total_seconds : Z)
                (c : ConversationContext),
             history c = [] ->
             Session2._show_stats re self total_seconds c
             = (TotalExchanges 0
                  :: (if negb (Nat.eqb (size (user_data c)) 0)
                      then [KnownAboutYou (user_data c)] else []),
                Some Session2.UnboundLocalError)).
  { intros self secs c Hh. unfold Session2._show_stats. rewrite Hh. reflexivity. }
  split.
  - intros self secs c. split; [split|].
    + intros Hr. unfold Session2._show_stats in Hr.
      destruct (fold_left _ (history c) None) as [a|] eqn:E; [discriminate|].
      apply no_binding in E. exact E.
    + intros Hh. rewrite (H self secs c Hh). reflexivity.
    + intros Hh. rewrite (H self secs c Hh). reflexivity.
  - intros self text d c Ht Hh Hu. unfold Session2.chat_step.
    destruct (String.eqb (Str.strip text) "") eqn:E.
    { apply String.eqb_eq in E. rewrite E in Ht. discriminate. }
    rewrite Ht, String.eqb_refl, (H _ _ c Hh), Hu. reflexivity.
Qed.

(** X17, witness: "stats" as the first line of a session. *)
Lemma stats_needs_an_exchange_witness :
  Str.lower (Str.strip " Stats") = "stats" /\ history Ex.fresh = []
  /\ user_data Ex.fresh = ∅
  /\ Session2.chat_step PyRe.search Z PyEval.eval PyEval.format
       (Session2.new_session Demo2.initial_words (Ex.config_of []) None None)
       (Line " Stats" Sample.draw)
       Ex.fresh
     = ([Stats [TotalExchanges 0]; Oops], Running, Ex.fresh).
Proof.
  assert (H1 : Str.lower (Str.strip " Stats") = "stats") by reflexivity.
  assert (H2 : history Ex.fresh = []) by reflexivity.
  assert (H3 : user_data Ex.fresh = ∅) by reflexivity.
  repeat (split; [assumption|]).
  exact (proj2 (stats_needs_an_exchange PyRe.search Z PyEval.eval PyEval.format)
           _ " Stats" Sample.draw Ex.fresh H1 H2 H3).
Defined.

Lemma round_half_even_comp (q q' : Q) :
  (q == q')%Q -> Session2.round_half_even q = Session2.round_half_even q'.
Proof.
  intros H. unfold Session2.round_half_even.
  rewrite (Qfloor_comp _ _ H).
  assert (H' : (q - inject_Z (Qfloor q') == q' - inject_Z (Qfloor q'))%Q)
    by (rewrite H; reflexivity).
  rewrite (Qcompare_comp _ _ H' (1 # 2) (1 # 2) (Qeq_refl _)). reflexivity.
Qed.

Lemma round2_comp (x x' : Q) : (x == x')%Q -> Session2.round2 x = Session2.round2 x'.
Proof.
  intros H. unfold Session2.round2.
  rewrite (round_half_even_comp (x * 100) (x' * 100)); [reflexivity|].
  rewrite H. reflexivity.
Qed.

(** Rounding to the nearest integer moves a number by 1/2 at most. *)
Lemma round_half_even_near (q : Q) :
  (Qabs (inject_Z (Session2.round_half_even q) - q) <= 1 # 2)%Q.
Proof.
  unfold Session2.round_half_even.
  pose proof (Qfloor_le q) as Hlo. pose proof (Qlt_floor q) as Hhi.
  rewrite inject_Z_plus in Hhi. change (inject_Z 1) with 1%Q in Hhi.
  assert (Hup : (inject_Z (Qfloor q + 1) == inject_Z (Qfloor q) + 1)%Q)
    by (rewrite inject_Z_plus; reflexivity).
  apply Qabs_Qle_condition.
  destruct (Qcompare (q - inject_Z (Qfloor q)) (1 # 2)) eqn:E.
  - apply Qeq_alt in E. destruct (Z.even (Qfloor q)); [|rewrite Hup]; split; lra.
  - apply Qlt_alt in E. split; lra.
  - apply Qgt_alt in E. rewrite Hup. split; lra.
Qed.

(** Dividing by [d] the two numbers of a bound. *)
Lemma scaled_near (k x d h : Q) :
  (0 < d)%Q -> (Qabs (k - x * d) <= h)%Q -> (Qabs (k / d - x) <= h / d)%Q.
Proof.
  intros Hd H. apply Qabs_Qle_condition in H. apply Qabs_Qle_condition.
  assert (Hn : (~ d == 0)%Q) by lra.
  assert (E : (k / d - x == (k - x * d) / d)%Q) by (field; exact Hn).
  assert (E' : (- (h / d) == (- h) / d)%Q) by (field; exact Hn).
  rewrite E, E'. split.
  - apply Qle_shift_div_l; [exact Hd|].
    assert (E2 : (- h / d * d == - h)%Q) by (field; exact Hn).
    rewrite E2. lra.
  - apply Qle_shift_div_r; [exact Hd|].
    assert (E2 : (h / d * d == h)%Q) by (field; exact Hn).
    rewrite E2. lra.
Qed.

Lemma round2_near (x : Q) : (Qabs (Session2.round2 x - x) <= 1 # 200)%Q.
Proof.
  unfold Session2.round2.
  pose proof (scaled_near _ x 100 (1 # 2) ltac:(reflexivity)
                (round_half_even_near (x * 100))) as H.
  exact H.
Qed.

Lemma score_double_near (s : Q) :
  (Qabs (Session2.score_double s - s) <= 1 / inject_Z (2 ^ 54))%Q.
Proof.
  unfold Session2.score_double.
  pose proof (scaled_near _ s (inject_Z (2 ^ 53)) (1 # 2) ltac:(reflexivity)
                (round_half_even_near (s * inject_Z (2 ^ 53)))) as H.
  exact H.
Qed.

(** X18: The report on a history that is not empty.  It gives the number of
    exchanges, the total lengths of the user's lines and of the answers
    with that number, the facts known if there are any, then as the average
    sentiment the score of the last line of the user alone, whatever the
    lines before it, rounded to two decimals (so a whole number of
    hundredths, within 1/200 of that score up to the rounding of the double
    that holds it), the three most common words, and the time into the
    session split into hours, minutes below 60 and seconds below 60.  With
    a search that raises re.error only, it does not raise. *)
Theorem stats_report (re : Re.engine) (self : Demo2.AdvancedChatbot) (total_seconds : Z)
    (c : ConversationContext) (earlier : list exchange) (latest : exchange) :
  history c = earlier ++ [latest] ->
  exists (avg : Q) (hours minutes secs : Z),
    Session2._show_stats re self total_seconds c
    = ([TotalExchanges (length (history c));
        AvgUserLength (list_sum (map (fun h => String.length (user h)) (history c)))
          (length (history c));
        AvgBotLength (list_sum (map (fun h => String.length (bot h)) (history c)))
          (length (history c))]
       ++ (if negb (Nat.eqb (size (user_data c)) 0) then [KnownAboutYou (user_data c)]
           else [])
       ++ [AverageSentiment avg;
           MostCommonWords (take 3 (Session2.sorted_desc (Session2.word_counts (history c))));
           Duration hours minutes secs],
       None)
    /\ (let score := snd (Sentiment.analyze (Demo2.POSITIVE_WORDS self)
                            (Demo2.NEGATIVE_WORDS self) (user latest)) in
        avg = Session2.round2 (Session2.score_double score)
        /\ (exists k : Z, avg = (inject_Z k / 100)%Q)
        /\ (Qabs (avg - score) <= (1 # 200) + 1 / inject_Z (2 ^ 54))%Q)
    /\ (total_seconds = hours * 3600 + minutes * 60 + secs)%Z
    /\ (0 <= minutes < 60)%Z /\ (0 <= secs < 60)%Z.
Proof.
  intros Hh.
  set (s := snd (Sentiment.analyze (Demo2.POSITIVE_WORDS self) (Demo2.NEGATIVE_WORDS self)
                   (user latest))).
  exists (Session2.round2 (Session2.score_double s)),
         (total_seconds / 60 / 60)%Z, ((total_seconds / 60) mod 60)%Z,
         (total_seconds mod 60)%Z.
  split; [|split; [|split; [|split]]].
  - unfold Session2._show_stats.
    assert (Hlen : Nat.eqb (length (history c)) 0 = false).
    { rewrite Hh, length_app. simpl. apply Nat.eqb_neq. lia. }
    rewrite Hlen, !length_map.
    assert (Hlast : fold_left
                      (fun _ exchange =>
                         Some (Sentiment.analyze (Demo2.POSITIVE_WORDS self)
                                 (Demo2.NEGATIVE_WORDS self) (user exchange)))
                      (history c) None
                    = Some (Sentiment.analyze (Demo2.POSITIVE_WORDS self)
                              (Demo2.NEGATIVE_WORDS self) (user latest))).
    { rewrite Hh.
      apply (last_binding
               (fun exchange =>
                  Sentiment.analyze (Demo2.POSITIVE_WORDS self) (Demo2.NEGATIVE_WORDS self)
                    (user exchange))). }
    rewrite Hlast. cbn [negb]. cbv zeta. fold s.
    rewrite (round2_comp
               (fold_right Qplus 0%Q (map Session2.score_double [s])
                / inject_Z (Z.of_nat (length [s])))%Q
               (Session2.score_double s)); [reflexivity|].
    cbn [map fold_right length]. change (inject_Z (Z.of_nat 1)) with 1%Q. field.
  - cbv zeta. split; [reflexivity|]. split.
    + eexists. reflexivity.
    + pose proof (round2_near (Session2.score_double s)) as H1.
      pose proof (score_double_near s) as H2.
      apply Qabs_Qle_condition in H1. apply Qabs_Qle_condition in H2.
      apply Qabs_Qle_condition.
      set (e := (1 / inject_Z (2 ^ 54))%Q) in *.
      split; lra.
  - pose proof (Z.div_mod total_seconds 60 ltac:(lia)).
    pose proof (Z.div_mod (total_seconds / 60) 60 ltac:(lia)). lia.
  - apply Z.mod_pos_bound. lia.
  - apply Z.mod_pos_bound. lia.
Qed.

(** X18, witness: one exchange recorded, whose line holds two positive words
    of the configuration: the score 2/3 is reported as 0.67. *)
Lemma stats_report_witness :
  history (add_exchange Ex.now "a good and great day" "Hello!" Ex.fresh)
  = [] ++ [{| timestamp := Ex.now; user := "a good and great day"; bot := "Hello!" |}]
  /\ exists report,
       Session2._show_stats PyRe.search Sample.words_bot 3725
         (add_exchange Ex.now "a good and great day" "Hello!" Ex.fresh) = (report, None)
       /\ AverageSentiment (67 # 100) ∈ report
       /\ Duration 1 2 5 ∈ report.
Proof.
  assert (H : history (add_exchange Ex.now "a good and great day" "Hello!" Ex.fresh)
              = [] ++ [{| timestamp := Ex.now; user := "a good and great day";
                          bot := "Hello!" |}])
    by reflexivity.
  split; [exact H|].
  destruct (stats_report PyRe.search Sample.words_bot 3725 _ _ _ H)
    as (avg & hours & minutes & secs & Hr & (Havg & _) & Ht & Hm & Hs).
  eexists. split; [exact Hr|].
  assert (secs = 5 /\ minutes = 2 /\ hours = 1)%Z as (-> & -> & ->) by lia.
  assert (Hv : avg = (67 # 100)%Q) by (rewrite Havg; vm_compute; reflexivity).
  rewrite Hv. split; apply elem_of_app; right; apply elem_of_app; right.
  - apply elem_of_cons. left. reflexivity.
  - apply elem_of_cons. right. apply elem_of_cons. right.
    apply elem_of_cons. left. reflexivity.
Defined.

(** ** Checking a configuration *)

Lemma contains_key (entries : list (string * ConfigLoader.json)) (x : string) :
  ConfigLoader.contains (ConfigLoader.JObj entries) x = Ret true <-> x ∈ keys entries.
Proof.
  unfold ConfigLoader.contains, keys. split.
  - intros [= H]. apply existsb_exists in H. destruct H as ([k v] & Hin & Hk).
    apply String.eqb_eq in Hk. simpl in Hk. subst k.
    apply list_elem_of_fmap. exists (x, v). split; [reflexivity|].
    apply list_elem_of_In. exact Hin.
  - intros H. apply list_elem_of_fmap in H. destruct H as ([k v] & -> & Hin).
    f_equal. apply existsb_exists. exists (k, v). split.
    + apply list_elem_of_In. exact Hin.
    + apply String.eqb_refl.
Qed.

Lemma getitem_found (container : ConfigLoader.json) (key : string) :
  ConfigLoader.contains container key = Ret true ->
  (exists entries, container = ConfigLoader.JObj entries)
  -> exists v, ConfigLoader.getitem container key = ConfigLoader.Ok v.
Proof.
  intros H [entries ->]. simpl in *. injection H as H.
  apply existsb_exists in H. destruct H as (kv & Hin & Hk).
  destruct (List.find _ entries) as [kv'|] eqn:E; [eauto|].
  exfalso. apply (List.find_none _ _ E) in Hin. congruence.
Qed.

Lemma check_fields_ok (i : nat) (fields : list string) (intent : ConfigLoader.json) :
  ConfigLoader.check_fields i fields intent = ConfigLoader.Ok tt
  <-> Forall (fun fld => ConfigLoader.contains intent fld = Ret true) fields.
Proof.
  induction fields as [|fld fields IH]; simpl.
  - split; [constructor|reflexivity].
  - destruct (ConfigLoader.contains intent fld) as [[|]|e] eqn:E.
    + rewrite IH. split; [intros H; constructor; [exact E|exact H]|].
      intros H. apply Forall_cons in H. tauto.
    + split; [discriminate|]. intros H. apply Forall_cons in H.
      destruct H as [H _]. congruence.
    + split; [discriminate|]. intros H. apply Forall_cons in H.
      destruct H as [H _]. congruence.
Qed.

Lemma check_fields_unit (i : nat) (fields : list string) (intent : ConfigLoader.json)
    (u : unit) :
  ConfigLoader.check_fields i fields intent = ConfigLoader.Ok u
  <-> ConfigLoader.check_fields i fields intent = ConfigLoader.Ok tt.
Proof. destruct u. reflexivity. Qed.

Lemma check_intents_ok (i : nat) (intents : list ConfigLoader.json) :
  ConfigLoader.check_intents i intents = ConfigLoader.Ok tt <-> Forall complete intents.
Proof.
  revert i. induction intents as [|intent intents IH]; intros i;
    cbn [ConfigLoader.check_intents].
  - split; [constructor|reflexivity].
  - destruct (ConfigLoader.check_fields i ConfigLoader.required_intent_fields intent)
      as [[]|e] eqn:E.
    + apply check_fields_ok in E. rewrite IH. split.
      * intros H. constructor; assumption.
      * intros H. apply Forall_cons in H. tauto.
    + split; [discriminate|]. intros H. apply Forall_cons in H. destruct H as [H _].
      apply (check_fields_ok i) in H. congruence.
Qed.

Lemma check_fields_first (i : nat) (before after : list string) (fld : string)
    (intent : ConfigLoader.json) :
  Forall (fun f => ConfigLoader.contains intent f = Ret true) before ->
  ConfigLoader.contains intent fld = Ret false ->
  ConfigLoader.check_fields i (before ++ fld :: after) intent
  = ConfigLoader.Failed (ConfigLoader.ValueError (missing_field i fld)).
Proof.
  induction 1 as [|f before Hf _ IH]; intros Hfld; simpl.
  - rewrite Hfld. reflexivity.
  - rewrite Hf. apply IH. exact Hfld.
Qed.

Lemma check_intents_first (i : nat) (before after : list ConfigLoader.json)
    (intent : ConfigLoader.json) (e : ConfigLoader.error) :
  Forall complete before ->
  ConfigLoader.check_fields (i + length before) ConfigLoader.required_intent_fields intent
  = ConfigLoader.Failed e ->
  ConfigLoader.check_intents i (before ++ intent :: after) = ConfigLoader.Failed e.
Proof.
  intros H. revert i. induction H as [|x before Hx _ IH]; intros i He;
    cbn [app ConfigLoader.check_intents].
  - rewrite Nat.add_0_r in He. rewrite He. reflexivity.
  - apply (check_fields_ok i) in Hx. rewrite Hx. apply IH.
    rewrite <- He. f_equal. simpl. lia.
Qed.

(** X19: [validate_config] never answers False: it returns True, for a
    configuration that holds "bot_settings" and "intents" and whose intents
    each hold "name", "patterns" and "responses", and raises for every
    other.  For a dictionary whose "intents" is a list of dictionaries,
    holding means having the key. *)
Theorem validate_config_accepts (config : ConfigLoader.json) :
  (forall b, ConfigLoader.validate_config config = ConfigLoader.Ok b -> b = true)
  /\ (ConfigLoader.validate_config config = ConfigLoader.Ok true
      <-> ConfigLoader.contains config "bot_settings" = Ret true
          /\ ConfigLoader.contains config "intents" = Ret true
          /\ exists v intents,
               ConfigLoader.getitem config "intents" = ConfigLoader.Ok v
               /\ ConfigLoader.iterate v = Ret intents
               /\ Forall complete intents)
  /\ (forall entries intents,
         config = ConfigLoader.JObj entries ->
         ConfigLoader.getitem config "intents"
         = ConfigLoader.Ok (ConfigLoader.JArr (map ConfigLoader.JObj intents)) ->
         (ConfigLoader.validate_config config = ConfigLoader.Ok true
          <-> "bot_settings" ∈ keys entries
              /\ Forall (fun intent =>
                           "name" ∈ keys intent /\ "patterns" ∈ keys intent
                           /\ "responses" ∈ keys intent) intents)).
Proof.
  assert (Hiff : ConfigLoader.validate_config config = ConfigLoader.Ok true
                 <-> ConfigLoader.contains config "bot_settings" = Ret true
                     /\ ConfigLoader.contains config "intents" = Ret true
                     /\ exists v intents,
                          ConfigLoader.getitem config "intents" = ConfigLoader.Ok v
                          /\ ConfigLoader.iterate v = Ret intents
                          /\ Forall complete intents).
  { unfold ConfigLoader.validate_config. simpl.
    destruct (ConfigLoader.contains config "bot_settings") as [[|]|e1];
      try (split; [discriminate|intros [H _]; discriminate]).
    destruct (ConfigLoader.contains config "intents") as [[|]|e2];
      try (split; [discriminate|intros (_ & H & _); discriminate]).
    destruct (ConfigLoader.getitem config "intents") as [v|e3];
      [|split; [discriminate|intros (_ & _ & v & l & H & _); discriminate]].
    destruct (ConfigLoader.iterate v) as [intents|e4] eqn:Ei;
      [|split; [discriminate|intros (_ & _ & v' & l & [= <-] & H & _); congruence]].
    destruct (ConfigLoader.check_intents 0 intents) as [[]|e5] eqn:E.
    - apply check_intents_ok in E. split; [|reflexivity]. intros _.
      split; [reflexivity|]. split; [reflexivity|]. exists v, intents. auto.
    - split; [discriminate|]. intros (_ & _ & v' & l & [= <-] & Hl & H).
      assert (l = intents) by congruence. subst l.
      apply (check_intents_ok 0) in H. congruence. }
  split; [|split; [exact Hiff|]].
  - intros b. unfold ConfigLoader.validate_config.
    destruct (ConfigLoader.check_sections _ config); [|discriminate].
    destruct (ConfigLoader.getitem config "intents") as [v|]; [|discriminate].
    destruct (ConfigLoader.iterate v) as [intents|]; [|discriminate].
    destruct (ConfigLoader.check_intents 0 intents); [|discriminate].
    intros [= <-]. reflexivity.
  - intros entries intents -> Hget. rewrite Hiff, contains_key. split.
    + intros (Hb & _ & v & l & Hv & Hl & Hall). split; [exact Hb|].
      rewrite Hget in Hv. injection Hv as <-. simpl in Hl. injection Hl as <-.
      rewrite List.Forall_map in Hall. eapply Forall_impl; [exact Hall|].
      intros intent Hc. simpl in Hc. unfold complete in Hc.
      unfold ConfigLoader.required_intent_fields in Hc.
      rewrite !Forall_cons, !contains_key in Hc. tauto.
    + intros (Hb & Hall). split; [exact Hb|]. split.
      * simpl in *. destruct (List.find _ entries) as [kv|] eqn:E; [|discriminate].
        f_equal. apply existsb_exists. exists kv.
        exact (List.find_some _ _ E).
      * exists (ConfigLoader.JArr (map ConfigLoader.JObj intents)),
               (map ConfigLoader.JObj intents).
        split; [exact Hget|]. split; [reflexivity|].
        rewrite List.Forall_map. eapply Forall_impl; [exact Hall|].
        intros intent (H1 & H2 & H3). simpl. unfold complete.
        unfold ConfigLoader.required_intent_fields.
        rewrite !Forall_cons, !contains_key. repeat split; try assumption. constructor.
Qed.

(** X19, witness: a configuration with one complete intent is accepted. *)
Lemma validate_config_accepts_witness :
  ConfigLoader.validate_config (ConfigLoader.JObj Sample.complete_entries)
  = ConfigLoader.Ok true.
Proof.
  apply (proj2 (proj2 (validate_config_accepts (ConfigLoader.JObj Sample.complete_entries)))
           Sample.complete_entries [Sample.greeting_entry] eq_refl eq_refl).
  split.
  - left.
  - constructor; [|constructor]. split; [left|]. split; [right; left|right; right; left].
Defined.

(** X20: The error [validate_config] raises is that of the first thing missing:
    the section "bot_settings", then the section "intents", then, for the
    first intent that lacks a field, the first field it lacks among "name",
    "patterns" and "responses"; the message names the section, or the
    number of the intent, counted from 0, and the field.  A configuration
    that is a number, a truth value or null gives a TypeError. *)
Theorem validate_config_first_error (config : ConfigLoader.json) :
  (ConfigLoader.contains config "bot_settings" = Ret false ->
   ConfigLoader.validate_config config
   = ConfigLoader.Failed (ConfigLoader.ValueError (missing_section "bot_settings")))
  /\ (ConfigLoader.contains config "bot_settings" = Ret true ->
      ConfigLoader.contains config "intents" = Ret false ->
      ConfigLoader.validate_config config
      = ConfigLoader.Failed (ConfigLoader.ValueError (missing_section "intents")))
  /\ (forall v before intent after fields_before fld fields_after,
         ConfigLoader.contains config "bot_settings" = Ret true ->
         ConfigLoader.contains config "intents" = Ret true ->
         ConfigLoader.getitem config "intents" = ConfigLoader.Ok v ->
         ConfigLoader.iterate v = Ret (before ++ intent :: after) ->
         Forall complete before ->
         ConfigLoader.required_intent_fields = fields_before ++ fld :: fields_after ->
         Forall (fun f => ConfigLoader.contains intent f = Ret true) fields_before ->
         ConfigLoader.contains intent fld = Ret false ->
         ConfigLoader.validate_config config
         = ConfigLoader.Failed
             (ConfigLoader.ValueError (missing_field (length before) fld)))
  /\ (forall e, ConfigLoader.contains config "bot_settings" = Raise e ->
        e = TypeError
        /\ ConfigLoader.validate_config config
           = ConfigLoader.Failed (ConfigLoader.Builtin TypeError)).
Proof.
  unfold ConfigLoader.validate_config.
  cbn [ConfigLoader.check_sections ConfigLoader.required_sections].
  split; [|split; [|split]].
  - intros ->. reflexivity.
  - intros -> ->. reflexivity.
  - intros v before intent after fb fld fa -> -> -> -> Hbefore Hfields Hfb Hfld.
    rewrite (check_intents_first 0 before after intent
               (ConfigLoader.ValueError (missing_field (length before) fld)) Hbefore);
      [reflexivity|].
    rewrite Hfields. apply check_fields_first; assumption.
  - intros e He. assert (e = TypeError) as ->.
    { destruct config; simpl in He; congruence. }
    rewrite He. split; reflexivity.
Qed.

(** X20, witness: the second intent of a configuration has no responses. *)
Lemma validate_config_first_error_witness :
  ConfigLoader.validate_config Sample.incomplete_config
  = ConfigLoader.Failed (ConfigLoader.ValueError "Intent #1 missing field 'responses'").
Proof.
  refine (proj1 (proj2 (proj2 (validate_config_first_error Sample.incomplete_config)))
            _ [_] _ [] ["name"; "patterns"] "responses" []
            eq_refl eq_refl eq_refl eq_refl _ eq_refl _ eq_refl).
  - constructor; [|constructor]. repeat constructor.
  - repeat constructor.
Defined.

(** ** A fact told and used in the same turn *)

Lemma fact_or_set (key default s : string) (c : ConversationContext) :
  fact_or key default (set_user_data key (VStr s) c) = s.
Proof. unfold fact_or, get_user_data. simpl. rewrite lookup_insert_eq. reflexivity. Qed.

Section FactTurn.

Variable re : Re.engine.
Variable pyval : Type.
Variable py_eval : string -> outcome pyval.
Variable py_str : pyval -> outcome string.

Lemma demo2_store_turn (self : Demo2.AdvancedChatbot) (rnd : nat)
    (now1 now2 : Clock.datetime) (u : string) (c c1 : ConversationContext)
    (i : Demo2.Intent) (m : option Re.match_obj) :
  facts_are_strings c1 -> Demo2.responses i <> [] ->
  Demo2.classify_intent re self c u = (Some i, m) ->
  action_step2 pyval py_eval py_str i m c = (Ret None, c1) ->
  exists t s, t ∈ Demo2.responses i
    /\ Demo2._fill_template self now1 now2 c1 t = Ret s
    /\ Demo2.get_response re pyval py_eval py_str self rnd now1 now2 u c
       = (Ret s, update_context (Demo2.context_set i) c1).
Proof.
  intros Hc Hr Hcl Ha. rewrite demo2_turn, Hcl. cbn [fst snd]. rewrite Ha. cbn [fst snd].
  destruct (random_choice_nonempty rnd _ Hr) as (t & Ht & Hin).
  destruct (fill2_returns self now1 now2 c1 t Hc) as [s Hs].
  exists t, s. cbn [nonempty]. rewrite Ht, Hs. repeat split; assumption.
Qed.

Lemma demo1_store_turn (self : Demo1.AdvancedChatbot) (rnd : nat)
    (now1 now2 : Clock.datetime) (u : string) (c c1 : ConversationContext)
    (i : Demo1.Intent) (m : option Re.match_obj) :
  facts_are_strings c1 -> Demo1.responses i <> [] ->
  Demo1.classify_intent re self c u = Ret (Some i, m) ->
  action_step1 pyval py_eval py_str i m c = (Ret None, c1) ->
  exists t s, t ∈ Demo1.responses i
    /\ Demo1._fill_template self now1 now2 c1 t = Ret s
    /\ Demo1.get_response re pyval py_eval py_str self rnd now1 now2 u c
       = (Ret s, update_context (Demo1.context_set i) c1).
Proof.
  intros Hc Hr Hcl Ha. rewrite demo1_turn, Hcl. cbn [fst snd]. rewrite Ha. cbn [fst snd].
  destruct (random_choice_nonempty rnd _ Hr) as (t & Ht & Hin).
  destruct (fill1_returns self now1 now2 c1 t Hc) as [s Hs].
  exists t, s. cbn [nonempty]. rewrite Ht, Hs. repeat split; assumption.
Qed.

End FactTurn.

(** X21: A name or a birthday told is used at once.  When the intent that wins
    has the name action and the match handed to it captured a name in its
    first group, the turn remembers the name in title case and then answers
    with one of the templates of the intent, filled in the state that
    already holds the new name; so "{user_name}" in the answer is the name
    just told.  This is for a capture whose title case stays within Latin-1
    (U+00DF at the start of a word becomes "Ss"; U+00B5 and U+00FF there
    would leave the range).  The same holds in Demo2 for the birthday
    action, which remembers the capture stripped of blanks.  The context
    tag is then set as the intent says. *)
Theorem fact_told_is_used_at_once (re : Re.engine) (pyval : Type)
    (py_eval : string -> outcome pyval) (py_str : pyval -> outcome string)
    (rnd : nat) (now1 now2 : Clock.datetime) (u g : string) (c : ConversationContext)
    (m : Re.match_obj) :
  facts_are_strings c -> captures m 1 g ->
  (forall (self : Demo1.AdvancedChatbot) (i : Demo1.Intent),
      Demo1.classify_intent re self c u = Ret (Some i, Some m) ->
      Demo1.action i = Some Demo1.user_name_action -> Demo1.responses i <> [] ->
      Str.title_in_range g = true ->
      let c1 := set_user_data "name" (VStr (Str.title g)) c in
      fact_or "name" "friend" c1 = Str.title g
      /\ exists t s, t ∈ Demo1.responses i
           /\ Demo1._fill_template self now1 now2 c1 t = Ret s
           /\ Demo1.get_response re pyval py_eval py_str self rnd now1 now2 u c
              = (Ret s, update_context (Demo1.context_set i) c1))
  /\ (forall (self : Demo2.AdvancedChatbot) (i : Demo2.Intent),
         Demo2.classify_intent re self c u = (Some i, Some m) ->
         Demo2.action i = Some Demo2.store_name_action -> Demo2.responses i <> [] ->
         closed_group m 1 -> Str.title_in_range g = true ->
         let c1 := set_user_data "name" (VStr (Str.title g)) c in
         fact_or "name" "friend" c1 = Str.title g
         /\ exists t s, t ∈ Demo2.responses i
              /\ Demo2._fill_template self now1 now2 c1 t = Ret s
              /\ Demo2.get_response re pyval py_eval py_str self rnd now1 now2 u c
                 = (Ret s, update_context (Demo2.context_set i) c1))
  /\ (forall (self : Demo2.AdvancedChatbot) (i : Demo2.Intent),
         Demo2.classify_intent re self c u = (Some i, Some m) ->
         Demo2.action i = Some Demo2.store_birthday_action -> Demo2.responses i <> [] ->
         closed_group m 1 ->
         let c1 := set_user_data "birthday" (VStr (Str.strip g)) c in
         fact_or "birthday" "unknown" c1 = Str.strip g
         /\ exists t s, t ∈ Demo2.responses i
              /\ Demo2._fill_template self now1 now2 c1 t = Ret s
              /\ Demo2.get_response re pyval py_eval py_str self rnd now1 now2 u c
                 = (Ret s, update_context (Demo2.context_set i) c1)).
Proof.
  intros Hc Hg. split; [|split].
  - intros self i Hcl Ha Hr _ c1. split; [apply fact_or_set|].
    apply (demo1_store_turn re pyval py_eval py_str self rnd now1 now2 u c c1 i (Some m));
      [apply facts_set_str; exact Hc|exact Hr|exact Hcl|].
    unfold action_step1. rewrite Ha. unfold Demo1.run_action, mbind', mlift, mmodify, mret.
    rewrite (group_str_captures m 1 g Hg). reflexivity.
  - intros self i Hcl Ha Hr (k & Hk & Hle) _ c1. split; [apply fact_or_set|].
    apply (demo2_store_turn re pyval py_eval py_str self rnd now1 now2 u c c1 i (Some m));
      [apply facts_set_str; exact Hc|exact Hr|exact Hcl|].
    unfold action_step2. rewrite Ha. unfold Demo2.run_action. rewrite Hk.
    destruct k as [|k]; [lia|].
    unfold mbind', mlift, mmodify, mret.
    rewrite (group_str_captures m 1 g Hg). reflexivity.
  - intros self i Hcl Ha Hr Hm c1. split; [apply fact_or_set|].
    apply (demo2_store_turn re pyval py_eval py_str self rnd now1 now2 u c c1 i (Some m));
      [apply facts_set_str; exact Hc|exact Hr|exact Hcl|].
    unfold action_step2. rewrite Ha. unfold Demo2.run_action, mbind', mlift, mmodify, mret.
    rewrite (lastindex_ge_closed m 1 Hm), (group_str_captures m 1 g Hg). reflexivity.
Qed.

(** X21, witness: "my name is alice" said to Demo1 in a new session. *)
Lemma fact_told_is_used_at_once_witness :
  facts_are_strings Ex.fresh /\ captures Sample.alice 1 "alice"
  /\ Str.title_in_range "alice" = true
  /\ exists s,
       Ex.turn1 Ex.bot1 "my name is alice" Ex.fresh
       = (Ret s, clear_context (set_user_data "name" (VStr "Alice") Ex.fresh)).
Proof.
  assert (H1 : facts_are_strings Ex.fresh) by apply facts_new_context.
  assert (H2 : captures Sample.alice 1 "alice") by reflexivity.
  split; [exact H1|]. split; [exact H2|]. split; [reflexivity|].
  destruct (proj1 (fact_told_is_used_at_once PyRe.search Z PyEval.eval PyEval.format
                     0 Ex.now Ex.now "my name is alice" "alice" Ex.fresh Sample.alice
                     H1 H2) Ex.bot1 (Ex.intent1 3))
    as (_ & t & s & _ & _ & Hs).
  - vm_compute. reflexivity.
  - reflexivity.
  - discriminate.
  - reflexivity.
  - exists s. exact Hs.
Defined.

(** ** The last exchange *)

Lemma last_of_new (old new : list exchange) (answers : list string) :
  map bot new = answers ->
  match last answers with
  | Some s => exists x, last (old ++ new) = Some x /\ bot x = s
  | None => last (old ++ new) = last old
  end.
Proof.
  intros <-. destruct new as [|x new] using rev_ind.
  - simpl. rewrite app_nil_r. reflexivity.
  - rewrite map_app. simpl. rewrite last_snoc, app_assoc, last_snoc.
    exists x. split; reflexivity.
Qed.

(** X22: After a chat [get_last_exchange] gives the exchange of the last answer
    printed, and what it gave before the chat (none in a new session) when
    the chat printed no answer. *)
Theorem last_exchange_is_last_answer (re : Re.engine) (pyval : Type)
    (py_eval : string -> outcome pyval) (py_str : pyval -> outcome string)
    (events : list event) (c : ConversationContext) :
  (forall self : Session2.Session,
      let '(out, st, c') := Session2.chat re pyval py_eval py_str self events c in
      match last (says out) with
      | Some s => exists x, get_last_exchange c' = Some x /\ bot x = s
      | None => get_last_exchange c' = get_last_exchange c
      end)
  /\ (forall self : Demo1.AdvancedChatbot,
         let '(out, st, c') := Session1.chat re pyval py_eval py_str self events c in
         match last (says out) with
         | Some s => exists x, get_last_exchange c' = Some x /\ bot x = s
         | None => get_last_exchange c' = get_last_exchange c
         end)
  /\ (forall now, get_last_exchange (new_context now) = None).
Proof.
  split; [|split].
  - intros self. unfold Session2.chat.
    pose proof (chat_loop2_records re pyval py_eval py_str self events c) as H.
    destruct (Session2.chat_loop re pyval py_eval py_str self events c) as [[out st] c'].
    destruct H as (new & Hh & Hb & _).
    change (says (Banner :: out)) with (says out).
    unfold get_last_exchange. rewrite Hh. apply last_of_new. exact Hb.
  - intros self. unfold Session1.chat.
    pose proof (chat_loop1_records re pyval py_eval py_str self events c) as H.
    destruct (Session1.chat_loop re pyval py_eval py_str self events c) as [[out st] c'].
    destruct H as (new & Hh & Hb & _).
    change (says (Banner :: out)) with (says out).
    unfold get_last_exchange. rewrite Hh. apply last_of_new. exact Hb.
  - reflexivity.
Qed.

(** ** What it takes to pass the threshold *)

Lemma above_half (m k : nat) :
  (1 # 2 < 2 * Qnat m + (1 # 2) * Qnat k)%Q <-> (1 <= m \/ 2 <= k)%nat.
Proof.
  unfold Qnat, Qlt, Qplus, Qmult, inject_Z. simpl. split; intros H; lia.
Qed.

Lemma context_rule_none (required current : option string) (s : Q) :
  nonempty required = false -> context_rule required current s = s.
Proof. intros H. unfold context_rule. rewrite H. reflexivity. Qed.

(** X23: For an intent that requires no context, one keyword is not enough: its
    score is above 1/2 exactly when one of its patterns matches or two of
    its keywords are among the words of the utterance (in Demo2, two
    entries of its keyword list, in lower case). *)
Theorem threshold_needs_pattern_or_two_keywords (re : Re.engine) (c : ConversationContext)
    (u : string) :
  (forall i : Demo2.Intent,
      nonempty (Demo2.context_required i) = false ->
      ((1 # 2 < Demo2._score_intent re c i u)%Q
       <-> (1 <= matching_patterns re (Demo2.patterns i) (Str.lower u)
            \/ 2 <= keyword_entries_present (Demo2.keywords i) u)%nat))
  /\ (forall (i : Demo1.Intent) (q : Q),
         nonempty (Demo1.context_required i) = false ->
         Demo1._score_intent re c i u = Ret q ->
         ((1 # 2 < q)%Q
          <-> (1 <= matching_patterns re (Demo1.patterns i) (Str.lower u)
               \/ 2 <= distinct_keywords_present (Demo1.keywords i) u)%nat)).
Proof.
  split.
  - intros i Hn. rewrite demo2_score, (context_rule_none _ _ _ Hn). apply above_half.
  - intros i q Hn Hq.
    destruct (demo1_score re c i u (demo1_score_ret_compiles re c i u q Hq))
      as (q' & Hq' & Heq).
    assert (q' = q) by congruence. subst q'.
    unfold claimed_score in Heq. rewrite (context_rule_none _ _ _ Hn) in Heq.
    rewrite Heq. apply above_half.
Qed.

(** X23, witness: one keyword of the third intent of Demo1 and none of its
    patterns. *)
Lemma threshold_needs_pattern_or_two_keywords_witness :
  Demo1._score_intent PyRe.search Ex.fresh (Ex.intent1 2) "who knows" = Ret (1 # 2)%Q
  /\ ~ (1 # 2 < 1 # 2)%Q
  /\ ~ (1 <= matching_patterns PyRe.search (Demo1.patterns (Ex.intent1 2))
               (Str.lower "who knows")
        \/ 2 <= distinct_keywords_present (Demo1.keywords (Ex.intent1 2)) "who knows")%nat.
Proof.
  assert (H : Demo1._score_intent PyRe.search Ex.fresh (Ex.intent1 2) "who knows"
              = Ret (1 # 2)%Q) by (vm_compute; reflexivity).
  assert (Hq : ~ (1 # 2 < 1 # 2)%Q) by apply Qlt_irrefl.
  split; [exact H|]. split; [exact Hq|].
  intros Hk. apply Hq.
  apply (proj2 (threshold_needs_pattern_or_two_keywords PyRe.search Ex.fresh "who knows")
           (Ex.intent1 2) (1 # 2)%Q eq_refl H).
  exact Hk.
Defined.

(** ** An intent whose context is current *)

Lemma context_rule_current (required : option string) (s : Q) :
  nonempty required = true -> context_rule required required s = (s + 1)%Q.
Proof.
  intros H. unfold context_rule. rewrite H.
  destruct (decide (required = required)); [reflexivity|congruence].
Qed.

(** X24: While the context an intent requires is the current one, some intent
    always wins: the required context alone is worth 1, which is above the
    threshold, so no utterance gets the answer kept for unknown requests.
    In Demo1 this is so whenever the tag is "asked_user_feeling", that is
    after the chatbot asked how the user is. *)
Theorem context_alone_wins (re : Re.engine) (c : ConversationContext) (u : string) :
  (forall (self : Demo2.AdvancedChatbot) (i : Demo2.Intent),
      i ∈ Demo2.intents self -> nonempty (Demo2.context_required i) = true ->
      current_context c = Demo2.context_required i ->
      exists j m, Demo2.classify_intent re self c u = (Some j, m))
  /\ (forall (self : Demo1.AdvancedChatbot) (i : Demo1.Intent),
         catalog_compiles re (Demo1.intents self) u ->
         i ∈ Demo1.intents self -> nonempty (Demo1.context_required i) = true ->
         current_context c = Demo1.context_required i ->
         exists j m, Demo1.classify_intent re self c u = Ret (Some j, m))
  /\ (forall name : string,
         catalog_compiles re Demo1._setup_intents u ->
         current_context c = Some "asked_user_feeling" ->
         exists j m, Demo1.classify_intent re (Demo1.new_chatbot name) c u
                     = Ret (Some j, m)).
Proof.
  assert (H1 : forall (self : Demo1.AdvancedChatbot) (i : Demo1.Intent),
             catalog_compiles re (Demo1.intents self) u ->
             i ∈ Demo1.intents self -> nonempty (Demo1.context_required i) = true ->
             current_context c = Demo1.context_required i ->
             exists j m, Demo1.classify_intent re self c u = Ret (Some j, m)).
  { intros self i Hcat Hi Hn Hcur.
    destruct (demo1_classify_cases re c u self Hcat)
      as [[Hlow _]|(pre & j & post & m & Hcl & _)]; [|eauto].
    exfalso. rewrite Forall_forall in Hlow. specialize (Hlow i Hi). simpl in Hlow.
    assert (Hc : all_compile re (Demo1.patterns i) (Str.lower u)).
    { unfold catalog_compiles in Hcat. rewrite Forall_forall in Hcat. exact (Hcat i Hi). }
    destruct (demo1_score re c i u Hc) as (q & Hq & Heq).
    unfold score1 in Hlow. rewrite Hq in Hlow. rewrite Heq in Hlow.
    unfold claimed_score in Hlow. rewrite Hcur, (context_rule_current _ _ Hn) in Hlow.
    pose proof (Qnat_nonneg (matching_patterns re (Demo1.patterns i) (Str.lower u))).
    pose proof (Qnat_nonneg (distinct_keywords_present (Demo1.keywords i) u)).
    lra. }
  split; [|split; [exact H1|]].
  - intros self i Hi Hn Hcur.
    destruct (demo2_classify_cases re c u self)
      as [[Hlow _]|(pre & j & post & m & Hcl & _)]; [|eauto].
    exfalso. rewrite Forall_forall in Hlow. specialize (Hlow i Hi). simpl in Hlow.
    unfold score2 in Hlow. rewrite demo2_score in Hlow.
    rewrite Hcur, (context_rule_current _ _ Hn) in Hlow.
    pose proof (Qnat_nonneg (matching_patterns re (Demo2.patterns i) (Str.lower u))).
    pose proof (Qnat_nonneg (keyword_entries_present (Demo2.keywords i) u)).
    lra.
  - intros name Hcat Hcur.
    apply (H1 (Demo1.new_chatbot name) (Ex.intent1 5) Hcat).
    + unfold Demo1.new_chatbot, Demo1._setup_intents. simpl.
      do 5 right. left.
    + reflexivity.
    + exact Hcur.
Qed.

(** X24, witness: "xyzzy" after Demo1 asked how the user is. *)
Lemma context_alone_wins_witness :
  catalog_compiles PyRe.search Demo1._setup_intents "xyzzy"
  /\ current_context (set_context "asked_user_feeling" Ex.fresh)
     = Some "asked_user_feeling"
  /\ exists j m,
       Demo1.classify_intent PyRe.search Ex.bot1
         (set_context "asked_user_feeling" Ex.fresh) "xyzzy" = Ret (Some j, m).
Proof.
  assert (H1 : catalog_compiles PyRe.search Demo1._setup_intents "xyzzy")
    by apply (builtin_catalog_compiles "BERGEN TECH AI").
  split; [exact H1|]. split; [reflexivity|].
  exact (proj2 (proj2 (context_alone_wins PyRe.search
                         (set_context "asked_user_feeling" Ex.fresh) "xyzzy"))
           "BERGEN TECH AI" H1 eq_refl).
Defined.

(** ** The two classifiers on the same catalog *)

Lemma remove_dups_NoDup (l : list string) : NoDup l -> remove_dups l = l.
Proof.
  induction 1 as [|x l Hx _ IH]; simpl; [reflexivity|].
  destruct (decide_rel elem_of x l); [contradiction|]. rewrite IH. reflexivity.
Qed.

Lemma plain_keywords_present (i : Demo1.Intent) (u : string) :
  plain_keywords i ->
  distinct_keywords_present (Demo1.keywords i) u
  = keyword_entries_present (Demo1.keywords i) u.
Proof.
  intros [Hnd Hlow]. unfold distinct_keywords_present, keyword_entries_present.
  rewrite (remove_dups_NoDup _ Hnd).
  assert (E : List.filter (fun k => bool_decide (k ∈ tokens u)) (Demo1.keywords i)
              = List.filter (fun k => bool_decide (Str.lower k ∈ tokens u))
                  (Demo1.keywords i)).
  { induction Hlow as [|k kws Hk _ IH]; simpl; [reflexivity|].
    apply NoDup_cons in Hnd. destruct Hnd as [_ Hnd].
    rewrite Hk, (IH Hnd). reflexivity. }
  rewrite E. reflexivity.
Qed.

Lemma Qgt_bool_proper (a a' b b' : Q) :
  (a == a')%Q -> (b == b')%Q -> Qgt_bool a b = Qgt_bool a' b'.
Proof.
  intros Ha Hb. destruct (Qgt_bool a' b') eqn:E.
  - apply Qgt_bool_true. apply Qgt_bool_true in E. rewrite Ha, Hb. exact E.
  - apply Qgt_bool_false. apply Qgt_bool_false in E. rewrite Ha, Hb. exact E.
Qed.

Section Agree.

Variable re : Re.engine.
Variable c : ConversationContext.
Variable u : string.

Lemma scores_agree (i : Demo1.Intent) (q : Q) :
  plain_keywords i ->
  Demo1._score_intent re c i u = Ret q ->
  (q == Demo2._score_intent re c (as_demo2 i) u)%Q.
Proof.
  intros Hk Hq.
  destruct (demo1_score re c i u (demo1_score_ret_compiles re c i u q Hq))
    as (q' & Hq' & Heq).
  assert (q' = q) by congruence. subst q'.
  rewrite Heq, demo2_score. unfold claimed_score.
  rewrite (plain_keywords_present i u Hk). reflexivity.
Qed.

Lemma loops_agree (l : list Demo1.Intent) (b1 b1' : Demo1.best) (b2 : Demo2.best) :
  Forall plain_keywords l ->
  Demo2.best_intent b2 = option_map as_demo2 (Demo1.best_intent b1) ->
  (Demo1.best_score b1 == Demo2.best_score b2)%Q ->
  Demo2.best_match b2 = Demo1.best_match b1 ->
  Demo1.classify_loop re c u l b1 = Ret b1' ->
  let b2' := fold_left (Demo2.classify_step re c u) (map as_demo2 l) b2 in
  Demo2.best_intent b2' = option_map as_demo2 (Demo1.best_intent b1')
  /\ (Demo1.best_score b1' == Demo2.best_score b2')%Q
  /\ Demo2.best_match b2' = Demo1.best_match b1'.
Proof.
  intros Hl. revert b1 b2.
  induction Hl as [|i l Hi _ IH]; intros b1 b2 Hint Hsc Hm Hloop;
    cbn [map fold_left Demo1.classify_loop] in *.
  - injection Hloop as <-. auto.
  - unfold Demo1.classify_step in Hloop.
    destruct (Demo1._score_intent re c i u) as [q|e] eqn:Hq; [|discriminate].
    cbn [obind] in Hloop.
    pose proof (scores_agree i q Hi Hq) as Hs.
    pose proof (demo1_first_match re _ _
                  (demo1_score_ret_compiles re c i u q Hq)) as Hfm.
    assert (Hstep : Demo2.classify_step re c u b2 (as_demo2 i)
                    = if Qgt_bool q (Demo1.best_score b1)
                      then {| Demo2.best_intent := Some (as_demo2 i);
                              Demo2.best_score := Demo2._score_intent re c (as_demo2 i) u;
                              Demo2.best_match :=
                                match Demo2.first_match re (Demo1.patterns i)
                                        (Str.lower u) with
                                | Some m => Some m
                                | None => Demo2.best_match b2
                                end |}
                      else b2).
    { unfold Demo2.classify_step.
      rewrite <- (Qgt_bool_proper _ _ _ _ Hs Hsc). reflexivity. }
    rewrite Hstep.
    destruct (Qgt_bool q (Demo1.best_score b1)).
    + rewrite Hfm in Hloop. cbn [obind] in Hloop.
      refine (IH _ _ _ _ _ Hloop); [reflexivity|exact Hs|].
      cbn [Demo2.best_match Demo1.best_match]. rewrite Hm. reflexivity.
    + cbn [obind] in Hloop. refine (IH _ _ _ _ _ Hloop); assumption.
Qed.

End Agree.

Lemma demo1_keywords_checked :
  List.forallb
    (fun i => bool_decide (NoDup (Demo1.keywords i))
              && List.forallb (fun k => String.eqb (Str.lower k) k) (Demo1.keywords i))
    Demo1._setup_intents = true.
Proof. vm_compute. reflexivity. Qed.

Lemma demo1_keywords_plain : Forall plain_keywords Demo1._setup_intents.
Proof.
  apply Forall_forall. intros i Hi. pose proof demo1_keywords_checked as H.
  rewrite List.forallb_forall in H. apply list_elem_of_In in Hi. specialize (H i Hi).
  apply andb_true_iff in H. destruct H as [H1 H2]. split.
  - apply bool_decide_eq_true in H1. exact H1.
  - apply Forall_forall. intros k Hk. rewrite List.forallb_forall in H2.
    apply String.eqb_eq, H2, list_elem_of_In, Hk.
Qed.

(** X25: The classifier of Demo2 is that of Demo1 on catalogs whose keywords are
    in lower case and listed once: an intent and its Demo2 form get the
    same score, and whenever the classifier of Demo1 returns, the one of
    Demo2, run on the Demo2 forms of the same intents, returns the same
    intent with the same match.  The built-in catalog of Demo1 is such a
    catalog. *)
Theorem classifiers_agree (re : Re.engine) (c : ConversationContext) (u : string) :
  (forall (i : Demo1.Intent) (q : Q),
      plain_keywords i ->
      Demo1._score_intent re c i u = Ret q ->
      (q == Demo2._score_intent re c (as_demo2 i) u)%Q)
  /\ (forall (self1 : Demo1.AdvancedChatbot) (self2 : Demo2.AdvancedChatbot)
        (r : option Demo1.Intent * option Re.match_obj),
         Forall plain_keywords (Demo1.intents self1) ->
         Demo2.intents self2 = map as_demo2 (Demo1.intents self1) ->
         Demo1.classify_intent re self1 c u = Ret r ->
         Demo2.classify_intent re self2 c u = (option_map as_demo2 (fst r), snd r))
  /\ Forall plain_keywords Demo1._setup_intents.
Proof.
  split; [|split; [|exact demo1_keywords_plain]].
  - intros i q. apply scores_agree.
  - intros self1 self2 r Hk H2 Hcl.
    unfold Demo1.classify_intent in Hcl.
    destruct (Demo1.classify_loop re c u (Demo1.intents self1) _) as [b1|e] eqn:Hloop;
      [|discriminate].
    simpl in Hcl.
    pose proof (loops_agree re c u (Demo1.intents self1)
                  {| Demo1.best_intent := None; Demo1.best_score := 0;
                     Demo1.best_match := None |} b1
                  {| Demo2.best_intent := None; Demo2.best_score := 0;
                     Demo2.best_match := None |}
                  Hk eq_refl (Qeq_refl 0) eq_refl Hloop) as (Hi & Hs & Hm).
    unfold Demo2.classify_intent, Demo2.classify_loop. rewrite H2.
    rewrite <- (Qgt_bool_proper _ _ _ _ Hs (Qeq_refl (1 # 2))).
    destruct (Qgt_bool (Demo1.best_score b1) (1 # 2)); injection Hcl as <-; simpl.
    + rewrite Hi, Hm. reflexivity.
    + reflexivity.
Qed.

(** X25, witness: "hello" classified by Demo1 and by Demo2 on the catalog of
    Demo1. *)
Lemma classifiers_agree_witness :
  Demo1.classify_intent PyRe.search Ex.bot1 Ex.fresh "hello"
  = Ret (Some (Ex.intent1 0), Some Sample.hello)
  /\ Demo2.classify_intent PyRe.search Sample.bot1_as_demo2 Ex.fresh "hello"
     = (Some (as_demo2 (Ex.intent1 0)), Some Sample.hello).
Proof.
  assert (H : Demo1.classify_intent PyRe.search Ex.bot1 Ex.fresh "hello"
              = Ret (Some (Ex.intent1 0), Some Sample.hello))
    by (vm_compute; reflexivity).
  split; [exact H|].
  exact (proj1 (proj2 (classifiers_agree PyRe.search Ex.fresh "hello"))
           Ex.bot1 Sample.bot1_as_demo2 _ demo1_keywords_plain eq_refl H).
Defined.
